(** * UCXX endpoints and stream/tag transfers: a shallow embedding

    The development follows three headers of the repository:
    - [endpoint.h]        ([UCXXEndpoint], [_err_cb], the endpoint factories),
    - [transfer_stream.h] ([stream_request], [stream_msg],
                           [populate_delayed_notification_stream_request]),
    - [request_tag.h]     ([UCXXRequestTag::request],
                           [UCXXRequestTag::populateNotificationRequest]).

    C++ objects live in typed stores indexed by their address; every
    function is a computation in a state-and-exception monad over the
    [World] record.  Calls that leave the repository (UCP entry points,
    the logger, user callbacks) are appended to a trace, and what the
    transport answers is read from an environment carried by the world. *)

From stdpp Require Import gmap strings list fin_maps.

Local Open Scope Z_scope.

(** ** Pointers *)

Abbreviation ptr := Z (only parsing).
Definition NULL : ptr := 0.

(** ** Constants of the UCX headers ([ucs/type/status.h], [ucp/api/ucp.h]) *)

Module UCS.
Definition OK : Z := 0.
Definition INPROGRESS : Z := 1.
Definition ERR_CANCELED : Z := -16.
Definition ERR_CONNECTION_RESET : Z := -25.
Definition ERR_ENDPOINT_TIMEOUT : Z := -80.
Definition ERR_LAST : Z := -100.

(** [UCS_BIT(i)] *)
Definition BIT (i : Z) : Z := Z.shiftl 1 i.

(** A [ucs_status_ptr_t] is a pointer-sized word; the macros compare it
    as [uintptr_t]. *)
Definition uintptr (p : Z) : Z := p mod 2 ^ 64.

(** [UCS_PTR_IS_PTR(p)]: [((uintptr_t)p - 1) < ((uintptr_t)UCS_ERR_LAST - 1)] *)
Definition PTR_IS_PTR (p : Z) : bool :=
  uintptr (uintptr p - 1) <? uintptr (uintptr ERR_LAST - 1).

(** [UCS_PTR_RAW_STATUS(p)]: [(ucs_status_t)(intptr_t)p] *)
Definition PTR_RAW_STATUS (p : Z) : Z :=
  let u := uintptr p in if u <? 2 ^ 63 then u else u - 2 ^ 64.

(** [UCS_PTR_STATUS(p)]:
    [UCS_PTR_IS_PTR(p) ? UCS_INPROGRESS : UCS_PTR_RAW_STATUS(p)] *)
Definition PTR_STATUS (p : Z) : Z :=
  if PTR_IS_PTR p then INPROGRESS else PTR_RAW_STATUS p.
End UCS.

Module UCP.
Definition OP_ATTR_FIELD_CALLBACK : Z := UCS.BIT 1.
Definition OP_ATTR_FIELD_USER_DATA : Z := UCS.BIT 2.
Definition OP_ATTR_FIELD_DATATYPE : Z := UCS.BIT 3.
Definition OP_ATTR_FIELD_FLAGS : Z := UCS.BIT 4.

Definition STREAM_RECV_FLAG_WAITALL : Z := UCS.BIT 0.

Definition DATATYPE_CONTIG : Z := 0.
Definition DATATYPE_SHIFT : Z := 3.
(** [ucp_dt_make_contig(elem_size)] *)
Definition dt_make_contig (elem_size : Z) : Z :=
  Z.lor (Z.shiftl elem_size DATATYPE_SHIFT) DATATYPE_CONTIG.

Definition EP_PARAM_FIELD_REMOTE_ADDRESS : Z := UCS.BIT 0.
Definition EP_PARAM_FIELD_ERR_HANDLING_MODE : Z := UCS.BIT 1.
Definition EP_PARAM_FIELD_ERR_HANDLER : Z := UCS.BIT 2.
Definition EP_PARAM_FIELD_SOCK_ADDR : Z := UCS.BIT 4.
Definition EP_PARAM_FIELD_FLAGS : Z := UCS.BIT 5.
Definition EP_PARAM_FIELD_CONN_REQUEST : Z := UCS.BIT 6.

Definition EP_PARAMS_FLAGS_CLIENT_SERVER : Z := UCS.BIT 0.
Definition EP_PARAMS_FLAGS_NO_LOOPBACK : Z := UCS.BIT 1.

Definition ERR_HANDLING_MODE_NONE : Z := 0.
Definition ERR_HANDLING_MODE_PEER : Z := 1.

Definition EP_CLOSE_MODE_FORCE : Z := 0.
Definition EP_CLOSE_MODE_FLUSH : Z := 1.
End UCP.

(** ** Data passed to the transport *)

(** The four completion callbacks the repository hands to UCP. *)
Inductive ucp_callback :=
| stream_send_callback
| stream_recv_callback
| tag_send_callback
| tag_recv_callback.

(** The [cb] union of [ucp_request_param_t]. *)
Inductive ucp_cb :=
| cb_unset
| cb_send (f : ucp_callback)
| cb_recv (f : ucp_callback)
| cb_recv_stream (f : ucp_callback).

Record ucp_request_param_t := {
  op_attr_mask : Z;
  flags : Z;
  cb : ucp_cb;
  datatype : Z;
  user_data : ptr
}.

(** The error handler registered with an endpoint; [_err_cb] is the only
    one the repository installs. *)
Inductive ucp_err_handler_cb := err_cb_unset | err_cb__err_cb.

Record ucp_ep_params_t := {
  field_mask : Z;
  ep_flags : Z;
  sockaddr : option (string * Z);
  conn_request : ptr;
  address : ptr;
  err_mode : Z;
  err_handler_cb : ucp_err_handler_cb;
  err_handler_arg : ptr
}.

(** [new ucp_ep_params_t], the block a factory starts from.  C++ leaves
    its members indeterminate; the record shows a member that has not been
    written yet as zero, unset or absent.  What is said of parameters
    concerns the members a factory or the constructor has written, and
    those whose bit in [field_mask] is clear, which UCP does not read. *)
Definition new_ucp_ep_params_t : ucp_ep_params_t :=
  {| field_mask := 0; ep_flags := 0; sockaddr := None; conn_request := NULL;
     address := NULL; err_mode := 0; err_handler_cb := err_cb_unset;
     err_handler_arg := NULL |}.

(** ** The trace of calls that leave the repository *)

Inductive log_level := LOG_ERROR | LOG_DEBUG | LOG_TRACE_REQ.

(** An argument of a log line: a pointer, a number, a string, the text
    [ucs_status_string] gives for a status, or what [getHandle] gives for a
    future. *)
Inductive log_arg :=
| arg_ptr (p : Z)
| arg_int (n : Z)
| arg_str (s : string)
| arg_status_string (status : Z)
| arg_future_handle (future : Z).

Inductive event :=
| ev_ucp_ep_create (worker : ptr) (params : ucp_ep_params_t)
| ev_ucp_ep_close_nb (ep : ptr) (mode : Z)
| ev_ucp_request_check_status (req : Z)
| ev_ucp_request_free (req : Z)
| ev_ucp_worker_progress (worker : ptr)
| ev_ucp_stream_send_nbx (ep buffer : ptr) (length : Z) (param : ucp_request_param_t)
| ev_ucp_stream_recv_nbx (ep buffer : ptr) (length : Z) (param : ucp_request_param_t)
| ev_ucp_tag_send_nbx (ep buffer : ptr) (length tag : Z) (param : ucp_request_param_t)
| ev_ucp_tag_recv_nbx (worker buffer : ptr) (length tag tag_mask : Z)
                      (param : ucp_request_param_t)
| ev_gethostbyname (name : string)
| ev_cancel_all (worker inflight : ptr)
| ev_close_callback (f : Z) (arg : ptr)
| ev_user_callback (f : Z) (arg : ptr)
| ev_future_notify (future : ptr) (status : Z)
| ev_log (lvl : log_level) (fmt : string) (args : list log_arg).

(** What the world outside the repository answers.  Every answer is a
    function of the trace up to and including the call that asks. *)
Record environment := {
  env_ep_create : list event → Z * ptr;
  env_status_ptr : list event → Z;
  env_check_status : list event → Z;
  env_completions : list event → list (ucp_callback * Z * Z * ptr);
  env_gethostbyname : string → option string;
  env_sockaddr_utils_set : string → Z → Z;
  env_status_string : Z → string;
  env_show_ptr : ptr → string
}.

(** ** Objects of the repository *)

(** Modelled from the spec: the declaration of [ucxx_request_t]
    ([typedefs.h]) is not among the sources.  [stream_msg] writes
    [py_future], [callback] and [callback_data]; [rq_status] is the
    request's "current state / final outcome", [UCS_INPROGRESS] from
    allocation until its one terminal transition. *)
Record ucxx_request_t := {
  rq_status : Z;
  rq_py_future : ptr;
  rq_callback : option Z;
  rq_callback_data : ptr
}.

(** Modelled from the spec: [delayed_notification_request_t]
    ([typedefs.h]) is not among the sources; the "deferred submission
    descriptor: direction, buffer, length, target connection, and the
    Request to populate", with the fields [stream_msg] fills. *)
Record delayed_notification_request_t := {
  dn_worker : ptr;
  dn_ep : ptr;
  dn_send : bool;
  dn_buffer : ptr;
  dn_length : Z;
  dn_request : ptr
}.

(** Modelled from the spec: [NotificationRequest]
    ([notification_request.h]) is not among the sources; the same
    descriptor with a tag, with the fields
    [UCXXRequestTag::populateNotificationRequest] reads. *)
Record NotificationRequest := {
  nr_worker : ptr;
  nr_ep : ptr;
  nr_send : bool;
  nr_buffer : ptr;
  nr_length : Z;
  nr_tag : Z;
  nr_request : ptr
}.

(** An entry of a worker's delayed-notification queue: the registered
    populate function together with its data. *)
Inductive delayed_entry :=
| populate_stream (data : delayed_notification_request_t)
| populate_tag (data : NotificationRequest).

(** Modelled from the spec: [UCXXWorker] ([worker.h]) is not among the
    sources.  It "owns the transport context" ([wk_handle]), is driven by
    exactly one progress-owning thread ([wk_progress_thread]) and holds the
    DelayedNotificationQueue ([wk_delayed], oldest entry first). *)
Record UCXXWorker := {
  wk_handle : ptr;
  wk_progress_thread : Z;
  wk_delayed : list delayed_entry
}.

(** Modelled from the spec: [UCXXListener] ([listener.h]) is not among
    the sources; [getWorker] and [createEndpointFromConnRequest] read its
    handle and its parent. *)
Record UCXXListener := {
  ls_handle : ptr;
  ls_parent : ptr
}.

(** What a [std::shared_ptr<UCXXComponent>] may point to. *)
Inductive UCXXComponent :=
| CWorker (w : UCXXWorker)
| CListener (l : UCXXListener).

Record error_callback_data_t := {
  ecd_status : Z;
  ecd_inflightRequests : ptr;
  ecd_closeCallback : option Z;
  ecd_closeCallbackArg : ptr;
  ecd_worker : ptr
}.

Record UCXXEndpoint := {
  _handle : ptr;
  _endpoint_error_handling : bool;
  _callbackData : ptr;
  _inflightRequests : ptr;
  _parent : ptr
}.

(** Modelled from the spec: [UCXXRequest] ([request.h]) is not among the
    sources.  It keeps the three constructor arguments that
    [UCXXRequestTag]'s constructor forwards to it; [req_use_count] is the
    number of [std::shared_ptr]s that own the object ("destroyed when the
    last holder releases it"). *)
Record UCXXRequest := {
  req_endpoint : ptr;
  req_inflight : ptr;
  req_request : ptr;
  req_use_count : nat
}.

(** A [std::weak_ptr<UCXXRequest>]: the address of the object it observes.
    It owns nothing. *)
Inductive weak_ptr := Weak (p : ptr).

#[global] Instance weak_ptr_eq_dec : EqDecision weak_ptr.
Proof. solve_decision. Defined.

(** ** The world *)

(** The stores of the objects, the trace, the environment, the next free
    address and the thread that is running.  [w_callers] are the workers
    and listeners that code outside the endpoint holds a [std::shared_ptr]
    to: the callers of the factories, who pass one in, keep theirs. *)
Record World := {
  w_env : environment;
  w_thread : Z;
  w_trace : list event;
  w_next : ptr;
  w_components : gmap Z UCXXComponent;
  w_endpoints : gmap Z UCXXEndpoint;
  w_callback_data : gmap Z error_callback_data_t;
  w_inflight : gmap Z (gmap Z weak_ptr);
  w_requests : gmap Z ucxx_request_t;
  w_handles : gmap Z UCXXRequest;
  w_callers : gset Z
}.

Definition set_trace (f : list event → list event) (w : World) : World :=
  {| w_env := w_env w; w_thread := w_thread w; w_trace := f (w_trace w);
     w_next := w_next w; w_components := w_components w;
     w_endpoints := w_endpoints w; w_callback_data := w_callback_data w;
     w_inflight := w_inflight w; w_requests := w_requests w;
     w_handles := w_handles w; w_callers := w_callers w |}.

Definition set_next (f : ptr → ptr) (w : World) : World :=
  {| w_env := w_env w; w_thread := w_thread w; w_trace := w_trace w;
     w_next := f (w_next w); w_components := w_components w;
     w_endpoints := w_endpoints w; w_callback_data := w_callback_data w;
     w_inflight := w_inflight w; w_requests := w_requests w;
     w_handles := w_handles w; w_callers := w_callers w |}.

Definition set_components (f : gmap Z UCXXComponent → gmap Z UCXXComponent)
    (w : World) : World :=
  {| w_env := w_env w; w_thread := w_thread w; w_trace := w_trace w;
     w_next := w_next w; w_components := f (w_components w);
     w_endpoints := w_endpoints w; w_callback_data := w_callback_data w;
     w_inflight := w_inflight w; w_requests := w_requests w;
     w_handles := w_handles w; w_callers := w_callers w |}.

Definition set_endpoints (f : gmap Z UCXXEndpoint → gmap Z UCXXEndpoint)
    (w : World) : World :=
  {| w_env := w_env w; w_thread := w_thread w; w_trace := w_trace w;
     w_next := w_next w; w_components := w_components w;
     w_endpoints := f (w_endpoints w); w_callback_data := w_callback_data w;
     w_inflight := w_inflight w; w_requests := w_requests w;
     w_handles := w_handles w; w_callers := w_callers w |}.

Definition set_callback_data
    (f : gmap Z error_callback_data_t → gmap Z error_callback_data_t)
    (w : World) : World :=
  {| w_env := w_env w; w_thread := w_thread w; w_trace := w_trace w;
     w_next := w_next w; w_components := w_components w;
     w_endpoints := w_endpoints w; w_callback_data := f (w_callback_data w);
     w_inflight := w_inflight w; w_requests := w_requests w;
     w_handles := w_handles w; w_callers := w_callers w |}.

Definition set_inflight
    (f : gmap Z (gmap Z weak_ptr) → gmap Z (gmap Z weak_ptr))
    (w : World) : World :=
  {| w_env := w_env w; w_thread := w_thread w; w_trace := w_trace w;
     w_next := w_next w; w_components := w_components w;
     w_endpoints := w_endpoints w; w_callback_data := w_callback_data w;
     w_inflight := f (w_inflight w); w_requests := w_requests w;
     w_handles := w_handles w; w_callers := w_callers w |}.

Definition set_requests (f : gmap Z ucxx_request_t → gmap Z ucxx_request_t)
    (w : World) : World :=
  {| w_env := w_env w; w_thread := w_thread w; w_trace := w_trace w;
     w_next := w_next w; w_components := w_components w;
     w_endpoints := w_endpoints w; w_callback_data := w_callback_data w;
     w_inflight := w_inflight w; w_requests := f (w_requests w);
     w_handles := w_handles w; w_callers := w_callers w |}.

Definition set_handles (f : gmap Z UCXXRequest → gmap Z UCXXRequest)
    (w : World) : World :=
  {| w_env := w_env w; w_thread := w_thread w; w_trace := w_trace w;
     w_next := w_next w; w_components := w_components w;
     w_endpoints := w_endpoints w; w_callback_data := w_callback_data w;
     w_inflight := w_inflight w; w_requests := w_requests w;
     w_handles := f (w_handles w); w_callers := w_callers w |}.

(** ** The monad: state, C++ exceptions, undefined behaviour *)

Inductive exn :=
| UCXXError (msg : string)
| UCXXConnectionResetError (msg : string)
| bad_alloc.

Inductive outcome (A : Type) :=
| Returned (a : A)
| Thrown (e : exn)
| Undefined.
Arguments Returned {A} a.
Arguments Thrown {A} e.
Arguments Undefined {A}.

Definition M (A : Type) : Type := World → outcome A * World.

Definition ret {A} (a : A) : M A := λ w, (Returned a, w).

Definition bind {A B} (m : M A) (k : A → M B) : M B :=
  λ w, match m w with
       | (Returned a, w') => k a w'
       | (Thrown e, w') => (Thrown e, w')
       | (Undefined, w') => (Undefined, w')
       end.

Definition throw {A} (e : exn) : M A := λ w, (Thrown e, w).
Definition undefined {A} : M A := λ w, (Undefined, w).
Definition gets {A} (f : World → A) : M A := λ w, (Returned (f w), w).
Definition modify (f : World → World) : M unit := λ w, (Returned tt, f w).

Declare Scope cpp_scope.
Delimit Scope cpp_scope with cpp.
Notation "'let!' x ':=' m 'in' k" := (bind m (λ x, k))
  (at level 10, x name, m at level 100, k at level 200) : cpp_scope.
Notation "'do!' m 'in' k" := (bind m (λ _, k))
  (at level 10, m at level 100, k at level 200) : cpp_scope.
Local Open Scope cpp_scope.

(** Dereference of a pointer into a store: undefined when nothing lives
    there (null or dangling). *)
Definition deref {A} (store : World → gmap Z A) (p : ptr) : M A :=
  λ w, match store w !! p with
       | Some a => (Returned a, w)
       | None => (Undefined, w)
       end.

(** [new]/[make_shared]: a fresh address, never handed out before. *)
Definition alloc : M ptr :=
  λ w, (Returned (w_next w), set_next (λ n, n + 1) w).

Definition emit (e : event) : M unit := modify (set_trace (λ t, t ++ [e])).

(** Stack unwinding: when [m] throws, [cleanup] runs and the exception
    travels on. *)
Definition on_throw {A} (m : M A) (cleanup : M unit) : M A :=
  λ w, match m w with
       | (Thrown e, w') => (do! cleanup in throw e) w'
       | r => r
       end.

(** ** Calls into UCP and the C library *)

(** The call is recorded, then answered by the environment. *)
Definition ask {A} (e : event) (answer : environment → list event → A) : M A :=
  do! emit e in
  gets (λ w, answer (w_env w) (w_trace w)).

Definition ucp_ep_create (worker : ptr) (params : ucp_ep_params_t) : M (Z * ptr) :=
  ask (ev_ucp_ep_create worker params) env_ep_create.

Definition ucp_ep_close_nb (ep : ptr) (mode : Z) : M Z :=
  ask (ev_ucp_ep_close_nb ep mode) env_status_ptr.

Definition ucp_request_check_status (req : Z) : M Z :=
  ask (ev_ucp_request_check_status req) env_check_status.

Definition ucp_request_free (req : Z) : M unit :=
  emit (ev_ucp_request_free req).

Definition ucp_stream_send_nbx (ep buffer : ptr) (length : Z)
    (param : ucp_request_param_t) : M Z :=
  ask (ev_ucp_stream_send_nbx ep buffer length param) env_status_ptr.

Definition ucp_stream_recv_nbx (ep buffer : ptr) (length : Z)
    (param : ucp_request_param_t) : M Z :=
  ask (ev_ucp_stream_recv_nbx ep buffer length param) env_status_ptr.

Definition ucp_tag_send_nbx (ep buffer : ptr) (length tag : Z)
    (param : ucp_request_param_t) : M Z :=
  ask (ev_ucp_tag_send_nbx ep buffer length tag param) env_status_ptr.

Definition ucp_tag_recv_nbx (worker buffer : ptr) (length tag tag_mask : Z)
    (param : ucp_request_param_t) : M Z :=
  ask (ev_ucp_tag_recv_nbx worker buffer length tag tag_mask param) env_status_ptr.

Definition gethostbyname (name : string) : M (option string) :=
  ask (ev_gethostbyname name) (λ env _, env_gethostbyname env name).

Definition ucxx_log (lvl : log_level) (fmt : string) (args : list log_arg) : M unit :=
  emit (ev_log lvl fmt args).

(** ** The worker and the request life cycle *)

Definition deref_worker (p : ptr) : M UCXXWorker :=
  let! c := deref w_components p in
  match c with
  | CWorker wk => ret wk
  | CListener _ => undefined
  end.

Definition deref_listener (p : ptr) : M UCXXListener :=
  let! c := deref w_components p in
  match c with
  | CListener l => ret l
  | CWorker _ => undefined
  end.

(** Does the registry entry [e] observe a live [UCXXRequest] that wraps
    [request]? *)
Definition observes (hs : gmap Z UCXXRequest) (request : ptr) (e : weak_ptr) : bool :=
  match e with
  | Weak p =>
      match hs !! p with
      | Some h => bool_decide (req_request h = request)
      | None => false
      end
  end.

Definition with_status (st : Z) (rq : ucxx_request_t) : ucxx_request_t :=
  {| rq_status := st; rq_py_future := rq_py_future rq;
     rq_callback := rq_callback rq; rq_callback_data := rq_callback_data rq |}.

Definition with_py_future (f : ptr) (rq : ucxx_request_t) : ucxx_request_t :=
  {| rq_status := rq_status rq; rq_py_future := f;
     rq_callback := rq_callback rq; rq_callback_data := rq_callback_data rq |}.

Definition with_callback (f : option Z) (d : ptr) (rq : ucxx_request_t) : ucxx_request_t :=
  {| rq_status := rq_status rq; rq_py_future := rq_py_future rq;
     rq_callback := f; rq_callback_data := d |}.

(** [std::make_shared<ucxx_request_t>()] *)
Definition make_shared_ucxx_request_t : M ptr :=
  let! request := alloc in
  do! modify (set_requests
        <[request := {| rq_status := UCS.INPROGRESS; rq_py_future := NULL;
                        rq_callback := None; rq_callback_data := NULL |}]>) in
  ret request.

(** Modelled from the spec: the terminal transition of a request, which
    the completion routine, [request_wait] and the cancellation of a
    registry all go through, is not among the sources ([request.h],
    [transfer_common.h]).  "Exactly one terminal transition ever occurs; a
    second resolve attempt is a no-op.  On any terminal transition: remove
    self from the owning Endpoint's InflightRegistry; if a FutureBridge is
    attached, resolve it; if a user callback is attached, invoke it with
    final outcome."  A status of [UCS_INPROGRESS] is no outcome and leaves
    the request as it is. *)
Definition terminal_transition (request : ptr) (st : Z) : M unit :=
  let! rq := deref w_requests request in
  if bool_decide (rq_status rq = UCS.INPROGRESS)
     && negb (bool_decide (st = UCS.INPROGRESS)) then
    do! modify (set_requests <[request := with_status st rq]>) in
    let! hs := gets w_handles in
    do! modify (set_inflight
          (fmap (filter (λ kv : Z * weak_ptr, observes hs request kv.2 = false)))) in
    do! (if bool_decide (rq_py_future rq = NULL) then ret tt
         else emit (ev_future_notify (rq_py_future rq) st)) in
    match rq_callback rq with
    | Some f => emit (ev_user_callback f (rq_callback_data rq))
    | None => ret tt
    end
  else ret tt.

(** Modelled from the spec: [request_wait] ([transfer_common.h]) and
    [UCXXRequest::process] ([request.h]) are not among the sources.
    "Submitted: handed to TransportOperation; an opaque in-progress handle
    or immediate outcome obtained"; "transport-level submission failures
    surface as an immediate error transition on the Request". *)
Definition request_wait (worker : ptr) (status : Z) (request : ptr)
    (operationName : string) : M unit :=
  if UCS.PTR_IS_PTR status then ret tt
  else terminal_transition request (UCS.PTR_STATUS status).

(** Modelled from the spec: the completion routine [_callback]
    ([transfer_common.h]) is not among the sources.  It is given the
    transport's request, the status and the user data, which is the
    [ucxx_request_t] of the operation.  That request makes its terminal
    transition, and the transport's request is given back: a request
    "still waits for the eventual callback to free transport-side
    resources". *)
Definition _callback (request : Z) (status : Z) (arg : ptr) (operation : string)
    : M unit :=
  do! terminal_transition arg status in
  ucp_request_free request.

(** ** Request handles *)

Module UCXXRequest.

Definition set_use_count (n : nat) (h : UCXXRequest) : UCXXRequest :=
  {| req_endpoint := req_endpoint h; req_inflight := req_inflight h;
     req_request := req_request h; req_use_count := n |}.

(** Modelled from the spec: the destructor of [UCXXRequest] ([request.h])
    is not among the sources.  A holder drops its [std::shared_ptr]; the
    request is "destroyed when the last holder releases it", and registry
    entries are "removed at Request terminal transition or destruction". *)
Definition release (req : ptr) : M unit :=
  let! h := deref w_handles req in
  match req_use_count h with
  | S (S n) => modify (set_handles <[req := set_use_count (S n) h]>)
  | _ =>
      do! modify (set_handles (delete req)) in
      modify (set_inflight (alter (delete req) (req_inflight h)))
  end.

(** Modelled from the spec: [UCXXRequest::callback] ([request.h]) is not
    among the sources; it is to the tag transfers what [_callback] is to
    the stream transfers, the completion routine. *)
Definition callback (request : Z) (status : Z) (arg : ptr) (operation : string)
    : M unit :=
  _callback request status arg operation.

End UCXXRequest.

(** The four callbacks of [transfer_stream.h] and [request_tag.h]: a trace
    line, then the completion routine on the transport's request, the
    status and the user data. *)
Definition invoke (f : ucp_callback) (request : Z) (status : Z) (arg : ptr) : M unit :=
  match f with
  | stream_send_callback =>
      do! ucxx_log LOG_TRACE_REQ "stream_send_callback" [] in
      _callback request status arg "stream_send"
  | stream_recv_callback =>
      do! ucxx_log LOG_TRACE_REQ "stream_recv_callback" [] in
      _callback request status arg "stream_recv"
  | tag_send_callback =>
      do! ucxx_log LOG_TRACE_REQ "tag_send_callback" [] in
      UCXXRequest.callback request status arg "tag_send"
  | tag_recv_callback =>
      do! ucxx_log LOG_TRACE_REQ "tag_recv_callback" [] in
      UCXXRequest.callback request status arg "tag_recv"
  end.

(** The completion callbacks the transport fires during one progress
    step, in the order it reports them. *)
Fixpoint complete_all (cs : list (ucp_callback * Z * Z * ptr)) : M unit :=
  match cs with
  | [] => ret tt
  | (f, request, status, arg) :: cs' =>
      do! invoke f request status arg in
      complete_all cs'
  end.

(** Modelled from the spec: the walk of [cancelAll] over the registry.
    "It iterates all weak entries still alive, and for each live Request: if
    not yet terminal, force-transition to Cancelled and invoke its
    FutureBridge/user callback with a cancellation outcome; entries whose
    Request has already been destroyed are silently skipped." *)
Fixpoint cancel_entries (es : list (Z * weak_ptr)) : M unit :=
  match es with
  | [] => ret tt
  | (_, Weak p) :: es' =>
      let! hs := gets w_handles in
      match hs !! p with
      | Some h =>
          do! terminal_transition (req_request h) UCS.ERR_CANCELED in
          cancel_entries es'
      | None => cancel_entries es'
      end
  end.

Module UCXXWorker.

(** Modelled from the spec: [UCXXWorker::get_handle] is not among the
    sources; it returns the transport context the worker owns. *)
Definition get_handle (this : ptr) : M ptr :=
  let! wk := deref_worker this in
  ret (wk_handle wk).

(** Modelled from the spec: [UCXXWorker::getPythonFuture] is not among
    the sources; it hands out the FutureBridge attached to a new request,
    here a fresh object. *)
Definition getPythonFuture (this : ptr) : M ptr :=
  let! _ := deref_worker this in
  alloc.

(** Modelled from the spec: [UCXXWorker::registerDelayedNotificationRequest]
    is not among the sources; "registerDelayed(entry): thread-safe enqueue
    into the DelayedNotificationQueue; may be called from any thread". *)
Definition registerDelayedNotificationRequest (this : ptr) (entry : delayed_entry)
    : M unit :=
  let! wk := deref_worker this in
  modify (set_components
    <[this := CWorker {| wk_handle := wk_handle wk;
                         wk_progress_thread := wk_progress_thread wk;
                         wk_delayed := wk_delayed wk ++ [entry] |}]>).

(** Modelled from the spec: [UCXXWorker::scheduleRequestCancel] is not
    among the sources; it is the [cancelAll] that the spec has the error
    callback invoke "exactly once, synchronously". *)
Definition scheduleRequestCancel (this : ptr) (inflightRequests : ptr) : M unit :=
  let! _ := deref_worker this in
  do! emit (ev_cancel_all this inflightRequests) in
  let! registry := deref w_inflight inflightRequests in
  cancel_entries (map_to_list registry).

(** Modelled from the spec: [UCXXWorker::progress] is not among the
    sources; "progressOnce(): performs one non-blocking progress step",
    during which the transport reports completions. *)
Definition progress (this : ptr) : M unit :=
  let! wk := deref_worker this in
  let! cs := ask (ev_ucp_worker_progress (wk_handle wk)) env_completions in
  complete_all cs.
End UCXXWorker.

Module UCXXListener.

(** Modelled from the spec: [UCXXListener::get_handle] is not among the
    sources; it returns the listener's transport handle. *)
Definition get_handle (this : ptr) : M ptr :=
  let! l := deref_listener this in
  ret (ls_handle l).
End UCXXListener.

(** ** [transfer_stream.h] and [request_tag.h] *)

Definition set_op_attr_mask (f : Z → Z) (p : ucp_request_param_t) :=
  {| op_attr_mask := f (op_attr_mask p); flags := flags p; cb := cb p;
     datatype := datatype p; user_data := user_data p |}.
Definition set_flags (v : Z) (p : ucp_request_param_t) :=
  {| op_attr_mask := op_attr_mask p; flags := v; cb := cb p;
     datatype := datatype p; user_data := user_data p |}.
Definition set_cb (v : ucp_cb) (p : ucp_request_param_t) :=
  {| op_attr_mask := op_attr_mask p; flags := flags p; cb := v;
     datatype := datatype p; user_data := user_data p |}.

(** The designated initialiser shared by [stream_request] and
    [UCXXRequestTag::request]; members it does not name are zero. *)
Definition initial_param (request : ptr) : ucp_request_param_t :=
  {| op_attr_mask :=
       Z.lor (Z.lor UCP.OP_ATTR_FIELD_CALLBACK UCP.OP_ATTR_FIELD_DATATYPE)
             UCP.OP_ATTR_FIELD_USER_DATA;
     flags := 0;
     cb := cb_unset;
     datatype := UCP.dt_make_contig 1;
     user_data := request |}.

Definition stream_request (ep : ptr) (send : bool) (buffer : ptr) (length : Z)
    (request : ptr) : M Z :=
  let param := initial_param request in
  if send then
    let param := set_cb (cb_send stream_send_callback) param in
    ucp_stream_send_nbx ep buffer length param
  else
    let param := set_op_attr_mask (λ m, Z.lor m UCP.OP_ATTR_FIELD_FLAGS) param in
    let param := set_flags UCP.STREAM_RECV_FLAG_WAITALL param in
    let param := set_cb (cb_recv_stream stream_recv_callback) param in
    ucp_stream_recv_nbx ep buffer length param.


Definition populate_delayed_notification_stream_request
    (data : delayed_notification_request_t) : M unit :=
  let operationName := if dn_send data then "stream_send" else "stream_recv" in
  let! status :=
    stream_request (dn_ep data) (dn_send data) (dn_buffer data) (dn_length data)
                   (dn_request data) in
  let! rq := deref w_requests (dn_request data) in
  do! ucxx_log LOG_TRACE_REQ
        "%s request: %p, buffer: %p, size: %lu, future: %p, future handle: %p"
        [arg_str operationName; arg_ptr status; arg_ptr (dn_buffer data);
         arg_int (dn_length data); arg_ptr (rq_py_future rq);
         arg_future_handle (rq_py_future rq)] in
  request_wait (dn_worker data) status (dn_request data) operationName.

Definition stream_msg (worker ep : ptr) (send : bool) (buffer : ptr) (length : Z)
    : M ptr :=
  let! request := make_shared_ucxx_request_t in
  let! py_future := UCXXWorker.getPythonFuture worker in
  do! modify (set_requests (alter (with_py_future py_future) request)) in
  do! ucxx_log LOG_TRACE_REQ "request: %p, request->py_future: %p"
        [arg_ptr request; arg_ptr py_future] in
  do! modify (set_requests (alter (with_callback None NULL) request)) in
  let! handle := UCXXWorker.get_handle worker in
  let delayed_notification_request :=
    {| dn_worker := handle; dn_ep := ep; dn_send := send; dn_buffer := buffer;
       dn_length := length; dn_request := request |} in
  do! UCXXWorker.registerDelayedNotificationRequest worker
        (populate_stream delayed_notification_request) in
  ret request.

Module UCXXRequestTag.
(** [static const ucp_tag_t tag_mask = -1] on the 64-bit [ucp_tag_t]. *)
Definition tag_mask : Z := (-1) mod 2 ^ 64.

Definition request (worker ep : ptr) (send : bool) (buffer : ptr)
    (length tag : Z) (request : ptr) : M Z :=
  let param := initial_param request in
  if send then
    let param := set_cb (cb_send tag_send_callback) param in
    ucp_tag_send_nbx ep buffer length tag param
  else
    let param := set_cb (cb_recv tag_recv_callback) param in
    ucp_tag_recv_nbx worker buffer length tag tag_mask param.

Definition populateNotificationRequest (data : NotificationRequest) : M unit :=
  let operationName := if nr_send data then "tag_send" else "tag_recv" in
  let! status :=
    request (nr_worker data) (nr_ep data) (nr_send data)
      (nr_buffer data) (nr_length data) (nr_tag data) (nr_request data) in
  let! rq := deref w_requests (nr_request data) in
  do! ucxx_log LOG_TRACE_REQ
        "%s request: %p, tag: %lx, buffer: %p, size: %lu, future: %p, future handle: %p"
        [arg_str operationName; arg_ptr status; arg_int (nr_tag data);
         arg_ptr (nr_buffer data); arg_int (nr_length data);
         arg_ptr (rq_py_future rq); arg_future_handle (rq_py_future rq)] in
  request_wait (nr_worker data) status (nr_request data) operationName.
End UCXXRequestTag.

(** Running one queue entry: the registered populate function on its data. *)
Definition populate (e : delayed_entry) : M unit :=
  match e with
  | populate_stream data => populate_delayed_notification_stream_request data
  | populate_tag data => UCXXRequestTag.populateNotificationRequest data
  end.

Fixpoint populate_all (es : list delayed_entry) : M unit :=
  match es with
  | [] => ret tt
  | e :: es' => do! populate e in populate_all es'
  end.

(** Modelled from the spec: the worker's drain of its queue is not among
    the sources; "drainDelayed(): called only by the progress-owning thread;
    pops and submits every queued entry to TransportOperation". *)
Definition drainDelayed (worker : ptr) : M unit :=
  let! wk := deref_worker worker in
  do! modify (set_components
        <[worker := CWorker {| wk_handle := wk_handle wk;
                               wk_progress_thread := wk_progress_thread wk;
                               wk_delayed := [] |}]>) in
  populate_all (wk_delayed wk).

(** ** [endpoint.h] *)

Definition set_ecd_status (st : Z) (d : error_callback_data_t) :=
  {| ecd_status := st; ecd_inflightRequests := ecd_inflightRequests d;
     ecd_closeCallback := ecd_closeCallback d;
     ecd_closeCallbackArg := ecd_closeCallbackArg d; ecd_worker := ecd_worker d |}.

Definition set_ecd_closeCallback (f : option Z) (d : error_callback_data_t) :=
  {| ecd_status := ecd_status d; ecd_inflightRequests := ecd_inflightRequests d;
     ecd_closeCallback := f;
     ecd_closeCallbackArg := ecd_closeCallbackArg d; ecd_worker := ecd_worker d |}.

Definition set_ecd_closeCallbackArg (a : ptr) (d : error_callback_data_t) :=
  {| ecd_status := ecd_status d; ecd_inflightRequests := ecd_inflightRequests d;
     ecd_closeCallback := ecd_closeCallback d;
     ecd_closeCallbackArg := a; ecd_worker := ecd_worker d |}.

(** [data->field = v] through the pointer [arg]. *)
Definition write_data (arg : ptr) (f : error_callback_data_t → error_callback_data_t)
    : M unit :=
  let! _ := deref w_callback_data arg in
  modify (set_callback_data (alter f arg)).

(** The error handler handed to [ucp_ep_create]. *)
Definition _err_cb (arg : ptr) (ep : ptr) (status : Z) : M unit :=
  do! write_data arg (set_ecd_status status) in
  let! data := deref w_callback_data arg in
  do! UCXXWorker.scheduleRequestCancel (ecd_worker data) (ecd_inflightRequests data) in
  let! data := deref w_callback_data arg in
  do! match ecd_closeCallback data with
      | Some closeCallback =>
          do! emit (ev_close_callback closeCallback (ecd_closeCallbackArg data)) in
          do! write_data arg (set_ecd_closeCallback None) in
          write_data arg (set_ecd_closeCallbackArg NULL)
      | None => ret tt
      end in
  if bool_decide (status = UCS.ERR_CONNECTION_RESET)
     || bool_decide (status = UCS.ERR_ENDPOINT_TIMEOUT)
  then ucxx_log LOG_DEBUG "Error callback for endpoint %p called with status %d: %s"
         [arg_ptr ep; arg_int status; arg_status_string status]
  else ucxx_log LOG_ERROR "Error callback for endpoint %p called with status %d: %s"
         [arg_ptr ep; arg_int status; arg_status_string status].

Definition set_field_mask (v : Z) (p : ucp_ep_params_t) :=
  {| field_mask := v; ep_flags := ep_flags p; sockaddr := sockaddr p;
     conn_request := conn_request p; address := address p; err_mode := err_mode p;
     err_handler_cb := err_handler_cb p; err_handler_arg := err_handler_arg p |}.
Definition set_ep_flags (v : Z) (p : ucp_ep_params_t) :=
  {| field_mask := field_mask p; ep_flags := v; sockaddr := sockaddr p;
     conn_request := conn_request p; address := address p; err_mode := err_mode p;
     err_handler_cb := err_handler_cb p; err_handler_arg := err_handler_arg p |}.
Definition set_sockaddr (v : option (string * Z)) (p : ucp_ep_params_t) :=
  {| field_mask := field_mask p; ep_flags := ep_flags p; sockaddr := v;
     conn_request := conn_request p; address := address p; err_mode := err_mode p;
     err_handler_cb := err_handler_cb p; err_handler_arg := err_handler_arg p |}.
Definition set_conn_request (v : ptr) (p : ucp_ep_params_t) :=
  {| field_mask := field_mask p; ep_flags := ep_flags p; sockaddr := sockaddr p;
     conn_request := v; address := address p; err_mode := err_mode p;
     err_handler_cb := err_handler_cb p; err_handler_arg := err_handler_arg p |}.
Definition set_address (v : ptr) (p : ucp_ep_params_t) :=
  {| field_mask := field_mask p; ep_flags := ep_flags p; sockaddr := sockaddr p;
     conn_request := conn_request p; address := v; err_mode := err_mode p;
     err_handler_cb := err_handler_cb p; err_handler_arg := err_handler_arg p |}.
Definition set_err_handling (mode : Z) (f : ucp_err_handler_cb) (arg : ptr)
    (p : ucp_ep_params_t) :=
  {| field_mask := field_mask p; ep_flags := ep_flags p; sockaddr := sockaddr p;
     conn_request := conn_request p; address := address p; err_mode := mode;
     err_handler_cb := f; err_handler_arg := arg |}.

(** Modelled from the spec: [assert_ucs_status] ([utils.h]) is not among
    the sources; a transport rejection at issue time is "fatal" and never
    retried, so every status but [UCS_OK] raises. *)
Definition assert_ucs_status (status : Z) : M unit :=
  if bool_decide (status = UCS.OK) then ret tt
  else
    let! msg := gets (λ w, env_status_string (w_env w) status) in
    throw (UCXXError msg).

(** Modelled from the spec: [UCXXAddress] ([address.h]) is not among the
    sources; the factory reads its handle and its length. *)
Record UCXXAddress := {
  addr_handle : ptr;
  addr_length : Z
}.

(** ** Shared ownership *)

(** Does anything still hold the registry at [i]?  A registry is a
    [std::shared_ptr<inflight_request_map_t>]; copies of it sit in the
    endpoint ([_inflightRequests]), in its callback data
    ([inflightRequests]) and in every [UCXXRequest] made for it. *)
Definition registry_held (i : ptr) (w : World) : bool :=
  bool_decide (map_Exists (λ _ self, _inflightRequests self = i) (w_endpoints w))
  || bool_decide (map_Exists (λ _ data, ecd_inflightRequests data = i)
                    (w_callback_data w))
  || bool_decide (map_Exists (λ _ h, req_inflight h = i) (w_handles w)).

(** A copy of the [std::shared_ptr] to the registry at [i] has just been
    destroyed: the registry goes with it unless another copy is left. *)
Definition release_registry (i : ptr) : M unit :=
  let! held := gets (registry_held i) in
  if (held : bool) then ret tt else modify (set_inflight (delete i)).

(** The component is a listener whose parent is [p]. *)
Definition child_of (p : ptr) (c : UCXXComponent) : bool :=
  match c with
  | CListener l => bool_decide (ls_parent l = p)
  | CWorker _ => false
  end.

(** Does anything still hold the worker or listener at [p]?  Its
    [std::shared_ptr]s sit with the callers, in endpoints ([_parent]), in
    callback data ([worker]) and in the listeners whose parent it is. *)
Definition component_held (p : ptr) (w : World) : bool :=
  bool_decide (p ∈ w_callers w)
  || bool_decide (map_Exists (λ _ self, _parent self = p) (w_endpoints w))
  || bool_decide (map_Exists (λ _ data, ecd_worker data = p) (w_callback_data w))
  || bool_decide (map_Exists (λ _ c, child_of p c = true) (w_components w)).

(** A [std::shared_ptr] to the component at [p] has just been destroyed.
    If it was the last one the component is destroyed, and a listener that
    is destroyed lets go of its parent in turn; [fuel] bounds the length of
    that chain.  What the destructors of [UCXXWorker] and [UCXXListener] do
    beyond ending the life of the object is not among the sources. *)
Fixpoint release_chain (fuel : nat) (p : ptr) : M unit :=
  let! held := gets (component_held p) in
  if (held : bool) then ret tt
  else
    let! c := gets (λ w, w_components w !! p) in
    do! modify (set_components (delete p)) in
    match c, fuel with
    | Some (CListener l), S fuel' => release_chain fuel' (ls_parent l)
    | _, _ => ret tt
    end.

(** No chain of parents is longer than there are components. *)
Definition release_component (p : ptr) : M unit :=
  let! fuel := gets (λ w, size (w_components w)) in
  release_chain fuel p.

Module UCXXEndpoint.

Definition getWorker (worker_or_listener : ptr) : M ptr :=
  let! components := gets w_components in
  match components !! worker_or_listener with
  | Some (CWorker _) => ret worker_or_listener
  | Some (CListener listener) =>
      match components !! ls_parent listener with
      | Some (CWorker _) => ret (ls_parent listener)
      | _ => ret NULL
      end
  | None => undefined
  end.

(** [worker == nullptr || worker->get_handle() == nullptr] *)
Definition worker_not_initialized (worker : ptr) : M bool :=
  if bool_decide (worker = NULL) then ret true
  else
    let! handle := UCXXWorker.get_handle worker in
    ret (bool_decide (handle = NULL)).

(** The private constructor.  The members built before the body throws
    are destroyed again by the throw. *)
Definition constructor (worker_or_listener : ptr) (params : ucp_ep_params_t)
    (endpoint_error_handling : bool) : M ptr :=
  let! this := alloc in
  let! inflightRequests := alloc in
  do! modify (set_inflight <[inflightRequests := ∅]>) in
  let! worker := getWorker worker_or_listener in
  let! uninitialized := worker_not_initialized worker in
  if (uninitialized : bool) then
    do! modify (set_inflight (delete inflightRequests)) in
    throw (UCXXError "Worker not initialized")
  else
    let! callbackData := alloc in
    do! modify (set_callback_data
          <[callbackData := {| ecd_status := UCS.OK;
                               ecd_inflightRequests := inflightRequests;
                               ecd_closeCallback := None;
                               ecd_closeCallbackArg := NULL;
                               ecd_worker := worker |}]>) in
    let params :=
      set_err_handling
        (if endpoint_error_handling then UCP.ERR_HANDLING_MODE_PEER
         else UCP.ERR_HANDLING_MODE_NONE)
        err_cb__err_cb callbackData params in
    let! worker_handle := UCXXWorker.get_handle worker in
    let! created := ucp_ep_create worker_handle params in
    do! on_throw (assert_ucs_status created.1)
          (do! modify (set_callback_data (delete callbackData)) in
           modify (set_inflight (delete inflightRequests))) in
    do! modify (set_endpoints
          <[this := {| _handle := created.2;
                       _endpoint_error_handling := endpoint_error_handling;
                       _callbackData := callbackData;
                       _inflightRequests := inflightRequests;
                       _parent := worker_or_listener |}]>) in
    ret this.

(** [while (ucp_request_check_status(status) == UCS_INPROGRESS)
       worker->progress();]
    with a bound on the number of iterations; [false] when the bound is
    reached with the request still in progress. *)
Fixpoint wait_close (fuel : nat) (worker : ptr) (status : Z) : M bool :=
  let! st := ucp_request_check_status status in
  if bool_decide (st = UCS.INPROGRESS) then
    match fuel with
    | O => ret false
    | S fuel' =>
        do! UCXXWorker.progress worker in
        wait_close fuel' worker status
    end
  else ret true.

(** What follows the body of the destructor: the endpoint goes, and its
    members are destroyed, [_inflightRequests], then [_callbackData] and
    with it the copies of the registry and of the worker that the callback
    data holds, then [_parent] of the base class.  The endpoint and its
    callback data leave the stores first, so that each release finds the
    holders that are left once the copies of this endpoint are gone; what
    is destroyed in the end does not depend on the order of the
    releases. *)
Definition destroy_members (this : ptr) (self : UCXXEndpoint) : M (option unit) :=
  let! data := gets (λ w, w_callback_data w !! _callbackData self) in
  do! modify (set_callback_data (delete (_callbackData self))) in
  do! modify (set_endpoints (delete this)) in
  do! release_registry (_inflightRequests self) in
  do! match data with
      | Some data =>
          do! release_registry (ecd_inflightRequests data) in
          release_component (ecd_worker data)
      | None => ret tt
      end in
  do! release_component (_parent self) in
  ret (Some tt).

(** The destructor; [None] when the progress loop did not finish within
    [fuel] iterations. *)
Definition destructor (fuel : nat) (this : ptr) : M (option unit) :=
  let! self := deref w_endpoints this in
  if bool_decide (_handle self = NULL) then destroy_members this self
  else
    let close_mode := UCP.EP_CLOSE_MODE_FORCE in
    let! close_mode :=
      if _endpoint_error_handling self then
        let! data := deref w_callback_data (_callbackData self) in
        if negb (bool_decide (ecd_status data = UCS.OK))
        then ret UCP.EP_CLOSE_MODE_FORCE
        else ret close_mode
      else ret close_mode in
    let! status := ucp_ep_close_nb (_handle self) close_mode in
    if UCS.PTR_IS_PTR status then
      let! worker := getWorker (_parent self) in
      let! finished := wait_close fuel worker status in
      if (finished : bool) then
        do! ucp_request_free status in
        destroy_members this self
      else ret None
    else if negb (bool_decide (UCS.PTR_STATUS status = UCS.OK)) then
      do! ucxx_log LOG_ERROR "Error while closing endpoint: %s"
            [arg_status_string (UCS.PTR_STATUS status)] in
      destroy_members this self
    else destroy_members this self.

Definition getHandle (this : ptr) : M ptr :=
  let! self := deref w_endpoints this in
  ret (_handle self).

Definition isAlive (this : ptr) : M bool :=
  let! self := deref w_endpoints this in
  if negb (_endpoint_error_handling self) then ret true
  else
    let! data := deref w_callback_data (_callbackData self) in
    ret (bool_decide (ecd_status data = UCS.OK)).

Definition raiseOnError (this : ptr) : M unit :=
  let! self := deref w_endpoints this in
  let! data := deref w_callback_data (_callbackData self) in
  let status := ecd_status data in
  if bool_decide (status = UCS.OK) || negb (_endpoint_error_handling self) then ret tt
  else
    let! statusString := gets (λ w, env_status_string (w_env w) status) in
    let! handle := gets (λ w, env_show_ptr (w_env w) (_handle self)) in
    let errorMsg := "Endpoint " +:+ handle +:+ " error: " +:+ statusString in
    if bool_decide (status = UCS.ERR_CONNECTION_RESET)
    then throw (UCXXConnectionResetError errorMsg)
    else throw (UCXXError errorMsg).

Definition setCloseCallback (this : ptr) (closeCallback : option Z)
    (closeCallbackArg : ptr) : M unit :=
  let! self := deref w_endpoints this in
  do! write_data (_callbackData self) (set_ecd_closeCallback closeCallback) in
  write_data (_callbackData self) (set_ecd_closeCallbackArg closeCallbackArg).

(** Modelled from the spec: the free function [ucxx::createRequest]
    ([request.h]) is not among the sources; it builds the [UCXXRequest]
    from its three arguments and returns the one [std::shared_ptr] that
    owns it. *)
Definition ucxx_createRequest (endpoint inflightRequests request : ptr) : M ptr :=
  let! req := alloc in
  do! modify (set_handles
        <[req := {| req_endpoint := endpoint; req_inflight := inflightRequests;
                    req_request := request; req_use_count := 1 |}]>) in
  ret req.

(** [std::map::insert]: an existing key keeps its value. *)
Definition map_insert (k : Z) (v : weak_ptr) (m : gmap Z weak_ptr) : gmap Z weak_ptr :=
  match m !! k with
  | Some _ => m
  | None => <[k := v]> m
  end.

Definition createRequest (this : ptr) (request : ptr) : M ptr :=
  let! self := deref w_endpoints this in
  let endpoint := this in
  let! req := ucxx_createRequest endpoint (_inflightRequests self) request in
  let weak_req := Weak req in
  let! _ := deref w_inflight (_inflightRequests self) in
  do! modify (set_inflight (alter (map_insert req weak_req) (_inflightRequests self))) in
  ret req.

Definition stream_send (this : ptr) (buffer : ptr) (length : Z) : M ptr :=
  let! self := deref w_endpoints this in
  let! worker := getWorker (_parent self) in
  let! request := stream_msg worker (_handle self) true buffer length in
  createRequest this request.

Definition stream_recv (this : ptr) (buffer : ptr) (length : Z) : M ptr :=
  let! self := deref w_endpoints this in
  let! worker := getWorker (_parent self) in
  let! request := stream_msg worker (_handle self) false buffer length in
  createRequest this request.

Section Tag.

(** [tag_msg] ([transfer_tag.h]) is not among the sources: the two tag
    operations are stated for whatever it is. *)
Variable tag_msg :
  ∀ (worker ep : ptr) (send : bool) (buffer : ptr) (length tag : Z)
    (callbackFunction : option Z) (callbackData : ptr), M ptr.

Definition tag_send (this : ptr) (buffer : ptr) (length tag : Z)
    (callbackFunction : option Z) (callbackData : ptr) : M ptr :=
  let! self := deref w_endpoints this in
  let! worker := getWorker (_parent self) in
  let! request :=
    tag_msg worker (_handle self) true buffer length tag callbackFunction callbackData in
  createRequest this request.

Definition tag_recv (this : ptr) (buffer : ptr) (length tag : Z)
    (callbackFunction : option Z) (callbackData : ptr) : M ptr :=
  let! self := deref w_endpoints this in
  let! worker := getWorker (_parent self) in
  let! request :=
    tag_msg worker (_handle self) false buffer length tag callbackFunction callbackData in
  createRequest this request.

End Tag.

End UCXXEndpoint.

(** ** The endpoint factories *)

Definition createEndpointFromHostname (worker : ptr) (ip_address : string)
    (port : Z) (endpoint_error_handling : bool) : M ptr :=
  let! uninitialized := UCXXEndpoint.worker_not_initialized worker in
  if (uninitialized : bool) then throw (UCXXError "Worker not initialized")
  else
    let params := new_ucp_ep_params_t in
    let! hostname := gethostbyname ip_address in
    match hostname with
    | None => throw (UCXXError "Invalid IP address or hostname")
    | Some h_name =>
        let params :=
          set_field_mask
            (Z.lor (Z.lor (Z.lor UCP.EP_PARAM_FIELD_FLAGS UCP.EP_PARAM_FIELD_SOCK_ADDR)
                          UCP.EP_PARAM_FIELD_ERR_HANDLING_MODE)
                   UCP.EP_PARAM_FIELD_ERR_HANDLER) params in
        let params := set_ep_flags UCP.EP_PARAMS_FLAGS_CLIENT_SERVER params in
        let! failed := gets (λ w, env_sockaddr_utils_set (w_env w) h_name port) in
        if negb (bool_decide (failed = 0)) then throw bad_alloc
        else
          let params := set_sockaddr (Some (h_name, port)) params in
          UCXXEndpoint.constructor worker params endpoint_error_handling
    end.

(** [listener == nullptr || listener->get_handle() == nullptr] *)
Definition listener_not_initialized (listener : ptr) : M bool :=
  if bool_decide (listener = NULL) then ret true
  else
    let! handle := UCXXListener.get_handle listener in
    ret (bool_decide (handle = NULL)).

Definition createEndpointFromConnRequest (listener : ptr) (conn_request : ptr)
    (endpoint_error_handling : bool) : M ptr :=
  let! uninitialized := listener_not_initialized listener in
  if (uninitialized : bool) then throw (UCXXError "Worker not initialized")
  else
    let params := new_ucp_ep_params_t in
    let params :=
      set_field_mask
        (Z.lor (Z.lor (Z.lor UCP.EP_PARAM_FIELD_FLAGS UCP.EP_PARAM_FIELD_CONN_REQUEST)
                      UCP.EP_PARAM_FIELD_ERR_HANDLING_MODE)
               UCP.EP_PARAM_FIELD_ERR_HANDLER) params in
    let params := set_ep_flags UCP.EP_PARAMS_FLAGS_NO_LOOPBACK params in
    let params := set_conn_request conn_request params in
    UCXXEndpoint.constructor listener params endpoint_error_handling.

(** [address == nullptr || address->getHandle() == nullptr ||
     address->getLength() == 0] *)
Definition address_not_initialized (address : option UCXXAddress) : bool :=
  match address with
  | None => true
  | Some a => bool_decide (addr_handle a = NULL) || bool_decide (addr_length a = 0)
  end.

Definition createEndpointFromWorkerAddress (worker : ptr)
    (address : option UCXXAddress) (endpoint_error_handling : bool) : M ptr :=
  let! uninitialized := UCXXEndpoint.worker_not_initialized worker in
  if (uninitialized : bool) then throw (UCXXError "Worker not initialized")
  else if address_not_initialized address then throw (UCXXError "Address not initialized")
  else
    let params := new_ucp_ep_params_t in
    let params :=
      set_field_mask
        (Z.lor (Z.lor UCP.EP_PARAM_FIELD_REMOTE_ADDRESS UCP.EP_PARAM_FIELD_ERR_HANDLING_MODE)
               UCP.EP_PARAM_FIELD_ERR_HANDLER) params in
    let params :=
      set_address (match address with Some a => addr_handle a | None => NULL end) params in
    UCXXEndpoint.constructor worker params endpoint_error_handling.
(** * Vocabulary of the properties *)

(** ** What an event is *)

(** The parameter block of a send or receive handed to UCP. *)
Definition submission (e : event) : option ucp_request_param_t :=
  match e with
  | ev_ucp_stream_send_nbx _ _ _ param
  | ev_ucp_stream_recv_nbx _ _ _ param
  | ev_ucp_tag_send_nbx _ _ _ _ param
  | ev_ucp_tag_recv_nbx _ _ _ _ _ param => Some param
  | _ => None
  end.

Definition is_stream_recv (e : event) : bool :=
  match e with ev_ucp_stream_recv_nbx _ _ _ _ => true | _ => false end.

(** A call into UCP. *)
Definition is_transport (e : event) : bool :=
  match e with
  | ev_ucp_ep_create _ _ | ev_ucp_ep_close_nb _ _ | ev_ucp_request_check_status _
  | ev_ucp_request_free _ | ev_ucp_worker_progress _
  | ev_ucp_stream_send_nbx _ _ _ _ | ev_ucp_stream_recv_nbx _ _ _ _
  | ev_ucp_tag_send_nbx _ _ _ _ _ | ev_ucp_tag_recv_nbx _ _ _ _ _ _ => true
  | _ => false
  end.

Definition is_cancel_all (e : event) : bool :=
  match e with ev_cancel_all _ _ => true | _ => false end.

Definition is_close_callback (e : event) : bool :=
  match e with ev_close_callback _ _ => true | _ => false end.

(** A line of the logger at error or debug severity. *)
Definition severity (e : event) : option log_level :=
  match e with
  | ev_log LOG_ERROR _ _ => Some LOG_ERROR
  | ev_log LOG_DEBUG _ _ => Some LOG_DEBUG
  | _ => None
  end.

(** What a completed request tells its future and its user callback. *)
Definition is_notification (e : event) : bool :=
  match e with ev_future_notify _ _ | ev_user_callback _ _ => true | _ => false end.

(** The operation asks UCP to hold the completion back until the whole
    requested length is there: the [flags] field is announced in
    [op_attr_mask] and carries [UCP_STREAM_RECV_FLAG_WAITALL]. *)
Definition waitall (param : ucp_request_param_t) : bool :=
  negb (Z.land (op_attr_mask param) UCP.OP_ATTR_FIELD_FLAGS =? 0)
  && negb (Z.land (flags param) UCP.STREAM_RECV_FLAG_WAITALL =? 0).

(** ** The terminal transition *)

(** What [terminal_transition] tells the future and the user callback. *)
Definition notifications (rq : ucxx_request_t) (st : Z) : list event :=
  (if bool_decide (rq_py_future rq = NULL) then []
   else [ev_future_notify (rq_py_future rq) st])
  ++ match rq_callback rq with
     | Some f => [ev_user_callback f (rq_callback_data rq)]
     | None => []
     end.

(** The world a terminal transition leaves behind. *)
Definition settled (request : ptr) (st : Z) (w : World) : World :=
  match w_requests w !! request with
  | Some rq =>
      if bool_decide (rq_status rq = UCS.INPROGRESS)
         && negb (bool_decide (st = UCS.INPROGRESS)) then
        set_trace (λ t, t ++ notifications rq st)
          (set_inflight
             (fmap (filter (λ kv : Z * weak_ptr,
                              observes (w_handles w) request kv.2 = false)))
             (set_requests <[request := with_status st rq]> w))
      else w
  | None => w
  end.


(** [w'] comes from [w] by terminal transitions: nothing but request
    states and registries has changed, and the trace has grown by events
    that [allowed] admits. *)
Record evolves (allowed : event → bool) (w w' : World) : Prop := {
  quiet_env : w_env w' = w_env w;
  quiet_thread : w_thread w' = w_thread w;
  quiet_next : w_next w' = w_next w;
  quiet_components : w_components w' = w_components w;
  quiet_endpoints : w_endpoints w' = w_endpoints w;
  quiet_callback_data : w_callback_data w' = w_callback_data w;
  quiet_handles : w_handles w' = w_handles w;
  quiet_callers : w_callers w' = w_callers w;
  quiet_trace :
    ∃ evs, w_trace w' = w_trace w ++ evs ∧ Forall (λ e, allowed e = true) evs;
  quiet_requests : ∀ r, is_Some (w_requests w' !! r) ↔ is_Some (w_requests w !! r);
  quiet_inflight : ∀ i, is_Some (w_inflight w' !! i) ↔ is_Some (w_inflight w !! i)
}.

(** The trace has grown by notifications only. *)
Definition quiet : World → World → Prop := evolves is_notification.

(** Every live [UCXXRequest] owns a live [ucxx_request_t] (it holds a
    [std::shared_ptr] to it). *)
Definition requests_alive (w : World) : Prop :=
  map_Forall (λ _ h, is_Some (w_requests w !! req_request h)) (w_handles w).

(** [request] is wrapped by a live [UCXXRequest] that an entry of [es]
    observes. *)
Definition observed_by (hs : gmap Z UCXXRequest) (es : list (Z * weak_ptr))
    (request : ptr) : Prop :=
  ∃ k p h, (k, Weak p) ∈ es ∧ hs !! p = Some h ∧ req_request h = request.

(** A request is terminal once its status has left [UCS_INPROGRESS]. *)
Definition terminal (rq : ucxx_request_t) : Prop := rq_status rq ≠ UCS.INPROGRESS.

(** The line [_err_cb] writes to the log. *)
Definition err_cb_log (ep : ptr) (status : Z) : event :=
  ev_log (if bool_decide (status = UCS.ERR_CONNECTION_RESET)
             || bool_decide (status = UCS.ERR_ENDPOINT_TIMEOUT)
          then LOG_DEBUG else LOG_ERROR)
         "Error callback for endpoint %p called with status %d: %s"
         [arg_ptr ep; arg_int status; arg_status_string status].

(** The close callback [_err_cb] runs, if one is set. *)
Definition close_events (data : error_callback_data_t) : list event :=
  match ecd_closeCallback data with
  | Some f => [ev_close_callback f (ecd_closeCallbackArg data)]
  | None => []
  end.

(** The callback data as [_err_cb] leaves it. *)
Definition after_error (status : Z) (data : error_callback_data_t)
    : error_callback_data_t :=
  {| ecd_status := status;
     ecd_inflightRequests := ecd_inflightRequests data;
     ecd_closeCallback := None;
     ecd_closeCallbackArg :=
       match ecd_closeCallback data with
       | Some _ => NULL
       | None => ecd_closeCallbackArg data
       end;
     ecd_worker := ecd_worker data |}.

(** The callback data after [_err_cb] has run for each of [calls]. *)
Fixpoint after_errors (calls : list (ptr * Z)) (data : error_callback_data_t)
    : error_callback_data_t :=
  match calls with
  | [] => data
  | (_, status) :: calls' => after_errors calls' (after_error status data)
  end.

(** The world in which [_err_cb] starts the cancellation. *)
Definition cancelling (arg : ptr) (status : Z) (data : error_callback_data_t)
    (w : World) : World :=
  set_trace (λ t, t ++ [ev_cancel_all (ecd_worker data) (ecd_inflightRequests data)])
    (set_callback_data (alter (set_ecd_status status) arg) w).

(** What [_err_cb] needs to run: its argument, the worker and the registry
    it names, and the requests of the live handles are all there. *)
Record err_cb_ready (arg : ptr) (data : error_callback_data_t)
    (registry : gmap Z weak_ptr) (w : World) : Prop := {
  ready_data : w_callback_data w !! arg = Some data;
  ready_worker : ∃ wk, w_components w !! ecd_worker data = Some (CWorker wk);
  ready_registry : w_inflight w !! ecd_inflightRequests data = Some registry;
  ready_requests : requests_alive w
}.

(** The transport reports connection errors one after the other:
    [_err_cb] on the same callback data for each [(ep, status)]. *)
Fixpoint err_cb_repeatedly (arg : ptr) (calls : list (ptr * Z)) : M unit :=
  match calls with
  | [] => ret tt
  | (ep, status) :: calls' =>
      do! _err_cb arg ep status in
      err_cb_repeatedly arg calls'
  end.

(** ** Worlds after an operation *)

(** The parent resolves to the worker [worker], whose state is [wk]:
    either it is that worker, or a listener whose parent is. *)
Definition worker_of (w : World) (parent worker : ptr) (wk : UCXXWorker) : Prop :=
  (w_components w !! parent = Some (CWorker wk) ∧ worker = parent)
  ∨ (∃ l, w_components w !! parent = Some (CListener l)
          ∧ worker = ls_parent l
          ∧ w_components w !! worker = Some (CWorker wk)).

Definition enqueue (entry : delayed_entry) (wk : UCXXWorker) : UCXXWorker :=
  {| wk_handle := wk_handle wk; wk_progress_thread := wk_progress_thread wk;
     wk_delayed := wk_delayed wk ++ [entry] |}.

(** The queue entry [stream_msg] registers for the request at [request]. *)
Definition stream_entry (wk : UCXXWorker) (ep : ptr) (send : bool) (buffer : ptr)
    (length : Z) (request : ptr) : delayed_entry :=
  populate_stream
    {| dn_worker := wk_handle wk; dn_ep := ep; dn_send := send; dn_buffer := buffer;
       dn_length := length; dn_request := request |}.

(** The request [stream_msg] allocates at [w_next w], its future right
    after it. *)
Definition fresh_request (w : World) : ucxx_request_t :=
  {| rq_status := UCS.INPROGRESS; rq_py_future := w_next w + 1;
     rq_callback := None; rq_callback_data := NULL |}.

Definition after_stream_msg (worker : ptr) (wk : UCXXWorker) (ep : ptr) (send : bool)
    (buffer : ptr) (length : Z) (w : World) : World :=
  {| w_env := w_env w;
     w_thread := w_thread w;
     w_trace :=
       w_trace w ++ [ev_log LOG_TRACE_REQ "request: %p, request->py_future: %p"
                            [arg_ptr (w_next w); arg_ptr (w_next w + 1)]];
     w_next := w_next w + 1 + 1;
     w_components :=
       <[worker := CWorker (enqueue (stream_entry wk ep send buffer length (w_next w)) wk)]>
         (w_components w);
     w_endpoints := w_endpoints w;
     w_callback_data := w_callback_data w;
     w_inflight := w_inflight w;
     w_requests := <[w_next w := fresh_request w]> (w_requests w);
     w_handles := w_handles w;
     w_callers := w_callers w |}.

(** The handle [createRequest] allocates at [w_next w]. *)
Definition fresh_handle (this : ptr) (self : UCXXEndpoint) (request : ptr) : UCXXRequest :=
  {| req_endpoint := this; req_inflight := _inflightRequests self;
     req_request := request; req_use_count := 1 |}.

Definition after_createRequest (this : ptr) (self : UCXXEndpoint) (request : ptr)
    (w : World) : World :=
  {| w_env := w_env w;
     w_thread := w_thread w;
     w_trace := w_trace w;
     w_next := w_next w + 1;
     w_components := w_components w;
     w_endpoints := w_endpoints w;
     w_callback_data := w_callback_data w;
     w_inflight :=
       alter (UCXXEndpoint.map_insert (w_next w) (Weak (w_next w)))
             (_inflightRequests self) (w_inflight w);
     w_requests := w_requests w;
     w_handles := <[w_next w := fresh_handle this self request]> (w_handles w);
     w_callers := w_callers w |}.

(** The call into UCP that submits the stream operation described by
    [data]. *)
Definition stream_submission (data : delayed_notification_request_t) : event :=
  if dn_send data then
    ev_ucp_stream_send_nbx (dn_ep data) (dn_buffer data) (dn_length data)
      (set_cb (cb_send stream_send_callback) (initial_param (dn_request data)))
  else
    ev_ucp_stream_recv_nbx (dn_ep data) (dn_buffer data) (dn_length data)
      (set_cb (cb_recv_stream stream_recv_callback)
         (set_flags UCP.STREAM_RECV_FLAG_WAITALL
            (set_op_attr_mask (λ m, Z.lor m UCP.OP_ATTR_FIELD_FLAGS)
               (initial_param (dn_request data))))).

(** The thread running in [w] is the one that drives [worker]. *)
Definition on_owning_thread (w : World) (worker : ptr) : Prop :=
  ∃ wk, w_components w !! worker = Some (CWorker wk)
        ∧ w_thread w = wk_progress_thread wk.

(** [request] waits in the delayed-notification queue of [worker]. *)
Definition delayed (w : World) (worker request : ptr) : Prop :=
  ∃ wk data, w_components w !! worker = Some (CWorker wk)
             ∧ populate_stream data ∈ wk_delayed wk
             ∧ dn_request data = request.

(** [request] has been handed to the transport: the trace holds a send or
    receive whose user data it is. *)
Definition submitted (w : World) (request : ptr) : Prop :=
  ∃ e param, e ∈ w_trace w ∧ submission e = Some param ∧ user_data param = request.

(** The worker pointer is null, or the worker it points to has no
    transport handle. *)
Definition worker_lacks_handle (w : World) (worker : ptr) : Prop :=
  worker = NULL
  ∨ ∃ wk, w_components w !! worker = Some (CWorker wk) ∧ wk_handle wk = NULL.

Definition listener_lacks_handle (w : World) (listener : ptr) : Prop :=
  listener = NULL
  ∨ ∃ l, w_components w !! listener = Some (CListener l) ∧ ls_handle l = NULL.

(** The listener is fine, but the worker behind it is missing or has no
    transport handle. *)
Definition listener_on_bad_worker (w : World) (listener : ptr) : Prop :=
  ∃ l, w_components w !! listener = Some (CListener l)
       ∧ ls_handle l ≠ NULL
       ∧ match w_components w !! ls_parent l with
         | Some (CWorker wk) => wk_handle wk = NULL
         | _ => True
         end.

(** ** The destructor *)

Definition is_progress (e : event) : bool :=
  match e with ev_ucp_worker_progress _ => true | _ => false end.

(** What a completion callback adds to the trace: notifications,
    trace-level log lines, and the free of the transport's request it was
    called for. *)
Definition completing (e : event) : bool :=
  match e with
  | ev_future_notify _ _ | ev_user_callback _ _ | ev_log LOG_TRACE_REQ _ _
  | ev_ucp_request_free _ => true
  | _ => false
  end.

(** The calls the loop of the destructor makes itself: status checks and
    progress steps. *)
Definition is_loop_call (e : event) : bool :=
  match e with
  | ev_ucp_request_check_status _ | ev_ucp_worker_progress _ => true
  | _ => false
  end.

(** How many progress steps the trace records. *)
Definition progress_count (t : list event) : nat :=
  length (filter (λ e, is_progress e) t).

(** The calls into UCP of [k] turns of the destructor's loop, followed by
    the check that ends it. *)
Definition close_loop (status : Z) (worker_handle : ptr) (k : nat) : list event :=
  mjoin (replicate k [ev_ucp_request_check_status status;
                      ev_ucp_worker_progress worker_handle])
  ++ [ev_ucp_request_check_status status].

(** The transport finishes the close request [status] within [n] progress
    steps after the trace [t0], and only completes requests that exist. *)
Record close_completes (w : World) (t0 : list event) (n : nat) : Prop := {
  completes_close :
    ∀ t, (progress_count t0 + n ≤ progress_count t)%nat →
         env_check_status (w_env w) t ≠ UCS.INPROGRESS;
  completes_known :
    ∀ t f request st arg,
      (f, request, st, arg) ∈ env_completions (w_env w) t →
      is_Some (w_requests w !! arg)
}.

(** [w'] is [w] with some registries, workers and listeners destroyed:
    those that are gone nothing in [w'] holds any more, and nothing else
    has changed. *)
Record prunes (w w' : World) : Prop := {
  prunes_env : w_env w' = w_env w;
  prunes_thread : w_thread w' = w_thread w;
  prunes_trace : w_trace w' = w_trace w;
  prunes_next : w_next w' = w_next w;
  prunes_endpoints : w_endpoints w' = w_endpoints w;
  prunes_callback_data : w_callback_data w' = w_callback_data w;
  prunes_requests : w_requests w' = w_requests w;
  prunes_handles : w_handles w' = w_handles w;
  prunes_callers : w_callers w' = w_callers w;
  prunes_inflight : w_inflight w' ⊆ w_inflight w;
  prunes_components : w_components w' ⊆ w_components w;
  prunes_registries_unheld :
    ∀ i, is_Some (w_inflight w !! i) → w_inflight w' !! i = None →
         registry_held i w' = false;
  prunes_components_unheld :
    ∀ p, is_Some (w_components w !! p) → w_components w' !! p = None →
         component_held p w' = false
}.

(** [w'] is [w] after the endpoint at [this] has been destroyed with its
    members: the endpoint and its callback data are gone, and with them
    the registries, workers and listeners that nothing holds any more. *)
Definition destroyed (this : ptr) (self : UCXXEndpoint) (w w' : World) : Prop :=
  prunes
    (set_endpoints (delete this)
       (set_callback_data (delete (_callbackData self)) w))
    w'.

(** ** The registry invariant *)

(** The request handle at [req] can be found in the registry it was given:
    the registry holds a weak reference to it under its own address. *)
Definition discoverable (w : World) (req : ptr) : Prop :=
  ∃ h registry,
    w_handles w !! req = Some h
    ∧ w_inflight w !! req_inflight h = Some registry
    ∧ registry !! req = Some (Weak req).

(** Every live handle whose request has not reached a terminal state is
    discoverable. *)
Definition registered (w : World) : Prop :=
  ∀ req h rq,
    w_handles w !! req = Some h →
    w_requests w !! req_request h = Some rq →
    ¬ terminal rq →
    discoverable w req.

(** Addresses from [w_next w] on are unused: nothing lives there and no
    registry has an entry under them. *)
Definition fresh_from_next (w : World) : Prop :=
  ∀ k, w_next w ≤ k →
    w_requests w !! k = None
    ∧ w_handles w !! k = None
    ∧ w_inflight w !! k = None
    ∧ ∀ i registry, w_inflight w !! i = Some registry → registry !! k = None.

(** Every endpoint has its registry. *)
Definition endpoints_have_registry (w : World) : Prop :=
  ∀ this self,
    w_endpoints w !! this = Some self →
    is_Some (w_inflight w !! _inflightRequests self).

(** Every send or receive the trace records carries the wait-all flag
    exactly when it is a stream receive. *)
Definition well_flagged (e : event) : bool :=
  match submission e with
  | Some param => bool_decide (waitall param = is_stream_recv e)
  | None => true
  end.

Record consistent (w : World) : Prop := {
  consistent_fresh : fresh_from_next w;
  consistent_alive : requests_alive w;
  consistent_endpoints : endpoints_have_registry w;
  consistent_registered : registered w;
  consistent_flags : Forall (λ e, well_flagged e = true) (w_trace w)
}.

(** From a consistent world satisfying [P], the computation [m] either
    returns a value and a consistent world satisfying [Q], or throws and
    leaves a consistent world; nothing is said when its behaviour is
    undefined. *)
Definition triple {A} (P : World → Prop) (m : M A) (Q : A → World → Prop) : Prop :=
  ∀ w o w',
    consistent w → P w → m w = (o, w') →
    match o with
    | Returned a => consistent w' ∧ Q a w'
    | Thrown _ => consistent w'
    | Undefined => True
    end.

(** The registry at [i] has just been made by a constructor that has not
    finished: it is empty and no endpoint refers to it yet. *)
Definition scratch (i : ptr) (w : World) : Prop :=
  w_inflight w !! i = Some ∅
  ∧ ∀ this self, w_endpoints w !! this = Some self → _inflightRequests self ≠ i.

(** [m] touches neither registries nor endpoints. *)
Definition untouched {A} (m : M A) : Prop :=
  ∀ w, w_inflight (m w).2 = w_inflight w ∧ w_endpoints (m w).2 = w_endpoints w.

(** [m] keeps the world consistent. *)
Definition keeps {A} (m : M A) : Prop := triple (λ _, True) m (λ _ _, True).

(** What is asked of [tag_msg]: it keeps the world consistent and the
    request it returns exists. *)
Definition tag_msg_well_behaved
    (tag_msg : ptr → ptr → bool → ptr → Z → Z → option Z → ptr → M ptr) : Prop :=
  ∀ worker ep send buffer length tag callbackFunction callbackData,
    triple (λ _, True)
      (tag_msg worker ep send buffer length tag callbackFunction callbackData)
      (λ request w, is_Some (w_requests w !! request)).

(** What can happen between the creation of a request and its end: calls
    on endpoints from their owners, error callbacks and progress from the
    transport side, queue drains, handles dropped, endpoints created and
    destroyed. *)
Inductive operation :=
| op_stream_send (this buffer : ptr) (length : Z)
| op_stream_recv (this buffer : ptr) (length : Z)
| op_tag_send (this buffer : ptr) (length tag : Z) (callbackFunction : option Z)
    (callbackData : ptr)
| op_tag_recv (this buffer : ptr) (length tag : Z) (callbackFunction : option Z)
    (callbackData : ptr)
| op_setCloseCallback (this : ptr) (closeCallback : option Z) (closeCallbackArg : ptr)
| op_isAlive (this : ptr)
| op_raiseOnError (this : ptr)
| op_getHandle (this : ptr)
| op_err_cb (arg ep : ptr) (status : Z)
| op_progress (worker : ptr)
| op_drainDelayed (worker : ptr)
| op_release (req : ptr)
| op_destructor (fuel : nat) (this : ptr)
| op_createEndpointFromHostname (worker : ptr) (ip_address : string) (port : Z)
    (endpoint_error_handling : bool)
| op_createEndpointFromConnRequest (listener conn_request : ptr)
    (endpoint_error_handling : bool)
| op_createEndpointFromWorkerAddress (worker : ptr) (address : option UCXXAddress)
    (endpoint_error_handling : bool).

(** The caller catches what [m] throws and drops what it returns. *)
Definition attempt {A} (m : M A) : M unit :=
  λ w, match m w with
       | (Returned _, w') | (Thrown _, w') => (Returned tt, w')
       | (Undefined, w') => (Undefined, w')
       end.

Definition run_op
    (tag_msg : ptr → ptr → bool → ptr → Z → Z → option Z → ptr → M ptr)
    (op : operation) : M unit :=
  match op with
  | op_stream_send this buffer length =>
      attempt (UCXXEndpoint.stream_send this buffer length)
  | op_stream_recv this buffer length =>
      attempt (UCXXEndpoint.stream_recv this buffer length)
  | op_tag_send this buffer length tag callbackFunction callbackData =>
      attempt (UCXXEndpoint.tag_send tag_msg this buffer length tag
                 callbackFunction callbackData)
  | op_tag_recv this buffer length tag callbackFunction callbackData =>
      attempt (UCXXEndpoint.tag_recv tag_msg this buffer length tag
                 callbackFunction callbackData)
  | op_setCloseCallback this closeCallback closeCallbackArg =>
      attempt (UCXXEndpoint.setCloseCallback this closeCallback closeCallbackArg)
  | op_isAlive this => attempt (UCXXEndpoint.isAlive this)
  | op_raiseOnError this => attempt (UCXXEndpoint.raiseOnError this)
  | op_getHandle this => attempt (UCXXEndpoint.getHandle this)
  | op_err_cb arg ep status => attempt (_err_cb arg ep status)
  | op_progress worker => attempt (UCXXWorker.progress worker)
  | op_drainDelayed worker => attempt (drainDelayed worker)
  | op_release req => attempt (UCXXRequest.release req)
  | op_destructor fuel this => attempt (UCXXEndpoint.destructor fuel this)
  | op_createEndpointFromHostname worker ip_address port endpoint_error_handling =>
      attempt (createEndpointFromHostname worker ip_address port endpoint_error_handling)
  | op_createEndpointFromConnRequest listener conn_request endpoint_error_handling =>
      attempt (createEndpointFromConnRequest listener conn_request
                 endpoint_error_handling)
  | op_createEndpointFromWorkerAddress worker address endpoint_error_handling =>
      attempt (createEndpointFromWorkerAddress worker address endpoint_error_handling)
  end.

Fixpoint run_ops
    (tag_msg : ptr → ptr → bool → ptr → Z → Z → option Z → ptr → M ptr)
    (ops : list operation) : M unit :=
  match ops with
  | [] => ret tt
  | op :: ops' =>
      do! run_op tag_msg op in
      run_ops tag_msg ops'
  end.

(** A check of [registered] for one handle, by computation. *)
Definition registered_at (w : World) (req : ptr) (h : UCXXRequest) : bool :=
  match w_requests w !! req_request h with
  | Some rq =>
      if bool_decide (rq_status rq = UCS.INPROGRESS) then
        match w_inflight w !! req_inflight h with
        | Some registry => bool_decide (registry !! req = Some (Weak req))
        | None => false
        end
      else true
  | None => true
  end.

(** ** Sample worlds *)

(** A transport that accepts everything at once. *)
Definition env_prompt : environment :=
  {| env_ep_create := λ _, (UCS.OK, 21);
     env_status_ptr := λ _, UCS.OK;
     env_check_status := λ _, UCS.OK;
     env_completions := λ _, [];
     env_gethostbyname := λ _, Some "node0";
     env_sockaddr_utils_set := λ _ _, 0;
     env_status_string := λ _, "status";
     env_show_ptr := λ _, "0x15" |}.

(** One worker (at 10) that the caller holds, one endpoint on it (at 20,
    transport handle 21) with its callback data (at 30) and its registry
    (at 40).  The registry
    observes a request still in progress (handle 50, request 60), a
    completed one (handle 51, request 62) and one whose handle is gone
    (52).  A close callback (7, argument 70) is set. *)
Definition sample (env : environment) (error_handling : bool) (status : Z) : World :=
  {| w_env := env;
     w_thread := 1;
     w_trace := [];
     w_next := 100;
     w_components :=
       {[ 10 := CWorker {| wk_handle := 11; wk_progress_thread := 1;
                           wk_delayed := [] |} ]};
     w_endpoints :=
       {[ 20 := {| _handle := 21; _endpoint_error_handling := error_handling;
                   _callbackData := 30; _inflightRequests := 40; _parent := 10 |} ]};
     w_callback_data :=
       {[ 30 := {| ecd_status := status; ecd_inflightRequests := 40;
                   ecd_closeCallback := Some 7; ecd_closeCallbackArg := 70;
                   ecd_worker := 10 |} ]};
     w_inflight := {[ 40 := {[ 50 := Weak 50; 51 := Weak 51; 52 := Weak 52 ]} ]};
     w_requests :=
       {[ 60 := {| rq_status := UCS.INPROGRESS; rq_py_future := 61;
                   rq_callback := None; rq_callback_data := NULL |};
          62 := {| rq_status := UCS.OK; rq_py_future := 63;
                   rq_callback := None; rq_callback_data := NULL |} ]};
     w_handles :=
       {[ 50 := {| req_endpoint := 20; req_inflight := 40; req_request := 60;
                   req_use_count := 1 |};
          51 := {| req_endpoint := 20; req_inflight := 40; req_request := 62;
                   req_use_count := 1 |} ]};
     w_callers := {[ 10 ]} |}.

Definition sample_data (status : Z) : error_callback_data_t :=
  {| ecd_status := status; ecd_inflightRequests := 40;
     ecd_closeCallback := Some 7; ecd_closeCallbackArg := 70; ecd_worker := 10 |}.

Definition sample_registry : gmap Z weak_ptr :=
  {[ 50 := Weak 50; 51 := Weak 51; 52 := Weak 52 ]}.

Definition sample_endpoint (error_handling : bool) : UCXXEndpoint :=
  {| _handle := 21; _endpoint_error_handling := error_handling;
     _callbackData := 30; _inflightRequests := 40; _parent := 10 |}.

(** The sample world with a listener (at 12) on a worker (at 13) that has
    no transport handle. *)
Definition sample_uninitialized : World :=
  set_components
    (λ cs, <[12 := CListener {| ls_handle := 14; ls_parent := 13 |}]>
             (<[13 := CWorker {| wk_handle := NULL; wk_progress_thread := 1;
                                 wk_delayed := [] |}]> cs))
    (sample env_prompt true UCS.OK).

(** The sample world with nothing in flight. *)
Definition sample_idle (env : environment) : World :=
  {| w_env := env;
     w_thread := 1;
     w_trace := [];
     w_next := 100;
     w_components := w_components (sample env true UCS.OK);
     w_endpoints := w_endpoints (sample env true UCS.OK);
     w_callback_data := w_callback_data (sample env true UCS.OK);
     w_inflight := {[ 40 := ∅ ]};
     w_requests := ∅;
     w_handles := ∅;
     w_callers := {[ 10 ]} |}.

(** A transport whose close request (at 4096) stays in progress until the
    worker has progressed twice. *)
Definition env_slow_close : environment :=
  {| env_ep_create := λ _, (UCS.OK, 21);
     env_status_ptr := λ _, 4096;
     env_check_status :=
       λ t, if (progress_count t <? 2)%nat then UCS.INPROGRESS else UCS.OK;
     env_completions := λ _, [];
     env_gethostbyname := λ _, Some "node0";
     env_sockaddr_utils_set := λ _ _, 0;
     env_status_string := λ _, "status";
     env_show_ptr := λ _, "0x15" |}.

(** A caller issues a stream send, drops the handle it got back, and the
    endpoint is then destroyed. *)
Definition abandon_then_destroy : M (option unit) :=
  let! req := UCXXEndpoint.stream_send 20 500 1024 in
  do! UCXXRequest.release req in
  UCXXEndpoint.destructor 0 20.

(** The idle sample world after a caller has issued a stream send and
    dropped the handle it got back: the request (at 100) waits in the
    worker's queue, and no handle is left. *)
Definition sample_abandoned (env : environment) : World :=
  ((let! req := UCXXEndpoint.stream_send 20 500 1024 in
    UCXXRequest.release req) (sample_idle env)).2.

(** A stand-in for [tag_msg], which is not among the sources: it defers
    the operation the way [stream_msg] does. *)
Definition sample_tag_msg (worker ep : ptr) (send : bool) (buffer : ptr)
    (length tag : Z) (callbackFunction : option Z) (callbackData : ptr) : M ptr :=
  stream_msg worker ep send buffer length.

(** The transport reports a connection reset on the sample endpoint; the
    caller then issues a stream send on it, and the worker runs the queue
    entry of that send. *)
Definition send_after_reset : M ptr :=
  do! _err_cb 30 21 UCS.ERR_CONNECTION_RESET in
  UCXXEndpoint.stream_send 20 500 1024.

Definition send_after_reset_then_populate : M unit :=
  do! send_after_reset in
  populate_delayed_notification_stream_request
    {| dn_worker := 11; dn_ep := 21; dn_send := true; dn_buffer := 500;
       dn_length := 1024; dn_request := 100 |}.

(** * Further vocabulary: statuses, registrations, traces *)

(** The status the callback data holds after [_err_cb] has run for each of
    [calls]: that of the last call, or the one it held when there was
    none. *)
Definition latest_status (calls : list (ptr * Z)) (status : Z) : Z :=
  default status (snd <$> last calls).

(** The invocation of the close callback registered as
    [(closeCallback, closeCallbackArg)], if it is a callable at all. *)
Definition registration_events (closeCallback : option Z) (closeCallbackArg : ptr)
    : list event :=
  match closeCallback with
  | Some f => [ev_close_callback f closeCallbackArg]
  | None => []
  end.

(** ** Further sample worlds *)

(** A second endpoint (at 22, transport handle 23) on the worker of the
    sample world, with its own callback data (at 31) and registry (at 41). *)
Definition second_endpoint : UCXXEndpoint :=
  {| _handle := 23; _endpoint_error_handling := true;
     _callbackData := 31; _inflightRequests := 41; _parent := 10 |}.

Definition second_data : error_callback_data_t :=
  {| ecd_status := UCS.OK; ecd_inflightRequests := 41;
     ecd_closeCallback := None; ecd_closeCallbackArg := NULL; ecd_worker := 10 |}.

Definition sample_pair (env : environment) (status : Z) : World :=
  set_inflight <[41 := ∅]>
    (set_callback_data <[31 := second_data]>
       (set_endpoints <[22 := second_endpoint]> (sample env true status))).

(** ** Creating an endpoint *)

(** The call of [ucp_ep_create] the constructor makes: the parameters it
    was given, with the error-handling mode, [_err_cb] and the address of
    the callback data written into them. *)
Definition creation (worker_handle : ptr) (params : ucp_ep_params_t)
    (endpoint_error_handling : bool) (callbackData : ptr) : event :=
  ev_ucp_ep_create worker_handle
    (set_err_handling
       (if endpoint_error_handling then UCP.ERR_HANDLING_MODE_PEER
        else UCP.ERR_HANDLING_MODE_NONE)
       err_cb__err_cb callbackData params).

(** The callback data a new endpoint starts with. *)
Definition initial_data (inflightRequests worker : ptr) : error_callback_data_t :=
  {| ecd_status := UCS.OK; ecd_inflightRequests := inflightRequests;
     ecd_closeCallback := None; ecd_closeCallbackArg := NULL; ecd_worker := worker |}.

(** The endpoint the constructor builds at [w_next w]: its registry comes
    right after it, its callback data after that. *)
Definition new_endpoint (worker_or_listener : ptr) (wk : UCXXWorker)
    (params : ucp_ep_params_t) (endpoint_error_handling : bool) (w : World)
    : UCXXEndpoint :=
  {| _handle :=
       (env_ep_create (w_env w)
          (w_trace w ++ [creation (wk_handle wk) params endpoint_error_handling
                           (w_next w + 1 + 1)])).2;
     _endpoint_error_handling := endpoint_error_handling;
     _callbackData := w_next w + 1 + 1;
     _inflightRequests := w_next w + 1;
     _parent := worker_or_listener |}.

(** The world after the constructor has returned. *)
Definition after_constructor (worker_or_listener worker : ptr) (wk : UCXXWorker)
    (params : ucp_ep_params_t) (endpoint_error_handling : bool) (w : World) : World :=
  {| w_env := w_env w;
     w_thread := w_thread w;
     w_trace :=
       w_trace w ++ [creation (wk_handle wk) params endpoint_error_handling
                       (w_next w + 1 + 1)];
     w_next := w_next w + 1 + 1 + 1;
     w_components := w_components w;
     w_endpoints :=
       <[w_next w := new_endpoint worker_or_listener wk params endpoint_error_handling w]>
         (w_endpoints w);
     w_callback_data :=
       <[w_next w + 1 + 1 := initial_data (w_next w + 1) worker]> (w_callback_data w);
     w_inflight := <[w_next w + 1 := ∅]> (w_inflight w);
     w_requests := w_requests w;
     w_handles := w_handles w;
     w_callers := w_callers w |}.

(** The parameters each factory hands to the constructor. *)
Definition hostname_params (h_name : string) (port : Z) : ucp_ep_params_t :=
  set_sockaddr (Some (h_name, port))
    (set_ep_flags UCP.EP_PARAMS_FLAGS_CLIENT_SERVER
       (set_field_mask
          (Z.lor (Z.lor (Z.lor UCP.EP_PARAM_FIELD_FLAGS UCP.EP_PARAM_FIELD_SOCK_ADDR)
                        UCP.EP_PARAM_FIELD_ERR_HANDLING_MODE)
                 UCP.EP_PARAM_FIELD_ERR_HANDLER)
          new_ucp_ep_params_t)).

Definition conn_request_params (conn_request : ptr) : ucp_ep_params_t :=
  set_conn_request conn_request
    (set_ep_flags UCP.EP_PARAMS_FLAGS_NO_LOOPBACK
       (set_field_mask
          (Z.lor (Z.lor (Z.lor UCP.EP_PARAM_FIELD_FLAGS UCP.EP_PARAM_FIELD_CONN_REQUEST)
                        UCP.EP_PARAM_FIELD_ERR_HANDLING_MODE)
                 UCP.EP_PARAM_FIELD_ERR_HANDLER)
          new_ucp_ep_params_t)).

Definition worker_address_params (address_handle : ptr) : ucp_ep_params_t :=
  set_address address_handle
    (set_field_mask
       (Z.lor (Z.lor UCP.EP_PARAM_FIELD_REMOTE_ADDRESS UCP.EP_PARAM_FIELD_ERR_HANDLING_MODE)
              UCP.EP_PARAM_FIELD_ERR_HANDLER)
       new_ucp_ep_params_t).


(** The sample world with a listener (at 12, transport handle 14) on its
    worker (at 10). *)
Definition sample_listening (env : environment) : World :=
  set_components <[12 := CListener {| ls_handle := 14; ls_parent := 10 |}]>
    (sample env true UCS.OK).

(** ** What a computation adds to the trace *)

(** Whatever the world [m] starts in and however it ends (returning,
    throwing, or running into undefined behaviour), the trace it leaves is
    the one it found followed by events that [P] permits. *)
Definition appends (P : event → bool) {A} (m : M A) : Prop :=
  ∀ w, ∃ evs, w_trace (m w).2 = w_trace w ++ evs ∧ Forall (λ e, P e = true) evs.

Definition is_close (e : event) : bool :=
  match e with ev_ucp_ep_close_nb _ _ => true | _ => false end.

(** The call into UCP that submits the tag operation described by
    [data]. *)
Definition tag_submission (data : NotificationRequest) : event :=
  if nr_send data then
    ev_ucp_tag_send_nbx (nr_ep data) (nr_buffer data) (nr_length data) (nr_tag data)
      (set_cb (cb_send tag_send_callback) (initial_param (nr_request data)))
  else
    ev_ucp_tag_recv_nbx (nr_worker data) (nr_buffer data) (nr_length data)
      (nr_tag data) UCXXRequestTag.tag_mask
      (set_cb (cb_recv tag_recv_callback) (initial_param (nr_request data))).

(** The parameters one of the three factories builds. *)
Inductive factory_made : ucp_ep_params_t → Prop :=
| made_from_hostname h_name port : factory_made (hostname_params h_name port)
| made_from_conn_request incoming : factory_made (conn_request_params incoming)
| made_from_worker_address address_handle :
    address_handle ≠ NULL → factory_made (worker_address_params address_handle).

(** [P] permits every call into UCP the endpoint code can make: progress
    steps, status checks and frees of close requests, forced closes, the
    submissions of queue entries, and [ucp_ep_create] on a worker handle
    that is not null with parameters a factory built; and everything that
    is no call into UCP. *)
Record permits (P : event → bool) : Prop := {
  permits_internal : ∀ e, is_transport e = false → P e = true;
  permits_progress : ∀ worker_handle, P (ev_ucp_worker_progress worker_handle) = true;
  permits_check : ∀ req, P (ev_ucp_request_check_status req) = true;
  permits_free : ∀ req, P (ev_ucp_request_free req) = true;
  permits_close : ∀ ep, P (ev_ucp_ep_close_nb ep UCP.EP_CLOSE_MODE_FORCE) = true;
  permits_stream : ∀ data, P (stream_submission data) = true;
  permits_tag : ∀ data, P (tag_submission data) = true;
  permits_creation :
    ∀ worker_handle params endpoint_error_handling callbackData,
      worker_handle ≠ NULL →
      factory_made params →
      P (creation worker_handle params endpoint_error_handling callbackData) = true
}.

(** What is asked of [tag_msg] for a trace property [P]: it adds only
    events that [P] permits. *)
Definition tag_msg_appends (P : event → bool)
    (tag_msg : ptr → ptr → bool → ptr → Z → Z → option Z → ptr → M ptr) : Prop :=
  ∀ worker ep send buffer length tag callbackFunction callbackData,
    appends P (tag_msg worker ep send buffer length tag callbackFunction callbackData).

(** ** Well-formed calls into UCP *)

(** The bit [field] is set in the parameters' [field_mask], so UCP reads
    the member it stands for. *)
Definition announces (field : Z) (params : ucp_ep_params_t) : bool :=
  negb (Z.land (field_mask params) field =? 0).

(** How the parameters say which peer to connect to. *)
Inductive target := to_remote_address | to_sock_addr | to_conn_request.

#[global] Instance target_eq_dec : EqDecision target.
Proof. solve_decision. Defined.

Definition targets (params : ucp_ep_params_t) : list target :=
  (if announces UCP.EP_PARAM_FIELD_REMOTE_ADDRESS params then [to_remote_address] else [])
  ++ (if announces UCP.EP_PARAM_FIELD_SOCK_ADDR params then [to_sock_addr] else [])
  ++ (if announces UCP.EP_PARAM_FIELD_CONN_REQUEST params then [to_conn_request] else []).

#[global] Instance ucp_err_handler_cb_eq_dec : EqDecision ucp_err_handler_cb.
Proof. solve_decision. Defined.

#[global] Instance ucp_callback_eq_dec : EqDecision ucp_callback.
Proof. solve_decision. Defined.

#[global] Instance ucp_cb_eq_dec : EqDecision ucp_cb.
Proof. solve_decision. Defined.

(** A call of [ucp_ep_create] as the factories mean it: on a worker
    handle, with [_err_cb] installed and announced, and with exactly one
    way to name the peer, filled in. *)
Definition creation_conforms (worker_handle : ptr) (params : ucp_ep_params_t) : bool :=
  negb (bool_decide (worker_handle = NULL))
  && bool_decide (err_handler_cb params = err_cb__err_cb)
  && (bool_decide (err_mode params = UCP.ERR_HANDLING_MODE_PEER)
      || bool_decide (err_mode params = UCP.ERR_HANDLING_MODE_NONE))
  && announces UCP.EP_PARAM_FIELD_ERR_HANDLING_MODE params
  && announces UCP.EP_PARAM_FIELD_ERR_HANDLER params
  && match targets params with
     | [to_remote_address] =>
         negb (bool_decide (address params = NULL))
         && bool_decide (sockaddr params = None)
         && negb (announces UCP.EP_PARAM_FIELD_FLAGS params)
     | [to_sock_addr] =>
         bool_decide (is_Some (sockaddr params))
         && announces UCP.EP_PARAM_FIELD_FLAGS params
         && bool_decide (ep_flags params = UCP.EP_PARAMS_FLAGS_CLIENT_SERVER)
     | [to_conn_request] =>
         bool_decide (sockaddr params = None)
         && announces UCP.EP_PARAM_FIELD_FLAGS params
         && bool_decide (ep_flags params = UCP.EP_PARAMS_FLAGS_NO_LOOPBACK)
     | _ => false
     end.

Definition creates_conforming (e : event) : bool :=
  match e with
  | ev_ucp_ep_create worker_handle params => creation_conforms worker_handle params
  | _ => true
  end.

(** The member of the [cb] union each kind of transfer completes
    through. *)
Definition completion_of (e : event) : ucp_cb :=
  match e with
  | ev_ucp_stream_send_nbx _ _ _ _ => cb_send stream_send_callback
  | ev_ucp_stream_recv_nbx _ _ _ _ => cb_recv_stream stream_recv_callback
  | ev_ucp_tag_send_nbx _ _ _ _ _ => cb_send tag_send_callback
  | ev_ucp_tag_recv_nbx _ _ _ _ _ _ => cb_recv tag_recv_callback
  | _ => cb_unset
  end.

(** The bit [field] is set in the request parameters' [op_attr_mask]. *)
Definition attribute (field : Z) (param : ucp_request_param_t) : bool :=
  negb (Z.land (op_attr_mask param) field =? 0).

(** A send or receive described as single contiguous bytes, with its
    callback, datatype and user data announced, completing through the
    callback of its own kind; a tag receive matching on all 64 bits. *)
Definition submits_conforming (e : event) : bool :=
  match submission e with
  | Some param =>
      bool_decide (datatype param = UCP.dt_make_contig 1)
      && attribute UCP.OP_ATTR_FIELD_CALLBACK param
      && attribute UCP.OP_ATTR_FIELD_DATATYPE param
      && attribute UCP.OP_ATTR_FIELD_USER_DATA param
      && bool_decide (cb param = completion_of e)
      && match e with
         | ev_ucp_tag_recv_nbx _ _ _ _ tag_mask _ => bool_decide (tag_mask = 2 ^ 64 - 1)
         | _ => true
         end
  | None => true
  end.

(** ** Releasing the endpoint parameters *)

(** What [EpParamsDeleter] asks of [sockaddr_utils.h]. *)
Inductive sockaddr_call := sockaddr_utils_free (addr : option (string * Z)).

(** [EpParamsDeleter::operator()]: the calls it makes on [ptr], which may
    be null;
    [if (ptr != nullptr && ptr->field_mask & UCP_EP_PARAM_FIELD_SOCK_ADDR)
       sockaddr_utils_free(&ptr->sockaddr);] *)
Definition EpParamsDeleter (ptr : option ucp_ep_params_t) : list sockaddr_call :=
  match ptr with
  | Some params =>
      if negb (Z.land (field_mask params) UCP.EP_PARAM_FIELD_SOCK_ADDR =? 0)
      then [sockaddr_utils_free (sockaddr params)]
      else []
  | None => []
  end.

(** One of each factory, a stream receive and a tag send on the sample
    endpoint, and a drain of the worker's queue. *)
Definition sample_session : list operation :=
  [op_createEndpointFromHostname 10 "10.0.0.1" 4000 true;
   op_createEndpointFromConnRequest 12 900 false;
   op_createEndpointFromWorkerAddress 10
     (Some {| addr_handle := 910; addr_length := 64 |}) true;
   op_stream_recv 20 500 1024;
   op_tag_send 20 600 64 5 None NULL;
   op_drainDelayed 10].

(** The listening sample world with a tag receive for the request at 60
    already waiting in the worker's queue. *)
Definition sample_tagged (env : environment) : World :=
  set_components
    <[10 := CWorker
              {| wk_handle := 11; wk_progress_thread := 1;
                 wk_delayed :=
                   [populate_tag {| nr_worker := 11; nr_ep := 21; nr_send := false;
                                    nr_buffer := 700; nr_length := 32; nr_tag := 5;
                                    nr_request := 60 |}] |}]>
    (sample_listening env).

Definition is_ep_create (e : event) : bool :=
  match e with ev_ucp_ep_create _ _ => true | _ => false end.

(** Neither a close nor a creation of a transport endpoint. *)
Definition no_endpoint_call (e : event) : bool :=
  negb (is_close e) && negb (is_ep_create e).

(** The sample world whose endpoint never got a transport handle. *)
Definition sample_unconnected : World :=
  set_endpoints
    <[20 := {| _handle := NULL; _endpoint_error_handling := true;
               _callbackData := 30; _inflightRequests := 40; _parent := 10 |}]>
    (sample env_slow_close true UCS.OK).

(** ** What a computation leaves alone *)

(** [m] never throws and never changes what [f] reads off the world,
    whatever world it starts in and however it ends. *)
Definition calm {X A} (f : World → X) (m : M A) : Prop :=
  ∀ w, f (m w).2 = f w ∧ ∀ e, (m w).1 ≠ Thrown e.

(** What a progress step has no business with: workers and listeners,
    endpoints, their callback data, the request handles, what the callers
    hold, and which registries there are. *)
Definition objects (w : World)
    : gmap Z UCXXComponent * gmap Z UCXXEndpoint * gmap Z error_callback_data_t
      * gmap Z UCXXRequest * gset Z * gset Z :=
  (w_components w, w_endpoints w, w_callback_data w, w_handles w, w_callers w,
   dom (w_inflight w)).

(** Whatever has lost its last holder between [w] and [w'] is gone in
    [w']: nothing is left behind that nobody can reach. *)
Record collects (w w' : World) : Prop := {
  collects_registries :
    ∀ i, registry_held i w = true → registry_held i w' = false →
         w_inflight w' !! i = None;
  collects_components :
    ∀ p, component_held p w = true → component_held p w' = false →
         w_components w' !! p = None
}.

(** The idle sample world when the caller has let go of the worker: the
    endpoint is the last to hold it. *)
Definition sample_last_owner : World :=
  {| w_env := env_prompt;
     w_thread := 1;
     w_trace := [];
     w_next := 100;
     w_components := w_components (sample_idle env_prompt);
     w_endpoints := w_endpoints (sample_idle env_prompt);
     w_callback_data := w_callback_data (sample_idle env_prompt);
     w_inflight := w_inflight (sample_idle env_prompt);
     w_requests := ∅;
     w_handles := ∅;
     w_callers := ∅ |}.

(** The operations of an endpoint that issue a transfer or query its
    state, as opposed to those that drive the transport (progress, queue
    drains, callbacks) or create and destroy endpoints. *)
Definition offline (op : operation) : bool :=
  match op with
  | op_stream_send _ _ _ | op_stream_recv _ _ _
  | op_tag_send _ _ _ _ _ _ | op_tag_recv _ _ _ _ _ _
  | op_setCloseCallback _ _ _ | op_isAlive _ | op_raiseOnError _ | op_getHandle _ => true
  | _ => false
  end.

(** No call into UCP. *)
Definition internal (e : event) : bool := negb (is_transport e).

(** A transport that refuses every new endpoint. *)
Definition env_refusing : environment :=
  {| env_ep_create := λ _, (UCS.ERR_CONNECTION_RESET, NULL);
     env_status_ptr := λ _, UCS.OK;
     env_check_status := λ _, UCS.OK;
     env_completions := λ _, [];
     env_gethostbyname := λ _, Some "node0";
     env_sockaddr_utils_set := λ _ _, 0;
     env_status_string := λ _, "status";
     env_show_ptr := λ _, "0x15" |}.

Definition sample_refusing : World := sample env_refusing true UCS.OK.

(** ** The link between an endpoint and its callback data *)

(** The callback data of every endpoint was allocated before [w_next w]
    and, as long as it exists, names the endpoint's own registry. *)
Definition linked (w : World) : Prop :=
  ∀ this self,
    w_endpoints w !! this = Some self →
    _callbackData self < w_next w
    ∧ ∀ data,
        w_callback_data w !! _callbackData self = Some data →
        ecd_inflightRequests data = _inflightRequests self.

(** [m] keeps endpoints linked to their callback data, however it ends. *)
Definition sustains {A} (m : M A) : Prop := ∀ w, linked w → linked (m w).2.

(** What is asked of [tag_msg] for the link. *)
Definition tag_msg_sustains
    (tag_msg : ptr → ptr → bool → ptr → Z → Z → option Z → ptr → M ptr) : Prop :=
  ∀ worker ep send buffer length tag callbackFunction callbackData,
    sustains (tag_msg worker ep send buffer length tag callbackFunction callbackData).

(** ** Counting close callbacks *)

(** The callback data holds a close callback. *)
Definition arms (entry : Z * error_callback_data_t) : Prop :=
  is_Some (ecd_closeCallback entry.2).

#[global] Instance arms_dec entry : Decision (arms entry).
Proof. unfold arms. apply _. Defined.

(** How many callback data hold a close callback. *)
Definition armed (w : World) : nat := size (filter arms (w_callback_data w)).

(** How many close callbacks the trace has seen invoked. *)
Definition close_count (t : list event) : nat :=
  length (filter (λ e, is_close_callback e) t).

(** From the world [w], the computation [m] invokes no more close
    callbacks than it finds and uses up, plus [k]. *)
Definition spends_at (k : nat) {A} (m : M A) (w : World) : Prop :=
  (close_count (w_trace (m w).2) + armed (m w).2
   ≤ close_count (w_trace w) + armed w + k)%nat.

Definition spends (k : nat) {A} (m : M A) : Prop := ∀ w, spends_at k m w.

Definition tag_msg_spends
    (tag_msg : ptr → ptr → bool → ptr → Z → Z → option Z → ptr → M ptr) : Prop :=
  ∀ worker ep send buffer length tag callbackFunction callbackData,
    spends 0 (tag_msg worker ep send buffer length tag callbackFunction callbackData).

(** Does the operation register a close callback that can be called? *)
Definition registers (op : operation) : bool :=
  match op with
  | op_setCloseCallback _ (Some _) _ => true
  | _ => false
  end.

Definition registrations (ops : list operation) : nat :=
  length (filter (λ op, registers op) ops).

(** Two error callbacks on the sample endpoint, a new registration, and
    two error callbacks more. *)
Definition sample_errors : list operation :=
  [op_err_cb 30 21 UCS.ERR_CONNECTION_RESET;
   op_err_cb 30 21 UCS.ERR_CONNECTION_RESET;
   op_setCloseCallback 20 (Some 8) 80;
   op_err_cb 30 21 UCS.ERR_ENDPOINT_TIMEOUT;
   op_err_cb 30 21 UCS.ERR_ENDPOINT_TIMEOUT].
(** * Properties *)

(** ** Running the monad *)

Lemma bind_returned {A B} (m : M A) (k : A → M B) w a w' :
  m w = (Returned a, w') → bind m k w = k a w'.
Proof. unfold bind. by intros ->. Qed.

Lemma deref_some {A} (store : World → gmap Z A) p a w :
  store w !! p = Some a → deref store p w = (Returned a, w).
Proof. unfold deref. by intros ->. Qed.

(** Two worlds with the same components are the same. *)
Lemma world_eq w1 w2 :
  w_env w1 = w_env w2 →
  w_thread w1 = w_thread w2 →
  w_trace w1 = w_trace w2 →
  w_next w1 = w_next w2 →
  w_components w1 = w_components w2 →
  w_endpoints w1 = w_endpoints w2 →
  w_callback_data w1 = w_callback_data w2 →
  w_inflight w1 = w_inflight w2 →
  w_requests w1 = w_requests w2 →
  w_handles w1 = w_handles w2 →
  w_callers w1 = w_callers w2 →
  w1 = w2.
Proof. destruct w1, w2. simpl. by intros -> -> -> -> -> -> -> -> -> -> ->. Qed.

(** ** The terminal transition *)

Lemma terminal_transition_eq request st w :
  terminal_transition request st w
  = (match w_requests w !! request with
     | Some _ => Returned tt
     | None => Undefined
     end, settled request st w).
Proof.
  unfold terminal_transition, settled, bind, deref.
  destruct (w_requests w !! request) as [rq|] eqn:E; [|done].
  destruct w; simpl in *.
  destruct (bool_decide _ && negb _); [|done].
  unfold notifications, gets, modify, emit, modify, ret, set_trace, set_requests,
    set_inflight; simpl.
  case_bool_decide; destruct (rq_callback rq); simpl;
    rewrite ?app_nil_r, <- ?app_assoc; reflexivity.
Qed.

Lemma evolves_refl allowed w : evolves allowed w w.
Proof.
  split; try done. exists []. by rewrite app_nil_r.
Qed.

Lemma evolves_trans allowed w1 w2 w3 :
  evolves allowed w1 w2 → evolves allowed w2 w3 → evolves allowed w1 w3.
Proof.
  intros Q1 Q2. destruct Q1 as [? ? ? ? ? ? ? ? (e1 & E1 & F1) R1 I1].
  destruct Q2 as [? ? ? ? ? ? ? ? (e2 & E2 & F2) R2 I2].
  split; try congruence.
  - exists (e1 ++ e2). rewrite E2, E1, app_assoc. split; [done|]. by apply Forall_app.
  - intros r. by rewrite R2.
  - intros i. by rewrite I2.
Qed.

Lemma evolves_weaken (allowed allowed' : event → bool) w w' :
  (∀ e, allowed e = true → allowed' e = true) →
  evolves allowed w w' → evolves allowed' w w'.
Proof.
  intros Hsub Q. destruct Q as [? ? ? ? ? ? ? ? (evs & E & F) ? ?].
  split; try done.
  exists evs. split; [done|].
  eapply Forall_impl; [exact F|]. done.
Qed.

Lemma quiet_refl w : quiet w w.
Proof. apply evolves_refl. Qed.

Lemma quiet_trans w1 w2 w3 : quiet w1 w2 → quiet w2 w3 → quiet w1 w3.
Proof. apply evolves_trans. Qed.

Lemma notifications_are_notifications rq st :
  Forall (λ e, is_notification e = true) (notifications rq st).
Proof.
  unfold notifications. apply Forall_app. split.
  - case_bool_decide; repeat constructor.
  - destruct (rq_callback rq); repeat constructor.
Qed.

Lemma settled_quiet request st w : quiet w (settled request st w).
Proof.
  unfold settled. destruct (w_requests w !! request) as [rq|] eqn:E;
    [|apply quiet_refl].
  destruct (bool_decide _ && negb _); [|apply quiet_refl].
  split; simpl; try done.
  - eexists. split; [done|]. apply notifications_are_notifications.
  - intros r. destruct (decide (r = request)) as [->|].
    + rewrite lookup_insert_eq, E. split; eauto.
    + by rewrite lookup_insert_ne.
  - intros i. rewrite lookup_fmap. split; intros [x Hx].
    + destruct (w_inflight w !! i); [eauto|done].
    + rewrite Hx. eauto.
Qed.

(** The status a request has after [terminal_transition request st]. *)
Lemma settled_requests request st w r :
  w_requests (settled request st w) !! r
  = if decide (r = request) then
      (λ rq, if bool_decide (rq_status rq = UCS.INPROGRESS)
                && negb (bool_decide (st = UCS.INPROGRESS))
             then with_status st rq else rq) <$> w_requests w !! r
    else w_requests w !! r.
Proof.
  unfold settled. case_decide as Hr.
  - subst r. destruct (w_requests w !! request) as [rq|] eqn:E; simpl.
    + destruct (bool_decide _ && negb _); simpl; [by rewrite lookup_insert_eq|done].
    + by rewrite E.
  - destruct (w_requests w !! request) as [rq|] eqn:E; [|done].
    destruct (bool_decide _ && negb _); [|done]. simpl. by rewrite lookup_insert_ne.
Qed.

Lemma requests_alive_quiet w w' : quiet w w' → requests_alive w → requests_alive w'.
Proof.
  intros Q Ha p h Hp. rewrite (quiet_handles _ _ _ Q) in Hp.
  apply (quiet_requests _ _ _ Q). eauto.
Qed.

(** ** Cancelling a registry *)

Lemma cancel_entries_cons k p es w :
  cancel_entries ((k, Weak p) :: es) w
  = match w_handles w !! p with
    | Some h =>
        bind (terminal_transition (req_request h) UCS.ERR_CANCELED)
             (λ _, cancel_entries es) w
    | None => cancel_entries es w
    end.
Proof.
  simpl. unfold bind at 1, gets. by destruct (w_handles w !! p).
Qed.

Lemma observed_by_cons hs k p es r :
  observed_by hs ((k, Weak p) :: es) r
  ↔ (∃ h, hs !! p = Some h ∧ req_request h = r) ∨ observed_by hs es r.
Proof.
  unfold observed_by. split.
  - intros (k' & p' & h & Hin & Hh & Hr). apply elem_of_cons in Hin as [Heq|Hin].
    + left. injection Heq as -> ->. eauto.
    + right. eauto 6.
  - intros [(h & Hh & Hr)|(k' & p' & h & Hin & Hh & Hr)].
    + exists k, p, h. split; [left|]; done.
    + exists k', p', h. split; [by right|done].
Qed.

Lemma cancel_entries_spec es w :
  requests_alive w →
  ∃ w', cancel_entries es w = (Returned tt, w') ∧ quiet w w'
    ∧ ∀ r rq, w_requests w !! r = Some rq →
        ∃ rq', w_requests w' !! r = Some rq'
          ∧ (terminal rq → rq' = rq)
          ∧ (¬ terminal rq → observed_by (w_handles w) es r →
             rq' = with_status UCS.ERR_CANCELED rq)
          ∧ (¬ observed_by (w_handles w) es r → rq' = rq).
Proof.
  revert w. induction es as [|[k [p]] es IH]; intros w Ha.
  { exists w. split; [done|]. split; [apply quiet_refl|].
    intros r rq Hr. exists rq. split; [done|]. split; [done|]. split; [|done].
    intros _ (? & ? & ? & Hin & _). by apply elem_of_nil in Hin. }
  rewrite cancel_entries_cons.
  destruct (w_handles w !! p) as [h|] eqn:Hp.
  - set (r0 := req_request h).
    destruct (Ha p h Hp) as [rq0 Hrq0]. fold r0 in Hrq0.
    pose proof (settled_quiet r0 UCS.ERR_CANCELED w) as Q1.
    destruct (IH (settled r0 UCS.ERR_CANCELED w)) as (w' & Hrun & Q2 & Hst).
    { by eapply requests_alive_quiet. }
    exists w'. split.
    { erewrite bind_returned; [exact Hrun|].
      rewrite terminal_transition_eq. by rewrite Hrq0. }
    split; [by eapply quiet_trans|].
    intros r rq Hr.
    rewrite (quiet_handles _ _ _ Q1) in Hst.
    pose proof (settled_requests r0 UCS.ERR_CANCELED w r) as Hr1.
    rewrite Hr in Hr1. simpl in Hr1.
    destruct (decide (r = r0)) as [->|Hne].
    + case_bool_decide as Hin.
      * destruct (Hst _ _ Hr1) as (rq' & Hrq' & Ht & _).
        exists rq'. split; [done|].
        rewrite (Ht ltac:(unfold terminal; simpl; done)).
        split; [intros Hterm; by destruct Hterm|]. split; [done|].
        intros Hno. destruct Hno. apply observed_by_cons. left. eauto.
      * destruct (Hst _ _ Hr1) as (rq' & Hrq' & Ht & _).
        exists rq'. split; [done|]. split; [done|].
        split; [intros Hnt; by destruct Hnt|]. intros _. by apply Ht.
    + destruct (Hst _ _ Hr1) as (rq' & Hrq' & Ht & Hc & Hn).
      exists rq'. split; [done|]. split; [done|]. split.
      * intros Hnt [(h' & Hh' & Hreq)|Ho]%observed_by_cons; [|by apply Hc].
        rewrite Hp in Hh'. injection Hh' as <-. by destruct Hne.
      * intros Hno. apply Hn. intros Ho. apply Hno, observed_by_cons. by right.
  - destruct (IH w Ha) as (w' & Hrun & Q & Hst).
    exists w'. split; [done|]. split; [done|].
    intros r rq Hr. destruct (Hst _ _ Hr) as (rq' & Hrq' & Ht & Hc & Hn).
    exists rq'. split; [done|]. split; [done|]. split.
    + intros Hnt [(h' & Hh' & _)|Ho]%observed_by_cons; [congruence|by apply Hc].
    + intros Hno. apply Hn. intros Ho. apply Hno, observed_by_cons. by right.
Qed.

(** ** The error callback *)

Lemma write_data_some arg f data w :
  w_callback_data w !! arg = Some data →
  write_data arg f w = (Returned tt, set_callback_data (alter f arg) w).
Proof.
  intros H. unfold write_data. erewrite bind_returned; [|by apply deref_some]. done.
Qed.

Lemma err_cb_run arg ep status data registry w :
  err_cb_ready arg data registry w →
  ∃ w1,
    cancel_entries (map_to_list registry) (cancelling arg status data w)
      = (Returned tt, w1)
    ∧ _err_cb arg ep status w
      = (Returned tt,
         set_trace (λ t, t ++ close_events data ++ [err_cb_log ep status])
           (set_callback_data <[arg := after_error status data]> w1)).
Proof.
  intros [Hd [wk Hw] Hr Ha].
  destruct (cancel_entries_spec (map_to_list registry) (cancelling arg status data w))
    as (w1 & Hrun & Q & _); [done|].
  exists w1. split; [done|].
  unfold _err_cb.
  erewrite bind_returned; [|by apply (write_data_some _ _ data)].
  erewrite bind_returned; cycle 1.
  { apply deref_some. simpl. rewrite lookup_alter_eq, Hd. done. }
  simpl.
  erewrite bind_returned; cycle 1.
  { unfold UCXXWorker.scheduleRequestCancel, deref_worker.
    erewrite bind_returned; cycle 1.
    { erewrite bind_returned; [|apply deref_some; simpl; exact Hw]. done. }
    erewrite bind_returned; [|done].
    erewrite bind_returned; [|apply deref_some; simpl; exact Hr].
    exact Hrun. }
  assert (w_callback_data w1 !! arg = Some (set_ecd_status status data)) as Hd1.
  { rewrite (quiet_callback_data _ _ _ Q). simpl. by rewrite lookup_alter_eq, Hd. }
  erewrite bind_returned; [|by apply deref_some].
  unfold err_cb_log, close_events, after_error.
  destruct data as [st0 infl [f|] carg wkr]; simpl in *.
  - erewrite bind_returned; cycle 1.
    { erewrite bind_returned; [|done].
      erewrite bind_returned; [|by eapply write_data_some, Hd1].
      eapply write_data_some. simpl. by rewrite lookup_alter_eq, Hd1. }
    destruct w1; unfold ucxx_log, emit, modify, set_trace, set_callback_data; simpl in *.
    assert (∀ m : gmap Z error_callback_data_t,
      m !! arg = Some (set_ecd_status status
         {| ecd_status := st0; ecd_inflightRequests := infl;
            ecd_closeCallback := Some f; ecd_closeCallbackArg := carg;
            ecd_worker := wkr |}) →
      alter (set_ecd_closeCallbackArg NULL) arg
        (alter (set_ecd_closeCallback None) arg m)
      = <[arg := {| ecd_status := status; ecd_inflightRequests := infl;
                    ecd_closeCallback := None; ecd_closeCallbackArg := NULL;
                    ecd_worker := wkr |}]> m) as Hm.
    { intros m Hmm. apply map_eq. intros i. destruct (decide (i = arg)) as [->|].
      - by rewrite !lookup_alter_eq, Hmm, lookup_insert_eq.
      - by rewrite !lookup_alter_ne, lookup_insert_ne. }
    rewrite (Hm _ Hd1).
    case_bool_decide; case_bool_decide; simpl; rewrite <- ?app_assoc; reflexivity.
  - erewrite bind_returned; [|done].
    destruct w1; unfold ucxx_log, emit, modify, set_trace, set_callback_data; simpl in *.
    rewrite (insert_id _ _ _ Hd1).
    case_bool_decide; case_bool_decide; simpl; reflexivity.
Qed.

Lemma err_cb_effect arg ep status data registry w :
  err_cb_ready arg data registry w →
  ∃ w' notes,
    _err_cb arg ep status w = (Returned tt, w')
    ∧ w_trace w'
      = w_trace w
        ++ ev_cancel_all (ecd_worker data) (ecd_inflightRequests data)
           :: notes ++ close_events data ++ [err_cb_log ep status]
    ∧ Forall (λ e, is_notification e = true) notes
    ∧ w_callback_data w' = <[arg := after_error status data]> (w_callback_data w)
    ∧ w_components w' = w_components w
    ∧ w_handles w' = w_handles w
    ∧ w_endpoints w' = w_endpoints w
    ∧ requests_alive w'
    ∧ (∀ i, is_Some (w_inflight w' !! i) ↔ is_Some (w_inflight w !! i))
    ∧ ∀ r rq, w_requests w !! r = Some rq →
        ∃ rq', w_requests w' !! r = Some rq'
          ∧ (terminal rq → rq' = rq)
          ∧ (¬ terminal rq → observed_by (w_handles w) (map_to_list registry) r →
             rq' = with_status UCS.ERR_CANCELED rq)
          ∧ (¬ observed_by (w_handles w) (map_to_list registry) r → rq' = rq).
Proof.
  intros Hready.
  destruct (err_cb_run arg ep status data registry w Hready) as (w1 & Hrun & Hcb).
  destruct Hready as [Hd [wk Hw] Hr Ha].
  destruct (cancel_entries_spec (map_to_list registry) (cancelling arg status data w))
    as (w1' & Hrun' & Q & Hst); [done|].
  rewrite Hrun in Hrun'. injection Hrun' as <-.
  destruct (quiet_trace _ _ _ Q) as (notes & Htr & Hnotes).
  eexists _, notes. split; [exact Hcb|]. simpl.
  split. { rewrite Htr. simpl. by rewrite <- !app_assoc. }
  split; [done|].
  split.
  { rewrite (quiet_callback_data _ _ _ Q). simpl. apply map_eq. intros i.
    destruct (decide (i = arg)) as [->|].
    - by rewrite !lookup_insert_eq.
    - by rewrite !lookup_insert_ne, lookup_alter_ne. }
  split; [by rewrite (quiet_components _ _ _ Q)|].
  split; [by rewrite (quiet_handles _ _ _ Q)|].
  split; [by rewrite (quiet_endpoints _ _ _ Q)|].
  split.
  { intros p h Hp. simpl in *. rewrite (quiet_handles _ _ _ Q) in Hp.
    apply (quiet_requests _ _ _ Q). simpl. eauto. }
  split; [intros i; simpl; by rewrite (quiet_inflight _ _ _ Q)|].
  exact Hst.
Qed.

(** ** Severity of the connection-error log line *)

(** C7.  An invocation of [_err_cb] writes exactly one line at error or
    debug severity.  Its severity is debug if and only if the status is
    [UCS_ERR_CONNECTION_RESET] or [UCS_ERR_ENDPOINT_TIMEOUT], and error for
    every other status. *)
Theorem err_cb_log_severity arg ep status data registry w :
  err_cb_ready arg data registry w →
  ∃ w' evs lvl,
    _err_cb arg ep status w = (Returned tt, w')
    ∧ w_trace w' = w_trace w ++ evs
    ∧ omap severity evs = [lvl]
    ∧ (lvl = LOG_DEBUG ↔
       status = UCS.ERR_CONNECTION_RESET ∨ status = UCS.ERR_ENDPOINT_TIMEOUT)
    ∧ (lvl = LOG_ERROR ↔
       ¬ (status = UCS.ERR_CONNECTION_RESET ∨ status = UCS.ERR_ENDPOINT_TIMEOUT)).
Proof.
  intros Hready.
  destruct (err_cb_effect arg ep status data registry w Hready)
    as (w' & notes & Hrun & Htr & Hnotes & _).
  exists w'. eexists.
  exists (if bool_decide (status = UCS.ERR_CONNECTION_RESET)
             || bool_decide (status = UCS.ERR_ENDPOINT_TIMEOUT)
          then LOG_DEBUG else LOG_ERROR).
  split; [exact Hrun|]. split; [exact Htr|].
  assert (omap severity notes = []) as Hn.
  { clear -Hnotes. induction Hnotes as [|e l He _ IH]; [done|].
    by destruct e. }
  assert (omap severity (close_events data) = []) as Hc.
  { unfold close_events. by destruct (ecd_closeCallback data). }
  split.
  { simpl. rewrite !omap_app, Hn, Hc. simpl. unfold err_cb_log.
    destruct (bool_decide _ || bool_decide _); reflexivity. }
  destruct (decide (status = UCS.ERR_CONNECTION_RESET)) as [->|H1].
  { simpl. split; [by split; [left|]|]. split; [done|]. intros H. destruct H. by left. }
  destruct (decide (status = UCS.ERR_ENDPOINT_TIMEOUT)) as [->|H2].
  { simpl. split; [by split; [right|]|]. split; [done|]. intros H. destruct H. by right. }
  rewrite !bool_decide_eq_false_2 by done. simpl.
  split; [split; [done|by intros []]|]. split; [by intros _ []|done].
Qed.

Lemma err_cb_ready_after arg ep status data registry w w' :
  err_cb_ready arg data registry w →
  _err_cb arg ep status w = (Returned tt, w') →
  ∃ registry', err_cb_ready arg (after_error status data) registry' w'.
Proof.
  intros Hready Hrun.
  destruct (err_cb_effect arg ep status data registry w Hready)
    as (w'' & notes & Hrun' & _ & _ & Hcb & Hco & _ & _ & Ha & Hi & _).
  rewrite Hrun in Hrun'. injection Hrun' as <-.
  destruct Hready as [Hd [wk Hw] Hr _].
  destruct (proj2 (Hi (ecd_inflightRequests data))) as [registry' Hr']; [eauto|].
  exists registry'. split; simpl.
  - by rewrite Hcb, lookup_insert_eq.
  - exists wk. by rewrite Hco.
  - done.
  - done.
Qed.

Lemma filter_close_callback_notes (notes : list event) :
  Forall (λ e, is_notification e = true) notes →
  filter (λ e, is_close_callback e) notes = [].
Proof.
  induction 1 as [|e l He _ IH]; [done|].
  rewrite filter_cons, IH. by destruct e.
Qed.

Lemma filter_close_callback_events data :
  filter (λ e, is_close_callback e) (close_events data) = close_events data.
Proof. unfold close_events. by destruct (ecd_closeCallback data). Qed.

Lemma err_cb_close_events arg ep status data registry w :
  err_cb_ready arg data registry w →
  ∃ w' evs,
    _err_cb arg ep status w = (Returned tt, w')
    ∧ w_trace w' = w_trace w ++ evs
    ∧ filter (λ e, is_close_callback e) evs = close_events data
    ∧ w_callback_data w' !! arg = Some (after_error status data).
Proof.
  intros Hready.
  destruct (err_cb_effect arg ep status data registry w Hready)
    as (w' & notes & Hrun & Htr & Hnotes & Hcb & _).
  eexists w', _. split; [done|]. split; [exact Htr|]. split.
  - rewrite filter_cons. simpl. rewrite !filter_app.
    rewrite filter_close_callback_notes, filter_close_callback_events by done.
    simpl. by rewrite app_nil_r.
  - by rewrite Hcb, lookup_insert_eq.
Qed.

Lemma after_errors_keeps_cleared calls : ∀ data,
  ecd_closeCallback data = None →
  ecd_closeCallback (after_errors calls data) = None
  ∧ ecd_closeCallbackArg (after_errors calls data) = ecd_closeCallbackArg data.
Proof.
  induction calls as [|[ep status] calls IH]; intros data Hnone; [done|].
  simpl. destruct (IH (after_error status data) eq_refl) as [H1 H2].
  split; [done|]. rewrite H2. simpl. by rewrite Hnone.
Qed.

Lemma after_errors_clears calls data :
  calls ≠ [] →
  ecd_closeCallback (after_errors calls data) = None
  ∧ (is_Some (ecd_closeCallback data) →
     ecd_closeCallbackArg (after_errors calls data) = NULL).
Proof.
  destruct calls as [|[ep status] calls]; [done|]. intros _. simpl.
  destruct (after_errors_keeps_cleared calls (after_error status data) eq_refl)
    as [H1 H2].
  split; [done|]. intros [f Hf]. rewrite H2. simpl. by rewrite Hf.
Qed.

Lemma err_cb_repeatedly_close_events calls : ∀ arg data registry w,
  err_cb_ready arg data registry w →
  ∃ w' evs,
    err_cb_repeatedly arg calls w = (Returned tt, w')
    ∧ w_trace w' = w_trace w ++ evs
    ∧ filter (λ e, is_close_callback e) evs
      = match calls with [] => [] | _ :: _ => close_events data end
    ∧ w_callback_data w' !! arg = Some (after_errors calls data).
Proof.
  induction calls as [|[ep status] calls IH]; intros arg data registry w Hready.
  { exists w, []. rewrite app_nil_r. repeat split; try done. by destruct Hready. }
  destruct (err_cb_close_events arg ep status data registry w Hready)
    as (w1 & evs1 & Hrun1 & Htr1 & Hf1 & Hd1).
  destruct (err_cb_ready_after _ _ _ _ _ _ _ Hready Hrun1) as [registry1 Hready1].
  destruct (IH arg _ registry1 w1 Hready1) as (w' & evs & Hrun & Htr & Hf & Hd).
  exists w', (evs1 ++ evs).
  split. { simpl. erewrite bind_returned; [exact Hrun|exact Hrun1]. }
  split. { by rewrite Htr, Htr1, app_assoc. }
  split; [|done].
  rewrite filter_app, Hf1, Hf. destruct calls; by rewrite app_nil_r.
Qed.

(** ** The close callback *)

Lemma setCloseCallback_run this self data registry closeCallback closeCallbackArg w :
  w_endpoints w !! this = Some self →
  err_cb_ready (_callbackData self) data registry w →
  let data' :=
    set_ecd_closeCallbackArg closeCallbackArg (set_ecd_closeCallback closeCallback data) in
  let w' := set_callback_data <[_callbackData self := data']> w in
  UCXXEndpoint.setCloseCallback this closeCallback closeCallbackArg w = (Returned tt, w')
  ∧ err_cb_ready (_callbackData self) data' registry w'.
Proof.
  intros Hs [Hd Hw Hr Ha]. simpl. split.
  - unfold UCXXEndpoint.setCloseCallback.
    erewrite bind_returned; [|by apply deref_some].
    erewrite bind_returned; [|by eapply write_data_some].
    erewrite write_data_some; cycle 1.
    { simpl. by rewrite lookup_alter_eq, Hd. }
    f_equal. destruct w; unfold set_callback_data; simpl in *. f_equal.
    apply map_eq. intros i. destruct (decide (i = _callbackData self)) as [->|].
    + by rewrite !lookup_alter_eq, Hd, lookup_insert_eq.
    + by rewrite !lookup_alter_ne, lookup_insert_ne.
  - split; simpl; try done. by rewrite lookup_insert_eq.
Qed.

(** C9.  Over any run of error-callback invocations on the same endpoint,
    the close callback is invoked at most once: by the first invocation, if
    one is set then, with the argument registered for it; that invocation
    clears the callback and resets its argument to null, so every later
    invocation finds none.  In particular a callback installed with
    [setCloseCallback] is invoked exactly once by the first error callback
    and never again. *)
Theorem close_callback_invoked_at_most_once
    this self data registry closeCallback closeCallbackArg w :
  w_endpoints w !! this = Some self →
  err_cb_ready (_callbackData self) data registry w →
  (∀ calls, ∃ w' evs data',
      err_cb_repeatedly (_callbackData self) calls w = (Returned tt, w')
      ∧ w_trace w' = w_trace w ++ evs
      ∧ filter (λ e, is_close_callback e) evs
        = match calls with [] => [] | _ :: _ => close_events data end
      ∧ (length (filter (λ e, is_close_callback e) evs) ≤ 1)%nat
      ∧ w_callback_data w' !! _callbackData self = Some data'
      ∧ (calls ≠ [] → ecd_closeCallback data' = None)
      ∧ (calls ≠ [] → is_Some (ecd_closeCallback data) →
         ecd_closeCallbackArg data' = NULL))
  ∧ ∃ w0,
      UCXXEndpoint.setCloseCallback this (Some closeCallback) closeCallbackArg w
        = (Returned tt, w0)
      ∧ ∀ calls, ∃ w' evs,
          err_cb_repeatedly (_callbackData self) calls w0 = (Returned tt, w')
          ∧ w_trace w' = w_trace w0 ++ evs
          ∧ filter (λ e, is_close_callback e) evs
            = match calls with
              | [] => []
              | _ :: _ => [ev_close_callback closeCallback closeCallbackArg]
              end.
Proof.
  intros Hs Hready. split.
  - intros calls.
    destruct (err_cb_repeatedly_close_events calls _ _ _ _ Hready)
      as (w' & evs & Hrun & Htr & Hf & Hd).
    exists w', evs, (after_errors calls data). repeat (split; [done|]). split.
    { rewrite Hf. unfold close_events.
      destruct calls; [simpl; lia|]. destruct (ecd_closeCallback data); simpl; lia. }
    split; [done|]. split.
    + intros Hne. by apply after_errors_clears.
    + intros Hne. by apply after_errors_clears.
  - destruct (setCloseCallback_run this self data registry (Some closeCallback)
                closeCallbackArg w Hs Hready) as [Hset Hready0].
    eexists. split; [exact Hset|]. intros calls.
    destruct (err_cb_repeatedly_close_events calls _ _ _ _ Hready0)
      as (w' & evs & Hrun & Htr & Hf & _).
    exists w', evs. split; [done|]. split; [done|]. rewrite Hf. by destruct calls.
Qed.

(** ** Cancellation on connection error *)

(** C2.  An invocation of [_err_cb] calls the cancellation of the
    endpoint's registry exactly once, right after it has recorded the
    status, before the close callback runs and before the callback
    returns; when it returns, every request that a live entry of the
    registry observed has left [UCS_INPROGRESS]: it is cancelled if it was
    still in progress, and keeps its earlier terminal state otherwise. *)
Theorem err_cb_cancels_inflight_once arg ep status data registry w :
  err_cb_ready arg data registry w →
  ∃ w' evs,
    _err_cb arg ep status w = (Returned tt, w')
    ∧ w_trace w'
      = w_trace w ++ ev_cancel_all (ecd_worker data) (ecd_inflightRequests data) :: evs
    ∧ filter (λ e, is_cancel_all e) evs = []
    ∧ ∀ k p h rq,
        registry !! k = Some (Weak p) →
        w_handles w !! p = Some h →
        w_requests w !! req_request h = Some rq →
        ∃ rq', w_requests w' !! req_request h = Some rq'
          ∧ terminal rq'
          ∧ (¬ terminal rq → rq_status rq' = UCS.ERR_CANCELED)
          ∧ (terminal rq → rq' = rq).
Proof.
  intros Hready.
  destruct (err_cb_effect arg ep status data registry w Hready)
    as (w' & notes & Hrun & Htr & Hnotes & _ & _ & _ & _ & _ & _ & Hst).
  eexists w', _. split; [exact Hrun|]. split; [exact Htr|]. split.
  { rewrite !filter_app.
    assert (filter (λ e, is_cancel_all e) notes = []) as ->.
    { clear -Hnotes. induction Hnotes as [|e l He _ IH]; [done|].
      rewrite filter_cons, IH. by destruct e. }
    unfold close_events. by destruct (ecd_closeCallback data). }
  intros k p h rq Hk Hp Hrq.
  destruct (Hst _ _ Hrq) as (rq' & Hrq' & Ht & Hc & _).
  exists rq'. split; [done|].
  assert (observed_by (w_handles w) (map_to_list registry) (req_request h)) as Ho.
  { exists k, p, h. split; [|done]. by apply elem_of_map_to_list. }
  destruct (decide (rq_status rq = UCS.INPROGRESS)) as [Hin|Hterm].
  - rewrite (Hc ltac:(unfold terminal; tauto) Ho).
    split; [done|]. split; [done|]. intros Hterm. by destruct Hterm.
  - rewrite (Ht Hterm). split; [done|]. split; [|done]. intros Hnt. by destruct Hnt.
Qed.

(** ** Endpoints without error handling *)

(** C8.  On an endpoint built with endpoint error handling disabled,
    [isAlive] returns true and [raiseOnError] returns without throwing,
    whatever status the error callback has recorded. *)
Theorem without_error_handling_always_alive this self data w :
  w_endpoints w !! this = Some self →
  _endpoint_error_handling self = false →
  w_callback_data w !! _callbackData self = Some data →
  UCXXEndpoint.isAlive this w = (Returned true, w)
  ∧ UCXXEndpoint.raiseOnError this w = (Returned tt, w).
Proof.
  intros Hs Heh Hd. split.
  - unfold UCXXEndpoint.isAlive.
    erewrite bind_returned; [|by apply deref_some]. by rewrite Heh.
  - unfold UCXXEndpoint.raiseOnError.
    erewrite bind_returned; [|by apply deref_some].
    erewrite bind_returned; [|by apply deref_some].
    rewrite Heh. simpl. by rewrite orb_true_r.
Qed.

(** ** Issuing an operation *)

Lemma getWorker_run w parent worker wk :
  worker_of w parent worker wk →
  UCXXEndpoint.getWorker parent w = (Returned worker, w)
  ∧ w_components w !! worker = Some (CWorker wk).
Proof.
  unfold UCXXEndpoint.getWorker, bind, gets.
  intros [[Hp ->]|(l & Hp & -> & Hw)]; rewrite Hp; [done|]. by rewrite Hw.
Qed.

Lemma stream_msg_run worker wk ep send buffer length w :
  w_components w !! worker = Some (CWorker wk) →
  stream_msg worker ep send buffer length w
  = (Returned (w_next w), after_stream_msg worker wk ep send buffer length w).
Proof.
  intros Hw. unfold stream_msg, make_shared_ucxx_request_t,
    UCXXWorker.getPythonFuture, UCXXWorker.get_handle,
    UCXXWorker.registerDelayedNotificationRequest, deref_worker, ucxx_log, emit.
  unfold bind, deref, alloc, modify, ret. simpl. repeat (rewrite Hw; simpl).
  f_equal. apply world_eq; simpl; try done.
  rewrite !alter_insert_eq. done.
Qed.

Lemma createRequest_run this self registry request w :
  w_endpoints w !! this = Some self →
  w_inflight w !! _inflightRequests self = Some registry →
  UCXXEndpoint.createRequest this request w
  = (Returned (w_next w), after_createRequest this self request w).
Proof.
  intros Hs Hr. unfold UCXXEndpoint.createRequest, UCXXEndpoint.ucxx_createRequest.
  unfold bind, deref, alloc, modify, ret. simpl. by rewrite Hs, Hr.
Qed.

Lemma stream_send_recv_run this self registry worker wk send buffer length w :
  w_endpoints w !! this = Some self →
  worker_of w (_parent self) worker wk →
  w_inflight w !! _inflightRequests self = Some registry →
  let w1 := after_stream_msg worker wk (_handle self) send buffer length w in
  (if send then UCXXEndpoint.stream_send this buffer length w
   else UCXXEndpoint.stream_recv this buffer length w)
  = (Returned (w_next w1), after_createRequest this self (w_next w) w1).
Proof.
  intros Hs Hw Hr w1. destruct (getWorker_run _ _ _ _ Hw) as [Hg Hwk].
  assert (∀ b,
    (let! self := deref w_endpoints this in
     let! worker := UCXXEndpoint.getWorker (_parent self) in
     let! request := stream_msg worker (_handle self) b buffer length in
     UCXXEndpoint.createRequest this request) w
    = (Returned (w_next (after_stream_msg worker wk (_handle self) b buffer length w)),
       after_createRequest this self (w_next w)
         (after_stream_msg worker wk (_handle self) b buffer length w))) as H.
  { intros b.
    erewrite bind_returned; [|by apply deref_some].
    erewrite bind_returned; [|exact Hg].
    erewrite bind_returned; [|by apply stream_msg_run].
    by eapply createRequest_run. }
  destruct send; apply H.
Qed.

(** ** Deferred submission *)

Lemma notifications_not_transport (evs : list event) :
  Forall (λ e, is_notification e = true) evs →
  filter (λ e, is_transport e) evs = [].
Proof.
  induction 1 as [|e l He _ IH]; [done|].
  rewrite filter_cons, IH. by destruct e.
Qed.

Lemma populate_stream_run data rq w :
  w_requests w !! dn_request data = Some rq →
  ∃ w' evs,
    populate_delayed_notification_stream_request data w = (Returned tt, w')
    ∧ w_trace w' = w_trace w ++ stream_submission data :: evs
    ∧ filter (λ e, is_transport e) evs = []
    ∧ w_components w' = w_components w
    ∧ w_handles w' = w_handles w
    ∧ w_endpoints w' = w_endpoints w.
Proof.
  intros Hrq.
  set (w1 := set_trace (λ t, t ++ [stream_submission data]) w).
  set (status := env_status_ptr (w_env w) (w_trace w ++ [stream_submission data])).
  set (operationName := if dn_send data then "stream_send" else "stream_recv").
  set (line := ev_log LOG_TRACE_REQ
         "%s request: %p, buffer: %p, size: %lu, future: %p, future handle: %p"
         [arg_str operationName; arg_ptr status; arg_ptr (dn_buffer data);
          arg_int (dn_length data); arg_ptr (rq_py_future rq);
          arg_future_handle (rq_py_future rq)]).
  set (w2 := set_trace (λ t, t ++ [line]) w1).
  assert (stream_request (dn_ep data) (dn_send data) (dn_buffer data) (dn_length data)
            (dn_request data) w = (Returned status, w1)) as Hsub.
  { unfold w1, status. unfold stream_request, stream_submission.
    destruct (dn_send data); reflexivity. }
  assert (∃ w',
    request_wait (dn_worker data) status (dn_request data) operationName w2
      = (Returned tt, w')
    ∧ quiet w2 w') as (w' & Hwait & Q').
  { unfold request_wait. destruct (UCS.PTR_IS_PTR status).
    - exists w2. split; [done|apply quiet_refl].
    - eexists. rewrite terminal_transition_eq. simpl. rewrite Hrq.
      split; [done|]. apply settled_quiet. }
  destruct (quiet_trace _ _ _ Q') as (notes & Htr & Hnotes).
  exists w', (line :: notes). split.
  { unfold populate_delayed_notification_stream_request.
    erewrite bind_returned; [|exact Hsub].
    erewrite bind_returned; [|by apply deref_some].
    erewrite bind_returned; [|done]. exact Hwait. }
  split. { rewrite Htr. simpl. by rewrite <- !app_assoc. }
  split. { rewrite filter_cons. simpl. by apply notifications_not_transport. }
  split; [by rewrite (quiet_components _ _ _ Q')|].
  split; [by rewrite (quiet_handles _ _ _ Q')|].
  by rewrite (quiet_endpoints _ _ _ Q').
Qed.

(** C3, as amended.  Whatever thread issues it, [stream_msg] defers the
    operation: it allocates the request, registers one entry for it in the
    worker's delayed-notification queue and returns without any call into
    UCP.  The request reaches the transport when that entry is run, by
    exactly one call: the stream send or receive it describes. *)
Theorem stream_msg_always_defers worker wk ep send buffer length w :
  w_components w !! worker = Some (CWorker wk) →
  ∃ w',
    stream_msg worker ep send buffer length w = (Returned (w_next w), w')
    ∧ w_thread w' = w_thread w
    ∧ w_trace w'
      = w_trace w ++ [ev_log LOG_TRACE_REQ "request: %p, request->py_future: %p"
                             [arg_ptr (w_next w); arg_ptr (w_next w + 1)]]
    ∧ w_components w' !! worker
      = Some (CWorker (enqueue (stream_entry wk ep send buffer length (w_next w)) wk))
    ∧ delayed w' worker (w_next w)
    ∧ (∃ rq, w_requests w' !! w_next w = Some rq ∧ ¬ terminal rq)
    ∧ ∃ w'' evs,
        populate (stream_entry wk ep send buffer length (w_next w)) w'
          = (Returned tt, w'')
        ∧ w_trace w''
          = w_trace w'
            ++ stream_submission
                 {| dn_worker := wk_handle wk; dn_ep := ep; dn_send := send;
                    dn_buffer := buffer; dn_length := length;
                    dn_request := w_next w |} :: evs
        ∧ filter (λ e, is_transport e) evs = []
        ∧ submitted w'' (w_next w).
Proof.
  intros Hw. eexists. split; [by apply stream_msg_run|]. simpl.
  split; [done|]. split; [done|].
  split; [by rewrite lookup_insert_eq|].
  split.
  { eexists _, _. simpl. rewrite lookup_insert_eq. split; [done|]. split.
    - simpl. apply elem_of_app. right. left.
    - done. }
  split.
  { eexists. rewrite lookup_insert_eq. split; [done|]. unfold terminal. simpl.
    intros H. by apply H. }
  edestruct (populate_stream_run
    {| dn_worker := wk_handle wk; dn_ep := ep; dn_send := send;
       dn_buffer := buffer; dn_length := length; dn_request := w_next w |}
    (fresh_request w) (after_stream_msg worker wk ep send buffer length w))
    as (w'' & evs & Hrun & Htr & Hf & _).
  { simpl. by rewrite lookup_insert_eq. }
  exists w'', evs. split; [exact Hrun|]. split; [exact Htr|]. split; [done|].
  assert (∃ param,
    submission (stream_submission
      {| dn_worker := wk_handle wk; dn_ep := ep; dn_send := send;
         dn_buffer := buffer; dn_length := length; dn_request := w_next w |})
      = Some param ∧ user_data param = w_next w) as (param & Hs & Hu).
  { unfold stream_submission. simpl. destruct send; eexists; split; reflexivity. }
  eexists _, param. rewrite Htr. split; [|done].
  apply elem_of_app. right. left.
Qed.

Lemma stream_msg_always_defers_witness :
  w_components (sample env_prompt true UCS.OK) !! 10
    = Some (CWorker {| wk_handle := 11; wk_progress_thread := 1; wk_delayed := [] |})
  ∧ ∃ w',
      stream_msg 10 21 false 500 1024 (sample env_prompt true UCS.OK)
        = (Returned (w_next (sample env_prompt true UCS.OK)), w')
      ∧ delayed w' 10 100.
Proof.
  split; [reflexivity|].
  destruct (stream_msg_always_defers 10
    {| wk_handle := 11; wk_progress_thread := 1; wk_delayed := [] |}
    21 false 500 1024 (sample env_prompt true UCS.OK) eq_refl)
    as (w' & Hrun & _ & _ & _ & Hd & _).
  exists w'. split; [exact Hrun|exact Hd].
Defined.

(** C3, as stated, fails: the thread that drives the worker issues a stream
    send; the request is queued and nothing is handed to the transport. *)
Lemma owning_thread_issue_is_delayed :
  on_owning_thread (sample env_prompt true UCS.OK) 10
  ∧ ∃ w',
      stream_msg 10 21 true 500 1024 (sample env_prompt true UCS.OK)
        = (Returned 100, w')
      ∧ delayed w' 10 100
      ∧ ¬ submitted w' 100.
Proof.
  split.
  { eexists. split; reflexivity. }
  exists (after_stream_msg 10
            {| wk_handle := 11; wk_progress_thread := 1; wk_delayed := [] |}
            21 true 500 1024 (sample env_prompt true UCS.OK)).
  split; [by apply stream_msg_run|]. split.
  - eexists _, _. split; [reflexivity|]. split.
    + simpl. left.
    + reflexivity.
  - intros (e & param & Hin & Hsub & _). simpl in Hin.
    apply list_elem_of_singleton in Hin. subst e. discriminate Hsub.
Qed.

(** ** Operations on an endpoint whose connection has failed *)

Lemma raiseOnError_run this self data w :
  w_endpoints w !! this = Some self →
  w_callback_data w !! _callbackData self = Some data →
  UCXXEndpoint.raiseOnError this w
  = ((if bool_decide (ecd_status data = UCS.OK) || negb (_endpoint_error_handling self)
      then Returned tt
      else
        let msg := "Endpoint " +:+ env_show_ptr (w_env w) (_handle self)
                   +:+ " error: " +:+ env_status_string (w_env w) (ecd_status data) in
        if bool_decide (ecd_status data = UCS.ERR_CONNECTION_RESET)
        then Thrown (UCXXConnectionResetError msg)
        else Thrown (UCXXError msg)) : outcome unit,
     w).
Proof.
  intros Hs Hd. unfold UCXXEndpoint.raiseOnError.
  erewrite bind_returned; [|by apply deref_some].
  erewrite bind_returned; [|by apply deref_some].
  destruct (bool_decide (ecd_status data = UCS.OK) || negb _); [done|].
  unfold bind, gets. simpl. by case_bool_decide.
Qed.

Lemma tag_send_recv_run tag_msg this self registry worker wk (send : bool) buffer
    length tag callbackFunction callbackData request w w1 :
  w_endpoints w !! this = Some self →
  worker_of w (_parent self) worker wk →
  tag_msg worker (_handle self) send buffer length tag callbackFunction callbackData w
    = (Returned request, w1) →
  w_endpoints w1 !! this = Some self →
  w_inflight w1 !! _inflightRequests self = Some registry →
  (if send
   then UCXXEndpoint.tag_send tag_msg this buffer length tag callbackFunction callbackData w
   else UCXXEndpoint.tag_recv tag_msg this buffer length tag callbackFunction callbackData w)
  = (Returned (w_next w1), after_createRequest this self request w1).
Proof.
  intros Hs Hw Htag Hs1 Hr1. destruct (getWorker_run _ _ _ _ Hw) as [Hg _].
  destruct send; unfold UCXXEndpoint.tag_send, UCXXEndpoint.tag_recv;
    (erewrite bind_returned; [|by apply deref_some]);
    (erewrite bind_returned; [|exact Hg]);
    (erewrite bind_returned; [|exact Htag]);
    by eapply createRequest_run.
Qed.

(** C1, as amended.  On an endpoint with error handling enabled whose
    recorded status is not [UCS_OK], [isAlive] returns false and
    [raiseOnError] throws ([UCXXConnectionResetError] for a connection
    reset, [UCXXError] otherwise) and leaves the world as it was.  The send
    and receive operations do not look at the status: [stream_send] and
    [stream_recv] still return a new request handle, insert a weak entry
    for it into the endpoint's registry under the handle's address (so
    that the handle is discoverable there when the address was not in the
    registry before) and leave the request queued on the worker for
    submission; [tag_send] and [tag_recv] still wrap whatever request
    [tag_msg] returns and register the handle in the same way. *)
Theorem failed_endpoint_raises_only_on_request
    this self data registry worker wk w :
  w_endpoints w !! this = Some self →
  _endpoint_error_handling self = true →
  w_callback_data w !! _callbackData self = Some data →
  ecd_status data ≠ UCS.OK →
  worker_of w (_parent self) worker wk →
  w_inflight w !! _inflightRequests self = Some registry →
  UCXXEndpoint.isAlive this w = (Returned false, w)
  ∧ (∃ msg,
       UCXXEndpoint.raiseOnError this w
       = (Thrown (if bool_decide (ecd_status data = UCS.ERR_CONNECTION_RESET)
                  then UCXXConnectionResetError msg else UCXXError msg), w))
  ∧ (∀ (send : bool) buffer length, ∃ req w',
       (if send then UCXXEndpoint.stream_send this buffer length w
        else UCXXEndpoint.stream_recv this buffer length w) = (Returned req, w')
       ∧ w_handles w' !! req = Some (fresh_handle this self (w_next w))
       ∧ w_inflight w' !! _inflightRequests self
         = Some (UCXXEndpoint.map_insert req (Weak req) registry)
       ∧ (registry !! req = None → discoverable w' req)
       ∧ delayed w' worker (w_next w)
       ∧ (∃ rq, w_requests w' !! w_next w = Some rq ∧ ¬ terminal rq)
       ∧ w_callback_data w' = w_callback_data w)
  ∧ (∀ tag_msg (send : bool) buffer length tag callbackFunction callbackData
       request w1 registry1,
       tag_msg worker (_handle self) send buffer length tag callbackFunction
         callbackData w = (Returned request, w1) →
       w_endpoints w1 !! this = Some self →
       w_inflight w1 !! _inflightRequests self = Some registry1 →
       ∃ w',
         (if send
          then UCXXEndpoint.tag_send tag_msg this buffer length tag
                 callbackFunction callbackData w
          else UCXXEndpoint.tag_recv tag_msg this buffer length tag
                 callbackFunction callbackData w) = (Returned (w_next w1), w')
         ∧ w_handles w' !! w_next w1 = Some (fresh_handle this self request)
         ∧ w_inflight w' !! _inflightRequests self
           = Some (UCXXEndpoint.map_insert (w_next w1) (Weak (w_next w1)) registry1)
         ∧ (registry1 !! w_next w1 = None → discoverable w' (w_next w1))).
Proof.
  intros Hs Heh Hd Hst Hw Hr.
  assert (∀ request registry0 w0,
    w_inflight w0 !! _inflightRequests self = Some registry0 →
    let w' := after_createRequest this self request w0 in
    w_handles w' !! w_next w0 = Some (fresh_handle this self request)
    ∧ w_inflight w' !! _inflightRequests self
      = Some (UCXXEndpoint.map_insert (w_next w0) (Weak (w_next w0)) registry0)
    ∧ (registry0 !! w_next w0 = None → discoverable w' (w_next w0))) as Hreg.
  { intros request registry0 w0 Hr0 w'.
    assert (w_handles w' !! w_next w0 = Some (fresh_handle this self request)) as Hh.
    { simpl. by rewrite lookup_insert_eq. }
    assert (w_inflight w' !! _inflightRequests self
            = Some (UCXXEndpoint.map_insert (w_next w0) (Weak (w_next w0)) registry0))
      as Hi.
    { simpl. by rewrite lookup_alter_eq, Hr0. }
    split; [exact Hh|]. split; [exact Hi|].
    intros Hfresh. eexists _, _. split; [exact Hh|]. split; [exact Hi|].
    unfold UCXXEndpoint.map_insert. rewrite Hfresh. apply lookup_insert_eq. }
  split.
  { unfold UCXXEndpoint.isAlive.
    erewrite bind_returned; [|by apply deref_some]. rewrite Heh. simpl.
    erewrite bind_returned; [|by apply deref_some].
    by rewrite bool_decide_eq_false_2. }
  split.
  { eexists. rewrite (raiseOnError_run _ _ _ _ Hs Hd), Heh.
    rewrite bool_decide_eq_false_2 by done. simpl.
    by case_bool_decide. }
  split.
  { intros send buffer length. eexists _, _.
    split; [by eapply stream_send_recv_run|].
    destruct (Hreg (w_next w) registry
                (after_stream_msg worker wk (_handle self) send buffer length w) Hr)
      as (Hh & Hi & Hdisc).
    split; [exact Hh|]. split; [exact Hi|]. split; [exact Hdisc|].
    destruct (getWorker_run _ _ _ _ Hw) as [_ Hwk].
    split.
    { eexists _, _. simpl. rewrite lookup_insert_eq. split; [done|]. split.
      - simpl. apply elem_of_app. right. left.
      - done. }
    split; [|done].
    eexists. simpl. rewrite lookup_insert_eq. split; [done|]. unfold terminal. simpl.
    intros H. by apply H. }
  intros tag_msg send buffer length tag callbackFunction callbackData request w1
    registry1 Htag Hs1 Hr1.
  eexists. split; [by eapply tag_send_recv_run|]. by apply Hreg.
Qed.

Lemma failed_endpoint_raises_only_on_request_witness :
  w_endpoints (sample env_prompt true UCS.ERR_CONNECTION_RESET) !! 20
    = Some (sample_endpoint true)
  ∧ _endpoint_error_handling (sample_endpoint true) = true
  ∧ ecd_status (sample_data UCS.ERR_CONNECTION_RESET) ≠ UCS.OK
  ∧ UCXXEndpoint.isAlive 20 (sample env_prompt true UCS.ERR_CONNECTION_RESET)
    = (Returned false, sample env_prompt true UCS.ERR_CONNECTION_RESET)
  ∧ (∃ msg,
       UCXXEndpoint.raiseOnError 20 (sample env_prompt true UCS.ERR_CONNECTION_RESET)
       = (Thrown (UCXXConnectionResetError msg),
          sample env_prompt true UCS.ERR_CONNECTION_RESET))
  ∧ ∃ req w',
      UCXXEndpoint.stream_send 20 500 1024
        (sample env_prompt true UCS.ERR_CONNECTION_RESET) = (Returned req, w')
      ∧ discoverable w' req
      ∧ delayed w' 10 100.
Proof.
  split; [reflexivity|]. split; [reflexivity|]. split; [discriminate|].
  destruct (failed_endpoint_raises_only_on_request 20 (sample_endpoint true)
    (sample_data UCS.ERR_CONNECTION_RESET) sample_registry 10
    {| wk_handle := 11; wk_progress_thread := 1; wk_delayed := [] |}
    (sample env_prompt true UCS.ERR_CONNECTION_RESET))
    as (Halive & Hraise & Hstream & _).
  - reflexivity.
  - reflexivity.
  - reflexivity.
  - discriminate.
  - left. split; reflexivity.
  - reflexivity.
  - split; [exact Halive|]. split; [exact Hraise|].
    destruct (Hstream true 500 1024) as (req & w' & Hrun & _ & _ & Hdisc & Hq & _).
    exists req, w'. split; [exact Hrun|]. split; [|exact Hq].
    apply Hdisc.
    assert (req = 102) as ->.
    { assert ((UCXXEndpoint.stream_send 20 500 1024
                 (sample env_prompt true UCS.ERR_CONNECTION_RESET)).1
              = Returned 102) as Hr by by vm_compute.
      rewrite Hrun in Hr. by injection Hr. }
    reflexivity.
Defined.

(** C1, as stated, fails: error handling is enabled and the error callback
    has recorded a connection reset, so that [isAlive] is false; yet
    [stream_send] returns a request instead of failing, the request is
    queued, and running its queue entry hands it to the transport. *)
Lemma stream_send_after_connection_reset :
  ∃ w' w'',
    send_after_reset (sample env_prompt true UCS.OK) = (Returned 102, w')
    ∧ UCXXEndpoint.isAlive 20 w' = (Returned false, w')
    ∧ (∃ data, w_callback_data w' !! 30 = Some data
               ∧ ecd_status data = UCS.ERR_CONNECTION_RESET)
    ∧ delayed w' 10 100
    ∧ ¬ submitted w' 100
    ∧ send_after_reset_then_populate (sample env_prompt true UCS.OK)
      = (Returned tt, w'')
    ∧ submitted w'' 100.
Proof.
  exists (send_after_reset (sample env_prompt true UCS.OK)).2,
    (send_after_reset_then_populate (sample env_prompt true UCS.OK)).2.
  split; [by vm_compute|]. split; [by vm_compute|].
  split; [eexists; split; by vm_compute|].
  split.
  { eexists _, _. split; [by vm_compute|]. split.
    - simpl. left.
    - reflexivity. }
  split.
  { intros (e & param & Hin & Hsub & Hu).
    assert (Forall (λ e, submission e = None)
              (w_trace (send_after_reset (sample env_prompt true UCS.OK)).2)) as Hnone.
    { vm_compute. repeat constructor. }
    rewrite Forall_forall in Hnone. specialize (Hnone e Hin). congruence. }
  split; [by vm_compute|].
  exists (stream_submission
            {| dn_worker := 11; dn_ep := 21; dn_send := true; dn_buffer := 500;
               dn_length := 1024; dn_request := 100 |}),
    (set_cb (cb_send stream_send_callback) (initial_param 100)).
  split; [|split; reflexivity].
  assert (w_trace (send_after_reset_then_populate (sample env_prompt true UCS.OK)).2
          = w_trace (send_after_reset (sample env_prompt true UCS.OK)).2
            ++ [stream_submission
                  {| dn_worker := 11; dn_ep := 21; dn_send := true; dn_buffer := 500;
                     dn_length := 1024; dn_request := 100 |};
                ev_log LOG_TRACE_REQ
                  "%s request: %p, buffer: %p, size: %lu, future: %p, future handle: %p"
                  [arg_str "stream_send"; arg_ptr 0; arg_ptr 500; arg_int 1024;
                   arg_ptr 101; arg_future_handle 101];
                ev_future_notify 101 0]) as -> by by vm_compute.
  apply elem_of_app. right. left.
Qed.

(** ** Creating an endpoint *)

Lemma worker_not_initialized_true w worker :
  worker_lacks_handle w worker →
  UCXXEndpoint.worker_not_initialized worker w = (Returned true, w).
Proof.
  unfold UCXXEndpoint.worker_not_initialized.
  intros [->|(wk & Hw & Hh)]; [done|].
  case_bool_decide; [done|].
  unfold UCXXWorker.get_handle, deref_worker, bind, deref. rewrite Hw. simpl.
  by rewrite Hh.
Qed.

Lemma worker_not_initialized_false w worker wk :
  worker ≠ NULL →
  w_components w !! worker = Some (CWorker wk) →
  wk_handle wk ≠ NULL →
  UCXXEndpoint.worker_not_initialized worker w = (Returned false, w).
Proof.
  intros Hn Hw Hh. unfold UCXXEndpoint.worker_not_initialized.
  rewrite bool_decide_eq_false_2 by done.
  unfold UCXXWorker.get_handle, deref_worker, bind, deref. rewrite Hw. simpl.
  by rewrite bool_decide_eq_false_2.
Qed.

Lemma listener_not_initialized_true w listener :
  listener_lacks_handle w listener →
  listener_not_initialized listener w = (Returned true, w).
Proof.
  unfold listener_not_initialized.
  intros [->|(l & Hl & Hh)]; [done|].
  case_bool_decide; [done|].
  unfold UCXXListener.get_handle, deref_listener, bind, deref. rewrite Hl. simpl.
  by rewrite Hh.
Qed.

Lemma constructor_on_bad_worker listener params endpoint_error_handling w :
  listener_on_bad_worker w listener →
  ∃ w',
    UCXXEndpoint.constructor listener params endpoint_error_handling w
      = (Thrown (UCXXError "Worker not initialized"), w')
    ∧ w_trace w' = w_trace w
    ∧ w_components w' = w_components w
    ∧ w_endpoints w' = w_endpoints w
    ∧ w_callback_data w' = w_callback_data w.
Proof.
  intros (l & Hl & Hh & Hp).
  unfold UCXXEndpoint.constructor, UCXXEndpoint.getWorker,
    UCXXEndpoint.worker_not_initialized, UCXXWorker.get_handle, deref_worker.
  unfold bind, deref, alloc, modify, gets, ret, throw. simpl. rewrite Hl.
  destruct (w_components w !! ls_parent l) as [[wk|l']|] eqn:Hw; simpl.
  - case_bool_decide; [by eexists|].
    unfold set_inflight, set_next. simpl. rewrite Hw. simpl.
    rewrite bool_decide_eq_true_2 by done. by eexists.
  - by eexists.
  - by eexists.
Qed.

(** C6.  Creating an endpoint on a worker that is null or has no transport
    handle throws "Worker not initialized" at once and leaves the world
    untouched: no call into UCP or the resolver is made and nothing is
    queued.  The same holds from a listener that is null or has no handle,
    and, on a good worker, from an address that is null, has no handle or
    has length zero ("Address not initialized").  From a good listener
    whose worker is missing or has no handle, the constructor throws
    "Worker not initialized" before [ucp_ep_create], with the trace, the
    workers' queues and the endpoints unchanged. *)
Theorem endpoint_creation_needs_handles w :
  (∀ worker, worker_lacks_handle w worker →
     (∀ ip_address port endpoint_error_handling,
        createEndpointFromHostname worker ip_address port endpoint_error_handling w
        = (Thrown (UCXXError "Worker not initialized"), w))
     ∧ (∀ address endpoint_error_handling,
        createEndpointFromWorkerAddress worker address endpoint_error_handling w
        = (Thrown (UCXXError "Worker not initialized"), w)))
  ∧ (∀ worker wk address endpoint_error_handling,
       worker ≠ NULL →
       w_components w !! worker = Some (CWorker wk) →
       wk_handle wk ≠ NULL →
       address_not_initialized address = true →
       createEndpointFromWorkerAddress worker address endpoint_error_handling w
       = (Thrown (UCXXError "Address not initialized"), w))
  ∧ (∀ listener conn_request endpoint_error_handling,
       listener_lacks_handle w listener →
       createEndpointFromConnRequest listener conn_request endpoint_error_handling w
       = (Thrown (UCXXError "Worker not initialized"), w))
  ∧ (∀ listener conn_request endpoint_error_handling,
       listener_on_bad_worker w listener →
       ∃ w',
         createEndpointFromConnRequest listener conn_request endpoint_error_handling w
         = (Thrown (UCXXError "Worker not initialized"), w')
         ∧ w_trace w' = w_trace w
         ∧ w_components w' = w_components w
         ∧ w_endpoints w' = w_endpoints w).
Proof.
  split; [|split; [|split]].
  - intros worker Hbad. split.
    + intros. unfold createEndpointFromHostname.
      erewrite bind_returned; [|by apply worker_not_initialized_true]. done.
    + intros. unfold createEndpointFromWorkerAddress.
      erewrite bind_returned; [|by apply worker_not_initialized_true]. done.
  - intros worker wk address eh Hn Hw Hh Ha. unfold createEndpointFromWorkerAddress.
    erewrite bind_returned; [|by eapply worker_not_initialized_false].
    simpl. by rewrite Ha.
  - intros listener conn eh Hbad. unfold createEndpointFromConnRequest.
    erewrite bind_returned; [|by apply listener_not_initialized_true]. done.
  - intros listener conn eh Hbad.
    destruct Hbad as (l & Hl & Hh & Hp).
    edestruct (constructor_on_bad_worker listener) as (w' & Hrun & Ht & Hc & He & _).
    { exists l. split; [exact Hl|]. split; [exact Hh|exact Hp]. }
    unfold createEndpointFromConnRequest, listener_not_initialized.
    destruct (decide (listener = NULL)) as [Hnull|Hn].
    { exists w. rewrite bool_decide_eq_true_2 by done. done. }
    exists w'. split; [|done].
    erewrite bind_returned; cycle 1.
    { rewrite bool_decide_eq_false_2 by done.
      unfold UCXXListener.get_handle, deref_listener, bind, deref. rewrite Hl. simpl.
      by rewrite bool_decide_eq_false_2. }
    simpl. exact Hrun.
Qed.

(** ** Worker progress and the destructor *)

Lemma notification_completing e : is_notification e = true → completing e = true.
Proof. by destruct e. Qed.

Lemma completing_not_loop (evs : list event) :
  Forall (λ e, completing e = true) evs →
  filter (λ e, is_loop_call e) evs = [] ∧ filter (λ e, is_progress e) evs = [].
Proof.
  induction 1 as [|e l He _ [IH1 IH2]]; [done|].
  rewrite !filter_cons, IH1, IH2. by destruct e as [| | | | | | | | | | | | | |[]].
Qed.

Lemma evolves_emit (allowed : event → bool) e w :
  allowed e = true → evolves allowed w (set_trace (λ t, t ++ [e]) w).
Proof.
  intros He. split; try done. exists [e]. split; [done|]. by repeat constructor.
Qed.

Lemma invoke_spec f request st arg w :
  is_Some (w_requests w !! arg) →
  ∃ w',
    invoke f request st arg w = (Returned tt, w')
    ∧ evolves completing w w'
    ∧ ∀ r, r ≠ arg → w_requests w' !! r = w_requests w !! r.
Proof.
  intros [rq Hrq].
  assert (∀ name operation,
    ∃ w', (do! ucxx_log LOG_TRACE_REQ name [] in _callback request st arg operation) w
          = (Returned tt, w')
          ∧ evolves completing w w'
          ∧ ∀ r, r ≠ arg → w_requests w' !! r = w_requests w !! r) as H.
  { intros name operation. eexists. split.
    { erewrite bind_returned; [|done]. unfold _callback.
      erewrite bind_returned; [done|]. rewrite terminal_transition_eq. simpl.
      by rewrite Hrq. }
    split.
    - eapply evolves_trans.
      { by apply (evolves_emit completing (ev_log LOG_TRACE_REQ name [])). }
      eapply evolves_trans.
      { eapply evolves_weaken; [apply notification_completing|]. apply settled_quiet. }
      by apply (evolves_emit completing (ev_ucp_request_free request)).
    - intros r Hr. simpl. rewrite settled_requests. by rewrite decide_False. }
  destruct f; apply H.
Qed.

Lemma complete_all_spec cs : ∀ w,
  (∀ f request st arg, (f, request, st, arg) ∈ cs → is_Some (w_requests w !! arg)) →
  ∃ w',
    complete_all cs w = (Returned tt, w')
    ∧ evolves completing w w'
    ∧ ∀ r, (∀ f request st, (f, request, st, r) ∉ cs) →
           w_requests w' !! r = w_requests w !! r.
Proof.
  induction cs as [|[[[f request] st] arg] cs IH]; intros w Hknown.
  { exists w. split; [done|]. split; [apply evolves_refl|done]. }
  destruct (invoke_spec f request st arg w) as (w1 & Hrun1 & Q1 & S1).
  { eapply Hknown. left. }
  destruct (IH w1) as (w' & Hrun & Q & S).
  { intros f' request' st' arg' Hin. apply (quiet_requests _ _ _ Q1).
    eapply Hknown. right. exact Hin. }
  exists w'. split; [|split; [by eapply evolves_trans|]].
  - simpl. erewrite bind_returned; [exact Hrun|exact Hrun1].
  - intros r Hr. rewrite S, S1; [done| |].
    + intros ->. apply (Hr f request st). left.
    + intros f' request' st' Hin. apply (Hr f' request' st'). by right.
Qed.

Lemma progress_spec worker wk w :
  w_components w !! worker = Some (CWorker wk) →
  (∀ f request st arg,
     (f, request, st, arg)
       ∈ env_completions (w_env w) (w_trace w ++ [ev_ucp_worker_progress (wk_handle wk)]) →
     is_Some (w_requests w !! arg)) →
  ∃ w',
    UCXXWorker.progress worker w = (Returned tt, w')
    ∧ evolves completing
        (set_trace (λ t, t ++ [ev_ucp_worker_progress (wk_handle wk)]) w) w'
    ∧ ∀ r,
        (∀ f request st,
           (f, request, st, r)
             ∉ env_completions (w_env w)
                 (w_trace w ++ [ev_ucp_worker_progress (wk_handle wk)])) →
        w_requests w' !! r = w_requests w !! r.
Proof.
  intros Hw Hknown.
  destruct (complete_all_spec
    (env_completions (w_env w) (w_trace w ++ [ev_ucp_worker_progress (wk_handle wk)]))
    (set_trace (λ t, t ++ [ev_ucp_worker_progress (wk_handle wk)]) w))
    as (w' & Hrun & Q & S); [exact Hknown|].
  exists w'. split; [|split; [done|exact S]].
  unfold UCXXWorker.progress, deref_worker.
  erewrite bind_returned; cycle 1.
  { erewrite bind_returned; [|by apply deref_some]. done. }
  erewrite bind_returned; [exact Hrun|done].
Qed.

Lemma wait_close_unfold fuel worker status w :
  UCXXEndpoint.wait_close fuel worker status w
  = let wc := set_trace (λ t, t ++ [ev_ucp_request_check_status status]) w in
    if bool_decide (env_check_status (w_env w)
                      (w_trace w ++ [ev_ucp_request_check_status status])
                    = UCS.INPROGRESS)
    then match fuel with
         | O => (Returned false, wc)
         | S fuel' =>
             bind (UCXXWorker.progress worker)
                  (λ _, UCXXEndpoint.wait_close fuel' worker status) wc
         end
    else (Returned true, wc).
Proof.
  destruct fuel; simpl; unfold bind at 1, ucp_request_check_status, ask, bind, emit,
    modify, gets; simpl; by case_bool_decide.
Qed.

Lemma progress_count_app t t' :
  progress_count (t ++ t') = (progress_count t + progress_count t')%nat.
Proof. unfold progress_count. by rewrite filter_app, length_app. Qed.

Lemma progress_count_completing evs :
  Forall (λ e, completing e = true) evs → progress_count evs = 0%nat.
Proof.
  intros H. unfold progress_count. by rewrite (proj2 (completing_not_loop _ H)).
Qed.

Lemma wait_close_spec worker wk status w0 t0 n :
  close_completes w0 t0 n →
  ∀ fuel w1,
    w_env w1 = w_env w0 →
    w_components w1 !! worker = Some (CWorker wk) →
    (∀ r, is_Some (w_requests w1 !! r) ↔ is_Some (w_requests w0 !! r)) →
    (progress_count t0 + n ≤ progress_count (w_trace w1) + fuel)%nat →
    ∃ w2 evs k,
      UCXXEndpoint.wait_close fuel worker status w1 = (Returned true, w2)
      ∧ w_trace w2 = w_trace w1 ++ evs
      ∧ filter (λ e, is_loop_call e) evs = close_loop status (wk_handle wk) k
      ∧ Forall (λ e, is_loop_call e || completing e = true) evs
      ∧ (k ≤ fuel)%nat
      ∧ env_check_status (w_env w0) (w_trace w2) ≠ UCS.INPROGRESS
      ∧ (∀ r, (∀ t f request st, (f, request, st, r) ∉ env_completions (w_env w0) t) →
              w_requests w2 !! r = w_requests w1 !! r)
      ∧ w_env w2 = w_env w1
      ∧ w_components w2 = w_components w1
      ∧ w_endpoints w2 = w_endpoints w1
      ∧ w_callback_data w2 = w_callback_data w1
      ∧ w_handles w2 = w_handles w1
      ∧ w_callers w2 = w_callers w1.
Proof.
  intros [Hclose Hknown]. induction fuel as [|fuel IH]; intros w1 He Hw Hr Hn;
    rewrite wait_close_unfold; simpl.
  - case_bool_decide as Hst.
    + exfalso. rewrite He in Hst. revert Hst. apply Hclose.
      rewrite progress_count_app.
      change (progress_count [ev_ucp_request_check_status status]) with 0%nat.
      exact Hn.
    + eexists _, [_], 0%nat. split; [done|]. simpl.
      split; [done|]. split; [done|]. split; [by repeat constructor|].
      split; [lia|]. split; [by rewrite <- He|done].
  - case_bool_decide as Hst.
    + destruct (progress_spec worker wk
        (set_trace (λ t, t ++ [ev_ucp_request_check_status status]) w1))
        as (w1' & Hrun1 & Q & S1); [done| |].
      { simpl. intros f request st arg Hin. apply Hr. rewrite He in Hin.
        by eapply Hknown. }
      destruct (quiet_trace _ _ _ Q) as (evs1 & Htr1 & Hs1). simpl in Htr1.
      destruct (IH w1') as (w2 & evs & k & Hrun & Htr & Hf & Hall & Hk & Hdone & S2 & F).
      { by rewrite (quiet_env _ _ _ Q). }
      { by rewrite (quiet_components _ _ _ Q). }
      { intros r. rewrite (quiet_requests _ _ _ Q). simpl. apply Hr. }
      { rewrite Htr1, !progress_count_app, (progress_count_completing _ Hs1).
        change (progress_count [ev_ucp_request_check_status status]) with 0%nat.
        change (progress_count [ev_ucp_worker_progress (wk_handle wk)]) with 1%nat.
        lia. }
      exists w2,
        ([ev_ucp_request_check_status status; ev_ucp_worker_progress (wk_handle wk)]
         ++ evs1 ++ evs), (S k).
      split. { erewrite bind_returned; [exact Hrun|exact Hrun1]. }
      split. { rewrite Htr, Htr1. by rewrite <- !app_assoc. }
      split.
      { rewrite !filter_app, Hf, (proj1 (completing_not_loop _ Hs1)). done. }
      split.
      { apply Forall_app. split; [by repeat constructor|].
        apply Forall_app. split; [|done].
        eapply Forall_impl; [exact Hs1|]. intros e ->. apply orb_true_r. }
      split; [lia|]. split; [done|].
      split.
      { intros r Hspared. rewrite S2 by done. rewrite S1; [done|].
        intros f request st. simpl. rewrite He. apply Hspared. }
      destruct F as (F1 & F2 & F3 & F4 & F5 & F6).
      rewrite F1, F2, F3, F4, F5, F6.
      rewrite (quiet_env _ _ _ Q), (quiet_components _ _ _ Q),
        (quiet_endpoints _ _ _ Q), (quiet_callback_data _ _ _ Q),
        (quiet_handles _ _ _ Q), (quiet_callers _ _ _ Q). done.
    + eexists _, [_], 0%nat. split; [done|]. simpl.
      split; [done|]. split; [done|]. split; [by repeat constructor|].
      split; [lia|]. split; [by rewrite <- He|done].
Qed.

Lemma destructor_close_mode self w :
  (_endpoint_error_handling self = true →
   is_Some (w_callback_data w !! _callbackData self)) →
  (if _endpoint_error_handling self then
     let! data := deref w_callback_data (_callbackData self) in
     if negb (bool_decide (ecd_status data = UCS.OK))
     then ret UCP.EP_CLOSE_MODE_FORCE
     else ret UCP.EP_CLOSE_MODE_FORCE
   else ret UCP.EP_CLOSE_MODE_FORCE) w
  = (Returned UCP.EP_CLOSE_MODE_FORCE, w).
Proof.
  intros Hd. destruct (_endpoint_error_handling self); [|done].
  destruct (Hd eq_refl) as [data Hdata].
  erewrite bind_returned; [|by apply deref_some].
  by destruct (negb _).
Qed.

(** What the destructor does once the endpoint has a transport handle:
    the close, and then what its answer calls for. *)
Lemma destructor_unfold fuel this self w :
  w_endpoints w !! this = Some self →
  _handle self ≠ NULL →
  (_endpoint_error_handling self = true →
   is_Some (w_callback_data w !! _callbackData self)) →
  let close := ev_ucp_ep_close_nb (_handle self) UCP.EP_CLOSE_MODE_FORCE in
  let status := env_status_ptr (w_env w) (w_trace w ++ [close]) in
  UCXXEndpoint.destructor fuel this w
  = (if UCS.PTR_IS_PTR status then
       let! worker := UCXXEndpoint.getWorker (_parent self) in
       let! finished := UCXXEndpoint.wait_close fuel worker status in
       if (finished : bool) then
         do! ucp_request_free status in
         UCXXEndpoint.destroy_members this self
       else ret None
     else if negb (bool_decide (UCS.PTR_STATUS status = UCS.OK)) then
       do! ucxx_log LOG_ERROR "Error while closing endpoint: %s"
             [arg_status_string (UCS.PTR_STATUS status)] in
       UCXXEndpoint.destroy_members this self
     else UCXXEndpoint.destroy_members this self)
      (set_trace (λ t, t ++ [close]) w).
Proof.
  intros Hs Hh Hd close status. unfold UCXXEndpoint.destructor.
  erewrite bind_returned; [|by apply deref_some].
  rewrite bool_decide_eq_false_2 by done.
  erewrite bind_returned; [|by apply destructor_close_mode].
  erewrite bind_returned; [|reflexivity]. reflexivity.
Qed.

(** ** Destroying the members *)

Lemma prunes_refl w : prunes w w.
Proof.
  split; try done.
  - intros i [x Hx] Hn. congruence.
  - intros p [x Hx] Hn. congruence.
Qed.

Lemma map_Exists_weaken {A} (P : Z → A → Prop) (m1 m2 : gmap Z A) :
  m1 ⊆ m2 → map_Exists P m1 → map_Exists P m2.
Proof.
  intros Hsub (k & x & Hk & HP). exists k, x. split; [|done].
  by eapply lookup_weaken.
Qed.

Lemma component_held_mono p w w' :
  w_callers w' = w_callers w →
  w_endpoints w' = w_endpoints w →
  w_callback_data w' = w_callback_data w →
  w_components w' ⊆ w_components w →
  component_held p w = false → component_held p w' = false.
Proof.
  unfold component_held. intros -> -> -> Hsub Hw.
  apply orb_false_iff in Hw as [Hw Hc].
  rewrite Hw. simpl. apply bool_decide_eq_false. apply bool_decide_eq_false in Hc.
  intros Hex. apply Hc. by eapply map_Exists_weaken.
Qed.

Lemma registry_held_frame i w w' :
  w_endpoints w' = w_endpoints w →
  w_callback_data w' = w_callback_data w →
  w_handles w' = w_handles w →
  registry_held i w' = registry_held i w.
Proof. unfold registry_held. by intros -> -> ->. Qed.

Lemma prunes_trans w1 w2 w3 : prunes w1 w2 → prunes w2 w3 → prunes w1 w3.
Proof.
  intros P1 P2. destruct P1 as [E1 T1 R1 N1 EP1 CB1 RQ1 H1 C1 I1 CO1 UR1 UC1].
  destruct P2 as [E2 T2 R2 N2 EP2 CB2 RQ2 H2 C2 I2 CO2 UR2 UC2].
  split; try congruence.
  - by transitivity (w_inflight w2).
  - by transitivity (w_components w2).
  - intros i Hi Hn. destruct (w_inflight w2 !! i) as [x|] eqn:Hx.
    + apply UR2; [eauto|done].
    + rewrite (registry_held_frame i w2 w3) by done. by apply UR1.
  - intros p Hp Hn. destruct (w_components w2 !! p) as [x|] eqn:Hx.
    + apply UC2; [eauto|done].
    + apply (component_held_mono p w2 w3); try done. by apply UC1.
Qed.

Lemma release_registry_run i w :
  ∃ w',
    release_registry i w = (Returned tt, w')
    ∧ prunes w w'
    ∧ w_components w' = w_components w
    ∧ (registry_held i w = false → w_inflight w' !! i = None).
Proof.
  unfold release_registry, bind, gets.
  destruct (registry_held i w) eqn:Hheld.
  - exists w. split; [done|]. split; [apply prunes_refl|done].
  - eexists. split; [done|]. split; [|split; [done|]].
    + split; simpl; try done; try apply delete_subseteq;
        try by (intros p [x Hx] Hn; congruence).
      intros j [x Hx] [->|Hn]%lookup_delete_None; [|congruence].
      by rewrite (registry_held_frame j w).
    + intros _. simpl. apply lookup_delete_eq.
Qed.

(** A component that loses its last holder when [p] is destroyed is the
    parent of the listener [p]. *)
Lemma component_unheld_by_delete q p w :
  component_held q w = true →
  component_held q (set_components (delete p) w) = false →
  ∃ l, w_components w !! p = Some (CListener l) ∧ ls_parent l = q.
Proof.
  unfold component_held. simpl. intros Hw Hd.
  apply orb_false_iff in Hd as [Hd Hc]. rewrite Hd in Hw. simpl in Hw.
  apply bool_decide_eq_true in Hw as (k & c & Hk & Hchild).
  apply bool_decide_eq_false in Hc.
  destruct (decide (k = p)) as [->|Hne].
  - destruct c as [wk|l]; [done|]. exists l. split; [done|].
    by apply bool_decide_eq_true in Hchild.
  - destruct Hc. exists k, c. split; [|done]. by rewrite lookup_delete_ne.
Qed.

(** With fuel for the whole chain of parents, [release_chain] destroys
    [p] unless something holds it, and then whatever loses its last holder
    on the way. *)
Lemma release_chain_run fuel : ∀ p w,
  (size (w_components w) ≤ fuel)%nat →
  ∃ w',
    release_chain fuel p w = (Returned tt, w')
    ∧ prunes w w'
    ∧ (∀ q, component_held q w = true → component_held q w' = false →
            w_components w' !! q = None)
    ∧ (component_held p w' = false → w_components w' !! p = None).
Proof.
  assert (∀ p w, component_held p w = false →
            prunes w (set_components (delete p) w)) as Hstep.
  { intros p w Hheld.
    split; simpl; try done; try apply delete_subseteq;
      try by (intros i [x Hx] Hn; congruence).
    intros q [x Hx] [->|Hn]%lookup_delete_None; [|congruence].
    apply (component_held_mono q w); try done. apply delete_subseteq. }
  assert (∀ p w,
    component_held p w = false →
    (∀ l, w_components w !! p ≠ Some (CListener l)) →
    prunes w (set_components (delete p) w)
    ∧ (∀ q, component_held q w = true →
            component_held q (set_components (delete p) w) = false →
            w_components (set_components (delete p) w) !! q = None)
    ∧ (component_held p (set_components (delete p) w) = false →
       w_components (set_components (delete p) w) !! p = None)) as Hleaf.
  { intros p w Hheld Hl. split; [by apply Hstep|]. split.
    - intros q Hq Hq'.
      destruct (component_unheld_by_delete q p w Hq Hq') as (l & Hp & _).
      by destruct (Hl l).
    - intros _. simpl. apply lookup_delete_eq. }
  induction fuel as [|fuel IH]; intros p w Hsize; simpl; unfold bind, gets, modify;
    destruct (component_held p w) eqn:Hheld;
    try (exists w; split; [done|]; split; [apply prunes_refl|];
         split; [intros q Hq Hq'; congruence|intros Hp; congruence]).
  - eexists. split; [by destruct (w_components w !! p) as [[wk|l]|]|].
    apply Hleaf; [done|]. intros l Hp.
    assert (size (w_components w) ≠ 0%nat) as Hne.
    { apply map_size_non_empty_iff. intros He. by rewrite He in Hp. }
    lia.
  - destruct (w_components w !! p) as [[wk|l]|] eqn:Hp.
    + eexists. split; [done|]. apply Hleaf; [done|]. intros l. by rewrite Hp.
    + destruct (IH (ls_parent l) (set_components (delete p) w))
        as (w' & Hrun & P & C & T).
      { simpl. rewrite map_size_delete, Hp. simpl. lia. }
      exists w'. split; [exact Hrun|].
      split; [eapply prunes_trans; [by apply Hstep|done]|].
      split.
      * intros q Hq Hq'.
        destruct (component_held q (set_components (delete p) w)) eqn:Hq1.
        -- by apply C.
        -- destruct (component_unheld_by_delete q p w Hq Hq1) as (l' & Hp' & <-).
           rewrite Hp in Hp'. injection Hp' as <-. by apply T.
      * intros _. destruct (w_components w' !! p) as [c|] eqn:Hc; [|done].
        pose proof (lookup_weaken _ _ _ _ Hc (prunes_components _ _ P)) as Hc'.
        simpl in Hc'. by rewrite lookup_delete_eq in Hc'.
    + eexists. split; [done|]. apply Hleaf; [done|]. intros l. by rewrite Hp.
Qed.

Lemma release_component_run p w :
  ∃ w',
    release_component p w = (Returned tt, w')
    ∧ prunes w w'
    ∧ (∀ q, component_held q w = true → component_held q w' = false →
            w_components w' !! q = None)
    ∧ (component_held p w' = false → w_components w' !! p = None).
Proof.
  unfold release_component. unfold bind at 1. unfold gets at 1.
  by apply release_chain_run.
Qed.

Lemma destroy_members_run this self w :
  ∃ w',
    UCXXEndpoint.destroy_members this self w = (Returned (Some tt), w')
    ∧ destroyed this self w w'.
Proof.
  unfold UCXXEndpoint.destroy_members, destroyed.
  unfold bind at 1. unfold gets at 1.
  unfold bind at 1. unfold modify at 1.
  unfold bind at 1. unfold modify at 1.
  set (w2 := set_endpoints (delete this)
               (set_callback_data (delete (_callbackData self)) w)).
  destruct (release_registry_run (_inflightRequests self) w2) as (w3 & Hrun3 & P3 & _).
  erewrite bind_returned; [|exact Hrun3].
  assert (∃ w4,
    match w_callback_data w !! _callbackData self with
    | Some data =>
        do! release_registry (ecd_inflightRequests data) in
        release_component (ecd_worker data)
    | None => ret tt
    end w3 = (Returned tt, w4) ∧ prunes w3 w4) as (w4 & Hrun4 & P4).
  { destruct (w_callback_data w !! _callbackData self) as [data|].
    - destruct (release_registry_run (ecd_inflightRequests data) w3)
        as (w3' & Hrun & P & _).
      destruct (release_component_run (ecd_worker data) w3')
        as (w4 & Hrun' & P' & _).
      exists w4. split; [|by eapply prunes_trans].
      erewrite bind_returned; [exact Hrun'|exact Hrun].
    - exists w3. split; [done|apply prunes_refl]. }
  erewrite bind_returned; [|exact Hrun4].
  destruct (release_component_run (_parent self) w4) as (w5 & Hrun5 & P5 & _).
  erewrite bind_returned; [|exact Hrun5].
  exists w5. split; [done|].
  eapply prunes_trans; [exact P3|]. by eapply prunes_trans.
Qed.

(** C4, as amended.  The destructor of an endpoint with a transport handle
    closes it at once, without looking at the endpoint's requests.  When
    the transport answers the close immediately, the destructor returns
    having made no other call into UCP (it logs an error if the close
    failed) and leaves every request as it found it.  When the close is
    asynchronous and the transport finishes it within [n] progress steps,
    the destructor, given at least [n] iterations, alternates status checks
    and worker progress until the close request is no longer in progress,
    frees the close request and returns; in between only the completions
    that the progress steps deliver are run, and a request the transport
    completes nothing for is left as it was. *)
Theorem destructor_force_closes this self w :
  w_endpoints w !! this = Some self →
  _handle self ≠ NULL →
  (_endpoint_error_handling self = true →
   is_Some (w_callback_data w !! _callbackData self)) →
  let close := ev_ucp_ep_close_nb (_handle self) UCP.EP_CLOSE_MODE_FORCE in
  let status := env_status_ptr (w_env w) (w_trace w ++ [close]) in
  (UCS.PTR_IS_PTR status = false →
   ∀ fuel, ∃ w',
     UCXXEndpoint.destructor fuel this w = (Returned (Some tt), w')
     ∧ w_trace w'
       = w_trace w
         ++ close
            :: (if bool_decide (UCS.PTR_STATUS status = UCS.OK) then []
                else [ev_log LOG_ERROR "Error while closing endpoint: %s"
                             [arg_status_string (UCS.PTR_STATUS status)]])
     ∧ w_requests w' = w_requests w
     ∧ w_handles w' = w_handles w
     ∧ w_endpoints w' !! this = None)
  ∧ (UCS.PTR_IS_PTR status = true →
     ∀ worker wk n fuel,
       worker_of w (_parent self) worker wk →
       close_completes w (w_trace w ++ [close]) n →
       (n ≤ fuel)%nat →
       ∃ w' evs k,
         UCXXEndpoint.destructor fuel this w = (Returned (Some tt), w')
         ∧ w_trace w' = w_trace w ++ close :: evs ++ [ev_ucp_request_free status]
         ∧ filter (λ e, is_loop_call e) evs = close_loop status (wk_handle wk) k
         ∧ Forall (λ e, is_loop_call e || completing e = true) evs
         ∧ (k ≤ fuel)%nat
         ∧ env_check_status (w_env w) (w_trace w ++ close :: evs) ≠ UCS.INPROGRESS
         ∧ (∀ r,
              (∀ t f request st,
                 (f, request, st, r) ∉ env_completions (w_env w) t) →
              w_requests w' !! r = w_requests w !! r)
         ∧ w_handles w' = w_handles w
         ∧ w_endpoints w' !! this = None).
Proof.
  intros Hs Hh Hd close status.
  set (wc := set_trace (λ t, t ++ [close]) w).
  pose proof (λ fuel, destructor_unfold fuel this self w Hs Hh Hd) as Hunfold.
  simpl in Hunfold. fold close status wc in Hunfold.
  split.
  - intros Hptr fuel. rewrite Hunfold, Hptr.
    destruct (bool_decide (UCS.PTR_STATUS status = UCS.OK)); simpl.
    + destruct (destroy_members_run this self wc) as (w' & Hrun & P).
      exists w'. split; [exact Hrun|].
      rewrite (prunes_trace _ _ P), (prunes_requests _ _ P),
        (prunes_handles _ _ P), (prunes_endpoints _ _ P). simpl.
      split; [done|]. split; [done|]. split; [done|]. by rewrite lookup_delete_eq.
    + destruct (destroy_members_run this self
                  (set_trace (λ t, t ++ [ev_log LOG_ERROR
                     "Error while closing endpoint: %s"
                     [arg_status_string (UCS.PTR_STATUS status)]]) wc))
        as (w' & Hrun & P).
      exists w'. split; [by erewrite bind_returned|].
      rewrite (prunes_trace _ _ P), (prunes_requests _ _ P),
        (prunes_handles _ _ P), (prunes_endpoints _ _ P). simpl.
      rewrite <- app_assoc.
      split; [done|]. split; [done|]. split; [done|]. by rewrite lookup_delete_eq.
  - intros Hptr worker wk n fuel Hw Hlive Hfuel. rewrite Hunfold, Hptr.
    destruct (getWorker_run wc _ _ _ Hw) as [Hg Hwk].
    destruct (wait_close_spec worker wk status w (w_trace w ++ [close]) n Hlive fuel wc)
      as (w2 & evs & k & Hrun & Htr & Hf & Hall & Hk & Hdone & Hspared
          & F1 & F2 & F3 & F4 & F5 & F6);
      [done|done|done|simpl; lia|].
    destruct (destroy_members_run this self
                (set_trace (λ t, t ++ [ev_ucp_request_free status]) w2))
      as (w' & Hrun' & P).
    exists w', evs, k.
    split.
    { erewrite bind_returned; [|exact Hg].
      erewrite bind_returned; [|exact Hrun]. cbv beta iota.
      erewrite bind_returned; [exact Hrun'|done]. }
    rewrite (prunes_trace _ _ P), (prunes_requests _ _ P),
      (prunes_handles _ _ P), (prunes_endpoints _ _ P). simpl.
    split. { rewrite Htr. simpl. by rewrite <- !app_assoc. }
    split; [done|]. split; [done|]. split; [done|]. split.
    { rewrite Htr in Hdone. simpl in Hdone. by rewrite <- app_assoc in Hdone. }
    split; [exact Hspared|]. split; [done|]. by rewrite lookup_delete_eq.
Qed.

(** ** The registry invariant is kept *)

Lemma triple_ret {A} (a : A) (Q : A → World → Prop) : triple (Q a) (ret a) Q.
Proof. intros w o w' Hc HP [= <- <-]. done. Qed.

Lemma triple_throw {A} e (P : World → Prop) (Q : A → World → Prop) :
  triple P (throw e) Q.
Proof. intros w o w' Hc HP [= <- <-]. done. Qed.

Lemma triple_undefined {A} (P : World → Prop) (Q : A → World → Prop) :
  triple P undefined Q.
Proof. intros w o w' Hc HP [= <- <-]. done. Qed.

Lemma triple_bind {A B} (P : World → Prop) (m : M A) (Q : A → World → Prop)
    (k : A → M B) (R : B → World → Prop) :
  triple P m Q → (∀ a, triple (Q a) (k a) R) → triple P (bind m k) R.
Proof.
  intros Hm Hk w o w' Hc HP. unfold bind.
  destruct (m w) as [[a| |] w1] eqn:E; intros Hrun.
  - destruct (Hm _ _ _ Hc HP E) as [Hc1 HQ]. by eapply Hk.
  - injection Hrun as <- <-. by apply (Hm _ _ _ Hc HP E).
  - by injection Hrun as <- <-.
Qed.

Lemma triple_weaken {A} (P P' : World → Prop) (m : M A) (Q Q' : A → World → Prop) :
  triple P m Q →
  (∀ w, consistent w → P' w → P w) →
  (∀ a w, consistent w → Q a w → Q' a w) →
  triple P' m Q'.
Proof.
  intros Hm HP HQ w o w' Hc HP' Hrun.
  specialize (Hm w o w' Hc (HP _ Hc HP') Hrun).
  destruct o; [|done..]. destruct Hm. split; [done|]. by apply HQ.
Qed.

Lemma triple_gets {A} (f : World → A) (P : World → Prop) :
  triple P (gets f) (λ a w, P w ∧ a = f w).
Proof. intros w o w' Hc HP [= <- <-]. done. Qed.

Lemma triple_deref {A} (store : World → gmap Z A) p (P : World → Prop) :
  triple P (deref store p) (λ a w, P w ∧ store w !! p = Some a).
Proof.
  intros w o w' Hc HP. unfold deref.
  destruct (store w !! p) eqn:E; intros [= <- <-]; done.
Qed.

Lemma triple_modify f (P : World → Prop) (Q : World → Prop) :
  (∀ w, consistent w → P w → consistent (f w) ∧ Q (f w)) →
  triple P (modify f) (λ _ w, Q w).
Proof. intros H w o w' Hc HP [= <- <-]. by apply H. Qed.

(** A world that differs from a consistent one only outside the stores the
    invariant reads is consistent. *)
Lemma consistent_frame w w' evs :
  w_next w' = w_next w →
  w_requests w' = w_requests w →
  w_handles w' = w_handles w →
  w_inflight w' = w_inflight w →
  w_endpoints w' = w_endpoints w →
  w_trace w' = w_trace w ++ evs →
  Forall (λ e, well_flagged e = true) evs →
  consistent w → consistent w'.
Proof.
  intros Hn Hr Hh Hi He Ht Hevs [Hf Ha Hep Hreg Hfl]. split.
  - intros k Hk. rewrite Hn in Hk. rewrite Hr, Hh, Hi. by apply Hf.
  - unfold requests_alive. by rewrite Hr, Hh.
  - unfold endpoints_have_registry. by rewrite He, Hi.
  - intros req h rq. rewrite Hh, Hr. intros H1 H2 H3.
    destruct (Hreg _ _ _ H1 H2 H3) as (h' & registry & ? & ? & ?).
    exists h', registry. by rewrite Hh, Hi.
  - rewrite Ht. by apply Forall_app.
Qed.

Lemma consistent_silently w w' :
  w_next w' = w_next w →
  w_requests w' = w_requests w →
  w_handles w' = w_handles w →
  w_inflight w' = w_inflight w →
  w_endpoints w' = w_endpoints w →
  w_trace w' = w_trace w →
  consistent w → consistent w'.
Proof.
  intros Hn Hr Hh Hi He Ht. apply (consistent_frame w w' []); try done.
  by rewrite app_nil_r.
Qed.

Lemma notification_well_flagged e : is_notification e = true → well_flagged e = true.
Proof. by destruct e. Qed.

Lemma consistent_settled request st w :
  consistent w → consistent (settled request st w).
Proof.
  intros Hc. unfold settled.
  destruct (w_requests w !! request) as [rq|] eqn:Hrq; [|done].
  destruct (bool_decide (rq_status rq = UCS.INPROGRESS)
            && negb (bool_decide (st = UCS.INPROGRESS))) eqn:Hguard; [|done].
  apply andb_true_iff in Hguard as [_ Hst%negb_true_iff%bool_decide_eq_false].
  destruct Hc as [Hf Ha Hep Hreg Hfl]. split.
  - intros k Hk. destruct (Hf k Hk) as (H1 & H2 & H3 & H4). simpl.
    split; [|split; [done|split]].
    + rewrite lookup_insert_ne; [done|]. intros <-. congruence.
    + by rewrite lookup_fmap, H3.
    + intros i registry. rewrite lookup_fmap.
      destruct (w_inflight w !! i) as [reg|] eqn:Hi; [|done]. simpl.
      intros [= <-]. apply map_lookup_filter_None. left. by eapply H4.
  - intros p h Hp. simpl in *. destruct (Ha p h Hp) as [rq' Hrq'].
    destruct (decide (req_request h = request)) as [->|Hne].
    + rewrite lookup_insert_eq. eauto.
    + rewrite lookup_insert_ne by done. eauto.
  - intros this self Hs. simpl in *. destruct (Hep this self Hs) as [reg Hreg'].
    rewrite lookup_fmap, Hreg'. simpl. eauto.
  - intros req h rq' Hh Hrq' Hnt. simpl in *.
    destruct (decide (req_request h = request)) as [Heq|Hne].
    { rewrite Heq, lookup_insert_eq in Hrq'. injection Hrq' as <-.
      destruct Hnt. unfold terminal. simpl. done. }
    rewrite lookup_insert_ne in Hrq' by done.
    destruct (Hreg req h rq' Hh Hrq' Hnt) as (h' & registry & Hh' & Hi & Hk).
    exists h', (filter (λ kv : Z * weak_ptr,
                          observes (w_handles w) request kv.2 = false) registry).
    simpl. split; [done|]. rewrite lookup_fmap, Hi. split; [done|].
    apply map_lookup_filter_Some. split; [done|]. simpl.
    rewrite Hh. by apply bool_decide_eq_false.
  - simpl. apply Forall_app. split; [done|].
    eapply Forall_impl; [apply notifications_are_notifications|].
    apply notification_well_flagged.
Qed.

Lemma keeps_terminal_transition request st (P : World → Prop) :
  triple P (terminal_transition request st) (λ _ _, True).
Proof.
  intros w o w' Hc _. rewrite terminal_transition_eq. intros [= <- <-].
  destruct (w_requests w !! request); [|done]. split; [|done].
  by apply consistent_settled.
Qed.

Lemma consistent_after_stream_msg worker wk ep send buffer length w :
  consistent w →
  consistent (after_stream_msg worker wk ep send buffer length w)
  ∧ is_Some (w_requests (after_stream_msg worker wk ep send buffer length w)
               !! w_next w).
Proof.
  intros [Hf Ha Hep Hreg Hfl]. split; [|simpl; rewrite lookup_insert_eq; eauto].
  destruct (Hf (w_next w) ltac:(lia)) as (Hn1 & Hn2 & Hn3 & Hn4).
  split.
  - intros k Hk. simpl in *. destruct (Hf k ltac:(lia)) as (H1 & H2 & H3 & H4).
    split; [|done]. rewrite lookup_insert_ne; [done|lia].
  - intros p h Hp. simpl in *. destruct (Ha p h Hp) as [rq Hrq].
    rewrite lookup_insert_ne; [eauto|]. intros Heq. rewrite <- Heq in Hrq. congruence.
  - done.
  - intros req h rq Hh Hrq Hnt. simpl in *.
    destruct (Ha req h Hh) as [rq0 Hrq0].
    rewrite lookup_insert_ne in Hrq.
    + exact (Hreg req h rq Hh Hrq Hnt).
    + intros Heq. rewrite <- Heq in Hrq0. congruence.
  - simpl. apply Forall_app. split; [done|]. by repeat constructor.
Qed.

Lemma consistent_after_createRequest this self request w :
  consistent w →
  w_endpoints w !! this = Some self →
  is_Some (w_requests w !! request) →
  consistent (after_createRequest this self request w)
  ∧ discoverable (after_createRequest this self request w) (w_next w).
Proof.
  intros [Hf Ha Hep Hreg Hfl] Hs Hrq.
  destruct (Hf (w_next w) ltac:(lia)) as (Hn1 & Hn2 & Hn3 & Hn4).
  destruct (Hep this self Hs) as [registry Hr].
  assert (UCXXEndpoint.map_insert (w_next w) (Weak (w_next w)) registry
          = <[w_next w := Weak (w_next w)]> registry) as Hins.
  { unfold UCXXEndpoint.map_insert. by rewrite (Hn4 _ _ Hr). }
  assert (discoverable (after_createRequest this self request w) (w_next w)) as Hd.
  { eexists _, _. simpl. rewrite lookup_insert_eq. split; [done|]. simpl.
    rewrite lookup_alter_eq, Hr. simpl. split; [done|].
    by rewrite Hins, lookup_insert_eq. }
  split; [|done]. split.
  - intros k Hk. simpl in *. destruct (Hf k ltac:(lia)) as (H1 & H2 & H3 & H4).
    split; [done|]. split; [rewrite lookup_insert_ne; [done|lia]|].
    split.
    + destruct (decide (k = _inflightRequests self)) as [->|].
      * congruence.
      * by rewrite lookup_alter_ne.
    + intros i reg. destruct (decide (i = _inflightRequests self)) as [->|Hne].
      * rewrite lookup_alter_eq, Hr. simpl. intros [= <-].
        rewrite Hins, lookup_insert_ne; [by eapply H4|lia].
      * rewrite lookup_alter_ne by done. apply H4.
  - intros p h. simpl. destruct (decide (p = w_next w)) as [->|Hne].
    + rewrite lookup_insert_eq. by intros [= <-].
    + rewrite lookup_insert_ne by done. apply Ha.
  - intros this' self' Hs'. simpl in *. destruct (Hep this' self' Hs') as [reg Hreg'].
    destruct (decide (_inflightRequests self' = _inflightRequests self)) as [->|Hne].
    + rewrite lookup_alter_eq, Hr. simpl. eauto.
    + rewrite lookup_alter_ne by done. eauto.
  - intros req h rq. simpl. destruct (decide (req = w_next w)) as [->|Hne].
    { intros _ _ _. exact Hd. }
    rewrite lookup_insert_ne by done. intros Hh Hrq' Hnt.
    destruct (Hreg req h rq Hh Hrq' Hnt) as (h' & reg & Hh' & Hi & Hk).
    destruct (decide (req_inflight h' = _inflightRequests self)) as [Heq|Hne'].
    + exists h', (<[w_next w := Weak (w_next w)]> registry). simpl.
      rewrite lookup_insert_ne by done. split; [done|].
      rewrite Heq, lookup_alter_eq, Hr. simpl. rewrite Hins. split; [done|].
      rewrite lookup_insert_ne by done. rewrite Heq in Hi. congruence.
    + exists h', reg. simpl. rewrite lookup_insert_ne by done. split; [done|].
      by rewrite lookup_alter_ne.
  - done.
Qed.

Lemma keeps_bind {A B} (m : M A) (k : A → M B) :
  keeps m → (∀ a, keeps (k a)) → keeps (bind m k).
Proof. intros Hm Hk. eapply triple_bind; [exact Hm|]. intros a. apply Hk. Qed.

Lemma keeps_ret {A} (a : A) : keeps (ret a).
Proof. apply (triple_ret a (λ _ _, True)). Qed.

Lemma keeps_throw {A} e : keeps (@throw A e).
Proof. apply triple_throw. Qed.

Lemma keeps_undefined {A} : keeps (@undefined A).
Proof. apply triple_undefined. Qed.

Lemma keeps_gets {A} (f : World → A) : keeps (gets f).
Proof. eapply triple_weaken; [apply (triple_gets f (λ _, True))|done..]. Qed.

Lemma keeps_deref {A} (store : World → gmap Z A) p : keeps (deref store p).
Proof. eapply triple_weaken; [apply (triple_deref store p (λ _, True))|done..]. Qed.

Lemma keeps_modify f : (∀ w, consistent w → consistent (f w)) → keeps (modify f).
Proof.
  intros H. apply (triple_modify f (λ _, True) (λ _, True)). intros w Hc _.
  split; [by apply H|done].
Qed.

Lemma keeps_emit e : well_flagged e = true → keeps (emit e).
Proof.
  intros He. apply keeps_modify. intros w.
  apply (consistent_frame w _ [e]); try done. by constructor.
Qed.

Lemma keeps_log lvl fmt args : keeps (ucxx_log lvl fmt args).
Proof. by apply keeps_emit. Qed.

Lemma keeps_ask {A} e (answer : environment → list event → A) :
  well_flagged e = true → keeps (ask e answer).
Proof.
  intros He. apply keeps_bind; [by apply keeps_emit|]. intros _. apply keeps_gets.
Qed.

Lemma keeps_alloc : keeps alloc.
Proof.
  intros w o w' Hc _ [= <- <-]. split; [|done].
  destruct Hc as [Hf Ha Hep Hreg Hfl]. split; try done.
  intros k Hk. simpl in *. apply Hf. lia.
Qed.

Lemma keeps_set_components f : keeps (modify (set_components f)).
Proof. apply keeps_modify. intros w. by apply consistent_silently. Qed.

Lemma keeps_set_callback_data f : keeps (modify (set_callback_data f)).
Proof. apply keeps_modify. intros w. by apply consistent_silently. Qed.

Lemma keeps_attempt {A} (m : M A) : keeps m → keeps (attempt m).
Proof.
  intros Hm w o w' Hc _. unfold attempt.
  destruct (m w) as [[a| |] w1] eqn:E; intros [= <- <-]; [| |done].
  - split; [|done]. by apply (Hm _ _ _ Hc I E).
  - split; [|done]. by apply (Hm _ _ _ Hc I E).
Qed.

Lemma keeps_deref_worker p : keeps (deref_worker p).
Proof.
  apply keeps_bind; [apply keeps_deref|]. intros [wk|l];
    [apply keeps_ret|apply keeps_undefined].
Qed.

Lemma keeps_deref_listener p : keeps (deref_listener p).
Proof.
  apply keeps_bind; [apply keeps_deref|]. intros [wk|l];
    [apply keeps_undefined|apply keeps_ret].
Qed.

Lemma keeps_get_handle this : keeps (UCXXWorker.get_handle this).
Proof. apply keeps_bind; [apply keeps_deref_worker|]. intros. apply keeps_ret. Qed.

Lemma keeps_getWorker p : keeps (UCXXEndpoint.getWorker p).
Proof.
  apply keeps_bind; [apply keeps_gets|]. intros components.
  destruct (components !! p) as [[wk|l]|]; [apply keeps_ret| |apply keeps_undefined].
  destruct (components !! ls_parent l) as [[wk|l']|]; apply keeps_ret.
Qed.

Lemma keeps_terminal request st : keeps (terminal_transition request st).
Proof. apply keeps_terminal_transition. Qed.

Lemma keeps_cancel_entries es : keeps (cancel_entries es).
Proof.
  induction es as [|[k [p]] es IH]; [apply keeps_ret|]. simpl.
  apply keeps_bind; [apply keeps_gets|]. intros hs.
  destruct (hs !! p); [|done].
  apply keeps_bind; [apply keeps_terminal|]. by intros.
Qed.

Lemma keeps_scheduleRequestCancel this inflightRequests :
  keeps (UCXXWorker.scheduleRequestCancel this inflightRequests).
Proof.
  apply keeps_bind; [apply keeps_deref_worker|]. intros _.
  apply keeps_bind; [by apply keeps_emit|]. intros _.
  apply keeps_bind; [apply keeps_deref|]. intros registry.
  apply keeps_cancel_entries.
Qed.

Lemma keeps_write_data arg f : keeps (write_data arg f).
Proof.
  apply keeps_bind; [apply keeps_deref|]. intros _. apply keeps_set_callback_data.
Qed.

Lemma keeps_err_cb arg ep status : keeps (_err_cb arg ep status).
Proof.
  apply keeps_bind; [apply keeps_write_data|]. intros _.
  apply keeps_bind; [apply keeps_deref|]. intros data.
  apply keeps_bind; [apply keeps_scheduleRequestCancel|]. intros _.
  apply keeps_bind; [apply keeps_deref|]. intros data'.
  apply keeps_bind.
  { destruct (ecd_closeCallback data'); [|apply keeps_ret].
    apply keeps_bind; [by apply keeps_emit|]. intros _.
    apply keeps_bind; [apply keeps_write_data|]. intros _. apply keeps_write_data. }
  intros _. destruct (bool_decide _ || bool_decide _); apply keeps_log.
Qed.

Lemma keeps_callback request status arg operation :
  keeps (_callback request status arg operation).
Proof.
  apply keeps_bind; [apply keeps_terminal|]. intros _. by apply keeps_emit.
Qed.

Lemma keeps_invoke f request status arg : keeps (invoke f request status arg).
Proof.
  destruct f; (apply keeps_bind; [apply keeps_log|]); intros _; apply keeps_callback.
Qed.

Lemma keeps_complete_all cs : keeps (complete_all cs).
Proof.
  induction cs as [|[[[f request] st] arg] cs IH]; [apply keeps_ret|]. simpl.
  apply keeps_bind; [apply keeps_invoke|]. by intros.
Qed.

Lemma keeps_progress this : keeps (UCXXWorker.progress this).
Proof.
  apply keeps_bind; [apply keeps_deref_worker|]. intros wk.
  apply keeps_bind; [by apply keeps_ask|]. intros cs. apply keeps_complete_all.
Qed.

Lemma keeps_request_wait worker status request operationName :
  keeps (request_wait worker status request operationName).
Proof.
  unfold request_wait. destruct (UCS.PTR_IS_PTR status);
    [apply keeps_ret|apply keeps_terminal].
Qed.

Lemma keeps_populate e : keeps (populate e).
Proof.
  destruct e as [data|data]; simpl.
  - apply keeps_bind.
    { unfold stream_request. destruct (dn_send data); by apply keeps_ask. }
    intros status. apply keeps_bind; [apply keeps_deref|]. intros rq.
    apply keeps_bind; [apply keeps_log|]. intros _. apply keeps_request_wait.
  - apply keeps_bind.
    { unfold UCXXRequestTag.request. destruct (nr_send data); by apply keeps_ask. }
    intros status. apply keeps_bind; [apply keeps_deref|]. intros rq.
    apply keeps_bind; [apply keeps_log|]. intros _. apply keeps_request_wait.
Qed.

Lemma keeps_populate_all es : keeps (populate_all es).
Proof.
  induction es as [|e es IH]; [apply keeps_ret|]. simpl.
  apply keeps_bind; [apply keeps_populate|]. by intros.
Qed.

Lemma keeps_drainDelayed worker : keeps (drainDelayed worker).
Proof.
  apply keeps_bind; [apply keeps_deref_worker|]. intros wk.
  apply keeps_bind; [apply keeps_set_components|]. intros _. apply keeps_populate_all.
Qed.

Lemma triple_stream_msg worker ep send buffer length :
  triple (λ _, True) (stream_msg worker ep send buffer length)
    (λ request w, is_Some (w_requests w !! request)).
Proof.
  intros w o w' Hc _ Hrun.
  destruct (w_components w !! worker) as [[wk|l]|] eqn:E.
  - rewrite (stream_msg_run worker wk) in Hrun by done. injection Hrun as <- <-.
    by apply consistent_after_stream_msg.
  - revert Hrun. unfold stream_msg, make_shared_ucxx_request_t,
      UCXXWorker.getPythonFuture, deref_worker.
    unfold bind, deref, alloc, modify, ret. simpl. rewrite E. simpl.
    by intros [= <- <-].
  - revert Hrun. unfold stream_msg, make_shared_ucxx_request_t,
      UCXXWorker.getPythonFuture, deref_worker.
    unfold bind, deref, alloc, modify, ret. simpl. rewrite E. simpl.
    by intros [= <- <-].
Qed.

Lemma triple_createRequest this request :
  triple (λ w, is_Some (w_requests w !! request))
    (UCXXEndpoint.createRequest this request)
    (λ req w, discoverable w req).
Proof.
  intros w o w' Hc Hrq Hrun.
  destruct (w_endpoints w !! this) as [self|] eqn:Hs.
  - destruct (consistent_endpoints _ Hc this self Hs) as [registry Hr].
    rewrite (createRequest_run this self registry) in Hrun by done.
    injection Hrun as <- <-. by apply consistent_after_createRequest.
  - revert Hrun. unfold UCXXEndpoint.createRequest, bind, deref. rewrite Hs.
    by intros [= <- <-].
Qed.

Lemma keeps_stream_send this buffer length :
  keeps (UCXXEndpoint.stream_send this buffer length).
Proof.
  apply keeps_bind; [apply keeps_deref|]. intros self.
  apply keeps_bind; [apply keeps_getWorker|]. intros worker.
  eapply triple_bind; [apply triple_stream_msg|]. intros request.
  eapply triple_weaken; [apply triple_createRequest|done..].
Qed.

Lemma keeps_stream_recv this buffer length :
  keeps (UCXXEndpoint.stream_recv this buffer length).
Proof.
  apply keeps_bind; [apply keeps_deref|]. intros self.
  apply keeps_bind; [apply keeps_getWorker|]. intros worker.
  eapply triple_bind; [apply triple_stream_msg|]. intros request.
  eapply triple_weaken; [apply triple_createRequest|done..].
Qed.

Lemma keeps_tag_send tag_msg this buffer length tag callbackFunction callbackData :
  tag_msg_well_behaved tag_msg →
  keeps (UCXXEndpoint.tag_send tag_msg this buffer length tag callbackFunction
           callbackData).
Proof.
  intros Htag.
  apply keeps_bind; [apply keeps_deref|]. intros self.
  apply keeps_bind; [apply keeps_getWorker|]. intros worker.
  eapply triple_bind; [apply Htag|]. intros request.
  eapply triple_weaken; [apply triple_createRequest|done..].
Qed.

Lemma keeps_tag_recv tag_msg this buffer length tag callbackFunction callbackData :
  tag_msg_well_behaved tag_msg →
  keeps (UCXXEndpoint.tag_recv tag_msg this buffer length tag callbackFunction
           callbackData).
Proof.
  intros Htag.
  apply keeps_bind; [apply keeps_deref|]. intros self.
  apply keeps_bind; [apply keeps_getWorker|]. intros worker.
  eapply triple_bind; [apply Htag|]. intros request.
  eapply triple_weaken; [apply triple_createRequest|done..].
Qed.

Lemma keeps_setCloseCallback this closeCallback closeCallbackArg :
  keeps (UCXXEndpoint.setCloseCallback this closeCallback closeCallbackArg).
Proof.
  apply keeps_bind; [apply keeps_deref|]. intros self.
  apply keeps_bind; [apply keeps_write_data|]. intros _. apply keeps_write_data.
Qed.

Lemma keeps_isAlive this : keeps (UCXXEndpoint.isAlive this).
Proof.
  apply keeps_bind; [apply keeps_deref|]. intros self.
  destruct (negb _); [apply keeps_ret|].
  apply keeps_bind; [apply keeps_deref|]. intros data. apply keeps_ret.
Qed.

Lemma keeps_raiseOnError this : keeps (UCXXEndpoint.raiseOnError this).
Proof.
  apply keeps_bind; [apply keeps_deref|]. intros self.
  apply keeps_bind; [apply keeps_deref|]. intros data. simpl.
  destruct (bool_decide _ || negb _); [apply keeps_ret|].
  apply keeps_bind; [apply keeps_gets|]. intros statusString.
  apply keeps_bind; [apply keeps_gets|]. intros handle.
  case_bool_decide; apply keeps_throw.
Qed.

Lemma keeps_getHandle this : keeps (UCXXEndpoint.getHandle this).
Proof. apply keeps_bind; [apply keeps_deref|]. intros self. apply keeps_ret. Qed.

Lemma consistent_destroyed req h w :
  consistent w →
  w_handles w !! req = Some h →
  consistent (set_inflight (alter (delete req) (req_inflight h))
                (set_handles (delete req) w)).
Proof.
  intros [Hf Ha Hep Hreg Hfl] Hh. split.
  - intros k Hk. simpl. destruct (Hf k Hk) as (H1 & H2 & H3 & H4).
    split; [done|]. split; [by apply lookup_delete_None; right|]. split.
    + by rewrite lookup_alter_None.
    + intros i registry. destruct (decide (i = req_inflight h)) as [->|Hne].
      * rewrite lookup_alter_eq. destruct (w_inflight w !! req_inflight h) eqn:Hi;
          [|done]. simpl. intros [= <-]. apply lookup_delete_None. right. by eapply H4.
      * rewrite lookup_alter_ne by done. apply H4.
  - intros p h'. simpl. intros [_ Hp]%lookup_delete_Some. by eapply Ha.
  - intros this self Hs. simpl in *. rewrite lookup_alter_is_Some. by eapply Hep.
  - intros req' h' rq. simpl. intros [Hne Hp]%lookup_delete_Some Hrq Hnt.
    destruct (Hreg req' h' rq Hp Hrq Hnt) as (h'' & registry & Hh'' & Hi & Hk).
    destruct (decide (req_inflight h'' = req_inflight h)) as [Heq|Hne'].
    + exists h'', (delete req registry). simpl. split.
      { apply lookup_delete_Some. done. }
      rewrite Heq, lookup_alter_eq. rewrite Heq in Hi. rewrite Hi. split; [done|].
      by rewrite lookup_delete_ne.
    + exists h'', registry. simpl. split.
      { apply lookup_delete_Some. done. }
      by rewrite lookup_alter_ne.
  - done.
Qed.

Lemma consistent_recounted req h n w :
  consistent w →
  w_handles w !! req = Some h →
  consistent (set_handles <[req := UCXXRequest.set_use_count n h]> w).
Proof.
  intros [Hf Ha Hep Hreg Hfl] Hh. split.
  - intros k Hk. simpl. destruct (Hf k Hk) as (H1 & H2 & H3 & H4).
    split; [done|]. split; [|done]. rewrite lookup_insert_ne; [done|].
    intros <-. congruence.
  - intros p h'. simpl. destruct (decide (p = req)) as [->|Hne].
    + rewrite lookup_insert_eq. intros [= <-]. simpl. by eapply Ha.
    + rewrite lookup_insert_ne by done. apply Ha.
  - done.
  - intros req' h' rq. simpl. destruct (decide (req' = req)) as [->|Hne].
    + rewrite lookup_insert_eq. intros [= <-]. simpl. intros Hrq Hnt.
      destruct (Hreg req h rq Hh Hrq Hnt) as (h'' & registry & Hh'' & Hi & Hk).
      eexists _, registry. simpl. rewrite lookup_insert_eq. split; [done|].
      simpl. split; [|done]. congruence.
    + rewrite lookup_insert_ne by done. intros Hp Hrq Hnt.
      destruct (Hreg req' h' rq Hp Hrq Hnt) as (h'' & registry & Hh'' & Hi & Hk).
      exists h'', registry. simpl. by rewrite lookup_insert_ne.
  - done.
Qed.

Lemma keeps_release req : keeps (UCXXRequest.release req).
Proof.
  intros w o w' Hc _. unfold UCXXRequest.release, bind, deref.
  destruct (w_handles w !! req) as [h|] eqn:Hh; [|by intros [= <- <-]].
  destruct (req_use_count h) as [|[|n]]; intros [= <- <-]; (split; [|done]).
  - by apply consistent_destroyed.
  - by apply consistent_destroyed.
  - by apply consistent_recounted.
Qed.

Lemma keeps_wait_close fuel worker status :
  keeps (UCXXEndpoint.wait_close fuel worker status).
Proof.
  induction fuel as [|fuel IH]; simpl.
  - apply keeps_bind; [by apply keeps_ask|]. intros st. case_bool_decide; apply keeps_ret.
  - apply keeps_bind; [by apply keeps_ask|]. intros st.
    case_bool_decide; [|apply keeps_ret].
    apply keeps_bind; [apply keeps_progress|]. by intros.
Qed.

Lemma consistent_delete_endpoint this w :
  consistent w → consistent (set_endpoints (delete this) w).
Proof.
  intros [Hf Ha Hep Hreg Hfl]. split; try done.
  intros this' self. simpl. intros [_ Hs]%lookup_delete_Some. by eapply Hep.
Qed.

Lemma keeps_delete_endpoint this : keeps (modify (set_endpoints (delete this))).
Proof. apply keeps_modify. intros w. apply consistent_delete_endpoint. Qed.

(** Destroying what nothing holds keeps the invariant: the registry of an
    endpoint is held by it, that of a handle by the handle. *)
Lemma consistent_prunes w w' : consistent w → prunes w w' → consistent w'.
Proof.
  intros [Hf Ha Hep Hreg Hfl] P.
  destruct P as [E T R N EP CB RQ H C I CO UR UC].
  assert (∀ i registry,
    w_inflight w' !! i = Some registry → w_inflight w !! i = Some registry) as Hsub.
  { intros i registry Hi. by eapply lookup_weaken. }
  split.
  - intros k Hk. rewrite N in Hk. destruct (Hf k Hk) as (H1 & H2 & H3 & H4).
    rewrite RQ, H. split; [done|]. split; [done|]. split.
    + destruct (w_inflight w' !! k) as [x|] eqn:Hx; [|done].
      apply Hsub in Hx. congruence.
    + intros i registry Hi. apply (H4 i). by apply Hsub.
  - unfold requests_alive. by rewrite RQ, H.
  - intros this self Hs. rewrite EP in Hs.
    destruct (Hep this self Hs) as [registry Hr].
    destruct (w_inflight w' !! _inflightRequests self) as [x|] eqn:Hx; [eauto|].
    assert (registry_held (_inflightRequests self) w' = true) as Hheld.
    { unfold registry_held. rewrite EP. rewrite bool_decide_eq_true_2; [done|].
      by exists this, self. }
    rewrite UR in Hheld; [done|eauto|done].
  - intros req h rq. rewrite H, RQ. intros Hh Hrq Hnt.
    destruct (Hreg req h rq Hh Hrq Hnt) as (h' & registry & Hh' & Hi & Hk).
    exists h', registry. rewrite H. split; [done|]. split; [|done].
    destruct (w_inflight w' !! req_inflight h') as [x|] eqn:Hx.
    + apply Hsub in Hx. congruence.
    + assert (registry_held (req_inflight h') w' = true) as Hheld.
      { unfold registry_held. rewrite H.
        rewrite (bool_decide_eq_true_2 (map_Exists _ (w_handles w))).
        - by rewrite orb_true_r.
        - by exists req, h'. }
      rewrite UR in Hheld; [done|eauto|done].
  - by rewrite R.
Qed.

Lemma keeps_destroy_members this self : keeps (UCXXEndpoint.destroy_members this self).
Proof.
  intros w o w' Hc _ Hrun.
  destruct (destroy_members_run this self w) as (w1 & Hrun1 & P).
  rewrite Hrun1 in Hrun. injection Hrun as <- <-. split; [|done].
  eapply consistent_prunes; [|exact P].
  apply consistent_delete_endpoint. by apply (consistent_silently w).
Qed.

Lemma keeps_destructor fuel this : keeps (UCXXEndpoint.destructor fuel this).
Proof.
  apply keeps_bind; [apply keeps_deref|]. intros self.
  pose proof (keeps_destroy_members this self) as Hdestroy.
  simpl. case_bool_decide; [done|].
  apply keeps_bind.
  { destruct (_endpoint_error_handling self); [|apply keeps_ret].
    apply keeps_bind; [apply keeps_deref|]. intros data.
    destruct (negb _); apply keeps_ret. }
  intros close_mode. apply keeps_bind; [by apply keeps_ask|]. intros status.
  destruct (UCS.PTR_IS_PTR status).
  - apply keeps_bind; [apply keeps_getWorker|]. intros worker.
    apply keeps_bind; [apply keeps_wait_close|]. intros [|]; [|apply keeps_ret].
    apply keeps_bind; [by apply keeps_emit|]. by intros.
  - destruct (negb _); [|done].
    apply keeps_bind; [apply keeps_log|]. by intros.
Qed.

Lemma untouched_bind {A B} (m : M A) (k : A → M B) :
  untouched m → (∀ a, untouched (k a)) → untouched (bind m k).
Proof.
  intros Hm Hk w. unfold bind. specialize (Hm w).
  destruct (m w) as [[a| |] w1]; simpl in *; [|done..].
  destruct (Hk a w1) as [H1 H2]. destruct Hm as [H3 H4]. split; congruence.
Qed.

Lemma untouched_ret {A} (a : A) : untouched (ret a).
Proof. done. Qed.

Lemma untouched_undefined {A} : untouched (@undefined A).
Proof. done. Qed.

Lemma untouched_gets {A} (f : World → A) : untouched (gets f).
Proof. done. Qed.

Lemma untouched_deref {A} (store : World → gmap Z A) p : untouched (deref store p).
Proof. intros w. unfold deref. by destruct (store w !! p). Qed.

Lemma untouched_alloc : untouched alloc.
Proof. done. Qed.

Lemma untouched_ask {A} e (answer : environment → list event → A) :
  untouched (ask e answer).
Proof. done. Qed.

Lemma untouched_get_handle this : untouched (UCXXWorker.get_handle this).
Proof.
  apply untouched_bind; [|intros; apply untouched_ret].
  apply untouched_bind; [apply untouched_deref|].
  intros [|]; [apply untouched_ret|apply untouched_undefined].
Qed.

Lemma untouched_getWorker p : untouched (UCXXEndpoint.getWorker p).
Proof.
  apply untouched_bind; [apply untouched_gets|]. intros components.
  destruct (components !! p) as [[wk|l]|]; [apply untouched_ret| |apply untouched_undefined].
  destruct (components !! ls_parent l) as [[wk|l']|]; apply untouched_ret.
Qed.

Lemma untouched_worker_not_initialized worker :
  untouched (UCXXEndpoint.worker_not_initialized worker).
Proof.
  unfold UCXXEndpoint.worker_not_initialized. case_bool_decide; [apply untouched_ret|].
  apply untouched_bind; [apply untouched_get_handle|]. intros. apply untouched_ret.
Qed.

Lemma keeps_worker_not_initialized worker :
  keeps (UCXXEndpoint.worker_not_initialized worker).
Proof.
  unfold UCXXEndpoint.worker_not_initialized. case_bool_decide; [apply keeps_ret|].
  apply keeps_bind; [apply keeps_get_handle|]. intros. apply keeps_ret.
Qed.

Lemma triple_untouched {A} (m : M A) i :
  keeps m → untouched m → triple (scratch i) m (λ _, scratch i).
Proof.
  intros Hk Hu w o w' Hc [Hi Hs] Hrun.
  specialize (Hk w o w' Hc I Hrun). destruct (Hu w) as [H1 H2].
  rewrite Hrun in H1, H2. simpl in *.
  destruct o; [|done..]. destruct Hk as [Hc' _]. split; [done|].
  split; [by rewrite H1|]. intros this self. rewrite H2. apply Hs.
Qed.

Lemma triple_alloc_registry :
  triple (λ _, True)
    (let! inflightRequests := alloc in
     do! modify (set_inflight <[inflightRequests := ∅]>) in
     ret inflightRequests)
    (λ i w, scratch i w).
Proof.
  intros w o w' Hc _ [= <- <-]. destruct Hc as [Hf Ha Hep Hreg Hfl].
  destruct (Hf (w_next w) ltac:(lia)) as (Hn1 & Hn2 & Hn3 & Hn4).
  assert (∀ this self, w_endpoints w !! this = Some self →
                       _inflightRequests self ≠ w_next w) as Hfree.
  { intros this self Hs Heq. destruct (Hep this self Hs) as [reg Hr]. congruence. }
  split; [|split; [simpl; by rewrite lookup_insert_eq|done]].
  split.
  - intros k Hk. simpl in *. destruct (Hf k ltac:(lia)) as (H1 & H2 & H3 & H4).
    split; [done|]. split; [done|]. split.
    + rewrite lookup_insert_ne; [done|lia].
    + intros i registry. destruct (decide (i = w_next w)) as [->|Hne].
      * rewrite lookup_insert_eq. by intros [= <-].
      * rewrite lookup_insert_ne by done. apply H4.
  - done.
  - intros this self Hs. simpl in *. rewrite lookup_insert_ne.
    + by eapply Hep.
    + intros Heq. by eapply Hfree.
  - intros req h rq Hh Hrq Hnt. simpl in *.
    destruct (Hreg req h rq Hh Hrq Hnt) as (h' & registry & Hh' & Hi & Hk).
    exists h', registry. simpl. split; [done|]. split; [|done].
    rewrite lookup_insert_ne; [done|]. intros Heq. congruence.
  - done.
Qed.

Lemma triple_discard_registry {A} i e :
  triple (scratch i)
    (do! modify (set_inflight (delete i)) in throw e) (λ (_ : A) _, True).
Proof.
  intros w o w' Hc [Hi Hs] [= <- <-]. destruct Hc as [Hf Ha Hep Hreg Hfl]. split.
  - intros k Hk. simpl. destruct (Hf k Hk) as (H1 & H2 & H3 & H4).
    split; [done|]. split; [done|]. split.
    + apply lookup_delete_None. by right.
    + intros i' registry [_ Hi']%lookup_delete_Some. by eapply H4.
  - done.
  - intros this self Hs'. simpl. destruct (Hep this self Hs') as [reg Hr].
    exists reg. apply lookup_delete_Some. split; [|done].
    intros Heq. by eapply Hs.
  - intros req h rq Hh Hrq Hnt. simpl in *.
    destruct (Hreg req h rq Hh Hrq Hnt) as (h' & registry & Hh' & Hi' & Hk).
    exists h', registry. split; [done|]. split; [|done].
    apply lookup_delete_Some. split; [|done]. intros Heq.
    rewrite <- Heq, Hi in Hi'. injection Hi' as <-. by rewrite lookup_empty in Hk.
  - done.
Qed.

Lemma triple_with_new_registry {B} (k : ptr → M B) (R : B → World → Prop) :
  (∀ i, triple (scratch i) (k i) R) →
  triple (λ _, True)
    (let! inflightRequests := alloc in
     do! modify (set_inflight <[inflightRequests := ∅]>) in
     k inflightRequests) R.
Proof.
  intros Hk w o w' Hc _ Hrun.
  destruct (triple_alloc_registry w _ _ Hc I eq_refl) as [Hc1 Hs1].
  by apply (Hk _ _ o w' Hc1 Hs1).
Qed.

Lemma triple_assert_or_discard i callbackData status :
  triple (scratch i)
    (on_throw (assert_ucs_status status)
       (do! modify (set_callback_data (delete callbackData)) in
        modify (set_inflight (delete i))))
    (λ _, scratch i).
Proof.
  intros w o w' Hc Hs. unfold on_throw, assert_ucs_status.
  case_bool_decide; [by intros [= <- <-]|].
  unfold bind, gets, throw, modify. simpl. intros [= <- <-].
  assert (consistent (set_callback_data (delete callbackData) w)) as Hc1.
  { by apply (consistent_silently w). }
  exact (triple_discard_registry (A:=unit) i
           (UCXXError (env_status_string (w_env w) status))
           (set_callback_data (delete callbackData) w) _ _ Hc1 Hs eq_refl).
Qed.

Lemma keeps_constructor worker_or_listener params endpoint_error_handling :
  keeps (UCXXEndpoint.constructor worker_or_listener params endpoint_error_handling).
Proof.
  apply keeps_bind; [apply keeps_alloc|]. intros this.
  apply triple_with_new_registry. intros i.
  eapply triple_bind; [apply triple_untouched;
    [apply keeps_getWorker|apply untouched_getWorker]|]. intros worker.
  eapply triple_bind; [apply triple_untouched;
    [apply keeps_worker_not_initialized|apply untouched_worker_not_initialized]|].
  intros [|].
  { apply triple_discard_registry. }
  eapply triple_bind; [apply triple_untouched; [apply keeps_alloc|apply untouched_alloc]|].
  intros callbackData.
  eapply triple_bind.
  { apply triple_untouched; [apply keeps_set_callback_data|done]. }
  intros u.
  eapply triple_bind; [apply triple_untouched;
    [apply keeps_get_handle|apply untouched_get_handle]|]. intros worker_handle.
  eapply triple_bind; [apply triple_untouched; [by apply keeps_ask|apply untouched_ask]|].
  intros created.
  eapply triple_bind; [apply triple_assert_or_discard|]. intros u'.
  eapply triple_bind; [|intros; apply (triple_ret this (λ _ _, True))].
  apply (triple_modify _ _ (λ _, True)). intros w [Hf Ha Hep Hreg Hfl] [Hi Hs].
  split; [|done]. split; try done.
  intros this' self. simpl. destruct (decide (this' = this)) as [->|Hne].
  - rewrite lookup_insert_eq. intros [= <-]. simpl. eauto.
  - rewrite lookup_insert_ne by done. apply Hep.
Qed.

Lemma keeps_createEndpointFromHostname worker ip_address port endpoint_error_handling :
  keeps (createEndpointFromHostname worker ip_address port endpoint_error_handling).
Proof.
  apply keeps_bind; [apply keeps_worker_not_initialized|]. intros [|];
    [apply keeps_throw|].
  apply keeps_bind; [by apply keeps_ask|]. intros [h_name|]; [|apply keeps_throw].
  apply keeps_bind; [apply keeps_gets|]. intros failed.
  destruct (negb _); [apply keeps_throw|apply keeps_constructor].
Qed.

Lemma keeps_createEndpointFromConnRequest listener conn_request
    endpoint_error_handling :
  keeps (createEndpointFromConnRequest listener conn_request endpoint_error_handling).
Proof.
  apply keeps_bind.
  { unfold listener_not_initialized. case_bool_decide; [apply keeps_ret|].
    apply keeps_bind; [|intros; apply keeps_ret].
    apply keeps_bind; [apply keeps_deref_listener|]. intros. apply keeps_ret. }
  intros [|]; [apply keeps_throw|apply keeps_constructor].
Qed.

Lemma keeps_createEndpointFromWorkerAddress worker address endpoint_error_handling :
  keeps (createEndpointFromWorkerAddress worker address endpoint_error_handling).
Proof.
  apply keeps_bind; [apply keeps_worker_not_initialized|]. intros [|];
    [apply keeps_throw|].
  destruct (address_not_initialized address); [apply keeps_throw|].
  apply keeps_constructor.
Qed.

Lemma keeps_run_op tag_msg op :
  tag_msg_well_behaved tag_msg → keeps (run_op tag_msg op).
Proof.
  intros Htag. destruct op; simpl; apply keeps_attempt.
  - apply keeps_stream_send.
  - apply keeps_stream_recv.
  - by apply keeps_tag_send.
  - by apply keeps_tag_recv.
  - apply keeps_setCloseCallback.
  - apply keeps_isAlive.
  - apply keeps_raiseOnError.
  - apply keeps_getHandle.
  - apply keeps_err_cb.
  - apply keeps_progress.
  - apply keeps_drainDelayed.
  - apply keeps_release.
  - apply keeps_destructor.
  - apply keeps_createEndpointFromHostname.
  - apply keeps_createEndpointFromConnRequest.
  - apply keeps_createEndpointFromWorkerAddress.
Qed.

Lemma keeps_run_ops tag_msg ops :
  tag_msg_well_behaved tag_msg → keeps (run_ops tag_msg ops).
Proof.
  intros Htag. induction ops as [|op ops IH]; [apply keeps_ret|]. simpl.
  apply keeps_bind; [by apply keeps_run_op|]. by intros.
Qed.

(** ** The wait-all flag *)

(** C10.  [stream_request] and [UCXXRequestTag::request] each make exactly
    one call into UCP.  The block they pass carries the wait-all flag
    exactly when the call is a stream receive: a stream send and both tag
    operations leave the flag (and the bit that announces the flags field)
    clear.  Hence, after any run of operations from a consistent world,
    every send or receive recorded in the trace carries the wait-all flag
    if and only if it is a stream receive. *)
Theorem waitall_only_on_stream_recv
    (worker ep buffer request : ptr) (length tag : Z) (send : bool) (w : World) :
  (∃ e param,
      w_trace (stream_request ep send buffer length request w).2 = w_trace w ++ [e]
      ∧ submission e = Some param
      ∧ is_stream_recv e = negb send
      ∧ waitall param = negb send
      ∧ user_data param = request)
  ∧ (∃ e param,
      w_trace (UCXXRequestTag.request worker ep send buffer length tag request w).2
        = w_trace w ++ [e]
      ∧ submission e = Some param
      ∧ is_stream_recv e = false
      ∧ waitall param = false
      ∧ flags param = 0)
  ∧ (∀ tag_msg ops o w',
       tag_msg_well_behaved tag_msg →
       consistent w →
       run_ops tag_msg ops w = (o, w') →
       o ≠ Undefined →
       ∀ e param,
         e ∈ w_trace w' →
         submission e = Some param →
         waitall param = true ↔ is_stream_recv e = true).
Proof.
  split; [|split].
  - destruct send; eexists _, _; (split; [reflexivity|]); done.
  - destruct send; eexists _, _; (split; [reflexivity|]); done.
  - intros tag_msg ops o w' Htag Hc Hrun Ho e param Hin Hsub.
    pose proof (keeps_run_ops tag_msg ops Htag _ _ _ Hc I Hrun) as Hkeep.
    assert (consistent w') as Hc'.
    { destruct o as [[]| |]; [by destruct Hkeep|done|done]. }
    pose proof (consistent_flags _ Hc') as Hfl.
    rewrite Forall_forall in Hfl. specialize (Hfl e Hin).
    unfold well_flagged in Hfl. rewrite Hsub in Hfl.
    apply bool_decide_eq_true in Hfl. by rewrite Hfl.
Qed.

(** ** Requests and the registry *)

(** C5.  [createRequest] puts the new request into the registry of the
    endpoint it is created on, under its own address, as a weak reference:
    the handle returned to the caller is the only owner, and once the
    caller releases it the request is gone, registry entry or not.  While
    the handle lives and the request has not reached a terminal state, the
    request stays discoverable from the registry through every later
    operation: sends and receives on any endpoint, close-callback and
    status queries, error callbacks, worker progress, queue drains,
    releases of handles, and creation and destruction of endpoints. *)
Theorem request_registered_weakly_until_terminal tag_msg this self request w :
  tag_msg_well_behaved tag_msg →
  consistent w →
  w_endpoints w !! this = Some self →
  is_Some (w_requests w !! request) →
  ∃ w1,
    UCXXEndpoint.createRequest this request w = (Returned (w_next w), w1)
    ∧ (∃ registry,
         w_inflight w1 !! _inflightRequests self = Some registry
         ∧ registry !! w_next w = Some (Weak (w_next w)))
    ∧ w_handles w1 !! w_next w = Some (fresh_handle this self request)
    ∧ req_use_count (fresh_handle this self request) = 1%nat
    ∧ (∃ w2,
         UCXXRequest.release (w_next w) w1 = (Returned tt, w2)
         ∧ w_handles w2 !! w_next w = None
         ∧ ¬ discoverable w2 (w_next w))
    ∧ ∀ ops o w2,
        run_ops tag_msg ops w1 = (o, w2) →
        o ≠ Undefined →
        ∀ h rq,
          w_handles w2 !! w_next w = Some h →
          w_requests w2 !! req_request h = Some rq →
          ¬ terminal rq →
          discoverable w2 (w_next w).
Proof.
  intros Htag Hc Hs Hrq.
  destruct (consistent_endpoints _ Hc this self Hs) as [registry Hr].
  destruct (consistent_after_createRequest this self request w Hc Hs Hrq)
    as [Hc1 (h1 & registry1 & Hh1 & Hi1 & Hk1)].
  exists (after_createRequest this self request w).
  split; [by eapply createRequest_run|].
  simpl in Hh1. rewrite lookup_insert_eq in Hh1. injection Hh1 as <-.
  split; [by eauto|].
  split; [simpl; by rewrite lookup_insert_eq|].
  split; [done|].
  split.
  { eexists. split.
    - unfold UCXXRequest.release, bind, deref. simpl. rewrite lookup_insert_eq.
      simpl. reflexivity.
    - simpl. rewrite lookup_delete_eq. split; [done|].
      intros (h & reg & Hh & _). simpl in Hh. by rewrite lookup_delete_eq in Hh. }
  intros ops o w2 Hrun Ho h rq Hh Hrq2 Hnt.
  pose proof (keeps_run_ops tag_msg ops Htag _ _ _ Hc1 I Hrun) as Hkeep.
  destruct o as [[]| |]; [| |done].
  - destruct Hkeep as [Hc2 _]. by eapply (consistent_registered _ Hc2).
  - by eapply (consistent_registered _ Hkeep).
Qed.

Lemma fresh_from_next_intro w :
  map_Forall (λ k _, k < w_next w) (w_requests w) →
  map_Forall (λ k _, k < w_next w) (w_handles w) →
  map_Forall (λ i registry, i < w_next w ∧ map_Forall (λ k _, k < w_next w) registry)
    (w_inflight w) →
  fresh_from_next w.
Proof.
  intros H1 H2 H3 k Hk.
  assert (∀ {A} (m : gmap Z A), map_Forall (λ k _, k < w_next w) m → m !! k = None)
    as Hnone.
  { intros A m Hm. destruct (m !! k) eqn:E; [|done]. specialize (Hm k a E). simpl in Hm.
    lia. }
  split; [by apply Hnone|]. split; [by apply Hnone|]. split.
  - destruct (w_inflight w !! k) eqn:E; [|done]. destruct (H3 k g E). lia.
  - intros i registry Hi. destruct (H3 i registry Hi). by apply Hnone.
Qed.

Lemma registered_intro w :
  map_Forall (λ req h, registered_at w req h = true) (w_handles w) → registered w.
Proof.
  intros H req h rq Hh Hrq Hnt. specialize (H req h Hh). simpl in H.
  unfold registered_at in H. rewrite Hrq in H.
  rewrite bool_decide_eq_true_2 in H.
  - destruct (w_inflight w !! req_inflight h) as [registry|] eqn:Hi; [|done].
    exists h, registry. split; [done|]. split; [done|]. by apply bool_decide_eq_true in H.
  - unfold terminal in Hnt. by destruct (decide (rq_status rq = UCS.INPROGRESS)).
Qed.

Lemma sample_consistent env error_handling status :
  consistent (sample env error_handling status).
Proof.
  split.
  - apply fresh_from_next_intro; apply (bool_decide_unpack _); by vm_compute.
  - unfold requests_alive. apply (bool_decide_unpack _). by vm_compute.
  - unfold endpoints_have_registry.
    change (map_Forall (λ _ self, is_Some (w_inflight (sample env error_handling status)
                                             !! _inflightRequests self))
              (w_endpoints (sample env error_handling status))).
    apply map_Forall_insert_2; [|apply map_Forall_empty]. simpl. eauto.
  - apply registered_intro. apply (bool_decide_unpack _). by vm_compute.
  - constructor.
Defined.

Lemma sample_tag_msg_well_behaved : tag_msg_well_behaved sample_tag_msg.
Proof. intros worker ep send buffer length tag f d. apply triple_stream_msg. Defined.

(** ** The sample worlds satisfy the hypotheses *)

Lemma sample_ready env error_handling status :
  err_cb_ready 30 (sample_data status) sample_registry (sample env error_handling status).
Proof.
  split.
  - reflexivity.
  - eexists. reflexivity.
  - reflexivity.
  - unfold requests_alive. apply (bool_decide_unpack _). by vm_compute.
Defined.

Lemma err_cb_log_severity_witness :
  err_cb_ready 30 (sample_data UCS.OK) sample_registry (sample env_prompt true UCS.OK)
  ∧ ∃ w' evs lvl,
      _err_cb 30 21 UCS.ERR_CONNECTION_RESET (sample env_prompt true UCS.OK)
        = (Returned tt, w')
      ∧ w_trace w' = w_trace (sample env_prompt true UCS.OK) ++ evs
      ∧ omap severity evs = [lvl]
      ∧ (lvl = LOG_DEBUG ↔
         UCS.ERR_CONNECTION_RESET = UCS.ERR_CONNECTION_RESET
         ∨ UCS.ERR_CONNECTION_RESET = UCS.ERR_ENDPOINT_TIMEOUT)
      ∧ (lvl = LOG_ERROR ↔
         ¬ (UCS.ERR_CONNECTION_RESET = UCS.ERR_CONNECTION_RESET
            ∨ UCS.ERR_CONNECTION_RESET = UCS.ERR_ENDPOINT_TIMEOUT)).
Proof.
  split; [apply sample_ready|].
  apply (err_cb_log_severity 30 21 UCS.ERR_CONNECTION_RESET
           (sample_data UCS.OK) sample_registry (sample env_prompt true UCS.OK)).
  apply sample_ready.
Defined.

Lemma close_callback_invoked_at_most_once_witness :
  w_endpoints (sample env_prompt true UCS.OK) !! 20 = Some (sample_endpoint true)
  ∧ err_cb_ready (_callbackData (sample_endpoint true)) (sample_data UCS.OK)
      sample_registry (sample env_prompt true UCS.OK)
  ∧ (∀ calls, ∃ w' evs data',
        err_cb_repeatedly (_callbackData (sample_endpoint true)) calls
          (sample env_prompt true UCS.OK) = (Returned tt, w')
        ∧ w_trace w' = w_trace (sample env_prompt true UCS.OK) ++ evs
        ∧ filter (λ e, is_close_callback e) evs
          = match calls with [] => [] | _ :: _ => close_events (sample_data UCS.OK) end
        ∧ (length (filter (λ e, is_close_callback e) evs) ≤ 1)%nat
        ∧ w_callback_data w' !! _callbackData (sample_endpoint true) = Some data'
        ∧ (calls ≠ [] → ecd_closeCallback data' = None)
        ∧ (calls ≠ [] → is_Some (ecd_closeCallback (sample_data UCS.OK)) →
           ecd_closeCallbackArg data' = NULL))
  ∧ ∃ w0,
      UCXXEndpoint.setCloseCallback 20 (Some 8) 80 (sample env_prompt true UCS.OK)
        = (Returned tt, w0)
      ∧ ∀ calls, ∃ w' evs,
          err_cb_repeatedly (_callbackData (sample_endpoint true)) calls w0
            = (Returned tt, w')
          ∧ w_trace w' = w_trace w0 ++ evs
          ∧ filter (λ e, is_close_callback e) evs
            = match calls with
              | [] => []
              | _ :: _ => [ev_close_callback 8 80]
              end.
Proof.
  split; [reflexivity|]. split; [apply sample_ready|].
  apply (close_callback_invoked_at_most_once 20 (sample_endpoint true)
           (sample_data UCS.OK) sample_registry 8 80 (sample env_prompt true UCS.OK)).
  - reflexivity.
  - apply sample_ready.
Defined.

Lemma err_cb_cancels_inflight_once_witness :
  err_cb_ready 30 (sample_data UCS.OK) sample_registry (sample env_prompt true UCS.OK)
  ∧ ∃ w' evs,
      _err_cb 30 21 UCS.ERR_ENDPOINT_TIMEOUT (sample env_prompt true UCS.OK)
        = (Returned tt, w')
      ∧ w_trace w' = w_trace (sample env_prompt true UCS.OK) ++ ev_cancel_all 10 40 :: evs
      ∧ filter (λ e, is_cancel_all e) evs = []
      ∧ ∀ k p h rq,
          sample_registry !! k = Some (Weak p) →
          w_handles (sample env_prompt true UCS.OK) !! p = Some h →
          w_requests (sample env_prompt true UCS.OK) !! req_request h = Some rq →
          ∃ rq', w_requests w' !! req_request h = Some rq'
            ∧ terminal rq'
            ∧ (¬ terminal rq → rq_status rq' = UCS.ERR_CANCELED)
            ∧ (terminal rq → rq' = rq).
Proof.
  split; [apply sample_ready|].
  apply (err_cb_cancels_inflight_once 30 21 UCS.ERR_ENDPOINT_TIMEOUT
           (sample_data UCS.OK) sample_registry (sample env_prompt true UCS.OK)).
  apply sample_ready.
Defined.

Lemma without_error_handling_always_alive_witness :
  w_endpoints (sample env_prompt false UCS.ERR_CONNECTION_RESET) !! 20
    = Some (sample_endpoint false)
  ∧ _endpoint_error_handling (sample_endpoint false) = false
  ∧ w_callback_data (sample env_prompt false UCS.ERR_CONNECTION_RESET)
      !! _callbackData (sample_endpoint false)
    = Some (sample_data UCS.ERR_CONNECTION_RESET)
  ∧ UCXXEndpoint.isAlive 20 (sample env_prompt false UCS.ERR_CONNECTION_RESET)
    = (Returned true, sample env_prompt false UCS.ERR_CONNECTION_RESET)
  ∧ UCXXEndpoint.raiseOnError 20 (sample env_prompt false UCS.ERR_CONNECTION_RESET)
    = (Returned tt, sample env_prompt false UCS.ERR_CONNECTION_RESET).
Proof.
  split; [reflexivity|]. split; [reflexivity|]. split; [reflexivity|].
  apply (without_error_handling_always_alive 20 (sample_endpoint false)
           (sample_data UCS.ERR_CONNECTION_RESET)
           (sample env_prompt false UCS.ERR_CONNECTION_RESET)); reflexivity.
Defined.

Lemma endpoint_creation_needs_handles_witness :
  worker_lacks_handle sample_uninitialized 13
  ∧ createEndpointFromHostname 13 "node0" 4000 true sample_uninitialized
    = (Thrown (UCXXError "Worker not initialized"), sample_uninitialized)
  ∧ address_not_initialized (Some {| addr_handle := 900; addr_length := 0 |}) = true
  ∧ createEndpointFromWorkerAddress 10
      (Some {| addr_handle := 900; addr_length := 0 |}) true sample_uninitialized
    = (Thrown (UCXXError "Address not initialized"), sample_uninitialized)
  ∧ listener_on_bad_worker sample_uninitialized 12
  ∧ ∃ w',
      createEndpointFromConnRequest 12 901 true sample_uninitialized
      = (Thrown (UCXXError "Worker not initialized"), w')
      ∧ w_trace w' = w_trace sample_uninitialized
      ∧ w_components w' = w_components sample_uninitialized
      ∧ w_endpoints w' = w_endpoints sample_uninitialized.
Proof.
  destruct (endpoint_creation_needs_handles sample_uninitialized)
    as (Hworker & Haddress & _ & Hlistener).
  assert (worker_lacks_handle sample_uninitialized 13) as Hbad.
  { right. eexists. split; reflexivity. }
  assert (listener_on_bad_worker sample_uninitialized 12) as Hbad'.
  { eexists. split; [reflexivity|]. split; [discriminate|reflexivity]. }
  split; [exact Hbad|].
  split; [apply (Hworker 13 Hbad)|].
  split; [reflexivity|].
  split.
  { apply (Haddress 10 {| wk_handle := 11; wk_progress_thread := 1; wk_delayed := [] |});
      [discriminate|reflexivity|discriminate|reflexivity]. }
  split; [exact Hbad'|].
  apply (Hlistener 12 901 true Hbad').
Defined.

Lemma sample_abandoned_env env : w_env (sample_abandoned env) = env.
Proof. reflexivity. Qed.

Lemma slow_close_completes w t0 :
  w_env w = env_slow_close →
  progress_count t0 = 0%nat →
  close_completes w t0 2.
Proof.
  intros He Ht. split.
  - intros t Hn. rewrite He. rewrite Ht in Hn. simpl in *.
    destruct (Nat.ltb_spec (progress_count t) 2); [lia|discriminate].
  - intros t f request st arg Hin. rewrite He in Hin. simpl in Hin.
    by apply elem_of_nil in Hin.
Defined.

Lemma destructor_force_closes_witness :
  w_endpoints (sample_abandoned env_slow_close) !! 20 = Some (sample_endpoint true)
  ∧ _handle (sample_endpoint true) ≠ NULL
  ∧ delayed (sample_abandoned env_slow_close) 10 100
  ∧ (∃ rq, w_requests (sample_abandoned env_slow_close) !! 100 = Some rq
           ∧ ¬ terminal rq)
  ∧ (∃ w' evs k,
       UCXXEndpoint.destructor 5 20 (sample_abandoned env_slow_close)
         = (Returned (Some tt), w')
       ∧ w_trace w'
         = w_trace (sample_abandoned env_slow_close)
           ++ ev_ucp_ep_close_nb 21 UCP.EP_CLOSE_MODE_FORCE
              :: evs ++ [ev_ucp_request_free 4096]
       ∧ filter (λ e, is_loop_call e) evs = close_loop 4096 11 k
       ∧ (k ≤ 5)%nat
       ∧ env_check_status env_slow_close
           (w_trace (sample_abandoned env_slow_close)
              ++ ev_ucp_ep_close_nb 21 UCP.EP_CLOSE_MODE_FORCE :: evs)
         ≠ UCS.INPROGRESS
       ∧ w_requests w' !! 100 = w_requests (sample_abandoned env_slow_close) !! 100
       ∧ w_endpoints w' !! 20 = None)
  ∧ ∃ w',
      UCXXEndpoint.destructor 0 20 (sample_abandoned env_prompt)
        = (Returned (Some tt), w')
      ∧ w_trace w'
        = w_trace (sample_abandoned env_prompt)
          ++ [ev_ucp_ep_close_nb 21 UCP.EP_CLOSE_MODE_FORCE]
      ∧ w_requests w' = w_requests (sample_abandoned env_prompt)
      ∧ w_endpoints w' !! 20 = None.
Proof.
  split; [by vm_compute|]. split; [discriminate|].
  split.
  { eexists _, _. split; [by vm_compute|]. split; [left|reflexivity]. }
  split.
  { eexists. split; [by vm_compute|]. unfold terminal. simpl. intros H. by apply H. }
  split.
  - destruct (destructor_force_closes 20 (sample_endpoint true)
                (sample_abandoned env_slow_close)) as [_ Hasync].
    + by vm_compute.
    + discriminate.
    + intros _. eexists. by vm_compute.
    + destruct (Hasync eq_refl 10
        {| wk_handle := 11; wk_progress_thread := 1;
           wk_delayed :=
             [stream_entry {| wk_handle := 11; wk_progress_thread := 1;
                              wk_delayed := [] |} 21 true 500 1024 100] |}
        2%nat 5%nat)
        as (w' & evs & k & Hrun & Htr & Hf & _ & Hk & Hdone & Hspared & _ & Hgone).
      * left. split; by vm_compute.
      * apply slow_close_completes; reflexivity.
      * lia.
      * exists w', evs, k. split; [exact Hrun|]. split; [exact Htr|].
        split; [exact Hf|]. split; [exact Hk|]. split; [exact Hdone|].
        split; [|exact Hgone].
        apply Hspared. intros t f request st Hin.
        rewrite sample_abandoned_env in Hin. simpl in Hin.
        by apply elem_of_nil in Hin.
  - destruct (destructor_force_closes 20 (sample_endpoint true)
                (sample_abandoned env_prompt)) as [Hsync _].
    + by vm_compute.
    + discriminate.
    + intros _. eexists. by vm_compute.
    + destruct (Hsync eq_refl 0%nat) as (w' & Hrun & Htr & Hrq & _ & Hgone).
      exists w'. split; [exact Hrun|]. split; [exact Htr|].
      split; [exact Hrq|exact Hgone].
Defined.

(** C4, as stated, fails: a stream send is still waiting in the worker's
    queue when the endpoint is destroyed.  The transport answers the forced
    close at once, so the destructor returns without one progress step: the
    handle is closed and the endpoint gone while the request is neither
    terminal nor cancelled, and never reached the transport. *)
Lemma destructor_leaves_request_pending :
  ∃ w',
    abandon_then_destroy (sample_idle env_prompt) = (Returned (Some tt), w')
    ∧ w_trace w'
      = [ev_log LOG_TRACE_REQ "request: %p, request->py_future: %p"
                [arg_ptr 100; arg_ptr 101];
         ev_ucp_ep_close_nb 21 UCP.EP_CLOSE_MODE_FORCE]
    ∧ w_endpoints w' !! 20 = None
    ∧ delayed w' 10 100
    ∧ (∃ rq, w_requests w' !! 100 = Some rq ∧ ¬ terminal rq)
    ∧ ¬ submitted w' 100.
Proof.
  exists (abandon_then_destroy (sample_idle env_prompt)).2.
  split; [by vm_compute|]. split; [by vm_compute|]. split; [by vm_compute|].
  split.
  { eexists _, _. split; [by vm_compute|]. split.
    - simpl. left.
    - reflexivity. }
  split.
  { eexists. split; [by vm_compute|]. unfold terminal. simpl. intros H. by apply H. }
  intros (e & param & Hin & Hsub & _).
  assert (w_trace (abandon_then_destroy (sample_idle env_prompt)).2
    = [ev_log LOG_TRACE_REQ "request: %p, request->py_future: %p"
                [arg_ptr 100; arg_ptr 101];
       ev_ucp_ep_close_nb 21 UCP.EP_CLOSE_MODE_FORCE]) as Htr by by vm_compute.
  rewrite Htr in Hin.
  apply elem_of_cons in Hin as [->|Hin]; [discriminate|].
  apply list_elem_of_singleton in Hin. subst e. discriminate.
Qed.

Lemma request_registered_weakly_until_terminal_witness :
  tag_msg_well_behaved sample_tag_msg
  ∧ consistent (sample env_prompt true UCS.OK)
  ∧ w_endpoints (sample env_prompt true UCS.OK) !! 20 = Some (sample_endpoint true)
  ∧ is_Some (w_requests (sample env_prompt true UCS.OK) !! 60)
  ∧ ∃ w1,
      UCXXEndpoint.createRequest 20 60 (sample env_prompt true UCS.OK)
        = (Returned 100, w1)
      ∧ w_handles w1 !! 100 = Some (fresh_handle 20 (sample_endpoint true) 60)
      ∧ ∀ ops o w2,
          run_ops sample_tag_msg ops w1 = (o, w2) →
          o ≠ Undefined →
          ∀ h rq,
            w_handles w2 !! 100 = Some h →
            w_requests w2 !! req_request h = Some rq →
            ¬ terminal rq →
            discoverable w2 100.
Proof.
  split; [apply sample_tag_msg_well_behaved|].
  split; [apply sample_consistent|].
  split; [reflexivity|].
  split; [eexists; reflexivity|].
  destruct (request_registered_weakly_until_terminal sample_tag_msg 20
              (sample_endpoint true) 60 (sample env_prompt true UCS.OK))
    as (w1 & Hrun & _ & Hh & _ & _ & Hkeep).
  - apply sample_tag_msg_well_behaved.
  - apply sample_consistent.
  - reflexivity.
  - eexists. reflexivity.
  - exists w1. split; [exact Hrun|]. split; [exact Hh|exact Hkeep].
Defined.

Lemma waitall_only_on_stream_recv_witness :
  tag_msg_well_behaved sample_tag_msg
  ∧ consistent (sample env_prompt true UCS.OK)
  ∧ run_ops sample_tag_msg
      [op_stream_recv 20 500 1024; op_stream_send 20 600 64; op_drainDelayed 10]
      (sample env_prompt true UCS.OK)
    = (Returned tt,
       (run_ops sample_tag_msg
          [op_stream_recv 20 500 1024; op_stream_send 20 600 64; op_drainDelayed 10]
          (sample env_prompt true UCS.OK)).2)
  ∧ ∀ e param,
      e ∈ w_trace (run_ops sample_tag_msg
                     [op_stream_recv 20 500 1024; op_stream_send 20 600 64;
                      op_drainDelayed 10]
                     (sample env_prompt true UCS.OK)).2 →
      submission e = Some param →
      waitall param = true ↔ is_stream_recv e = true.
Proof.
  split; [apply sample_tag_msg_well_behaved|].
  split; [apply sample_consistent|].
  split; [by vm_compute|].
  destruct (waitall_only_on_stream_recv 11 21 500 100 1024 0 false
              (sample env_prompt true UCS.OK)) as (_ & _ & Hall).
  apply (Hall sample_tag_msg
           [op_stream_recv 20 500 1024; op_stream_send 20 600 64; op_drainDelayed 10]
           (Returned tt)).
  - apply sample_tag_msg_well_behaved.
  - apply sample_consistent.
  - by vm_compute.
  - discriminate.
Defined.

(** * Further properties of the endpoint and the transfers *)

(** ** Liveness queries *)

(** X1.  [isAlive] and [raiseOnError] agree on every endpoint: the first
    answers true exactly when the second returns normally, false exactly
    when it throws; the answer is "error handling is off, or the recorded
    status is [UCS_OK]".  Neither changes anything, so asking again gives
    the same answer. *)
Theorem isAlive_agrees_with_raiseOnError this self data w :
  w_endpoints w !! this = Some self →
  w_callback_data w !! _callbackData self = Some data →
  ∃ alive o,
    UCXXEndpoint.isAlive this w = (Returned alive, w)
    ∧ UCXXEndpoint.raiseOnError this w = (o, w)
    ∧ alive = negb (_endpoint_error_handling self) || bool_decide (ecd_status data = UCS.OK)
    ∧ (alive = true ↔ o = Returned tt)
    ∧ (alive = false ↔ ∃ e, o = Thrown e).
Proof.
  intros Hs Hd.
  rewrite (raiseOnError_run this self data w Hs Hd).
  unfold UCXXEndpoint.isAlive.
  erewrite bind_returned; [|by apply deref_some].
  destruct (_endpoint_error_handling self); simpl.
  - erewrite bind_returned; [|by apply deref_some].
    eexists _, _. split; [reflexivity|]. split; [reflexivity|]. split; [done|].
    rewrite orb_false_r.
    destruct (bool_decide (ecd_status data = UCS.OK)); simpl.
    + split; [done|]. split; [done|]. by intros [e He].
    + case_bool_decide; (split; [done|]); (split; [eauto|done]).
  - eexists _, _. split; [reflexivity|]. split; [reflexivity|]. split; [done|].
    rewrite orb_true_r. split; [done|]. split; [done|]. by intros [e He].
Qed.

Lemma isAlive_agrees_with_raiseOnError_witness :
  w_endpoints (sample env_prompt true UCS.ERR_ENDPOINT_TIMEOUT) !! 20
    = Some (sample_endpoint true)
  ∧ ∃ alive o,
      UCXXEndpoint.isAlive 20 (sample env_prompt true UCS.ERR_ENDPOINT_TIMEOUT)
        = (Returned alive, sample env_prompt true UCS.ERR_ENDPOINT_TIMEOUT)
      ∧ UCXXEndpoint.raiseOnError 20 (sample env_prompt true UCS.ERR_ENDPOINT_TIMEOUT)
        = (o, sample env_prompt true UCS.ERR_ENDPOINT_TIMEOUT)
      ∧ (alive = false ↔ ∃ e, o = Thrown e).
Proof.
  split; [reflexivity|].
  destruct (isAlive_agrees_with_raiseOnError 20 (sample_endpoint true)
              (sample_data UCS.ERR_ENDPOINT_TIMEOUT)
              (sample env_prompt true UCS.ERR_ENDPOINT_TIMEOUT))
    as (alive & o & H1 & H2 & _ & _ & H3); [reflexivity|reflexivity|].
  exists alive, o. split; [exact H1|]. split; [exact H2|exact H3].
Defined.

(** ** The recorded status *)

Lemma latest_status_cons ep status calls status0 :
  latest_status ((ep, status) :: calls) status0 = latest_status calls status.
Proof.
  unfold latest_status. destruct calls as [|c calls]; [done|].
  rewrite last_cons. by destruct (last (c :: calls)) eqn:E.
Qed.

Lemma after_errors_status calls : ∀ data,
  ecd_status (after_errors calls data) = latest_status calls (ecd_status data).
Proof.
  induction calls as [|[ep status] calls IH]; intros data; [done|].
  simpl. by rewrite IH, latest_status_cons.
Qed.

Lemma after_errors_fields calls : ∀ data,
  ecd_inflightRequests (after_errors calls data) = ecd_inflightRequests data
  ∧ ecd_worker (after_errors calls data) = ecd_worker data.
Proof.
  induction calls as [|[ep status] calls IH]; intros data; [done|].
  simpl. by destruct (IH (after_error status data)) as [-> ->].
Qed.

Lemma err_cb_repeatedly_run calls : ∀ arg data registry w,
  err_cb_ready arg data registry w →
  ∃ w',
    err_cb_repeatedly arg calls w = (Returned tt, w')
    ∧ w_callback_data w' !! arg = Some (after_errors calls data)
    ∧ (∀ arg', arg' ≠ arg → w_callback_data w' !! arg' = w_callback_data w !! arg')
    ∧ w_endpoints w' = w_endpoints w
    ∧ w_components w' = w_components w.
Proof.
  induction calls as [|[ep status] calls IH]; intros arg data registry w Hready.
  { exists w. repeat split; try done. by destruct Hready. }
  destruct (err_cb_effect arg ep status data registry w Hready)
    as (w1 & notes & Hrun1 & _ & _ & Hcb1 & Hco1 & _ & Hep1 & _).
  destruct (err_cb_ready_after _ _ _ _ _ _ _ Hready Hrun1) as [registry1 Hready1].
  destruct (IH arg _ registry1 w1 Hready1) as (w' & Hrun & Hd & Hother & Hep & Hco).
  exists w'.
  split. { simpl. erewrite bind_returned; [exact Hrun|exact Hrun1]. }
  split; [done|].
  split. { intros arg' Hne. by rewrite Hother, Hcb1, lookup_insert_ne. }
  split; congruence.
Qed.

Lemma isAlive_run this self data w :
  w_endpoints w !! this = Some self →
  w_callback_data w !! _callbackData self = Some data →
  UCXXEndpoint.isAlive this w
  = (Returned (negb (_endpoint_error_handling self)
               || bool_decide (ecd_status data = UCS.OK)), w).
Proof.
  intros Hs Hd. unfold UCXXEndpoint.isAlive.
  erewrite bind_returned; [|by apply deref_some].
  destruct (_endpoint_error_handling self); simpl; [|done].
  by erewrite bind_returned; [|by apply deref_some].
Qed.

(** X2.  The callback data keeps one status, and [_err_cb] overwrites it
    without looking at what was there: after any run of error callbacks
    the recorded status is that of the last one, so [isAlive] answers for
    the last one only (an earlier failure is forgotten if a later callback
    reports [UCS_OK]). *)
Theorem latest_error_status_wins this self data registry calls w :
  w_endpoints w !! this = Some self →
  err_cb_ready (_callbackData self) data registry w →
  ∃ w' data',
    err_cb_repeatedly (_callbackData self) calls w = (Returned tt, w')
    ∧ w_callback_data w' !! _callbackData self = Some data'
    ∧ ecd_status data' = latest_status calls (ecd_status data)
    ∧ UCXXEndpoint.isAlive this w'
      = (Returned (negb (_endpoint_error_handling self)
                   || bool_decide (latest_status calls (ecd_status data) = UCS.OK)),
         w').
Proof.
  intros Hs Hready.
  destruct (err_cb_repeatedly_run calls _ data registry w Hready)
    as (w' & Hrun & Hd & _ & Hep & _).
  exists w', (after_errors calls data).
  split; [done|]. split; [done|]. split; [apply after_errors_status|].
  rewrite (isAlive_run this self (after_errors calls data)) by congruence.
  by rewrite after_errors_status.
Qed.

Lemma latest_error_status_wins_witness :
  w_endpoints (sample env_prompt true UCS.OK) !! 20 = Some (sample_endpoint true)
  ∧ err_cb_ready (_callbackData (sample_endpoint true)) (sample_data UCS.OK)
      sample_registry (sample env_prompt true UCS.OK)
  ∧ ∃ w' data',
      err_cb_repeatedly (_callbackData (sample_endpoint true))
        [(21, UCS.ERR_CONNECTION_RESET); (21, UCS.ERR_ENDPOINT_TIMEOUT)]
        (sample env_prompt true UCS.OK) = (Returned tt, w')
      ∧ w_callback_data w' !! _callbackData (sample_endpoint true) = Some data'
      ∧ ecd_status data' = UCS.ERR_ENDPOINT_TIMEOUT
      ∧ UCXXEndpoint.isAlive 20 w' = (Returned false, w').
Proof.
  split; [reflexivity|]. split; [apply sample_ready|].
  apply (latest_error_status_wins 20 (sample_endpoint true) (sample_data UCS.OK)
           sample_registry
           [(21, UCS.ERR_CONNECTION_RESET); (21, UCS.ERR_ENDPOINT_TIMEOUT)]
           (sample env_prompt true UCS.OK)).
  - reflexivity.
  - apply sample_ready.
Defined.

Lemma err_cb_repeatedly_env calls : ∀ arg data registry w w',
  err_cb_ready arg data registry w →
  err_cb_repeatedly arg calls w = (Returned tt, w') →
  w_env w' = w_env w.
Proof.
  induction calls as [|[ep status] calls IH]; intros arg data registry w w' Hready Hrun.
  { by injection Hrun as <-. }
  destruct (err_cb_run arg ep status data registry w Hready) as (w1 & Hc & Hrun1).
  simpl in Hrun. erewrite bind_returned in Hrun; [|exact Hrun1].
  destruct (err_cb_ready_after _ _ _ _ _ _ _ Hready Hrun1) as [registry1 Hready1].
  rewrite (IH _ _ _ _ _ Hready1 Hrun). simpl.
  destruct Hready as [_ _ _ Ha].
  destruct (cancel_entries_spec (map_to_list registry) (cancelling arg status data w))
    as (w1' & Hc' & Q & _); [done|].
  rewrite Hc in Hc'. injection Hc' as <-.
  by rewrite (quiet_env _ _ _ Q).
Qed.

(** X3.  An error reported on one endpoint is recorded in that endpoint's
    callback data only: whatever run of error callbacks hits one endpoint,
    the callback data of every other endpoint is what it was, and so are
    the answers of its [isAlive] and [raiseOnError]. *)
Theorem error_stays_on_its_endpoint this self data registry other self' data' calls w :
  w_endpoints w !! this = Some self →
  err_cb_ready (_callbackData self) data registry w →
  w_endpoints w !! other = Some self' →
  w_callback_data w !! _callbackData self' = Some data' →
  _callbackData self' ≠ _callbackData self →
  ∃ w',
    err_cb_repeatedly (_callbackData self) calls w = (Returned tt, w')
    ∧ w_callback_data w' !! _callbackData self' = Some data'
    ∧ (UCXXEndpoint.isAlive other w').1 = (UCXXEndpoint.isAlive other w).1
    ∧ (UCXXEndpoint.raiseOnError other w').1 = (UCXXEndpoint.raiseOnError other w).1.
Proof.
  intros Hs Hready Hs' Hd' Hne.
  destruct (err_cb_repeatedly_run calls _ data registry w Hready)
    as (w' & Hrun & _ & Hother & Hep & _).
  exists w'. split; [done|].
  assert (w_callback_data w' !! _callbackData self' = Some data') as Hd''.
  { by rewrite Hother. }
  split; [done|].
  assert (w_endpoints w' !! other = Some self') as Hs'' by congruence.
  rewrite (isAlive_run other self' data' w' Hs'' Hd'').
  rewrite (isAlive_run other self' data' w Hs' Hd').
  split; [done|].
  rewrite (raiseOnError_run other self' data' w' Hs'' Hd'').
  rewrite (raiseOnError_run other self' data' w Hs' Hd').
  simpl.
  by rewrite (err_cb_repeatedly_env calls _ data registry w w' Hready Hrun).
Qed.

Lemma pair_ready env status :
  err_cb_ready 30 (sample_data status) sample_registry (sample_pair env status).
Proof.
  split.
  - reflexivity.
  - eexists. reflexivity.
  - reflexivity.
  - unfold requests_alive. apply (bool_decide_unpack _). by vm_compute.
Defined.

Lemma error_stays_on_its_endpoint_witness :
  w_endpoints (sample_pair env_prompt UCS.OK) !! 20 = Some (sample_endpoint true)
  ∧ w_endpoints (sample_pair env_prompt UCS.OK) !! 22 = Some second_endpoint
  ∧ _callbackData second_endpoint ≠ _callbackData (sample_endpoint true)
  ∧ ∃ w',
      err_cb_repeatedly (_callbackData (sample_endpoint true))
        [(21, UCS.ERR_CONNECTION_RESET)] (sample_pair env_prompt UCS.OK)
        = (Returned tt, w')
      ∧ w_callback_data w' !! _callbackData second_endpoint = Some second_data
      ∧ (UCXXEndpoint.isAlive 22 w').1
        = (UCXXEndpoint.isAlive 22 (sample_pair env_prompt UCS.OK)).1
      ∧ (UCXXEndpoint.raiseOnError 22 w').1
        = (UCXXEndpoint.raiseOnError 22 (sample_pair env_prompt UCS.OK)).1.
Proof.
  split; [reflexivity|]. split; [reflexivity|]. split; [discriminate|].
  apply (error_stays_on_its_endpoint 20 (sample_endpoint true) (sample_data UCS.OK)
           sample_registry 22 second_endpoint second_data
           [(21, UCS.ERR_CONNECTION_RESET)] (sample_pair env_prompt UCS.OK)).
  - reflexivity.
  - apply pair_ready.
  - reflexivity.
  - reflexivity.
  - discriminate.
Defined.

(** ** Registering the close callback *)

Lemma close_events_registered closeCallback closeCallbackArg data :
  close_events
    (set_ecd_closeCallbackArg closeCallbackArg (set_ecd_closeCallback closeCallback data))
  = registration_events closeCallback closeCallbackArg.
Proof. done. Qed.

(** X4.  [setCloseCallback] replaces what was registered before: of two
    registrations only the second is invoked by the next error callback,
    with the second argument, and registering an empty callable takes the
    callback away.  Registering writes no event by itself. *)
Theorem setCloseCallback_replaces
    this self data registry cb1 arg1 cb2 arg2 ep status w :
  w_endpoints w !! this = Some self →
  err_cb_ready (_callbackData self) data registry w →
  ∃ w1 w2 w3 evs,
    UCXXEndpoint.setCloseCallback this cb1 arg1 w = (Returned tt, w1)
    ∧ UCXXEndpoint.setCloseCallback this cb2 arg2 w1 = (Returned tt, w2)
    ∧ w_trace w2 = w_trace w
    ∧ _err_cb (_callbackData self) ep status w2 = (Returned tt, w3)
    ∧ w_trace w3 = w_trace w ++ evs
    ∧ filter (λ e, is_close_callback e) evs = registration_events cb2 arg2.
Proof.
  intros Hs Hready.
  destruct (setCloseCallback_run this self data registry cb1 arg1 w Hs Hready)
    as [Hrun1 Hready1].
  destruct (λ H, setCloseCallback_run this self _ registry cb2 arg2 _ H Hready1)
    as [Hrun2 Hready2]; [exact Hs|].
  destruct (err_cb_close_events _ ep status _ registry _ Hready2)
    as (w3 & evs & Hrun3 & Htr & Hf & _).
  eexists _, _, w3, evs.
  split; [exact Hrun1|]. split; [exact Hrun2|]. split; [done|].
  split; [exact Hrun3|]. split; [exact Htr|]. exact Hf.
Qed.

Lemma setCloseCallback_replaces_witness :
  w_endpoints (sample env_prompt true UCS.OK) !! 20 = Some (sample_endpoint true)
  ∧ ∃ w1 w2 w3 evs,
      UCXXEndpoint.setCloseCallback 20 (Some 8) 80 (sample env_prompt true UCS.OK)
        = (Returned tt, w1)
      ∧ UCXXEndpoint.setCloseCallback 20 None 90 w1 = (Returned tt, w2)
      ∧ w_trace w2 = w_trace (sample env_prompt true UCS.OK)
      ∧ _err_cb (_callbackData (sample_endpoint true)) 21 UCS.ERR_CONNECTION_RESET w2
        = (Returned tt, w3)
      ∧ w_trace w3 = w_trace (sample env_prompt true UCS.OK) ++ evs
      ∧ filter (λ e, is_close_callback e) evs = [].
Proof.
  split; [reflexivity|].
  apply (setCloseCallback_replaces 20 (sample_endpoint true) (sample_data UCS.OK)
           sample_registry (Some 8) 80 None 90 21 UCS.ERR_CONNECTION_RESET
           (sample env_prompt true UCS.OK)).
  - reflexivity.
  - apply sample_ready.
Defined.

(** X5.  The close callback is consumed per registration, not once per
    endpoint: after an error callback has invoked and cleared it, a new
    registration is invoked by the next error callback, again exactly
    once. *)
Theorem close_callback_rearms
    this self data registry closeCallback closeCallbackArg ep1 status1 ep2 status2 w :
  w_endpoints w !! this = Some self →
  err_cb_ready (_callbackData self) data registry w →
  ∃ w1 w2 w3 evs1 evs2,
    _err_cb (_callbackData self) ep1 status1 w = (Returned tt, w1)
    ∧ w_trace w1 = w_trace w ++ evs1
    ∧ filter (λ e, is_close_callback e) evs1 = close_events data
    ∧ UCXXEndpoint.setCloseCallback this (Some closeCallback) closeCallbackArg w1
      = (Returned tt, w2)
    ∧ _err_cb (_callbackData self) ep2 status2 w2 = (Returned tt, w3)
    ∧ w_trace w3 = w_trace w1 ++ evs2
    ∧ filter (λ e, is_close_callback e) evs2
      = [ev_close_callback closeCallback closeCallbackArg].
Proof.
  intros Hs Hready.
  destruct (err_cb_effect _ ep1 status1 data registry w Hready)
    as (w1 & notes & Hrun1 & _ & _ & _ & _ & _ & Hep1 & _).
  destruct (err_cb_close_events _ ep1 status1 data registry w Hready)
    as (w1' & evs1 & Hrun1' & Htr1 & Hf1 & _).
  rewrite Hrun1 in Hrun1'. injection Hrun1' as <-.
  destruct (err_cb_ready_after _ _ _ _ _ _ _ Hready Hrun1) as [registry1 Hready1].
  assert (w_endpoints w1 !! this = Some self) as Hs1 by congruence.
  destruct (setCloseCallback_run this self _ registry1 (Some closeCallback)
              closeCallbackArg w1 Hs1 Hready1) as [Hrun2 Hready2].
  destruct (err_cb_close_events _ ep2 status2 _ registry1 _ Hready2)
    as (w3 & evs2 & Hrun3 & Htr3 & Hf3 & _).
  eexists w1, _, w3, evs1, evs2.
  split; [exact Hrun1|]. split; [exact Htr1|]. split; [exact Hf1|].
  split; [exact Hrun2|]. split; [exact Hrun3|]. split; [exact Htr3|]. exact Hf3.
Qed.

Lemma close_callback_rearms_witness :
  w_endpoints (sample env_prompt true UCS.OK) !! 20 = Some (sample_endpoint true)
  ∧ ∃ w1 w2 w3 evs1 evs2,
      _err_cb (_callbackData (sample_endpoint true)) 21 UCS.ERR_CONNECTION_RESET
        (sample env_prompt true UCS.OK) = (Returned tt, w1)
      ∧ w_trace w1 = w_trace (sample env_prompt true UCS.OK) ++ evs1
      ∧ filter (λ e, is_close_callback e) evs1 = [ev_close_callback 7 70]
      ∧ UCXXEndpoint.setCloseCallback 20 (Some 8) 80 w1 = (Returned tt, w2)
      ∧ _err_cb (_callbackData (sample_endpoint true)) 21 UCS.ERR_ENDPOINT_TIMEOUT w2
        = (Returned tt, w3)
      ∧ w_trace w3 = w_trace w1 ++ evs2
      ∧ filter (λ e, is_close_callback e) evs2 = [ev_close_callback 8 80].
Proof.
  split; [reflexivity|].
  apply (close_callback_rearms 20 (sample_endpoint true) (sample_data UCS.OK)
           sample_registry 8 80 21 UCS.ERR_CONNECTION_RESET 21 UCS.ERR_ENDPOINT_TIMEOUT
           (sample env_prompt true UCS.OK)).
  - reflexivity.
  - apply sample_ready.
Defined.

(** ** A new endpoint *)

Lemma constructor_run worker_or_listener worker wk params endpoint_error_handling w :
  worker_of w worker_or_listener worker wk →
  worker ≠ NULL →
  wk_handle wk ≠ NULL →
  (env_ep_create (w_env w)
     (w_trace w ++ [creation (wk_handle wk) params endpoint_error_handling
                      (w_next w + 1 + 1)])).1 = UCS.OK →
  UCXXEndpoint.constructor worker_or_listener params endpoint_error_handling w
  = (Returned (w_next w),
     after_constructor worker_or_listener worker wk params endpoint_error_handling w).
Proof.
  intros Hw Hn Hh Hok.
  unfold UCXXEndpoint.constructor.
  unfold alloc at 1. unfold bind at 1.
  unfold alloc at 1. unfold bind at 1.
  unfold modify at 1. unfold bind at 1.
  erewrite bind_returned; cycle 1.
  { refine (proj1 (getWorker_run _ _ _ wk _)). exact Hw. }
  erewrite bind_returned; cycle 1.
  { eapply (worker_not_initialized_false _ worker wk); [done| |done].
    exact (proj2 (getWorker_run _ _ _ _ Hw)). }
  unfold alloc at 1. unfold bind at 1.
  unfold modify at 1. unfold bind at 1.
  assert (w_components w !! worker = Some (CWorker wk)) as Hwk
    by by destruct (getWorker_run _ _ _ _ Hw).
  unfold UCXXWorker.get_handle, deref_worker, ucp_ep_create, ask, emit,
    assert_ucs_status, on_throw.
  unfold bind, deref, modify, gets, ret. simpl. rewrite Hwk. simpl.
  unfold creation in Hok. rewrite Hok. simpl.
  reflexivity.
Qed.

Lemma after_constructor_ready worker_or_listener worker wk params
    endpoint_error_handling w :
  worker_of w worker_or_listener worker wk →
  requests_alive w →
  err_cb_ready (w_next w + 1 + 1) (initial_data (w_next w + 1) worker) ∅
    (after_constructor worker_or_listener worker wk params endpoint_error_handling w).
Proof.
  intros Hw Ha. split; simpl.
  - by rewrite lookup_insert_eq.
  - exists wk. exact (proj2 (getWorker_run _ _ _ _ Hw)).
  - by rewrite lookup_insert_eq.
  - exact Ha.
Qed.

(** X6.  When the worker behind [worker_or_listener] has a transport
    handle and [ucp_ep_create] answers [UCS_OK], the constructor makes
    exactly that one call, on the worker's handle, and the endpoint it
    returns holds the handle UCP gave, an empty registry of its own and
    callback data with status [UCS_OK] and no close callback.  Whether or
    not error handling was asked for, the new endpoint is alive and
    [raiseOnError] returns. *)
Theorem new_endpoint_starts_alive
    worker_or_listener worker wk params endpoint_error_handling w :
  worker_of w worker_or_listener worker wk →
  worker ≠ NULL →
  wk_handle wk ≠ NULL →
  (env_ep_create (w_env w)
     (w_trace w ++ [creation (wk_handle wk) params endpoint_error_handling
                      (w_next w + 1 + 1)])).1 = UCS.OK →
  ∃ w' self,
    UCXXEndpoint.constructor worker_or_listener params endpoint_error_handling w
      = (Returned (w_next w), w')
    ∧ w_trace w'
      = w_trace w ++ [creation (wk_handle wk) params endpoint_error_handling
                        (_callbackData self)]
    ∧ w_endpoints w' !! w_next w = Some self
    ∧ _parent self = worker_or_listener
    ∧ _endpoint_error_handling self = endpoint_error_handling
    ∧ w_callback_data w' !! _callbackData self
      = Some (initial_data (_inflightRequests self) worker)
    ∧ w_inflight w' !! _inflightRequests self = Some ∅
    ∧ UCXXEndpoint.getHandle (w_next w) w'
      = (Returned (env_ep_create (w_env w) (w_trace w')).2, w')
    ∧ UCXXEndpoint.isAlive (w_next w) w' = (Returned true, w')
    ∧ UCXXEndpoint.raiseOnError (w_next w) w' = (Returned tt, w').
Proof.
  intros Hw Hn Hh Hok.
  exists (after_constructor worker_or_listener worker wk params
            endpoint_error_handling w),
         (new_endpoint worker_or_listener wk params endpoint_error_handling w).
  split; [by apply constructor_run|].
  assert (w_endpoints (after_constructor worker_or_listener worker wk params
                         endpoint_error_handling w) !! w_next w
          = Some (new_endpoint worker_or_listener wk params endpoint_error_handling w))
    as Hs by (simpl; by rewrite lookup_insert_eq).
  assert (w_callback_data (after_constructor worker_or_listener worker wk params
                             endpoint_error_handling w)
            !! _callbackData (new_endpoint worker_or_listener wk params
                                endpoint_error_handling w)
          = Some (initial_data (w_next w + 1) worker))
    as Hd by (simpl; by rewrite lookup_insert_eq).
  split; [done|]. split; [done|]. split; [done|]. split; [done|].
  split; [done|]. split; [simpl; by rewrite lookup_insert_eq|].
  split.
  { unfold UCXXEndpoint.getHandle. by erewrite bind_returned; [|by apply deref_some]. }
  split.
  - rewrite (isAlive_run _ _ _ _ Hs Hd). simpl. by rewrite orb_true_r.
  - by rewrite (raiseOnError_run _ _ _ _ Hs Hd).
Qed.

Lemma new_endpoint_starts_alive_witness :
  worker_of (sample env_prompt true UCS.OK) 10 10
    {| wk_handle := 11; wk_progress_thread := 1; wk_delayed := [] |}
  ∧ ∃ w' self,
      UCXXEndpoint.constructor 10 new_ucp_ep_params_t false
        (sample env_prompt true UCS.OK) = (Returned 100, w')
      ∧ w_endpoints w' !! 100 = Some self
      ∧ UCXXEndpoint.isAlive 100 w' = (Returned true, w')
      ∧ UCXXEndpoint.raiseOnError 100 w' = (Returned tt, w').
Proof.
  assert (worker_of (sample env_prompt true UCS.OK) 10 10
            {| wk_handle := 11; wk_progress_thread := 1; wk_delayed := [] |}) as Hw.
  { left. split; reflexivity. }
  split; [exact Hw|].
  destruct (new_endpoint_starts_alive 10 10
              {| wk_handle := 11; wk_progress_thread := 1; wk_delayed := [] |}
              new_ucp_ep_params_t false (sample env_prompt true UCS.OK))
    as (w' & self & Hrun & _ & Hs & _ & _ & _ & _ & _ & Halive & Hraise).
  - exact Hw.
  - discriminate.
  - discriminate.
  - reflexivity.
  - exists w', self. split; [exact Hrun|]. split; [exact Hs|].
    split; [exact Halive|exact Hraise].
Defined.

(** X7.  What the constructor registers with UCP reaches the endpoint it
    built: [_err_cb] called with the [err_handler.arg] of the
    [ucp_ep_create] call returns, records the status in the callback data
    of that endpoint, and from then on [isAlive] answers for that status
    (false for every status but [UCS_OK] when error handling is on) and
    [raiseOnError] throws for it: [UCXXConnectionResetError] for a
    connection reset, [UCXXError] for every other status. *)
Theorem registered_handler_marks_its_endpoint
    worker_or_listener worker wk params endpoint_error_handling ep status w :
  worker_of w worker_or_listener worker wk →
  worker ≠ NULL →
  wk_handle wk ≠ NULL →
  requests_alive w →
  (env_ep_create (w_env w)
     (w_trace w ++ [creation (wk_handle wk) params endpoint_error_handling
                      (w_next w + 1 + 1)])).1 = UCS.OK →
  ∃ this w1 worker_handle passed w2 data,
    UCXXEndpoint.constructor worker_or_listener params endpoint_error_handling w
      = (Returned this, w1)
    ∧ w_trace w1 = w_trace w ++ [ev_ucp_ep_create worker_handle passed]
    ∧ err_handler_cb passed = err_cb__err_cb
    ∧ err_mode passed
      = (if endpoint_error_handling then UCP.ERR_HANDLING_MODE_PEER
         else UCP.ERR_HANDLING_MODE_NONE)
    ∧ _err_cb (err_handler_arg passed) ep status w1 = (Returned tt, w2)
    ∧ (∃ self, w_endpoints w2 !! this = Some self
               ∧ w_callback_data w2 !! _callbackData self = Some data)
    ∧ ecd_status data = status
    ∧ UCXXEndpoint.isAlive this w2
      = (Returned (negb endpoint_error_handling || bool_decide (status = UCS.OK)), w2)
    ∧ ∃ msg,
        UCXXEndpoint.raiseOnError this w2
        = ((if bool_decide (status = UCS.OK) || negb endpoint_error_handling
            then Returned tt
            else if bool_decide (status = UCS.ERR_CONNECTION_RESET)
                 then Thrown (UCXXConnectionResetError msg)
                 else Thrown (UCXXError msg)) : outcome unit,
           w2).
Proof.
  intros Hw Hn Hh Ha Hok.
  pose proof (constructor_run _ _ _ params endpoint_error_handling _ Hw Hn Hh Hok)
    as Hrun.
  pose proof (after_constructor_ready worker_or_listener worker wk params
                endpoint_error_handling w Hw Ha) as Hready.
  destruct (err_cb_effect _ ep status _ _ _ Hready)
    as (w2 & notes & Hrun2 & _ & _ & Hcb & _ & _ & Hep & _).
  assert (w_endpoints w2 !! w_next w
          = Some (new_endpoint worker_or_listener wk params endpoint_error_handling w))
    as Hs by (rewrite Hep; simpl; by rewrite lookup_insert_eq).
  assert (w_callback_data w2 !! (w_next w + 1 + 1)
          = Some (after_error status (initial_data (w_next w + 1) worker)))
    as Hd by (by rewrite Hcb, lookup_insert_eq).
  eexists (w_next w), _, (wk_handle wk), _, w2, _.
  split; [exact Hrun|]. split; [reflexivity|]. split; [reflexivity|].
  split; [reflexivity|]. split; [exact Hrun2|].
  split; [eexists; split; [exact Hs|exact Hd]|].
  split; [reflexivity|].
  split; [by rewrite (isAlive_run _ _ _ _ Hs Hd)|].
  eexists. rewrite (raiseOnError_run _ _ _ _ Hs Hd). simpl.
  destruct (bool_decide (status = UCS.OK) || negb endpoint_error_handling);
    [reflexivity|].
  destruct (bool_decide (status = UCS.ERR_CONNECTION_RESET)); reflexivity.
Qed.

Lemma registered_handler_marks_its_endpoint_witness :
  worker_of (sample env_prompt true UCS.OK) 10 10
    {| wk_handle := 11; wk_progress_thread := 1; wk_delayed := [] |}
  ∧ requests_alive (sample env_prompt true UCS.OK)
  ∧ ∃ this w1 worker_handle passed w2 data,
      UCXXEndpoint.constructor 10 new_ucp_ep_params_t true
        (sample env_prompt true UCS.OK) = (Returned this, w1)
      ∧ w_trace w1
        = w_trace (sample env_prompt true UCS.OK)
          ++ [ev_ucp_ep_create worker_handle passed]
      ∧ err_handler_cb passed = err_cb__err_cb
      ∧ err_mode passed = UCP.ERR_HANDLING_MODE_PEER
      ∧ _err_cb (err_handler_arg passed) 21 UCS.ERR_CONNECTION_RESET w1
        = (Returned tt, w2)
      ∧ (∃ self, w_endpoints w2 !! this = Some self
                 ∧ w_callback_data w2 !! _callbackData self = Some data)
      ∧ ecd_status data = UCS.ERR_CONNECTION_RESET
      ∧ UCXXEndpoint.isAlive this w2 = (Returned false, w2)
      ∧ ∃ msg,
          UCXXEndpoint.raiseOnError this w2
          = (Thrown (UCXXConnectionResetError msg), w2).
Proof.
  assert (worker_of (sample env_prompt true UCS.OK) 10 10
            {| wk_handle := 11; wk_progress_thread := 1; wk_delayed := [] |}) as Hw.
  { left. split; reflexivity. }
  assert (requests_alive (sample env_prompt true UCS.OK)) as Ha.
  { unfold requests_alive. apply (bool_decide_unpack _). by vm_compute. }
  split; [exact Hw|]. split; [exact Ha|].
  apply (registered_handler_marks_its_endpoint 10 10
           {| wk_handle := 11; wk_progress_thread := 1; wk_delayed := [] |}
           new_ucp_ep_params_t true 21 UCS.ERR_CONNECTION_RESET
           (sample env_prompt true UCS.OK)).
  - exact Hw.
  - discriminate.
  - discriminate.
  - exact Ha.
  - reflexivity.
Defined.

(** ** The factories *)


Lemma createEndpointFromConnRequest_run listener l conn_request
    endpoint_error_handling w :
  listener ≠ NULL →
  w_components w !! listener = Some (CListener l) →
  ls_handle l ≠ NULL →
  createEndpointFromConnRequest listener conn_request endpoint_error_handling w
  = UCXXEndpoint.constructor listener (conn_request_params conn_request)
      endpoint_error_handling w.
Proof.
  intros Hn Hl Hh. unfold createEndpointFromConnRequest.
  erewrite bind_returned; cycle 1.
  { unfold listener_not_initialized. rewrite bool_decide_eq_false_2 by done.
    unfold UCXXListener.get_handle, deref_listener, bind, deref. rewrite Hl. simpl.
    by rewrite bool_decide_eq_false_2. }
  done.
Qed.

Lemma createEndpointFromWorkerAddress_run worker wk a endpoint_error_handling w :
  worker ≠ NULL →
  w_components w !! worker = Some (CWorker wk) →
  wk_handle wk ≠ NULL →
  addr_handle a ≠ NULL →
  addr_length a ≠ 0 →
  createEndpointFromWorkerAddress worker (Some a) endpoint_error_handling w
  = UCXXEndpoint.constructor worker (worker_address_params (addr_handle a))
      endpoint_error_handling w.
Proof.
  intros Hn Hw Hh Ha Hl. unfold createEndpointFromWorkerAddress.
  erewrite bind_returned; [|by eapply worker_not_initialized_false].
  simpl. by rewrite !bool_decide_eq_false_2.
Qed.



(** X9.  An endpoint made from a connection request keeps the listener as
    its parent but works through the listener's worker: [ucp_ep_create]
    is called on that worker's handle with the connection request and the
    no-loopback flag, and a stream send or receive issued on the new
    endpoint is queued on that worker, for the transport handle UCP
    returned, leaving the listener as it was. *)
Theorem conn_request_endpoint_uses_listeners_worker
    listener l wk incoming endpoint_error_handling (send : bool) buffer length w :
  listener ≠ NULL →
  w_components w !! listener = Some (CListener l) →
  ls_handle l ≠ NULL →
  ls_parent l ≠ NULL →
  w_components w !! ls_parent l = Some (CWorker wk) →
  wk_handle wk ≠ NULL →
  (env_ep_create (w_env w)
     (w_trace w ++ [creation (wk_handle wk) (conn_request_params incoming)
                      endpoint_error_handling (w_next w + 1 + 1)])).1 = UCS.OK →
  ∃ this w1 passed self req w2 h,
    createEndpointFromConnRequest listener incoming endpoint_error_handling w
      = (Returned this, w1)
    ∧ w_trace w1 = w_trace w ++ [ev_ucp_ep_create (wk_handle wk) passed]
    ∧ conn_request passed = incoming
    ∧ ep_flags passed = UCP.EP_PARAMS_FLAGS_NO_LOOPBACK
    ∧ w_endpoints w1 !! this = Some self
    ∧ _parent self = listener
    ∧ (if send then UCXXEndpoint.stream_send this buffer length w1
       else UCXXEndpoint.stream_recv this buffer length w1) = (Returned req, w2)
    ∧ w_components w2 !! ls_parent l
      = Some (CWorker (enqueue (stream_entry wk (_handle self) send buffer length
                                  (w_next w1)) wk))
    ∧ w_components w2 !! listener = Some (CListener l)
    ∧ w_handles w2 !! req = Some h
    ∧ req_endpoint h = this
    ∧ req_request h = w_next w1.
Proof.
  intros Hn Hl Hh Hpn Hwk Hwh Hok.
  assert (worker_of w listener (ls_parent l) wk) as Hw.
  { right. by exists l. }
  pose proof (createEndpointFromConnRequest_run listener l incoming
                endpoint_error_handling w Hn Hl Hh) as Hrun.
  rewrite (constructor_run _ _ _ _ _ _ Hw Hpn Hwh Hok) in Hrun.
  set (w1 := after_constructor listener (ls_parent l) wk
               (conn_request_params incoming) endpoint_error_handling w) in *.
  set (self := new_endpoint listener wk (conn_request_params incoming)
                 endpoint_error_handling w).
  assert (w_endpoints w1 !! w_next w = Some self) as Hs
    by (simpl; by rewrite lookup_insert_eq).
  assert (worker_of w1 (_parent self) (ls_parent l) wk) as Hw1 by exact Hw.
  assert (w_inflight w1 !! _inflightRequests self = Some ∅) as Hr
    by (simpl; by rewrite lookup_insert_eq).
  pose proof (stream_send_recv_run (w_next w) self ∅ (ls_parent l) wk send buffer
                length w1 Hs Hw1 Hr) as Hsend.
  simpl in Hsend.
  eexists (w_next w), w1, _, self, _, _, _.
  split; [exact Hrun|]. split; [reflexivity|]. split; [reflexivity|].
  split; [reflexivity|]. split; [exact Hs|]. split; [reflexivity|].
  split; [exact Hsend|]. simpl.
  split; [by rewrite lookup_insert_eq|].
  split.
  { rewrite lookup_insert_ne; [done|]. intros Heq. rewrite Heq in Hwk. congruence. }
  split; [by rewrite lookup_insert_eq|]. done.
Qed.

Lemma conn_request_endpoint_uses_listeners_worker_witness :
  w_components (sample_listening env_prompt) !! 12
    = Some (CListener {| ls_handle := 14; ls_parent := 10 |})
  ∧ w_components (sample_listening env_prompt) !! 10
    = Some (CWorker {| wk_handle := 11; wk_progress_thread := 1; wk_delayed := [] |})
  ∧ ∃ this w1 passed self req w2 h,
      createEndpointFromConnRequest 12 900 true (sample_listening env_prompt)
        = (Returned this, w1)
      ∧ w_trace w1 = [ev_ucp_ep_create 11 passed]
      ∧ conn_request passed = 900
      ∧ ep_flags passed = UCP.EP_PARAMS_FLAGS_NO_LOOPBACK
      ∧ w_endpoints w1 !! this = Some self
      ∧ _parent self = 12
      ∧ UCXXEndpoint.stream_recv this 500 1024 w1 = (Returned req, w2)
      ∧ w_components w2 !! 10
        = Some (CWorker
                  (enqueue (stream_entry
                              {| wk_handle := 11; wk_progress_thread := 1;
                                 wk_delayed := [] |}
                              (_handle self) false 500 1024 (w_next w1))
                     {| wk_handle := 11; wk_progress_thread := 1; wk_delayed := [] |}))
      ∧ w_components w2 !! 12 = Some (CListener {| ls_handle := 14; ls_parent := 10 |})
      ∧ w_handles w2 !! req = Some h
      ∧ req_endpoint h = this
      ∧ req_request h = w_next w1.
Proof.
  split; [reflexivity|]. split; [reflexivity|].
  apply (conn_request_endpoint_uses_listeners_worker 12
           {| ls_handle := 14; ls_parent := 10 |}
           {| wk_handle := 11; wk_progress_thread := 1; wk_delayed := [] |}
           900 true false 500 1024 (sample_listening env_prompt));
    (reflexivity || discriminate).
Defined.

(** ** What the code adds to the trace *)

Create HintDb appends.

Lemma appends_ret P {A} (a : A) : appends P (ret a).
Proof. intros w. exists []. by rewrite app_nil_r. Qed.

Lemma appends_throw P {A} e : appends P (@throw A e).
Proof. intros w. exists []. by rewrite app_nil_r. Qed.

Lemma appends_undefined P {A} : appends P (@undefined A).
Proof. intros w. exists []. by rewrite app_nil_r. Qed.

Lemma appends_gets P {A} (f : World → A) : appends P (gets f).
Proof. intros w. exists []. by rewrite app_nil_r. Qed.

Lemma appends_deref P {A} (store : World → gmap Z A) p : appends P (deref store p).
Proof. intros w. exists []. unfold deref. destruct (store w !! p); by rewrite app_nil_r. Qed.

Lemma appends_alloc P : appends P alloc.
Proof. intros w. exists []. by rewrite app_nil_r. Qed.

Lemma appends_modify P f : (∀ w, w_trace (f w) = w_trace w) → appends P (modify f).
Proof. intros H w. exists []. simpl. by rewrite H, app_nil_r. Qed.

Lemma appends_bind P {A B} (m : M A) (k : A → M B) :
  appends P m → (∀ a, appends P (k a)) → appends P (bind m k).
Proof.
  intros Hm Hk w. destruct (Hm w) as (evs1 & Htr1 & H1). unfold bind.
  destruct (m w) as [[a| |] w1]; simpl in *; [|by exists evs1..].
  destruct (Hk a w1) as (evs2 & Htr2 & H2).
  exists (evs1 ++ evs2). split; [by rewrite Htr2, Htr1, app_assoc|].
  by apply Forall_app.
Qed.

Lemma appends_emit P e : P e = true → appends P (emit e).
Proof. intros H w. exists [e]. split; [done|]. by constructor. Qed.

Lemma appends_ask P {A} e (answer : environment → list event → A) :
  P e = true → appends P (ask e answer).
Proof.
  intros H. apply appends_bind; [by apply appends_emit|]. intros _. apply appends_gets.
Qed.

Lemma appends_on_throw P {A} (m : M A) cleanup :
  appends P m → appends P cleanup → appends P (on_throw m cleanup).
Proof.
  intros Hm Hc w. destruct (Hm w) as (evs1 & Htr1 & H1). unfold on_throw.
  destruct (m w) as [[a|e|] w1]; simpl in *; [by exists evs1| |by exists evs1].
  destruct (appends_bind P cleanup (λ _, @throw A e) Hc (λ _, appends_throw P e) w1)
    as (evs2 & Htr2 & H2).
  exists (evs1 ++ evs2). split; [by rewrite Htr2, Htr1, app_assoc|].
  by apply Forall_app.
Qed.

Lemma appends_attempt P {A} (m : M A) : appends P m → appends P (attempt m).
Proof.
  intros Hm w. destruct (Hm w) as (evs & Htr & H). exists evs. split; [|done].
  unfold attempt. by destruct (m w) as [[a|e|] w1].
Qed.

Lemma appends_weaken (P Q : event → bool) {A} (m : M A) :
  (∀ e, P e = true → Q e = true) → appends P m → appends Q m.
Proof.
  intros HPQ Hm w. destruct (Hm w) as (evs & Htr & H). exists evs. split; [done|].
  eapply Forall_impl; [exact H|]. done.
Qed.

#[local] Hint Resolve appends_ret appends_throw appends_undefined appends_gets
  appends_deref appends_alloc : appends.

(** One step through a computation: a bind, a branch, or a primitive. *)
Ltac appends_step :=
  first
    [ solve [eauto with appends]
    | (apply appends_modify; intros; reflexivity)
    | (apply appends_bind; [|intros])
    | apply appends_on_throw
    | apply appends_attempt
    | match goal with
      | |- appends _ (match ?x with _ => _ end) => destruct x
      end ].

Ltac appends_auto := repeat appends_step.

Section Internal.

(** Events that are no call into UCP are never constrained. *)
Variable P : event → bool.
Hypothesis P_internal : ∀ e, is_transport e = false → P e = true.

Lemma appends_internal e : is_transport e = false → appends P (emit e).
Proof. intros H. by apply appends_emit, P_internal. Qed.

Lemma appends_log lvl fmt args : appends P (ucxx_log lvl fmt args).
Proof. by apply appends_internal. Qed.

Lemma appends_deref_worker p : appends P (deref_worker p).
Proof. unfold deref_worker. appends_auto. Qed.

Lemma appends_deref_listener p : appends P (deref_listener p).
Proof. unfold deref_listener. appends_auto. Qed.

Hint Resolve appends_log appends_deref_worker appends_deref_listener : appends.

Lemma appends_get_handle this : appends P (UCXXWorker.get_handle this).
Proof. unfold UCXXWorker.get_handle. appends_auto. Qed.

Lemma appends_listener_get_handle this : appends P (UCXXListener.get_handle this).
Proof. unfold UCXXListener.get_handle. appends_auto. Qed.

Lemma appends_getWorker p : appends P (UCXXEndpoint.getWorker p).
Proof. unfold UCXXEndpoint.getWorker. appends_auto. Qed.

Hint Resolve appends_get_handle appends_listener_get_handle appends_getWorker : appends.

Lemma appends_worker_not_initialized worker :
  appends P (UCXXEndpoint.worker_not_initialized worker).
Proof. unfold UCXXEndpoint.worker_not_initialized. appends_auto. Qed.

Lemma appends_listener_not_initialized listener :
  appends P (listener_not_initialized listener).
Proof. unfold listener_not_initialized. appends_auto. Qed.

Lemma appends_terminal_transition request st :
  appends P (terminal_transition request st).
Proof.
  unfold terminal_transition. appends_auto; by apply appends_internal.
Qed.

Hint Resolve appends_worker_not_initialized appends_listener_not_initialized
  appends_terminal_transition : appends.

Lemma appends_cancel_entries es : appends P (cancel_entries es).
Proof.
  induction es as [|[k [p]] es IH]; simpl; appends_auto.
Qed.

Hint Resolve appends_cancel_entries : appends.

Lemma appends_scheduleRequestCancel this inflightRequests :
  appends P (UCXXWorker.scheduleRequestCancel this inflightRequests).
Proof.
  unfold UCXXWorker.scheduleRequestCancel. appends_auto. by apply appends_internal.
Qed.

Lemma appends_write_data arg f : appends P (write_data arg f).
Proof. unfold write_data. appends_auto. Qed.

Hint Resolve appends_scheduleRequestCancel appends_write_data : appends.

Lemma appends_err_cb arg ep status : appends P (_err_cb arg ep status).
Proof. unfold _err_cb. appends_auto. by apply appends_internal. Qed.

Hint Resolve appends_err_cb : appends.

Lemma appends_request_wait worker status request operationName :
  appends P (request_wait worker status request operationName).
Proof. unfold request_wait. appends_auto. Qed.

Lemma appends_stream_msg worker ep send buffer length :
  appends P (stream_msg worker ep send buffer length).
Proof.
  unfold stream_msg, make_shared_ucxx_request_t, UCXXWorker.getPythonFuture,
    UCXXWorker.registerDelayedNotificationRequest.
  appends_auto.
Qed.

Lemma appends_createRequest this request :
  appends P (UCXXEndpoint.createRequest this request).
Proof.
  unfold UCXXEndpoint.createRequest, UCXXEndpoint.ucxx_createRequest. appends_auto.
Qed.

Hint Resolve appends_request_wait appends_stream_msg appends_createRequest : appends.

Lemma appends_stream_send this buffer length :
  appends P (UCXXEndpoint.stream_send this buffer length).
Proof. unfold UCXXEndpoint.stream_send. appends_auto. Qed.

Lemma appends_stream_recv this buffer length :
  appends P (UCXXEndpoint.stream_recv this buffer length).
Proof. unfold UCXXEndpoint.stream_recv. appends_auto. Qed.

Lemma appends_tag_send tag_msg this buffer length tag callbackFunction callbackData :
  tag_msg_appends P tag_msg →
  appends P (UCXXEndpoint.tag_send tag_msg this buffer length tag callbackFunction
               callbackData).
Proof. intros Htag. unfold UCXXEndpoint.tag_send. appends_auto; apply Htag. Qed.

Lemma appends_tag_recv tag_msg this buffer length tag callbackFunction callbackData :
  tag_msg_appends P tag_msg →
  appends P (UCXXEndpoint.tag_recv tag_msg this buffer length tag callbackFunction
               callbackData).
Proof. intros Htag. unfold UCXXEndpoint.tag_recv. appends_auto; apply Htag. Qed.

Lemma appends_setCloseCallback this closeCallback closeCallbackArg :
  appends P (UCXXEndpoint.setCloseCallback this closeCallback closeCallbackArg).
Proof. unfold UCXXEndpoint.setCloseCallback. appends_auto. Qed.

Lemma appends_isAlive this : appends P (UCXXEndpoint.isAlive this).
Proof. unfold UCXXEndpoint.isAlive. appends_auto. Qed.

Lemma appends_raiseOnError this : appends P (UCXXEndpoint.raiseOnError this).
Proof. unfold UCXXEndpoint.raiseOnError. appends_auto. Qed.

Lemma appends_getHandle this : appends P (UCXXEndpoint.getHandle this).
Proof. unfold UCXXEndpoint.getHandle. appends_auto. Qed.

Lemma appends_release req : appends P (UCXXRequest.release req).
Proof. unfold UCXXRequest.release. appends_auto. Qed.

Lemma appends_destroy_members this self :
  appends P (UCXXEndpoint.destroy_members this self).
Proof.
  intros w. destruct (destroy_members_run this self w) as (w' & Hrun & Hp).
  exists []. rewrite Hrun, app_nil_r. simpl. by rewrite (prunes_trace _ _ Hp).
Qed.

Hint Resolve appends_destroy_members : appends.

(** A completion callback gives the transport's request back. *)
Hypothesis P_free : ∀ req, P (ev_ucp_request_free req) = true.

Lemma appends_callback request status arg operation :
  appends P (_callback request status arg operation).
Proof. unfold _callback. appends_auto. by apply appends_emit. Qed.

Lemma appends_invoke f request status arg : appends P (invoke f request status arg).
Proof.
  unfold invoke, UCXXRequest.callback.
  destruct f; (apply appends_bind; [apply appends_log|]); intros _;
    apply appends_callback.
Qed.

Lemma appends_complete_all cs : appends P (complete_all cs).
Proof.
  induction cs as [|[[[f request] status] arg] cs IH]; simpl; [apply appends_ret|].
  apply appends_bind; [apply appends_invoke|]. by intros.
Qed.

Lemma appends_progress this :
  (∀ worker_handle, P (ev_ucp_worker_progress worker_handle) = true) →
  appends P (UCXXWorker.progress this).
Proof.
  intros H. unfold UCXXWorker.progress.
  apply appends_bind; [apply appends_deref_worker|]. intros wk.
  apply appends_bind; [by apply appends_ask|]. intros cs. apply appends_complete_all.
Qed.

Lemma appends_wait_close fuel worker status :
  (∀ worker_handle, P (ev_ucp_worker_progress worker_handle) = true) →
  P (ev_ucp_request_check_status status) = true →
  appends P (UCXXEndpoint.wait_close fuel worker status).
Proof.
  intros Hp Hc. induction fuel as [|fuel IH]; simpl.
  - apply appends_bind; [by apply appends_ask|]. intros st. appends_auto.
  - apply appends_bind; [by apply appends_ask|]. intros st.
    destruct (bool_decide _); [|appends_auto].
    apply appends_bind; [by apply appends_progress|]. by intros.
Qed.

(** What the destructor does once [ucp_ep_close_nb] has answered. *)
Lemma appends_after_close fuel this self status :
  (∀ worker_handle, P (ev_ucp_worker_progress worker_handle) = true) →
  P (ev_ucp_request_check_status status) = true →
  appends P
    (if UCS.PTR_IS_PTR status then
       let! worker := UCXXEndpoint.getWorker (_parent self) in
       let! finished := UCXXEndpoint.wait_close fuel worker status in
       if (finished : bool) then
         do! ucp_request_free status in
         UCXXEndpoint.destroy_members this self
       else ret None
     else if negb (bool_decide (UCS.PTR_STATUS status = UCS.OK)) then
       do! ucxx_log LOG_ERROR "Error while closing endpoint: %s"
             [arg_status_string (UCS.PTR_STATUS status)] in
       UCXXEndpoint.destroy_members this self
     else UCXXEndpoint.destroy_members this self).
Proof.
  intros Hp Hc. destruct (UCS.PTR_IS_PTR status).
  - apply appends_bind; [apply appends_getWorker|]. intros worker.
    apply appends_bind; [by apply appends_wait_close|]. intros [|]; [|appends_auto].
    apply appends_bind; [by apply appends_emit|]. intros _.
    apply appends_destroy_members.
  - destruct (negb _); [|apply appends_destroy_members].
    apply appends_bind; [apply appends_log|]. intros _. apply appends_destroy_members.
Qed.

End Internal.

Lemma appends_bind_pure P {A B} (m : M A) (k : A → M B) (Q : A → Prop) :
  (∀ w, w_trace (m w).2 = w_trace w ∧ ∀ a, (m w).1 = Returned a → Q a) →
  (∀ a, Q a → appends P (k a)) →
  appends P (bind m k).
Proof.
  intros Hm Hk w. destruct (Hm w) as [Htr HQ]. unfold bind.
  destruct (m w) as [[a| |] w1]; simpl in *;
    [|exists []; by rewrite app_nil_r, Htr..].
  destruct (Hk a (HQ a eq_refl) w1) as (evs & Htr' & H).
  exists evs. by rewrite Htr', Htr.
Qed.

(** The constructor calls [ucp_ep_create] at most once, and only on the
    handle of an initialised worker. *)
Lemma constructor_trace worker_or_listener params endpoint_error_handling w :
  w_trace (UCXXEndpoint.constructor worker_or_listener params
             endpoint_error_handling w).2 = w_trace w
  ∨ ∃ worker wk,
      worker_of w worker_or_listener worker wk
      ∧ worker ≠ NULL
      ∧ wk_handle wk ≠ NULL
      ∧ w_trace (UCXXEndpoint.constructor worker_or_listener params
                   endpoint_error_handling w).2
        = w_trace w ++ [creation (wk_handle wk) params endpoint_error_handling
                          (w_next w + 1 + 1)].
Proof.
  assert (∀ worker wk,
    worker_of w worker_or_listener worker wk →
    w_trace (UCXXEndpoint.constructor worker_or_listener params
               endpoint_error_handling w).2 = w_trace w
    ∨ (worker ≠ NULL ∧ wk_handle wk ≠ NULL
       ∧ w_trace (UCXXEndpoint.constructor worker_or_listener params
                    endpoint_error_handling w).2
         = w_trace w ++ [creation (wk_handle wk) params endpoint_error_handling
                           (w_next w + 1 + 1)])) as Hgood.
  { intros worker wk Hw.
    pose proof (proj2 (getWorker_run _ _ _ _ Hw)) as Hwk.
    remember (UCXXEndpoint.constructor worker_or_listener params
                endpoint_error_handling w) as r eqn:Hr.
    unfold UCXXEndpoint.constructor in Hr.
    unfold alloc at 1 in Hr. unfold bind at 1 in Hr.
    unfold alloc at 1 in Hr. unfold bind at 1 in Hr.
    unfold modify at 1 in Hr. unfold bind at 1 in Hr.
    erewrite bind_returned in Hr; cycle 1.
    { refine (proj1 (getWorker_run _ _ _ wk _)). exact Hw. }
    destruct (decide (worker = NULL)) as [Hn|Hn].
    { left. unfold UCXXEndpoint.worker_not_initialized in Hr.
      rewrite bool_decide_eq_true_2 in Hr by done. by rewrite Hr. }
    destruct (decide (wk_handle wk = NULL)) as [Hh|Hh].
    { left. erewrite bind_returned in Hr; cycle 1.
      { apply worker_not_initialized_true. right. exists wk. split; [exact Hwk|done]. }
      by rewrite Hr. }
    right. split; [done|]. split; [done|].
    erewrite bind_returned in Hr; cycle 1.
    { eapply (worker_not_initialized_false _ worker wk); [done|exact Hwk|done]. }
    unfold alloc at 1 in Hr. unfold bind at 1 in Hr.
    unfold modify at 1 in Hr. unfold bind at 1 in Hr.
    unfold UCXXWorker.get_handle, deref_worker, ucp_ep_create, ask, emit,
      assert_ucs_status, on_throw in Hr.
    unfold bind, deref, modify, gets, ret, throw in Hr. simpl in Hr.
    rewrite Hwk in Hr. simpl in Hr. rewrite Hr.
    by case_bool_decide. }
  destruct (w_components w !! worker_or_listener) as [[wk|l]|] eqn:Hc.
  - destruct (Hgood worker_or_listener wk) as [H|H]; [by left|by left|].
    right. exists worker_or_listener, wk. split; [by left|done].
  - destruct (w_components w !! ls_parent l) as [[wk|l']|] eqn:Hp.
    + destruct (Hgood (ls_parent l) wk) as [H|H]; [right; by exists l|by left|].
      right. exists (ls_parent l), wk. split; [right; by exists l|done].
    + left. unfold UCXXEndpoint.constructor, UCXXEndpoint.getWorker.
      unfold bind, alloc, modify, gets. simpl. by rewrite Hc, Hp.
    + left. unfold UCXXEndpoint.constructor, UCXXEndpoint.getWorker.
      unfold bind, alloc, modify, gets. simpl. by rewrite Hc, Hp.
  - left. unfold UCXXEndpoint.constructor, UCXXEndpoint.getWorker.
    unfold bind, alloc, modify, gets. simpl. by rewrite Hc.
Qed.

Lemma appends_constructor P worker_or_listener params endpoint_error_handling :
  (∀ worker_handle callbackData,
     worker_handle ≠ NULL →
     P (creation worker_handle params endpoint_error_handling callbackData) = true) →
  appends P (UCXXEndpoint.constructor worker_or_listener params endpoint_error_handling).
Proof.
  intros HP w.
  destruct (constructor_trace worker_or_listener params endpoint_error_handling w)
    as [Htr|(worker & wk & _ & _ & Hh & Htr)].
  - exists []. by rewrite app_nil_r.
  - eexists. split; [exact Htr|]. constructor; [by apply HP|constructor].
Qed.

Section Permitted.

Variable P : event → bool.
Hypothesis HP : permits P.

Let P_internal := permits_internal P HP.

Lemma appends_populate_stream data :
  appends P (populate_delayed_notification_stream_request data).
Proof.
  unfold populate_delayed_notification_stream_request.
  apply appends_bind.
  { pose proof (permits_stream P HP data) as Hs. unfold stream_submission in Hs.
    unfold stream_request. destruct (dn_send data); by apply appends_ask. }
  intros status.
  apply appends_bind; [apply appends_deref|]. intros rq.
  apply appends_bind; [by apply appends_log|]. intros _.
  by apply appends_request_wait.
Qed.

Lemma appends_populate_tag data :
  appends P (UCXXRequestTag.populateNotificationRequest data).
Proof.
  unfold UCXXRequestTag.populateNotificationRequest.
  apply appends_bind.
  { pose proof (permits_tag P HP data) as Hs. unfold tag_submission in Hs.
    unfold UCXXRequestTag.request. destruct (nr_send data); by apply appends_ask. }
  intros status.
  apply appends_bind; [apply appends_deref|]. intros rq.
  apply appends_bind; [by apply appends_log|]. intros _.
  by apply appends_request_wait.
Qed.

Lemma appends_populate entry : appends P (populate entry).
Proof.
  destruct entry; [apply appends_populate_stream|apply appends_populate_tag].
Qed.

Lemma appends_populate_all entries : appends P (populate_all entries).
Proof.
  induction entries as [|entry entries IH]; simpl; [apply appends_ret|].
  apply appends_bind; [apply appends_populate|]. by intros.
Qed.

Lemma appends_drainDelayed worker : appends P (drainDelayed worker).
Proof.
  unfold drainDelayed.
  apply appends_bind; [by apply appends_deref_worker|]. intros wk.
  apply appends_bind; [by apply appends_modify|]. intros _.
  apply appends_populate_all.
Qed.

Lemma appends_destructor fuel this : appends P (UCXXEndpoint.destructor fuel this).
Proof.
  unfold UCXXEndpoint.destructor.
  apply appends_bind; [apply appends_deref|]. intros self.
  case_bool_decide; [apply appends_destroy_members|].
  apply (appends_bind_pure P _ _ (λ mode, mode = UCP.EP_CLOSE_MODE_FORCE)).
  { intros w. destruct (_endpoint_error_handling self); [|by split; [|intros ? [= <-]]].
    unfold bind, deref. destruct (w_callback_data w !! _callbackData self); [|done].
    by destruct (negb _); (split; [|intros ? [= <-]]). }
  intros mode ->.
  apply appends_bind; [apply appends_ask, (permits_close P HP)|]. intros status.
  apply (appends_after_close P P_internal (permits_free P HP) fuel this self status).
  - apply (permits_progress P HP).
  - apply (permits_check P HP).
Qed.

Lemma appends_createEndpointFromHostname worker ip_address port
    endpoint_error_handling :
  appends P (createEndpointFromHostname worker ip_address port endpoint_error_handling).
Proof.
  unfold createEndpointFromHostname.
  apply appends_bind; [by apply appends_worker_not_initialized|].
  intros [|]; [apply appends_throw|].
  apply appends_bind; [by apply appends_ask, P_internal|].
  intros [h_name|]; [|apply appends_throw].
  apply appends_bind; [apply appends_gets|]. intros failed.
  destruct (negb _); [apply appends_throw|].
  apply appends_constructor. intros worker_handle callbackData Hn.
  apply (permits_creation P HP _ (hostname_params h_name port)); [done|constructor].
Qed.

Lemma appends_createEndpointFromConnRequest listener incoming endpoint_error_handling :
  appends P (createEndpointFromConnRequest listener incoming endpoint_error_handling).
Proof.
  unfold createEndpointFromConnRequest.
  apply appends_bind; [by apply appends_listener_not_initialized|].
  intros [|]; [apply appends_throw|].
  apply appends_constructor. intros worker_handle callbackData Hn.
  apply (permits_creation P HP _ (conn_request_params incoming)); [done|constructor].
Qed.

Lemma appends_createEndpointFromWorkerAddress worker address endpoint_error_handling :
  appends P (createEndpointFromWorkerAddress worker address endpoint_error_handling).
Proof.
  unfold createEndpointFromWorkerAddress.
  apply appends_bind; [by apply appends_worker_not_initialized|].
  intros [|]; [apply appends_throw|].
  destruct address as [a|]; simpl; [|apply appends_throw].
  case_bool_decide as Hh; simpl; [apply appends_throw|].
  case_bool_decide; simpl; [apply appends_throw|].
  apply appends_constructor. intros worker_handle callbackData Hn.
  apply (permits_creation P HP _ (worker_address_params (addr_handle a)));
    [done|by constructor].
Qed.

Lemma appends_run_op tag_msg op :
  tag_msg_appends P tag_msg → appends P (run_op tag_msg op).
Proof.
  intros Htag. destruct op; simpl; apply appends_attempt.
  - by apply appends_stream_send.
  - by apply appends_stream_recv.
  - by apply appends_tag_send.
  - by apply appends_tag_recv.
  - by apply appends_setCloseCallback.
  - by apply appends_isAlive.
  - by apply appends_raiseOnError.
  - by apply appends_getHandle.
  - by apply appends_err_cb.
  - apply appends_progress;
      [done|apply (permits_free P HP)|apply (permits_progress P HP)].
  - apply appends_drainDelayed.
  - by apply appends_release.
  - apply appends_destructor.
  - apply appends_createEndpointFromHostname.
  - apply appends_createEndpointFromConnRequest.
  - apply appends_createEndpointFromWorkerAddress.
Qed.

Lemma appends_run_ops tag_msg ops :
  tag_msg_appends P tag_msg → appends P (run_ops tag_msg ops).
Proof.
  intros Htag. induction ops as [|op ops IH]; simpl; [apply appends_ret|].
  apply appends_bind; [by apply appends_run_op|]. by intros.
Qed.

End Permitted.

(** ** Calls into UCP are well formed *)

Lemma permits_creates_conforming : permits creates_conforming.
Proof.
  split; try done.
  - by intros [].
  - intros data. unfold stream_submission. by destruct (dn_send data).
  - intros data. unfold tag_submission. by destruct (nr_send data).
  - intros worker_handle params endpoint_error_handling callbackData Hn Hmade.
    unfold creation. simpl. unfold creation_conforms.
    rewrite bool_decide_eq_false_2 by done.
    destruct Hmade as [h_name port|incoming|address_handle Ha].
    + by destruct endpoint_error_handling.
    + by destruct endpoint_error_handling.
    + destruct endpoint_error_handling; simpl;
        by rewrite (bool_decide_eq_false_2 (address_handle = NULL)).
Qed.

Lemma permits_submits_conforming : permits submits_conforming.
Proof.
  split; try done.
  - by intros [].
  - intros data. unfold stream_submission. by destruct (dn_send data).
  - intros data. unfold tag_submission. by destruct (nr_send data).
Qed.

Lemma sample_tag_msg_appends P :
  (∀ e, is_transport e = false → P e = true) → tag_msg_appends P sample_tag_msg.
Proof.
  intros HP worker ep send buffer length tag f d. by apply appends_stream_msg.
Defined.

Lemma creation_conforms_spec worker_handle params :
  creation_conforms worker_handle params = true →
  worker_handle ≠ NULL
  ∧ err_handler_cb params = err_cb__err_cb
  ∧ (err_mode params = UCP.ERR_HANDLING_MODE_PEER
     ∨ err_mode params = UCP.ERR_HANDLING_MODE_NONE)
  ∧ announces UCP.EP_PARAM_FIELD_ERR_HANDLING_MODE params = true
  ∧ announces UCP.EP_PARAM_FIELD_ERR_HANDLER params = true
  ∧ (∃ t, targets params = [t])
  ∧ (targets params = [to_remote_address] →
     address params ≠ NULL ∧ sockaddr params = None
     ∧ announces UCP.EP_PARAM_FIELD_FLAGS params = false)
  ∧ (targets params = [to_sock_addr] →
     is_Some (sockaddr params)
     ∧ announces UCP.EP_PARAM_FIELD_FLAGS params = true
     ∧ ep_flags params = UCP.EP_PARAMS_FLAGS_CLIENT_SERVER)
  ∧ (targets params = [to_conn_request] →
     sockaddr params = None
     ∧ announces UCP.EP_PARAM_FIELD_FLAGS params = true
     ∧ ep_flags params = UCP.EP_PARAMS_FLAGS_NO_LOOPBACK).
Proof.
  unfold creation_conforms. rewrite !andb_true_iff, orb_true_iff, negb_true_iff.
  rewrite !bool_decide_eq_true, bool_decide_eq_false.
  intros [[[[[Hn Hcb] Hmode] Hm1] Hm2] Ht].
  do 5 (split; [done|]).
  destruct (targets params) as [|t [|t' ts]]; [done| |by destruct t].
  split; [by eexists|].
  destruct t; rewrite !andb_true_iff, ?negb_true_iff, ?bool_decide_eq_true,
    ?bool_decide_eq_false in Ht; destruct Ht as [[H1 H2] H3];
    (split; [|split]); intros Heq; try discriminate; done.
Qed.

(** X10.  Whatever sequence of operations runs on whatever world, every
    [ucp_ep_create] it makes is on a worker handle that is not null, has
    [_err_cb] installed and announced as error handler with mode PEER or
    NONE (so the handler is installed even when error handling is off),
    and names its peer in exactly one way: a remote address that is not
    null, without flags; or a socket address that is set, as a client; or
    a connection request, without loopback. *)
Theorem endpoints_are_created_with_err_cb tag_msg ops w :
  tag_msg_appends creates_conforming tag_msg →
  ∃ evs,
    w_trace (run_ops tag_msg ops w).2 = w_trace w ++ evs
    ∧ ∀ worker_handle params,
        ev_ucp_ep_create worker_handle params ∈ evs →
        worker_handle ≠ NULL
        ∧ err_handler_cb params = err_cb__err_cb
        ∧ (err_mode params = UCP.ERR_HANDLING_MODE_PEER
           ∨ err_mode params = UCP.ERR_HANDLING_MODE_NONE)
        ∧ announces UCP.EP_PARAM_FIELD_ERR_HANDLING_MODE params = true
        ∧ announces UCP.EP_PARAM_FIELD_ERR_HANDLER params = true
        ∧ (∃ t, targets params = [t])
        ∧ (targets params = [to_remote_address] →
           address params ≠ NULL ∧ sockaddr params = None
           ∧ announces UCP.EP_PARAM_FIELD_FLAGS params = false)
        ∧ (targets params = [to_sock_addr] →
           is_Some (sockaddr params)
           ∧ announces UCP.EP_PARAM_FIELD_FLAGS params = true
           ∧ ep_flags params = UCP.EP_PARAMS_FLAGS_CLIENT_SERVER)
        ∧ (targets params = [to_conn_request] →
           sockaddr params = None
           ∧ announces UCP.EP_PARAM_FIELD_FLAGS params = true
           ∧ ep_flags params = UCP.EP_PARAMS_FLAGS_NO_LOOPBACK).
Proof.
  intros Htag.
  destruct (appends_run_ops creates_conforming permits_creates_conforming
              tag_msg ops Htag w) as (evs & Htr & Hall).
  exists evs. split; [exact Htr|]. intros worker_handle params Hin.
  rewrite Forall_forall in Hall. apply creation_conforms_spec.
  exact (Hall _ Hin).
Qed.

Lemma endpoints_are_created_with_err_cb_witness :
  tag_msg_appends creates_conforming sample_tag_msg
  ∧ length (filter (λ e, is_ep_create e)
              (w_trace (run_ops sample_tag_msg sample_session
                          (sample_listening env_prompt)).2)) = 3%nat
  ∧ ∃ evs,
      w_trace (run_ops sample_tag_msg sample_session (sample_listening env_prompt)).2
        = w_trace (sample_listening env_prompt) ++ evs
      ∧ ∀ worker_handle params,
          ev_ucp_ep_create worker_handle params ∈ evs →
          worker_handle ≠ NULL
          ∧ err_handler_cb params = err_cb__err_cb
          ∧ (err_mode params = UCP.ERR_HANDLING_MODE_PEER
             ∨ err_mode params = UCP.ERR_HANDLING_MODE_NONE)
          ∧ announces UCP.EP_PARAM_FIELD_ERR_HANDLING_MODE params = true
          ∧ announces UCP.EP_PARAM_FIELD_ERR_HANDLER params = true
          ∧ (∃ t, targets params = [t])
          ∧ (targets params = [to_remote_address] →
             address params ≠ NULL ∧ sockaddr params = None
             ∧ announces UCP.EP_PARAM_FIELD_FLAGS params = false)
          ∧ (targets params = [to_sock_addr] →
             is_Some (sockaddr params)
             ∧ announces UCP.EP_PARAM_FIELD_FLAGS params = true
             ∧ ep_flags params = UCP.EP_PARAMS_FLAGS_CLIENT_SERVER)
          ∧ (targets params = [to_conn_request] →
             sockaddr params = None
             ∧ announces UCP.EP_PARAM_FIELD_FLAGS params = true
             ∧ ep_flags params = UCP.EP_PARAMS_FLAGS_NO_LOOPBACK).
Proof.
  assert (tag_msg_appends creates_conforming sample_tag_msg) as Htag.
  { apply sample_tag_msg_appends. by intros []. }
  split; [exact Htag|]. split; [by vm_compute|].
  apply (endpoints_are_created_with_err_cb sample_tag_msg sample_session
           (sample_listening env_prompt) Htag).
Defined.

(** X11.  What [EpParamsDeleter] does with the parameters that reach
    [ucp_ep_create]: for the parameters of every [ucp_ep_create] call that
    any sequence of operations makes, it calls [sockaddr_utils_free] once,
    on the address [createEndpointFromHostname] set, and makes no call for
    parameters built from a connection request or a worker address; on a
    null pointer it does nothing.  Nothing is said of the parameters of a
    factory call that throws before [ucp_ep_create], where the deleter
    finds a [field_mask] that was never written or an address that
    [sockaddr_utils_set] did not fill. *)
Theorem EpParamsDeleter_on_created_endpoints tag_msg ops w :
  tag_msg_appends creates_conforming tag_msg →
  EpParamsDeleter None = []
  ∧ ∃ evs,
      w_trace (run_ops tag_msg ops w).2 = w_trace w ++ evs
      ∧ ∀ worker_handle params,
          ev_ucp_ep_create worker_handle params ∈ evs →
          EpParamsDeleter (Some params)
          = match sockaddr params with
            | Some addr => [sockaddr_utils_free (Some addr)]
            | None => []
            end.
Proof.
  intros Htag. split; [done|].
  destruct (appends_run_ops creates_conforming permits_creates_conforming
              tag_msg ops Htag w) as (evs & Htr & Hall).
  exists evs. split; [exact Htr|]. intros worker_handle params Hin.
  rewrite Forall_forall in Hall.
  destruct (creation_conforms_spec _ _ (Hall _ Hin))
    as (_ & _ & _ & _ & _ & [t Ht] & Hremote & Hsock & Hconn).
  unfold EpParamsDeleter.
  change (negb (Z.land (field_mask params) UCP.EP_PARAM_FIELD_SOCK_ADDR =? 0))
    with (announces UCP.EP_PARAM_FIELD_SOCK_ADDR params).
  unfold targets in *.
  destruct (announces UCP.EP_PARAM_FIELD_SOCK_ADDR params) eqn:Hs.
  - destruct (announces UCP.EP_PARAM_FIELD_REMOTE_ADDRESS params),
      (announces UCP.EP_PARAM_FIELD_CONN_REQUEST params); try discriminate.
    destruct (Hsock eq_refl) as ([addr Ha] & _). by rewrite Ha.
  - destruct (announces UCP.EP_PARAM_FIELD_REMOTE_ADDRESS params),
      (announces UCP.EP_PARAM_FIELD_CONN_REQUEST params); try discriminate.
    + destruct (Hremote eq_refl) as (_ & Ha & _). by rewrite Ha.
    + destruct (Hconn eq_refl) as (Ha & _). by rewrite Ha.
Qed.

Lemma EpParamsDeleter_on_created_endpoints_witness :
  tag_msg_appends creates_conforming sample_tag_msg
  ∧ EpParamsDeleter None = []
  ∧ ∃ evs,
      w_trace (run_ops sample_tag_msg sample_session (sample_listening env_prompt)).2
        = w_trace (sample_listening env_prompt) ++ evs
      ∧ ∀ worker_handle params,
          ev_ucp_ep_create worker_handle params ∈ evs →
          EpParamsDeleter (Some params)
          = match sockaddr params with
            | Some addr => [sockaddr_utils_free (Some addr)]
            | None => []
            end.
Proof.
  assert (tag_msg_appends creates_conforming sample_tag_msg) as Htag.
  { apply sample_tag_msg_appends. by intros []. }
  split; [exact Htag|].
  apply (EpParamsDeleter_on_created_endpoints sample_tag_msg sample_session
           (sample_listening env_prompt) Htag).
Defined.

(** X12.  Whatever sequence of operations runs, every send and receive it
    hands to UCP is described as contiguous single bytes
    ([ucp_dt_make_contig(1)]), announces its callback, datatype and user
    data, and completes through the callback of its own kind (stream send,
    stream receive, tag send or tag receive); every tag receive matches on
    all 64 bits of the tag. *)
Theorem transfers_are_submitted_as_contiguous_bytes tag_msg ops w :
  tag_msg_appends submits_conforming tag_msg →
  ∃ evs,
    w_trace (run_ops tag_msg ops w).2 = w_trace w ++ evs
    ∧ (∀ e param,
         e ∈ evs →
         submission e = Some param →
         datatype param = UCP.dt_make_contig 1
         ∧ attribute UCP.OP_ATTR_FIELD_CALLBACK param = true
         ∧ attribute UCP.OP_ATTR_FIELD_DATATYPE param = true
         ∧ attribute UCP.OP_ATTR_FIELD_USER_DATA param = true
         ∧ cb param = completion_of e)
    ∧ (∀ worker_handle buffer length tag tag_mask param,
         ev_ucp_tag_recv_nbx worker_handle buffer length tag tag_mask param ∈ evs →
         tag_mask = 2 ^ 64 - 1).
Proof.
  intros Htag.
  destruct (appends_run_ops submits_conforming permits_submits_conforming
              tag_msg ops Htag w) as (evs & Htr & Hall).
  exists evs. split; [exact Htr|]. rewrite Forall_forall in Hall. split.
  - intros e param Hin Hsub. specialize (Hall _ Hin).
    unfold submits_conforming in Hall. rewrite Hsub in Hall.
    rewrite !andb_true_iff, !bool_decide_eq_true in Hall.
    by destruct Hall as [[[[[H1 H2] H3] H4] H5] _].
  - intros worker_handle buffer length tag tag_mask param Hin.
    specialize (Hall _ Hin). unfold submits_conforming in Hall. simpl in Hall.
    rewrite !andb_true_iff, !bool_decide_eq_true in Hall.
    by destruct Hall as [_ H].
Qed.

Lemma transfers_are_submitted_as_contiguous_bytes_witness :
  tag_msg_appends submits_conforming sample_tag_msg
  ∧ length (omap submission
              (w_trace (run_ops sample_tag_msg
                          [op_stream_send 20 500 1024; op_drainDelayed 10]
                          (sample_tagged env_prompt)).2)) = 2%nat
  ∧ ∃ evs,
      w_trace (run_ops sample_tag_msg [op_stream_send 20 500 1024; op_drainDelayed 10]
                 (sample_tagged env_prompt)).2
        = w_trace (sample_tagged env_prompt) ++ evs
      ∧ (∀ e param,
           e ∈ evs →
           submission e = Some param →
           datatype param = UCP.dt_make_contig 1
           ∧ attribute UCP.OP_ATTR_FIELD_CALLBACK param = true
           ∧ attribute UCP.OP_ATTR_FIELD_DATATYPE param = true
           ∧ attribute UCP.OP_ATTR_FIELD_USER_DATA param = true
           ∧ cb param = completion_of e)
      ∧ (∀ worker_handle buffer length tag tag_mask param,
           ev_ucp_tag_recv_nbx worker_handle buffer length tag tag_mask param ∈ evs →
           tag_mask = 2 ^ 64 - 1).
Proof.
  assert (tag_msg_appends submits_conforming sample_tag_msg) as Htag.
  { apply sample_tag_msg_appends. by intros []. }
  split; [exact Htag|]. split; [by vm_compute|].
  apply (transfers_are_submitted_as_contiguous_bytes sample_tag_msg
           [op_stream_send 20 500 1024; op_drainDelayed 10]
           (sample_tagged env_prompt) Htag).
Defined.

(** ** Closing the transport endpoint *)

Lemma filter_no_endpoint_call (evs : list event) :
  Forall (λ e, no_endpoint_call e = true) evs →
  filter (λ e, is_close e) evs = [] ∧ filter (λ e, is_ep_create e) evs = [].
Proof.
  induction 1 as [|e evs He _ [IH1 IH2]]; [done|].
  rewrite !filter_cons, IH1, IH2. by destruct e.
Qed.

(** X13.  The destructor closes the transport endpoint exactly once, in
    force mode, when the endpoint has a handle, and makes no call at all
    when it has none.  This holds for every answer of the transport and
    however the wait for the close request goes: neither the progress
    steps nor the completions they deliver close or create an endpoint. *)
Theorem destructor_closes_exactly_once fuel this self w :
  w_endpoints w !! this = Some self →
  (_endpoint_error_handling self = true →
   is_Some (w_callback_data w !! _callbackData self)) →
  ∃ evs,
    w_trace (UCXXEndpoint.destructor fuel this w).2 = w_trace w ++ evs
    ∧ filter (λ e, is_close e) evs
      = (if bool_decide (_handle self = NULL) then []
         else [ev_ucp_ep_close_nb (_handle self) UCP.EP_CLOSE_MODE_FORCE])
    ∧ filter (λ e, is_ep_create e) evs = []
    ∧ (_handle self = NULL → evs = []).
Proof.
  intros Hs Hd. case_bool_decide as Hh.
  - exists []. rewrite app_nil_r. split; [|done].
    unfold UCXXEndpoint.destructor.
    erewrite bind_returned; [|by apply deref_some].
    rewrite bool_decide_eq_true_2 by done.
    destruct (destroy_members_run this self w) as (w' & Hrun & Hp).
    rewrite Hrun. simpl. by rewrite (prunes_trace _ _ Hp).
  - set (close := ev_ucp_ep_close_nb (_handle self) UCP.EP_CLOSE_MODE_FORCE).
    set (wc := set_trace (λ t, t ++ [close]) w).
    set (status := env_status_ptr (w_env w) (w_trace w ++ [close])).
    assert (∀ e, is_transport e = false → no_endpoint_call e = true) as Hint
      by by intros [].
    destruct (appends_after_close no_endpoint_call Hint ltac:(done) fuel this self
                status ltac:(done) ltac:(done) wc) as (evs & Htr & Hall).
    destruct (filter_no_endpoint_call evs Hall) as [Hc He].
    exists (close :: evs).
    pose proof (destructor_unfold fuel this self w Hs Hh Hd) as Hunfold.
    simpl in Hunfold. fold close status wc in Hunfold.
    split.
    { rewrite Hunfold, Htr. simpl. by rewrite <- app_assoc. }
    rewrite !filter_cons. simpl. rewrite Hc, He. done.
Qed.

Lemma destructor_closes_exactly_once_witness :
  w_endpoints (sample_idle env_slow_close) !! 20 = Some (sample_endpoint true)
  ∧ w_endpoints sample_unconnected !! 20
    = Some {| _handle := NULL; _endpoint_error_handling := true;
              _callbackData := 30; _inflightRequests := 40; _parent := 10 |}
  ∧ (∃ evs,
       w_trace (UCXXEndpoint.destructor 1 20 (sample_idle env_slow_close)).2
         = w_trace (sample_idle env_slow_close) ++ evs
       ∧ filter (λ e, is_close e) evs
         = [ev_ucp_ep_close_nb 21 UCP.EP_CLOSE_MODE_FORCE])
  ∧ w_trace (UCXXEndpoint.destructor 1 20 sample_unconnected).2
    = w_trace sample_unconnected.
Proof.
  split; [reflexivity|]. split; [reflexivity|]. split.
  - destruct (destructor_closes_exactly_once 1 20 (sample_endpoint true)
                (sample_idle env_slow_close))
      as (evs & Htr & Hc & _); [reflexivity|intros _; eexists; reflexivity|].
    exists evs. split; [exact Htr|exact Hc].
  - destruct (destructor_closes_exactly_once 1 20
                {| _handle := NULL; _endpoint_error_handling := true;
                   _callbackData := 30; _inflightRequests := 40; _parent := 10 |}
                sample_unconnected)
      as (evs & Htr & _ & _ & Hnil); [reflexivity|intros _; eexists; reflexivity|].
    rewrite Htr, (Hnil eq_refl). apply app_nil_r.
Defined.

(** ** Tag transfers *)

(** X14.  [UCXXRequestTag::request] posts a tag receive on the worker, not
    on the endpoint: the call does not depend on the endpoint it was
    issued for, and its mask keeps every bit of a 64-bit tag, so two tags
    match only when they are equal.  A tag send goes to the endpoint and
    does not depend on the worker.  Either way one call is made and its
    answer is handed back. *)
Theorem tag_receive_is_posted_on_the_worker
    worker ep (send : bool) buffer length tag request w :
  (∀ ep', UCXXRequestTag.request worker ep' false buffer length tag request w
          = UCXXRequestTag.request worker ep false buffer length tag request w)
  ∧ (∀ worker', UCXXRequestTag.request worker' ep true buffer length tag request w
                = UCXXRequestTag.request worker ep true buffer length tag request w)
  ∧ (∃ e,
       UCXXRequestTag.request worker ep send buffer length tag request w
       = (Returned (env_status_ptr (w_env w) (w_trace w ++ [e])),
          set_trace (λ t, t ++ [e]) w)
       ∧ e = tag_submission
               {| nr_worker := worker; nr_ep := ep; nr_send := send;
                  nr_buffer := buffer; nr_length := length; nr_tag := tag;
                  nr_request := request |})
  ∧ UCXXRequestTag.tag_mask = 2 ^ 64 - 1
  ∧ (∀ t t', 0 ≤ t < 2 ^ 64 → 0 ≤ t' < 2 ^ 64 →
       Z.land t UCXXRequestTag.tag_mask = Z.land t' UCXXRequestTag.tag_mask ↔ t = t').
Proof.
  split; [done|]. split; [done|]. split.
  { eexists. split; [|reflexivity]. by destruct send. }
  split; [done|].
  intros t t' Ht Ht'. change UCXXRequestTag.tag_mask with (Z.ones 64).
  rewrite !Z.land_ones by done. by rewrite !Z.mod_small.
Qed.

Lemma tag_receive_is_posted_on_the_worker_witness :
  (Z.land 5 UCXXRequestTag.tag_mask = Z.land 6 UCXXRequestTag.tag_mask ↔ 5 = 6)
  ∧ ∃ e,
      UCXXRequestTag.request 11 21 false 700 32 5 60 (sample env_prompt true UCS.OK)
      = (Returned (env_status_ptr env_prompt [e]),
         set_trace (λ t, t ++ [e]) (sample env_prompt true UCS.OK))
      ∧ e = ev_ucp_tag_recv_nbx 11 700 32 5 (2 ^ 64 - 1)
              (set_cb (cb_recv tag_recv_callback) (initial_param 60)).
Proof.
  destruct (tag_receive_is_posted_on_the_worker 11 21 false 700 32 5 60
              (sample env_prompt true UCS.OK)) as (_ & _ & Hrun & _ & Hmask).
  split; [|exact Hrun].
  apply (Hmask 5 6); split; by compute.
Defined.

(** ** The registry *)

(** X15.  [createRequest] only ever adds to a registry.  Every entry of
    every registry is still there afterwards with the value it had
    ([std::map::insert] leaves an existing key alone), no registry but the
    endpoint's own changes, and in that one nothing changes except under
    the new handle's address, where an entry now exists.  It writes no
    event and leaves the requests as they were. *)
Theorem createRequest_only_adds this self registry request w :
  w_endpoints w !! this = Some self →
  w_inflight w !! _inflightRequests self = Some registry →
  ∃ w' registry',
    UCXXEndpoint.createRequest this request w = (Returned (w_next w), w')
    ∧ w_inflight w' !! _inflightRequests self = Some registry'
    ∧ is_Some (registry' !! w_next w)
    ∧ (registry !! w_next w = None → registry' = <[w_next w := Weak (w_next w)]> registry)
    ∧ (∀ k e, registry !! k = Some e → registry' !! k = Some e)
    ∧ (∀ k, k ≠ w_next w → registry' !! k = registry !! k)
    ∧ (∀ i, i ≠ _inflightRequests self → w_inflight w' !! i = w_inflight w !! i)
    ∧ w_trace w' = w_trace w
    ∧ w_requests w' = w_requests w.
Proof.
  intros Hs Hr.
  exists (after_createRequest this self request w),
         (UCXXEndpoint.map_insert (w_next w) (Weak (w_next w)) registry).
  split; [by eapply createRequest_run|]. simpl.
  split; [by rewrite lookup_alter_eq, Hr|].
  unfold UCXXEndpoint.map_insert.
  destruct (registry !! w_next w) as [e0|] eqn:He.
  - split; [by rewrite He|]. split; [done|]. split; [done|]. split; [done|].
    split; [|done]. intros i Hi. by rewrite lookup_alter_ne.
  - split; [by rewrite lookup_insert_eq|]. split; [done|].
    split.
    { intros k e Hk. rewrite lookup_insert_ne; [done|]. congruence. }
    split; [intros k Hk; by rewrite lookup_insert_ne|].
    split; [|done]. intros i Hi. by rewrite lookup_alter_ne.
Qed.

Lemma createRequest_only_adds_witness :
  w_endpoints (sample env_prompt true UCS.OK) !! 20 = Some (sample_endpoint true)
  ∧ w_inflight (sample env_prompt true UCS.OK) !! _inflightRequests (sample_endpoint true)
    = Some sample_registry
  ∧ ∃ w' registry',
      UCXXEndpoint.createRequest 20 60 (sample env_prompt true UCS.OK)
        = (Returned 100, w')
      ∧ w_inflight w' !! 40 = Some registry'
      ∧ registry' = <[100 := Weak 100]> sample_registry
      ∧ ∀ k e, sample_registry !! k = Some e → registry' !! k = Some e.
Proof.
  split; [reflexivity|]. split; [reflexivity|].
  destruct (createRequest_only_adds 20 (sample_endpoint true) sample_registry 60
              (sample env_prompt true UCS.OK))
    as (w' & registry' & Hrun & Hr & _ & Hnew & Hkeep & _); [reflexivity|reflexivity|].
  exists w', registry'. split; [exact Hrun|]. split; [exact Hr|].
  split; [apply Hnew; reflexivity|exact Hkeep].
Defined.



(** X17.  The three pieces of the in-flight bookkeeping meet: on an
    endpoint built by the constructor, the handle a stream send or receive
    returns is entered, as a weak reference under its own address, in the
    very registry that the endpoint's error callback then hands to the
    worker's [scheduleRequestCancel]. *)
Theorem error_callback_cancels_the_endpoints_registry
    worker_or_listener worker wk params endpoint_error_handling
    (send : bool) buffer length ep status w :
  worker_of w worker_or_listener worker wk →
  worker ≠ NULL →
  wk_handle wk ≠ NULL →
  requests_alive w →
  (env_ep_create (w_env w)
     (w_trace w ++ [creation (wk_handle wk) params endpoint_error_handling
                      (w_next w + 1 + 1)])).1 = UCS.OK →
  ∃ this w1 self req w2 registry w3 evs,
    UCXXEndpoint.constructor worker_or_listener params endpoint_error_handling w
      = (Returned this, w1)
    ∧ w_endpoints w1 !! this = Some self
    ∧ (if send then UCXXEndpoint.stream_send this buffer length w1
       else UCXXEndpoint.stream_recv this buffer length w1) = (Returned req, w2)
    ∧ w_inflight w2 !! _inflightRequests self = Some registry
    ∧ registry !! req = Some (Weak req)
    ∧ _err_cb (_callbackData self) ep status w2 = (Returned tt, w3)
    ∧ w_trace w3 = w_trace w2 ++ ev_cancel_all worker (_inflightRequests self) :: evs
    ∧ filter (λ e, is_cancel_all e) evs = [].
Proof.
  intros Hw Hn Hh Ha Hok.
  pose proof (constructor_run _ _ _ params endpoint_error_handling _ Hw Hn Hh Hok)
    as Hrun.
  set (w1 := after_constructor worker_or_listener worker wk params
               endpoint_error_handling w) in *.
  set (self := new_endpoint worker_or_listener wk params endpoint_error_handling w).
  assert (w_endpoints w1 !! w_next w = Some self) as Hs
    by (simpl; by rewrite lookup_insert_eq).
  assert (worker_of w1 (_parent self) worker wk) as Hw1 by exact Hw.
  assert (w_inflight w1 !! _inflightRequests self = Some ∅) as Hr
    by (simpl; by rewrite lookup_insert_eq).
  pose proof (stream_send_recv_run (w_next w) self ∅ worker wk send buffer
                length w1 Hs Hw1 Hr) as Hsend.
  simpl in Hsend.
  set (w2 := after_createRequest (w_next w) self (w_next w + 1 + 1 + 1)
               (after_stream_msg worker wk (_handle self) send buffer length w1))
    in *.
  assert (err_cb_ready (_callbackData self) (initial_data (w_next w + 1) worker)
            {[ w_next w + 1 + 1 + 1 + 1 + 1 := Weak (w_next w + 1 + 1 + 1 + 1 + 1) ]}
            w2) as Hready.
  { split; simpl.
    - apply lookup_insert_eq.
    - eexists. apply lookup_insert_eq.
    - rewrite lookup_alter_eq, lookup_insert_eq. simpl.
      unfold UCXXEndpoint.map_insert. by rewrite lookup_empty, insert_empty.
    - intros p h. simpl. destruct (decide (p = w_next w + 1 + 1 + 1 + 1 + 1)) as [->|Hp].
      + rewrite lookup_insert_eq. intros [= <-]. simpl. rewrite lookup_insert_eq. eauto.
      + rewrite lookup_insert_ne by done. intros Hp'.
        destruct (decide (req_request h = w_next w + 1 + 1 + 1)) as [->|Hq].
        * rewrite lookup_insert_eq. eauto.
        * rewrite lookup_insert_ne by done. by apply (Ha p h). }
  destruct (err_cb_effect _ ep status _ _ _ Hready)
    as (w3 & notes & Hrun3 & Htr3 & Hnotes & _).
  eexists (w_next w), w1, self, _, w2, _, w3, _.
  split; [exact Hrun|]. split; [exact Hs|]. split; [exact Hsend|].
  split; [exact (ready_registry _ _ _ _ Hready)|].
  split; [apply lookup_singleton_eq|].
  split; [exact Hrun3|]. split; [exact Htr3|].
  rewrite !filter_app.
  assert (filter (λ e, is_cancel_all e) notes = []) as ->.
  { clear -Hnotes. induction Hnotes as [|e l He _ IH]; [done|].
    rewrite filter_cons, IH. by destruct e. }
  unfold close_events, err_cb_log. simpl. done.
Qed.

Lemma error_callback_cancels_the_endpoints_registry_witness :
  worker_of (sample env_prompt true UCS.OK) 10 10
    {| wk_handle := 11; wk_progress_thread := 1; wk_delayed := [] |}
  ∧ requests_alive (sample env_prompt true UCS.OK)
  ∧ ∃ this w1 self req w2 registry w3 evs,
      UCXXEndpoint.constructor 10 new_ucp_ep_params_t true
        (sample env_prompt true UCS.OK) = (Returned this, w1)
      ∧ w_endpoints w1 !! this = Some self
      ∧ UCXXEndpoint.stream_send this 500 1024 w1 = (Returned req, w2)
      ∧ w_inflight w2 !! _inflightRequests self = Some registry
      ∧ registry !! req = Some (Weak req)
      ∧ _err_cb (_callbackData self) 21 UCS.ERR_CONNECTION_RESET w2 = (Returned tt, w3)
      ∧ w_trace w3 = w_trace w2 ++ ev_cancel_all 10 (_inflightRequests self) :: evs
      ∧ filter (λ e, is_cancel_all e) evs = [].
Proof.
  assert (worker_of (sample env_prompt true UCS.OK) 10 10
            {| wk_handle := 11; wk_progress_thread := 1; wk_delayed := [] |}) as Hw.
  { left. split; reflexivity. }
  assert (requests_alive (sample env_prompt true UCS.OK)) as Ha.
  { unfold requests_alive. apply (bool_decide_unpack _). by vm_compute. }
  split; [exact Hw|]. split; [exact Ha|].
  apply (error_callback_cancels_the_endpoints_registry 10 10
           {| wk_handle := 11; wk_progress_thread := 1; wk_delayed := [] |}
           new_ucp_ep_params_t true true 500 1024 21 UCS.ERR_CONNECTION_RESET
           (sample env_prompt true UCS.OK)).
  - exact Hw.
  - discriminate.
  - discriminate.
  - exact Ha.
  - reflexivity.
Defined.

(** X18.  [createEndpointFromWorkerAddress] on a good worker and a good
    address makes one [ucp_ep_create] call on the worker's handle that
    names the peer by the address's handle alone (no flags, no socket
    address, no connection request), and returns an endpoint whose parent
    is the worker. *)
Theorem createEndpointFromWorkerAddress_connects_to_the_address
    worker wk a endpoint_error_handling w :
  worker ≠ NULL →
  w_components w !! worker = Some (CWorker wk) →
  wk_handle wk ≠ NULL →
  addr_handle a ≠ NULL →
  addr_length a ≠ 0 →
  (env_ep_create (w_env w)
     (w_trace w ++ [creation (wk_handle wk) (worker_address_params (addr_handle a))
                      endpoint_error_handling (w_next w + 1 + 1)])).1 = UCS.OK →
  ∃ w' passed self,
    createEndpointFromWorkerAddress worker (Some a) endpoint_error_handling w
      = (Returned (w_next w), w')
    ∧ w_trace w' = w_trace w ++ [ev_ucp_ep_create (wk_handle wk) passed]
    ∧ address passed = addr_handle a
    ∧ targets passed = [to_remote_address]
    ∧ announces UCP.EP_PARAM_FIELD_FLAGS passed = false
    ∧ w_endpoints w' !! w_next w = Some self
    ∧ _parent self = worker
    ∧ _handle self = (env_ep_create (w_env w) (w_trace w')).2.
Proof.
  intros Hn Hw Hh Ha Hl Hok.
  pose proof (createEndpointFromWorkerAddress_run worker wk a endpoint_error_handling
                w Hn Hw Hh Ha Hl) as Hrun.
  rewrite (constructor_run worker worker wk) in Hrun; [|by left|done..].
  eexists _, _, _. split; [exact Hrun|]. simpl.
  split; [reflexivity|]. split; [reflexivity|].
  split; [by destruct endpoint_error_handling|].
  split; [by destruct endpoint_error_handling|].
  split; [by rewrite lookup_insert_eq|]. done.
Qed.

Lemma createEndpointFromWorkerAddress_connects_to_the_address_witness :
  w_components (sample env_prompt true UCS.OK) !! 10
    = Some (CWorker {| wk_handle := 11; wk_progress_thread := 1; wk_delayed := [] |})
  ∧ ∃ w' passed self,
      createEndpointFromWorkerAddress 10
        (Some {| addr_handle := 910; addr_length := 64 |}) false
        (sample env_prompt true UCS.OK) = (Returned 100, w')
      ∧ w_trace w' = [ev_ucp_ep_create 11 passed]
      ∧ address passed = 910
      ∧ targets passed = [to_remote_address]
      ∧ announces UCP.EP_PARAM_FIELD_FLAGS passed = false
      ∧ w_endpoints w' !! 100 = Some self
      ∧ _parent self = 10
      ∧ _handle self = 21.
Proof.
  split; [reflexivity|].
  apply (createEndpointFromWorkerAddress_connects_to_the_address 10
           {| wk_handle := 11; wk_progress_thread := 1; wk_delayed := [] |}
           {| addr_handle := 910; addr_length := 64 |} false
           (sample env_prompt true UCS.OK));
    (reflexivity || discriminate).
Defined.

(** ** What the destructor leaves alone *)

Section Calm.

Context {X : Type} (f : World → X).
Hypothesis f_trace : ∀ g w, f (set_trace g w) = f w.
Hypothesis f_requests : ∀ g w, f (set_requests g w) = f w.
Hypothesis f_inflight :
  ∀ g w, (∀ m, dom (g m) = dom m) → f (set_inflight g w) = f w.

Lemma calm_ret {A} (a : A) : calm f (ret a).
Proof. by intros w. Qed.

Lemma calm_undefined {A} : calm f (@undefined A).
Proof. by intros w. Qed.

Lemma calm_gets {A} (g : World → A) : calm f (gets g).
Proof. by intros w. Qed.

Lemma calm_deref {A} (store : World → gmap Z A) p : calm f (deref store p).
Proof. intros w. unfold deref. by destruct (store w !! p). Qed.

Lemma calm_modify g : (∀ w, f (g w) = f w) → calm f (modify g).
Proof. intros H w. split; [apply H|done]. Qed.

Lemma calm_bind {A B} (m : M A) (k : A → M B) :
  calm f m → (∀ a, calm f (k a)) → calm f (bind m k).
Proof.
  intros Hm Hk w. destruct (Hm w) as [Hf Hn]. unfold bind.
  destruct (m w) as [[a|e|] w1]; simpl in *.
  - destruct (Hk a w1) as [Hf' Hn']. split; [congruence|done].
  - by destruct (Hn e).
  - done.
Qed.

Lemma calm_emit e : calm f (emit e).
Proof. apply calm_modify. intros w. apply f_trace. Qed.

Lemma calm_ask {A} e (answer : environment → list event → A) : calm f (ask e answer).
Proof. apply calm_bind; [apply calm_emit|]. intros _. apply calm_gets. Qed.

Lemma calm_terminal_transition request st : calm f (terminal_transition request st).
Proof.
  unfold terminal_transition.
  apply calm_bind; [apply calm_deref|]. intros rq.
  destruct (_ && _); [|apply calm_ret].
  apply calm_bind; [by apply calm_modify|]. intros _.
  apply calm_bind; [apply calm_gets|]. intros hs.
  apply calm_bind.
  { apply calm_modify. intros w. apply f_inflight. intros m. apply dom_fmap_L. }
  intros _.
  apply calm_bind.
  { destruct (bool_decide _); [apply calm_ret|apply calm_emit]. }
  intros _. destruct (rq_callback rq); [apply calm_emit|apply calm_ret].
Qed.

Lemma calm_callback request status arg operation :
  calm f (_callback request status arg operation).
Proof.
  unfold _callback.
  apply calm_bind; [apply calm_terminal_transition|]. intros _. apply calm_emit.
Qed.

Lemma calm_invoke cb request status arg : calm f (invoke cb request status arg).
Proof.
  destruct cb; simpl;
    (apply calm_bind; [apply calm_emit|]; intros _; apply calm_callback).
Qed.

Lemma calm_complete_all cs : calm f (complete_all cs).
Proof.
  induction cs as [|[[[cb request] status] arg] cs IH]; simpl; [apply calm_ret|].
  apply calm_bind; [apply calm_invoke|]. by intros.
Qed.

Lemma calm_progress this : calm f (UCXXWorker.progress this).
Proof.
  unfold UCXXWorker.progress, deref_worker.
  apply calm_bind.
  { apply calm_bind; [apply calm_deref|]. intros [wk|l];
      [apply calm_ret|apply calm_undefined]. }
  intros wk. apply calm_bind; [apply calm_ask|]. intros cs. apply calm_complete_all.
Qed.

Lemma calm_wait_close fuel worker status :
  calm f (UCXXEndpoint.wait_close fuel worker status).
Proof.
  induction fuel as [|fuel IH]; simpl.
  - apply calm_bind; [apply calm_ask|]. intros st.
    destruct (bool_decide _); apply calm_ret.
  - apply calm_bind; [apply calm_ask|]. intros st.
    destruct (bool_decide _); [|apply calm_ret].
    apply calm_bind; [apply calm_progress|]. by intros.
Qed.

Lemma calm_getWorker p : calm f (UCXXEndpoint.getWorker p).
Proof.
  unfold UCXXEndpoint.getWorker. apply calm_bind; [apply calm_gets|]. intros cs.
  destruct (cs !! p) as [[wk|l]|]; [apply calm_ret| |apply calm_undefined].
  destruct (cs !! ls_parent l) as [[wk|l']|]; apply calm_ret.
Qed.

End Calm.

Lemma map_Exists_delete_inv {A} (P : Z → A → Prop) (m : gmap Z A) k :
  map_Exists P m → ¬ map_Exists P (delete k m) → ∃ x, m !! k = Some x ∧ P k x.
Proof.
  intros (j & x & Hj & HP) Hn. destruct (decide (j = k)) as [->|Hne]; [eauto|].
  destruct Hn. exists j, x. split; [|done]. by rewrite lookup_delete_ne.
Qed.

Lemma component_held_frame p w w' :
  w_callers w' = w_callers w →
  w_endpoints w' = w_endpoints w →
  w_callback_data w' = w_callback_data w →
  w_components w' = w_components w →
  component_held p w' = component_held p w.
Proof. unfold component_held. by intros -> -> -> ->. Qed.

(** A registry that loses its last holder when an endpoint and its
    callback data go is one of the two they held. *)
Lemma registry_unheld_by_destroy i this self w :
  w_endpoints w !! this = Some self →
  registry_held i w = true →
  registry_held i (set_endpoints (delete this)
                     (set_callback_data (delete (_callbackData self)) w)) = false →
  i = _inflightRequests self
  ∨ ∃ data, w_callback_data w !! _callbackData self = Some data
            ∧ i = ecd_inflightRequests data.
Proof.
  unfold registry_held. simpl. intros Hs Hw Hd.
  apply orb_false_iff in Hd as [Hd Hh]. apply orb_false_iff in Hd as [He Hc].
  rewrite Hh, orb_false_r in Hw.
  apply bool_decide_eq_false in He. apply bool_decide_eq_false in Hc.
  apply orb_true_iff in Hw as [Hw|Hw]; apply bool_decide_eq_true in Hw.
  - destruct (map_Exists_delete_inv _ _ _ Hw He) as (x & Hx & <-).
    left. congruence.
  - destruct (map_Exists_delete_inv _ _ _ Hw Hc) as (x & Hx & <-).
    right. by exists x.
Qed.

Lemma component_unheld_by_destroy p this self w :
  w_endpoints w !! this = Some self →
  component_held p w = true →
  component_held p (set_endpoints (delete this)
                      (set_callback_data (delete (_callbackData self)) w)) = false →
  p = _parent self
  ∨ ∃ data, w_callback_data w !! _callbackData self = Some data
            ∧ p = ecd_worker data.
Proof.
  unfold component_held. simpl. intros Hs Hw Hd.
  apply orb_false_iff in Hd as [Hd Hh]. apply orb_false_iff in Hd as [Hd Hc].
  apply orb_false_iff in Hd as [Ha He].
  rewrite Hh, Ha, orb_false_r in Hw. simpl in Hw.
  apply bool_decide_eq_false in He. apply bool_decide_eq_false in Hc.
  apply orb_true_iff in Hw as [Hw|Hw]; apply bool_decide_eq_true in Hw.
  - destruct (map_Exists_delete_inv _ _ _ Hw He) as (x & Hx & <-).
    left. congruence.
  - destruct (map_Exists_delete_inv _ _ _ Hw Hc) as (x & Hx & <-).
    right. by exists x.
Qed.

(** The members are destroyed, and what they were the last to hold goes
    with them. *)
Lemma destroy_members_collects this self w :
  w_endpoints w !! this = Some self →
  ∃ w',
    UCXXEndpoint.destroy_members this self w = (Returned (Some tt), w')
    ∧ destroyed this self w w'
    ∧ collects w w'.
Proof.
  intros Hs. unfold UCXXEndpoint.destroy_members, destroyed.
  unfold bind at 1. unfold gets at 1.
  unfold bind at 1. unfold modify at 1.
  unfold bind at 1. unfold modify at 1.
  set (w2 := set_endpoints (delete this)
               (set_callback_data (delete (_callbackData self)) w)).
  destruct (release_registry_run (_inflightRequests self) w2)
    as (w3 & Hrun3 & P3 & Hc3 & R3).
  erewrite bind_returned; [|exact Hrun3].
  assert (∃ w4,
    match w_callback_data w !! _callbackData self with
    | Some data =>
        do! release_registry (ecd_inflightRequests data) in
        release_component (ecd_worker data)
    | None => ret tt
    end w3 = (Returned tt, w4)
    ∧ prunes w3 w4
    ∧ (∀ q, component_held q w3 = true → component_held q w4 = false →
            w_components w4 !! q = None)
    ∧ ∀ data, w_callback_data w !! _callbackData self = Some data →
        (registry_held (ecd_inflightRequests data) w3 = false →
         w_inflight w4 !! ecd_inflightRequests data = None)
        ∧ (component_held (ecd_worker data) w3 = false →
           w_components w4 !! ecd_worker data = None))
    as (w4 & Hrun4 & P4 & C4 & D4).
  { destruct (w_callback_data w !! _callbackData self) as [data|].
    - destruct (release_registry_run (ecd_inflightRequests data) w3)
        as (w3' & Hrun & P & Hc & R).
      destruct (release_component_run (ecd_worker data) w3')
        as (w4 & Hrun' & P' & C' & T').
      assert (∀ q, component_held q w3' = component_held q w3) as Hframe.
      { intros q. apply component_held_frame; try done.
        - apply (prunes_callers _ _ P).
        - apply (prunes_endpoints _ _ P).
        - apply (prunes_callback_data _ _ P). }
      exists w4. split; [erewrite bind_returned; [exact Hrun'|exact Hrun]|].
      split; [by eapply prunes_trans|]. split.
      + intros q Hq. apply C'. by rewrite Hframe.
      + intros data' [= <-]. split.
        * intros Hheld. specialize (R Hheld).
          destruct (w_inflight w4 !! ecd_inflightRequests data) as [x|] eqn:Hx;
            [|done].
          pose proof (lookup_weaken _ _ _ _ Hx (prunes_inflight _ _ P')). congruence.
        * intros Hheld. apply T'.
          apply (component_held_mono _ w3'); try done.
          -- apply (prunes_callers _ _ P').
          -- apply (prunes_endpoints _ _ P').
          -- apply (prunes_callback_data _ _ P').
          -- apply (prunes_components _ _ P').
          -- by rewrite Hframe.
    - exists w3. split; [done|]. split; [apply prunes_refl|].
      split; [intros q Hq Hq'; congruence|done]. }
  erewrite bind_returned; [|exact Hrun4].
  destruct (release_component_run (_parent self) w4) as (w5 & Hrun5 & P5 & C5 & T5).
  erewrite bind_returned; [|exact Hrun5].
  exists w5. split; [done|].
  assert (prunes w2 w4) as P24 by by eapply prunes_trans.
  assert (prunes w2 w5) as P25 by by eapply prunes_trans.
  assert (prunes w3 w5) as P35 by by eapply prunes_trans.
  split; [exact P25|].
  assert (∀ {A} (m m' : gmap Z A) k, m' ⊆ m → m !! k = None → m' !! k = None)
    as Hnone.
  { intros A m m' k Hsub Hk. destruct (m' !! k) as [x|] eqn:Hx; [|done].
    pose proof (lookup_weaken _ _ _ _ Hx Hsub). congruence. }
  assert (∀ q, component_held q w3 = component_held q w2) as Hframe3.
  { intros q. apply component_held_frame; try done.
    - apply (prunes_callers _ _ P3).
    - apply (prunes_endpoints _ _ P3).
    - apply (prunes_callback_data _ _ P3). }
  split.
  - intros i Hi Hi'.
    rewrite (registry_held_frame i w2 w5) in Hi'
      by (first [apply (prunes_endpoints _ _ P25)
                |apply (prunes_callback_data _ _ P25)
                |apply (prunes_handles _ _ P25)]).
    destruct (registry_unheld_by_destroy i this self w Hs Hi Hi')
      as [->|(data & Hdata & ->)].
    + apply (Hnone _ (w_inflight w3)); [apply (prunes_inflight _ _ P35)|].
      by apply R3.
    + apply (Hnone _ (w_inflight w4)); [apply (prunes_inflight _ _ P5)|].
      apply (D4 data Hdata).
      rewrite (registry_held_frame _ w2 w3); [done|..].
      * apply (prunes_endpoints _ _ P3).
      * apply (prunes_callback_data _ _ P3).
      * apply (prunes_handles _ _ P3).
  - intros q Hq Hq'.
    destruct (component_held q w2) eqn:Hq2.
    + destruct (component_held q w4) eqn:Hq4; [by apply C5|].
      apply (Hnone _ (w_components w4)); [apply (prunes_components _ _ P5)|].
      apply C4; [|done]. by rewrite Hframe3.
    + destruct (component_unheld_by_destroy q this self w Hs Hq Hq2)
        as [->|(data & Hdata & ->)].
      * by apply T5.
      * apply (Hnone _ (w_components w4)); [apply (prunes_components _ _ P5)|].
        apply (D4 data Hdata). by rewrite Hframe3.
Qed.

(** X19.  The destructor never throws and destroys its own endpoint.
    When it returns, the endpoint and its callback data are gone, and with
    them go the workers, listeners and registries that they were the last
    to hold: what nothing holds any more is destroyed, what something
    still holds is left as it was.  When the wait for the close request
    did not come to an end (or ran into undefined behaviour) nothing has
    been destroyed.  Either way every other endpoint and callback data and
    every request handle are what they were, whatever the transport
    answered and whatever completions the progress steps delivered. *)
Theorem destructor_destroys_only_its_endpoint fuel this self w :
  w_endpoints w !! this = Some self →
  (_endpoint_error_handling self = true →
   is_Some (w_callback_data w !! _callbackData self)) →
  ∃ o w',
    UCXXEndpoint.destructor fuel this w = (o, w')
    ∧ (∀ e, o ≠ Thrown e)
    ∧ w_handles w' = w_handles w
    ∧ w_callers w' = w_callers w
    ∧ (o = Returned (Some tt) →
       w_endpoints w' = delete this (w_endpoints w)
       ∧ w_callback_data w' = delete (_callbackData self) (w_callback_data w)
       ∧ w_components w' ⊆ w_components w
       ∧ (∀ p, is_Some (w_components w !! p) → w_components w' !! p = None →
               component_held p w' = false)
       ∧ (∀ i, is_Some (w_inflight w !! i) → w_inflight w' !! i = None →
               registry_held i w' = false)
       ∧ collects w w')
    ∧ (o ≠ Returned (Some tt) →
       w_endpoints w' = w_endpoints w
       ∧ w_callback_data w' = w_callback_data w
       ∧ w_components w' = w_components w).
Proof.
  intros Hs Hd.
  assert (∀ w0,
    objects w0 = objects w →
    ∃ w',
      UCXXEndpoint.destroy_members this self w0 = (Returned (Some tt), w')
      ∧ w_handles w' = w_handles w
      ∧ w_callers w' = w_callers w
      ∧ w_endpoints w' = delete this (w_endpoints w)
      ∧ w_callback_data w' = delete (_callbackData self) (w_callback_data w)
      ∧ w_components w' ⊆ w_components w
      ∧ (∀ p, is_Some (w_components w !! p) → w_components w' !! p = None →
              component_held p w' = false)
      ∧ (∀ i, is_Some (w_inflight w !! i) → w_inflight w' !! i = None →
              registry_held i w' = false)
      ∧ collects w w') as Hdestroy.
  { intros w0 Hobj. injection Hobj as Hco Hep Hcb Hha Hca Hdom.
    destruct (destroy_members_collects this self w0) as (w' & Hrun & P & [CR CC]).
    { by rewrite Hep. }
    exists w'. split; [exact Hrun|].
    destruct P as [E T R N EP CB RQ H C I CO UR UC]. simpl in *.
    rewrite H, C, EP, CB, Hha, Hca, Hep, Hcb.
    split; [done|]. split; [done|]. split; [done|]. split; [done|].
    split; [by rewrite <- Hco|]. split.
    { intros p Hp. apply UC. by rewrite Hco. }
    split.
    { intros i Hi. apply UR. apply elem_of_dom. rewrite Hdom. by apply elem_of_dom. }
    split.
    - intros i Hi. apply CR. by rewrite (registry_held_frame i w w0).
    - intros p Hp. apply CC. by rewrite (component_held_frame p w w0). }
  destruct (decide (_handle self = NULL)) as [Hh|Hh].
  { destruct (Hdestroy w eq_refl) as (w' & Hrun & Hha & Hca & Hrest).
    exists (Returned (Some tt)), w'. split.
    { unfold UCXXEndpoint.destructor.
      erewrite bind_returned; [|by apply deref_some].
      by rewrite bool_decide_eq_true_2. }
    split; [done|]. split; [done|]. split; [done|]. split; [done|].
    by intros []. }
  set (close := ev_ucp_ep_close_nb (_handle self) UCP.EP_CLOSE_MODE_FORCE).
  set (wc := set_trace (λ t, t ++ [close]) w).
  set (status := env_status_ptr (w_env w) (w_trace w ++ [close])).
  pose proof (destructor_unfold fuel this self w Hs Hh Hd) as Hunfold.
  simpl in Hunfold. fold close status wc in Hunfold. rewrite Hunfold.
  destruct (UCS.PTR_IS_PTR status).
  - assert (calm objects
              (let! worker := UCXXEndpoint.getWorker (_parent self) in
               UCXXEndpoint.wait_close fuel worker status)) as Hcalm.
    { apply calm_bind; [by apply calm_getWorker|]. intros worker.
      apply calm_wait_close; try done.
      intros g w0 Hg. unfold objects. simpl. by rewrite Hg. }
    destruct (Hcalm wc) as [Hobj Hno].
    unfold bind in *.
    destruct (UCXXEndpoint.getWorker (_parent self) wc) as [[worker| |] w1];
      simpl in *.
    + destruct (UCXXEndpoint.wait_close fuel worker status w1) as [[[|]|e|] w2];
        simpl in *.
      * destruct (Hdestroy (set_trace (λ t, t ++ [ev_ucp_request_free status]) w2))
          as (w' & Hrun & Hha & Hca & Hrest); [exact Hobj|].
        exists (Returned (Some tt)), w'. unfold modify in *. simpl in *.
        split; [by rewrite Hrun|].
        split; [done|]. split; [done|]. split; [done|]. split; [done|].
        by intros [].
      * injection Hobj as Hco Hep Hcb Hha Hca Hdom.
        eexists _, _. split; [reflexivity|]. simpl.
        split; [done|]. split; [done|]. split; [done|]. split; [done|]. done.
      * by destruct (Hno e).
      * injection Hobj as Hco Hep Hcb Hha Hca Hdom.
        eexists _, _. split; [reflexivity|]. simpl.
        split; [done|]. split; [done|]. split; [done|]. split; [done|]. done.
    + by destruct (Hno e).
    + injection Hobj as Hco Hep Hcb Hha Hca Hdom.
      eexists _, _. split; [reflexivity|]. simpl.
      split; [done|]. split; [done|]. split; [done|]. split; [done|]. done.
  - destruct (negb _).
    + destruct (Hdestroy (set_trace (λ t, t ++ [ev_log LOG_ERROR
                   "Error while closing endpoint: %s"
                   [arg_status_string (UCS.PTR_STATUS status)]]) wc))
        as (w' & Hrun & Hha & Hca & Hrest); [done|].
      exists (Returned (Some tt)), w'. split; [by erewrite bind_returned|].
      split; [done|]. split; [done|]. split; [done|]. split; [done|].
      by intros [].
    + destruct (Hdestroy wc) as (w' & Hrun & Hha & Hca & Hrest); [done|].
      exists (Returned (Some tt)), w'. split; [done|].
      split; [done|]. split; [done|]. split; [done|]. split; [done|].
      by intros [].
Qed.

Lemma destructor_destroys_only_its_endpoint_witness :
  w_endpoints (sample_pair env_slow_close UCS.OK) !! 20 = Some (sample_endpoint true)
  ∧ w_endpoints sample_last_owner !! 20 = Some (sample_endpoint true)
  ∧ (∃ w',
       UCXXEndpoint.destructor 5 20 (sample_pair env_slow_close UCS.OK)
         = (Returned (Some tt), w')
       ∧ w_endpoints w' = delete 20 (w_endpoints (sample_pair env_slow_close UCS.OK))
       ∧ w_endpoints w' !! 22 = Some second_endpoint
       ∧ w_handles w' = w_handles (sample_pair env_slow_close UCS.OK)
       ∧ w_components w' !! 10
         = w_components (sample_pair env_slow_close UCS.OK) !! 10
       ∧ is_Some (w_inflight w' !! 40))
  ∧ ∃ w',
      UCXXEndpoint.destructor 0 20 sample_last_owner = (Returned (Some tt), w')
      ∧ w_endpoints w' !! 20 = None
      ∧ w_inflight w' !! 40 = None
      ∧ w_components w' !! 10 = None.
Proof.
  split; [reflexivity|]. split; [reflexivity|]. split.
  - destruct (destructor_destroys_only_its_endpoint 5 20 (sample_endpoint true)
                (sample_pair env_slow_close UCS.OK))
      as (o & w' & Hrun & _ & Hha & Hca & Hgone & _);
      [reflexivity|intros _; eexists; reflexivity|].
    assert (o = Returned (Some tt)) as ->.
    { assert ((UCXXEndpoint.destructor 5 20 (sample_pair env_slow_close UCS.OK)).1
              = Returned (Some tt)) as Ho by by vm_compute.
      by rewrite Hrun in Ho. }
    exists w'. split; [exact Hrun|].
    destruct (Hgone eq_refl) as (Hep & _ & Hsub & Hcomp & Hreg & _).
    split; [exact Hep|]. split; [by rewrite Hep|]. split; [exact Hha|]. split.
    + destruct (w_components w' !! 10) as [c|] eqn:Hc.
      * by apply (lookup_weaken _ _ _ _ Hc) in Hsub.
      * assert (component_held 10 w' = true) as Hheld.
        { unfold component_held. rewrite Hca. reflexivity. }
        rewrite Hcomp in Hheld; [done|eexists; reflexivity|exact Hc].
    + destruct (w_inflight w' !! 40) as [r|] eqn:Hr; [eauto|].
      assert (registry_held 40 w' = true) as Hheld.
      { unfold registry_held. rewrite Hha.
        rewrite (bool_decide_eq_true_2 (map_Exists _ (w_handles _))).
        - apply orb_true_r.
        - by exists 50, {| req_endpoint := 20; req_inflight := 40; req_request := 60;
                           req_use_count := 1 |}. }
      rewrite Hreg in Hheld; [done|eexists; reflexivity|exact Hr].
  - destruct (destructor_destroys_only_its_endpoint 0 20 (sample_endpoint true)
                sample_last_owner)
      as (o & w' & Hrun & _ & Hha & Hca & Hgone & _);
      [reflexivity|intros _; eexists; reflexivity|].
    assert (UCXXEndpoint.destructor 0 20 sample_last_owner
            = (Returned (Some tt), (UCXXEndpoint.destructor 0 20 sample_last_owner).2))
      as Hval by by vm_compute.
    rewrite Hval in Hrun. injection Hrun as <- <-.
    exists (UCXXEndpoint.destructor 0 20 sample_last_owner).2.
    split; [exact Hval|].
    destruct (Hgone eq_refl) as (Hep & _ & _ & _ & _ & [CR CC]).
    split; [by rewrite Hep|]. split.
    + apply CR; by vm_compute.
    + apply CC; by vm_compute.
Defined.

(** ** Who calls into UCP *)

Lemma internal_spec e : is_transport e = false → internal e = true.
Proof. unfold internal. by intros ->. Qed.

(** X20.  Issuing and querying never reach the transport: a stream or tag
    send or receive (for a [tag_msg] that makes no call into UCP),
    [setCloseCallback], [isAlive], [raiseOnError] and [getHandle] add no
    call into UCP to the trace, in whatever state they run and however
    they end. *)
Theorem issuing_and_querying_never_call_ucp tag_msg op w :
  tag_msg_appends internal tag_msg →
  offline op = true →
  ∃ evs,
    w_trace (run_op tag_msg op w).2 = w_trace w ++ evs
    ∧ filter (λ e, is_transport e) evs = [].
Proof.
  intros Htag Hoff.
  assert (∀ evs : list event,
    Forall (λ e, internal e = true) evs → filter (λ e, is_transport e) evs = [])
    as Hfilter.
  { induction 1 as [|e evs He _ IH]; [done|].
    rewrite filter_cons, IH. unfold internal in He. by destruct (is_transport e). }
  assert (appends internal (run_op tag_msg op)) as Hop.
  { destruct op; try discriminate; simpl; apply appends_attempt.
    + apply (appends_stream_send internal internal_spec).
    + apply (appends_stream_recv internal internal_spec).
    + by apply appends_tag_send.
    + by apply appends_tag_recv.
    + apply appends_setCloseCallback.
    + apply appends_isAlive.
    + apply (appends_raiseOnError internal).
    + apply appends_getHandle. }
  destruct (Hop w) as (evs & Htr & Hall). exists evs. split; [done|by apply Hfilter].
Qed.

Lemma issuing_and_querying_never_call_ucp_witness :
  tag_msg_appends internal sample_tag_msg
  ∧ offline (op_tag_send 20 600 64 5 None NULL) = true
  ∧ ∃ evs,
      w_trace (run_op sample_tag_msg (op_tag_send 20 600 64 5 None NULL)
                 (sample env_prompt true UCS.OK)).2
        = w_trace (sample env_prompt true UCS.OK) ++ evs
      ∧ filter (λ e, is_transport e) evs = [].
Proof.
  assert (tag_msg_appends internal sample_tag_msg) as Htag.
  { apply sample_tag_msg_appends, internal_spec. }
  split; [exact Htag|]. split; [reflexivity|].
  apply (issuing_and_querying_never_call_ucp sample_tag_msg
           (op_tag_send 20 600 64 5 None NULL)
           (sample env_prompt true UCS.OK) Htag eq_refl).
Defined.

(** ** A constructor that throws *)

(** X21.  The constructor gives the strong guarantee: when it throws, for
    a worker that is not initialised or because [ucp_ep_create] was
    refused, no endpoint exists and the registry and callback data made
    for it are gone again, so that endpoints, callback data, registries,
    workers, requests and handles are exactly what they were.  At most the
    one [ucp_ep_create] call is left in the trace. *)
Theorem constructor_throw_leaves_nothing_behind
    worker_or_listener params endpoint_error_handling w e w' :
  w_inflight w !! (w_next w + 1) = None →
  w_callback_data w !! (w_next w + 1 + 1) = None →
  UCXXEndpoint.constructor worker_or_listener params endpoint_error_handling w
    = (Thrown e, w') →
  w_endpoints w' = w_endpoints w
  ∧ w_callback_data w' = w_callback_data w
  ∧ w_inflight w' = w_inflight w
  ∧ w_components w' = w_components w
  ∧ w_requests w' = w_requests w
  ∧ w_handles w' = w_handles w
  ∧ ((e = UCXXError "Worker not initialized" ∧ w_trace w' = w_trace w)
     ∨ ∃ worker_handle,
         worker_handle ≠ NULL
         ∧ w_trace w'
           = w_trace w ++ [creation worker_handle params endpoint_error_handling
                             (w_next w + 1 + 1)]).
Proof.
  intros Hi Hc Hrun.
  assert (∀ worker wk,
    worker_of w worker_or_listener worker wk →
    w_endpoints w' = w_endpoints w
    ∧ w_callback_data w' = w_callback_data w
    ∧ w_inflight w' = w_inflight w
    ∧ w_components w' = w_components w
    ∧ w_requests w' = w_requests w
    ∧ w_handles w' = w_handles w
    ∧ ((e = UCXXError "Worker not initialized" ∧ w_trace w' = w_trace w)
       ∨ ∃ worker_handle,
           worker_handle ≠ NULL
           ∧ w_trace w'
             = w_trace w ++ [creation worker_handle params endpoint_error_handling
                               (w_next w + 1 + 1)])) as Hgood.
  { intros worker wk Hw.
    pose proof (proj2 (getWorker_run _ _ _ _ Hw)) as Hwk.
    unfold UCXXEndpoint.constructor in Hrun.
    unfold alloc at 1 in Hrun. unfold bind at 1 in Hrun.
    unfold alloc at 1 in Hrun. unfold bind at 1 in Hrun.
    unfold modify at 1 in Hrun. unfold bind at 1 in Hrun.
    erewrite bind_returned in Hrun; cycle 1.
    { refine (proj1 (getWorker_run _ _ _ wk _)). exact Hw. }
    destruct (decide (worker = NULL)) as [Hn|Hn].
    { unfold UCXXEndpoint.worker_not_initialized in Hrun.
      rewrite bool_decide_eq_true_2 in Hrun by done.
      injection Hrun as <- <-. simpl. rewrite delete_insert_id by done.
      repeat (split; [done|]). by left. }
    destruct (decide (wk_handle wk = NULL)) as [Hh|Hh].
    { erewrite bind_returned in Hrun; cycle 1.
      { apply worker_not_initialized_true. right. exists wk. split; [exact Hwk|done]. }
      injection Hrun as <- <-. simpl. rewrite delete_insert_id by done.
      repeat (split; [done|]). by left. }
    erewrite bind_returned in Hrun; cycle 1.
    { eapply (worker_not_initialized_false _ worker wk); [done|exact Hwk|done]. }
    unfold alloc at 1 in Hrun. unfold bind at 1 in Hrun.
    unfold modify at 1 in Hrun. unfold bind at 1 in Hrun.
    unfold UCXXWorker.get_handle, deref_worker, ucp_ep_create, ask, emit,
      assert_ucs_status, on_throw in Hrun.
    unfold bind, deref, modify, gets, ret, throw in Hrun. simpl in Hrun.
    rewrite Hwk in Hrun. simpl in Hrun.
    case_bool_decide; [discriminate|].
    injection Hrun as <- <-. simpl. rewrite !delete_insert_id by done.
    repeat (split; [done|]). right. by exists (wk_handle wk). }
  destruct (w_components w !! worker_or_listener) as [[wk|l]|] eqn:Hcomp.
  - apply (Hgood worker_or_listener wk). by left.
  - destruct (w_components w !! ls_parent l) as [[wk|l']|] eqn:Hp.
    + apply (Hgood (ls_parent l) wk). right. by exists l.
    + unfold UCXXEndpoint.constructor, UCXXEndpoint.getWorker in Hrun.
      unfold bind, alloc, modify, gets in Hrun. simpl in Hrun.
      rewrite Hcomp, Hp in Hrun. simpl in Hrun.
      injection Hrun as <- <-. simpl. rewrite delete_insert_id by done.
      repeat (split; [done|]). by left.
    + unfold UCXXEndpoint.constructor, UCXXEndpoint.getWorker in Hrun.
      unfold bind, alloc, modify, gets in Hrun. simpl in Hrun.
      rewrite Hcomp, Hp in Hrun. simpl in Hrun.
      injection Hrun as <- <-. simpl. rewrite delete_insert_id by done.
      repeat (split; [done|]). by left.
  - unfold UCXXEndpoint.constructor, UCXXEndpoint.getWorker in Hrun.
    unfold bind, alloc, modify, gets in Hrun. simpl in Hrun.
    rewrite Hcomp in Hrun. discriminate.
Qed.

Lemma constructor_throw_leaves_nothing_behind_witness :
  w_inflight sample_refusing !! (w_next sample_refusing + 1) = None
  ∧ w_callback_data sample_refusing !! (w_next sample_refusing + 1 + 1) = None
  ∧ ∃ e w',
      UCXXEndpoint.constructor 10 new_ucp_ep_params_t true sample_refusing
        = (Thrown e, w')
      ∧ w_endpoints w' = w_endpoints sample_refusing
      ∧ w_callback_data w' = w_callback_data sample_refusing
      ∧ w_inflight w' = w_inflight sample_refusing.
Proof.
  split; [reflexivity|]. split; [reflexivity|].
  exists (UCXXError "status"),
    (UCXXEndpoint.constructor 10 new_ucp_ep_params_t true sample_refusing).2.
  assert (UCXXEndpoint.constructor 10 new_ucp_ep_params_t true sample_refusing
          = (Thrown (UCXXError "status"),
             (UCXXEndpoint.constructor 10 new_ucp_ep_params_t true sample_refusing).2))
    as Hrun by by vm_compute.
  split; [exact Hrun|].
  destruct (constructor_throw_leaves_nothing_behind 10 new_ucp_ep_params_t true
              sample_refusing _ _ eq_refl eq_refl Hrun)
    as (Hep & Hcb & Hin & _).
  split; [exact Hep|]. split; [exact Hcb|exact Hin].
Defined.

(** ** Two endpoints *)

(** X22.  Endpoints built one after the other share nothing: they are
    different objects with different callback data and different
    registries, also on the same worker.  So an error the transport
    reports through the first one's [err_handler.arg] marks the first
    endpoint only; the second is still alive. *)
Theorem endpoints_created_in_turn_are_separate
    parent1 worker1 wk1 params1 error_handling1
    parent2 worker2 wk2 params2 error_handling2 ep status w :
  worker_of w parent1 worker1 wk1 →
  worker1 ≠ NULL →
  wk_handle wk1 ≠ NULL →
  worker_of w parent2 worker2 wk2 →
  worker2 ≠ NULL →
  wk_handle wk2 ≠ NULL →
  requests_alive w →
  (env_ep_create (w_env w)
     (w_trace w ++ [creation (wk_handle wk1) params1 error_handling1
                      (w_next w + 1 + 1)])).1 = UCS.OK →
  (env_ep_create (w_env w)
     (w_trace w ++ [creation (wk_handle wk1) params1 error_handling1
                      (w_next w + 1 + 1);
                    creation (wk_handle wk2) params2 error_handling2
                      (w_next w + 1 + 1 + 1 + 1 + 1)])).1 = UCS.OK →
  ∃ first w1 second w2 self1 self2 w3,
    UCXXEndpoint.constructor parent1 params1 error_handling1 w = (Returned first, w1)
    ∧ UCXXEndpoint.constructor parent2 params2 error_handling2 w1
      = (Returned second, w2)
    ∧ first ≠ second
    ∧ w_endpoints w2 !! first = Some self1
    ∧ w_endpoints w2 !! second = Some self2
    ∧ _callbackData self1 ≠ _callbackData self2
    ∧ _inflightRequests self1 ≠ _inflightRequests self2
    ∧ _err_cb (_callbackData self1) ep status w2 = (Returned tt, w3)
    ∧ UCXXEndpoint.isAlive first w3
      = (Returned (negb error_handling1 || bool_decide (status = UCS.OK)), w3)
    ∧ UCXXEndpoint.isAlive second w3 = (Returned true, w3).
Proof.
  intros Hw1 Hn1 Hh1 Hw2 Hn2 Hh2 Ha Hok1 Hok2.
  pose proof (constructor_run _ _ _ params1 error_handling1 _ Hw1 Hn1 Hh1 Hok1)
    as Hrun1.
  set (w1 := after_constructor parent1 worker1 wk1 params1 error_handling1 w) in *.
  assert (worker_of w1 parent2 worker2 wk2) as Hw2' by exact Hw2.
  assert ((env_ep_create (w_env w1)
             (w_trace w1 ++ [creation (wk_handle wk2) params2 error_handling2
                               (w_next w1 + 1 + 1)])).1 = UCS.OK) as Hok2'.
  { simpl. by rewrite <- app_assoc. }
  pose proof (constructor_run _ _ _ params2 error_handling2 _ Hw2' Hn2 Hh2 Hok2')
    as Hrun2.
  set (w2 := after_constructor parent2 worker2 wk2 params2 error_handling2 w1) in *.
  set (self1 := new_endpoint parent1 wk1 params1 error_handling1 w).
  set (self2 := new_endpoint parent2 wk2 params2 error_handling2 w1).
  assert (err_cb_ready (_callbackData self1) (initial_data (w_next w + 1) worker1) ∅ w2)
    as Hready.
  { split; simpl.
    - rewrite lookup_insert_ne by lia. apply lookup_insert_eq.
    - exists wk1. exact (proj2 (getWorker_run _ _ _ _ Hw1)).
    - rewrite lookup_insert_ne by lia. apply lookup_insert_eq.
    - exact Ha. }
  destruct (err_cb_effect _ ep status _ _ _ Hready)
    as (w3 & notes & Hrun3 & _ & _ & Hcb & _ & _ & Hep & _).
  assert (w_endpoints w3 !! w_next w = Some self1) as Hs1.
  { rewrite Hep. simpl. rewrite lookup_insert_ne by lia. apply lookup_insert_eq. }
  assert (w_endpoints w3 !! w_next w1 = Some self2) as Hs2.
  { rewrite Hep. simpl. apply lookup_insert_eq. }
  assert (w_callback_data w3 !! _callbackData self1
          = Some (after_error status (initial_data (w_next w + 1) worker1))) as Hd1.
  { rewrite Hcb. apply lookup_insert_eq. }
  assert (w_callback_data w3 !! _callbackData self2
          = Some (initial_data (w_next w1 + 1) worker2)) as Hd2.
  { rewrite Hcb. simpl. rewrite lookup_insert_ne by lia. apply lookup_insert_eq. }
  exists (w_next w), w1, (w_next w1), w2, self1, self2, w3.
  split; [exact Hrun1|]. split; [exact Hrun2|].
  split; [simpl; lia|].
  split; [simpl; rewrite lookup_insert_ne by lia; apply lookup_insert_eq|].
  split; [simpl; apply lookup_insert_eq|].
  split; [simpl; lia|]. split; [simpl; lia|].
  split; [exact Hrun3|].
  split.
  - by rewrite (isAlive_run _ _ _ _ Hs1 Hd1).
  - rewrite (isAlive_run _ _ _ _ Hs2 Hd2). simpl. by rewrite orb_true_r.
Qed.

Lemma endpoints_created_in_turn_are_separate_witness :
  worker_of (sample env_prompt true UCS.OK) 10 10
    {| wk_handle := 11; wk_progress_thread := 1; wk_delayed := [] |}
  ∧ requests_alive (sample env_prompt true UCS.OK)
  ∧ ∃ first w1 second w2 self1 self2 w3,
      UCXXEndpoint.constructor 10 (hostname_params "node0" 4000) true
        (sample env_prompt true UCS.OK) = (Returned first, w1)
      ∧ UCXXEndpoint.constructor 10 (worker_address_params 910) true w1
        = (Returned second, w2)
      ∧ first ≠ second
      ∧ w_endpoints w2 !! first = Some self1
      ∧ w_endpoints w2 !! second = Some self2
      ∧ _callbackData self1 ≠ _callbackData self2
      ∧ _inflightRequests self1 ≠ _inflightRequests self2
      ∧ _err_cb (_callbackData self1) 21 UCS.ERR_CONNECTION_RESET w2
        = (Returned tt, w3)
      ∧ UCXXEndpoint.isAlive first w3 = (Returned false, w3)
      ∧ UCXXEndpoint.isAlive second w3 = (Returned true, w3).
Proof.
  assert (worker_of (sample env_prompt true UCS.OK) 10 10
            {| wk_handle := 11; wk_progress_thread := 1; wk_delayed := [] |}) as Hw.
  { left. split; reflexivity. }
  assert (requests_alive (sample env_prompt true UCS.OK)) as Ha.
  { unfold requests_alive. apply (bool_decide_unpack _). by vm_compute. }
  split; [exact Hw|]. split; [exact Ha|].
  apply (endpoints_created_in_turn_are_separate
           10 10 {| wk_handle := 11; wk_progress_thread := 1; wk_delayed := [] |}
           (hostname_params "node0" 4000) true
           10 10 {| wk_handle := 11; wk_progress_thread := 1; wk_delayed := [] |}
           (worker_address_params 910) true 21 UCS.ERR_CONNECTION_RESET
           (sample env_prompt true UCS.OK));
    first [exact Hw | exact Ha | discriminate | reflexivity].
Defined.

(** ** Endpoints stay linked to their callback data *)

Create HintDb sustains.

Lemma sustains_ret {A} (a : A) : sustains (ret a).
Proof. by intros w. Qed.

Lemma sustains_throw {A} e : sustains (@throw A e).
Proof. by intros w. Qed.

Lemma sustains_undefined {A} : sustains (@undefined A).
Proof. by intros w. Qed.

Lemma sustains_gets {A} (f : World → A) : sustains (gets f).
Proof. by intros w. Qed.

Lemma sustains_deref {A} (store : World → gmap Z A) p : sustains (deref store p).
Proof. intros w H. unfold deref. by destruct (store w !! p). Qed.

Lemma sustains_modify f : (∀ w, linked w → linked (f w)) → sustains (modify f).
Proof. intros H w. apply H. Qed.

Lemma sustains_bind {A B} (m : M A) (k : A → M B) :
  sustains m → (∀ a, sustains (k a)) → sustains (bind m k).
Proof.
  intros Hm Hk w H. specialize (Hm w H). unfold bind.
  destruct (m w) as [[a|e|] w1]; simpl in *; [by apply Hk|done..].
Qed.

Lemma sustains_on_throw {A} (m : M A) cleanup :
  sustains m → sustains cleanup → sustains (on_throw m cleanup).
Proof.
  intros Hm Hc w H. specialize (Hm w H). unfold on_throw.
  destruct (m w) as [[a|e|] w1]; simpl in *; [done| |done].
  apply (sustains_bind cleanup (λ _, @throw A e)); [done| |done].
  intros _. apply sustains_throw.
Qed.

Lemma sustains_attempt {A} (m : M A) : sustains m → sustains (attempt m).
Proof.
  intros Hm w H. specialize (Hm w H). unfold attempt.
  by destruct (m w) as [[a|e|] w1].
Qed.

Lemma sustains_alloc : sustains alloc.
Proof.
  intros w H this self Hs. destruct (H this self Hs) as [Hlt Hd]. simpl.
  split; [lia|done].
Qed.

Lemma sustains_emit e : sustains (emit e).
Proof. apply sustains_modify. by intros w H. Qed.

Lemma sustains_ask {A} e (answer : environment → list event → A) :
  sustains (ask e answer).
Proof. apply sustains_bind; [apply sustains_emit|]. intros _. apply sustains_gets. Qed.

Lemma sustains_log lvl fmt args : sustains (ucxx_log lvl fmt args).
Proof. apply sustains_emit. Qed.

Lemma sustains_write_data arg f :
  (∀ data, ecd_inflightRequests (f data) = ecd_inflightRequests data) →
  sustains (write_data arg f).
Proof.
  intros Hf. unfold write_data. apply sustains_bind; [apply sustains_deref|].
  intros _. apply sustains_modify. intros w H this self Hs.
  destruct (H this self Hs) as [Hlt Hd]. split; [done|]. simpl.
  intros data. destruct (decide (_callbackData self = arg)) as [<-|Hne].
  - rewrite lookup_alter_eq.
    destruct (w_callback_data w !! _callbackData self) as [data0|] eqn:E; [|done].
    intros [= <-]. rewrite Hf. by apply Hd.
  - rewrite lookup_alter_ne by done. apply Hd.
Qed.

Lemma sustains_delete_data cd : sustains (modify (set_callback_data (delete cd))).
Proof.
  apply sustains_modify. intros w H this self Hs.
  destruct (H this self Hs) as [Hlt Hd]. split; [done|]. simpl.
  intros data Hdata. apply lookup_delete_Some in Hdata as [_ Hdata]. by apply Hd.
Qed.

Lemma sustains_delete_endpoint this : sustains (modify (set_endpoints (delete this))).
Proof.
  apply sustains_modify. intros w H this' self Hs. simpl in Hs.
  apply lookup_delete_Some in Hs as [_ Hs]. exact (H this' self Hs).
Qed.

#[local] Hint Resolve sustains_ret sustains_throw sustains_undefined sustains_gets
  sustains_deref sustains_alloc sustains_emit sustains_ask sustains_log
  sustains_delete_data sustains_delete_endpoint : sustains.

Ltac sustains_step :=
  first
    [ solve [eauto with sustains]
    | (apply sustains_modify; intros ? ?; assumption)
    | (apply sustains_bind; [|intros])
    | apply sustains_on_throw
    | apply sustains_attempt
    | match goal with
      | |- sustains (match ?x with _ => _ end) => destruct x
      end ].

Ltac sustains_auto := repeat sustains_step.

Lemma sustains_deref_worker p : sustains (deref_worker p).
Proof. unfold deref_worker. sustains_auto. Qed.

Lemma sustains_deref_listener p : sustains (deref_listener p).
Proof. unfold deref_listener. sustains_auto. Qed.

#[local] Hint Resolve sustains_deref_worker sustains_deref_listener : sustains.

Lemma sustains_get_handle this : sustains (UCXXWorker.get_handle this).
Proof. unfold UCXXWorker.get_handle. sustains_auto. Qed.

Lemma sustains_getWorker p : sustains (UCXXEndpoint.getWorker p).
Proof. unfold UCXXEndpoint.getWorker. sustains_auto. Qed.

Lemma sustains_terminal_transition request st :
  sustains (terminal_transition request st).
Proof. unfold terminal_transition. sustains_auto. Qed.

#[local] Hint Resolve sustains_get_handle sustains_getWorker
  sustains_terminal_transition : sustains.

Lemma sustains_worker_not_initialized worker :
  sustains (UCXXEndpoint.worker_not_initialized worker).
Proof. unfold UCXXEndpoint.worker_not_initialized. sustains_auto. Qed.

Lemma sustains_listener_not_initialized listener :
  sustains (listener_not_initialized listener).
Proof.
  unfold listener_not_initialized, UCXXListener.get_handle. sustains_auto.
Qed.

Lemma sustains_cancel_entries es : sustains (cancel_entries es).
Proof. induction es as [|[k [p]] es IH]; simpl; sustains_auto. Qed.

#[local] Hint Resolve sustains_worker_not_initialized
  sustains_listener_not_initialized sustains_cancel_entries : sustains.

Lemma sustains_err_cb arg ep status : sustains (_err_cb arg ep status).
Proof.
  unfold _err_cb, UCXXWorker.scheduleRequestCancel.
  apply sustains_bind; [by apply sustains_write_data|]. intros _.
  apply sustains_bind; [apply sustains_deref|]. intros data.
  apply sustains_bind; [sustains_auto|]. intros _.
  apply sustains_bind; [apply sustains_deref|]. intros data'.
  apply sustains_bind; [|intros _; sustains_auto].
  destruct (ecd_closeCallback data'); [|apply sustains_ret].
  apply sustains_bind; [apply sustains_emit|]. intros _.
  apply sustains_bind; [by apply sustains_write_data|]. intros _.
  by apply sustains_write_data.
Qed.

Lemma sustains_invoke cb request status arg : sustains (invoke cb request status arg).
Proof. unfold invoke. sustains_auto. Qed.

#[local] Hint Resolve sustains_err_cb sustains_invoke : sustains.

Lemma sustains_complete_all cs : sustains (complete_all cs).
Proof. induction cs as [|[[[cb request] status] arg] cs IH]; simpl; sustains_auto. Qed.

#[local] Hint Resolve sustains_complete_all : sustains.

Lemma sustains_progress this : sustains (UCXXWorker.progress this).
Proof. unfold UCXXWorker.progress. sustains_auto. Qed.

Lemma sustains_request_wait worker status request operationName :
  sustains (request_wait worker status request operationName).
Proof. unfold request_wait. sustains_auto. Qed.

#[local] Hint Resolve sustains_progress sustains_request_wait : sustains.

Lemma sustains_populate entry : sustains (populate entry).
Proof.
  destruct entry as [data|data]; simpl.
  - unfold populate_delayed_notification_stream_request, stream_request,
      ucp_stream_send_nbx, ucp_stream_recv_nbx.
    sustains_auto.
  - unfold UCXXRequestTag.populateNotificationRequest, UCXXRequestTag.request,
      ucp_tag_send_nbx, ucp_tag_recv_nbx.
    sustains_auto.
Qed.

#[local] Hint Resolve sustains_populate : sustains.

Lemma sustains_populate_all entries : sustains (populate_all entries).
Proof. induction entries as [|entry entries IH]; simpl; sustains_auto. Qed.

#[local] Hint Resolve sustains_populate_all : sustains.

Lemma sustains_drainDelayed worker : sustains (drainDelayed worker).
Proof. unfold drainDelayed. sustains_auto. Qed.

Lemma sustains_stream_msg worker ep send buffer length :
  sustains (stream_msg worker ep send buffer length).
Proof.
  unfold stream_msg, make_shared_ucxx_request_t, UCXXWorker.getPythonFuture,
    UCXXWorker.registerDelayedNotificationRequest.
  sustains_auto.
Qed.

Lemma sustains_createRequest this request :
  sustains (UCXXEndpoint.createRequest this request).
Proof.
  unfold UCXXEndpoint.createRequest, UCXXEndpoint.ucxx_createRequest. sustains_auto.
Qed.

#[local] Hint Resolve sustains_stream_msg sustains_createRequest : sustains.

Lemma sustains_wait_close fuel worker status :
  sustains (UCXXEndpoint.wait_close fuel worker status).
Proof.
  induction fuel as [|fuel IH]; simpl; unfold ucp_request_check_status; sustains_auto.
Qed.

#[local] Hint Resolve sustains_wait_close : sustains.

Lemma linked_prunes w w' : linked w → prunes w w' → linked w'.
Proof.
  intros Hl P this self.
  rewrite (prunes_endpoints _ _ P), (prunes_next _ _ P), (prunes_callback_data _ _ P).
  apply Hl.
Qed.

Lemma sustains_destroy_members this self :
  sustains (UCXXEndpoint.destroy_members this self).
Proof.
  intros w Hl. destruct (destroy_members_run this self w) as (w' & Hrun & P).
  rewrite Hrun. simpl. eapply linked_prunes; [|exact P].
  apply (sustains_delete_endpoint this).
  by apply (sustains_delete_data (_callbackData self)).
Qed.

#[local] Hint Resolve sustains_destroy_members : sustains.

Lemma sustains_destructor fuel this : sustains (UCXXEndpoint.destructor fuel this).
Proof.
  unfold UCXXEndpoint.destructor, ucp_ep_close_nb, ucp_request_free. sustains_auto.
Qed.

Lemma sustains_release req : sustains (UCXXRequest.release req).
Proof. unfold UCXXRequest.release. sustains_auto. Qed.

(** The constructor either returns the new endpoint, or leaves the
    endpoints as they were and adds no callback data. *)
Lemma constructor_cases worker_or_listener params endpoint_error_handling w :
  (∃ worker wk,
     UCXXEndpoint.constructor worker_or_listener params endpoint_error_handling w
     = (Returned (w_next w),
        after_constructor worker_or_listener worker wk params
          endpoint_error_handling w))
  ∨ (w_endpoints (UCXXEndpoint.constructor worker_or_listener params
                    endpoint_error_handling w).2 = w_endpoints w
     ∧ w_next w
       ≤ w_next (UCXXEndpoint.constructor worker_or_listener params
                   endpoint_error_handling w).2
     ∧ ∀ k data,
         w_callback_data (UCXXEndpoint.constructor worker_or_listener params
                            endpoint_error_handling w).2 !! k = Some data →
         w_callback_data w !! k = Some data).
Proof.
  remember (UCXXEndpoint.constructor worker_or_listener params
              endpoint_error_handling w) as r eqn:Hr.
  assert (∀ worker wk,
    worker_of w worker_or_listener worker wk →
    (∃ worker wk,
       r = (Returned (w_next w),
            after_constructor worker_or_listener worker wk params
              endpoint_error_handling w))
    ∨ (w_endpoints r.2 = w_endpoints w
       ∧ w_next w ≤ w_next r.2
       ∧ ∀ k data, w_callback_data r.2 !! k = Some data →
                   w_callback_data w !! k = Some data)) as Hgood.
  { intros worker wk Hw.
    pose proof (proj2 (getWorker_run _ _ _ _ Hw)) as Hwk.
    unfold UCXXEndpoint.constructor in Hr.
    unfold alloc at 1 in Hr. unfold bind at 1 in Hr.
    unfold alloc at 1 in Hr. unfold bind at 1 in Hr.
    unfold modify at 1 in Hr. unfold bind at 1 in Hr.
    erewrite bind_returned in Hr; cycle 1.
    { refine (proj1 (getWorker_run _ _ _ wk _)). exact Hw. }
    destruct (decide (worker = NULL)) as [Hn|Hn].
    { right. unfold UCXXEndpoint.worker_not_initialized in Hr.
      rewrite bool_decide_eq_true_2 in Hr by done. rewrite Hr. simpl.
      split; [done|]. split; [lia|done]. }
    destruct (decide (wk_handle wk = NULL)) as [Hh|Hh].
    { right. erewrite bind_returned in Hr; cycle 1.
      { apply worker_not_initialized_true. right. exists wk. split; [exact Hwk|done]. }
      rewrite Hr. simpl. split; [done|]. split; [lia|done]. }
    erewrite bind_returned in Hr; cycle 1.
    { eapply (worker_not_initialized_false _ worker wk); [done|exact Hwk|done]. }
    unfold alloc at 1 in Hr. unfold bind at 1 in Hr.
    unfold modify at 1 in Hr. unfold bind at 1 in Hr.
    unfold UCXXWorker.get_handle, deref_worker, ucp_ep_create, ask, emit,
      assert_ucs_status, on_throw in Hr.
    unfold bind, deref, modify, gets, ret, throw in Hr. simpl in Hr.
    rewrite Hwk in Hr. simpl in Hr.
    case_bool_decide.
    - left. exists worker, wk. rewrite Hr. reflexivity.
    - right. rewrite Hr. simpl. split; [done|]. split; [lia|].
      intros k data Hk. apply lookup_delete_Some in Hk as [Hne Hk].
      by rewrite lookup_insert_ne in Hk. }
  destruct (w_components w !! worker_or_listener) as [[wk|l]|] eqn:Hcomp.
  - apply (Hgood worker_or_listener wk). by left.
  - destruct (w_components w !! ls_parent l) as [[wk|l']|] eqn:Hp.
    + apply (Hgood (ls_parent l) wk). right. by exists l.
    + right. unfold UCXXEndpoint.constructor, UCXXEndpoint.getWorker in Hr.
      unfold bind, alloc, modify, gets in Hr. simpl in Hr.
      rewrite Hcomp, Hp in Hr. simpl in Hr. rewrite Hr. simpl.
      split; [done|]. split; [lia|done].
    + right. unfold UCXXEndpoint.constructor, UCXXEndpoint.getWorker in Hr.
      unfold bind, alloc, modify, gets in Hr. simpl in Hr.
      rewrite Hcomp, Hp in Hr. simpl in Hr. rewrite Hr. simpl.
      split; [done|]. split; [lia|done].
  - right. unfold UCXXEndpoint.constructor, UCXXEndpoint.getWorker in Hr.
    unfold bind, alloc, modify, gets in Hr. simpl in Hr.
    rewrite Hcomp in Hr. rewrite Hr. simpl. split; [done|]. split; [lia|done].
Qed.

Lemma sustains_constructor worker_or_listener params endpoint_error_handling :
  sustains (UCXXEndpoint.constructor worker_or_listener params endpoint_error_handling).
Proof.
  intros w H.
  destruct (constructor_cases worker_or_listener params endpoint_error_handling w)
    as [(worker & wk & ->)|(Hep & Hnext & Hcb)].
  - intros this self. simpl. destruct (decide (this = w_next w)) as [->|Hne].
    + rewrite lookup_insert_eq. intros [= <-]. simpl. split; [lia|].
      rewrite lookup_insert_eq. by intros data [= <-].
    + rewrite lookup_insert_ne by done. intros Hs.
      destruct (H this self Hs) as [Hlt Hd]. split; [lia|].
      rewrite lookup_insert_ne by lia. apply Hd.
  - intros this self Hs. rewrite Hep in Hs. destruct (H this self Hs) as [Hlt Hd].
    split; [lia|]. intros data Hdata. apply Hd, Hcb, Hdata.
Qed.

#[local] Hint Resolve sustains_constructor : sustains.

Lemma sustains_run_op tag_msg op : tag_msg_sustains tag_msg → sustains (run_op tag_msg op).
Proof.
  intros Htag. destruct op; simpl; apply sustains_attempt.
  - unfold UCXXEndpoint.stream_send. sustains_auto.
  - unfold UCXXEndpoint.stream_recv. sustains_auto.
  - unfold UCXXEndpoint.tag_send. sustains_auto; apply Htag.
  - unfold UCXXEndpoint.tag_recv. sustains_auto; apply Htag.
  - unfold UCXXEndpoint.setCloseCallback.
    apply sustains_bind; [apply sustains_deref|]. intros self.
    apply sustains_bind; [by apply sustains_write_data|]. intros _.
    by apply sustains_write_data.
  - unfold UCXXEndpoint.isAlive. sustains_auto.
  - unfold UCXXEndpoint.raiseOnError. sustains_auto.
  - unfold UCXXEndpoint.getHandle. sustains_auto.
  - apply sustains_err_cb.
  - apply sustains_progress.
  - apply sustains_drainDelayed.
  - apply sustains_release.
  - apply sustains_destructor.
  - unfold createEndpointFromHostname, gethostbyname. sustains_auto.
  - unfold createEndpointFromConnRequest. sustains_auto.
  - unfold createEndpointFromWorkerAddress. sustains_auto.
Qed.

Lemma sustains_run_ops tag_msg ops :
  tag_msg_sustains tag_msg → sustains (run_ops tag_msg ops).
Proof.
  intros Htag. induction ops as [|op ops IH]; simpl; [apply sustains_ret|].
  apply sustains_bind; [by apply sustains_run_op|]. by intros.
Qed.

Lemma sample_linked env error_handling status :
  linked (sample env error_handling status).
Proof.
  intros this self Hs. simpl in Hs.
  apply lookup_singleton_Some in Hs as [<- <-]. simpl. split; [done|].
  intros data Hd. by apply lookup_singleton_Some in Hd as [_ <-].
Defined.

Lemma sample_tag_msg_sustains : tag_msg_sustains sample_tag_msg.
Proof. intros worker ep send buffer length tag f d. apply sustains_stream_msg. Defined.

(** X23.  Endpoints stay linked to their callback data: if the callback
    data of every endpoint names that endpoint's registry, it still does
    after any sequence of operations (issuing, error callbacks, progress,
    drains, releases, endpoints created and destroyed).  So in every state
    reached this way, the error callback of an endpoint hands the worker
    that endpoint's own registry to cancel, exactly once. *)
Theorem error_callback_always_cancels_its_own_registry tag_msg ops w :
  tag_msg_sustains tag_msg →
  linked w →
  linked (run_ops tag_msg ops w).2
  ∧ ∀ this self data registry ep status,
      w_endpoints (run_ops tag_msg ops w).2 !! this = Some self →
      err_cb_ready (_callbackData self) data registry (run_ops tag_msg ops w).2 →
      ∃ w' evs,
        _err_cb (_callbackData self) ep status (run_ops tag_msg ops w).2
          = (Returned tt, w')
        ∧ w_trace w'
          = w_trace (run_ops tag_msg ops w).2
            ++ ev_cancel_all (ecd_worker data) (_inflightRequests self) :: evs
        ∧ filter (λ e, is_cancel_all e) evs = [].
Proof.
  intros Htag Hlinked.
  pose proof (sustains_run_ops tag_msg ops Htag w Hlinked) as H.
  split; [exact H|].
  intros this self data registry ep status Hs Hready.
  destruct (H this self Hs) as [_ Hlink].
  rewrite <- (Hlink data (ready_data _ _ _ _ Hready)).
  destruct (err_cb_effect _ ep status _ _ _ Hready)
    as (w' & notes & Hrun & Htr & Hnotes & _).
  eexists w', _. split; [exact Hrun|]. split; [exact Htr|].
  rewrite !filter_app.
  assert (filter (λ e, is_cancel_all e) notes = []) as ->.
  { clear -Hnotes. induction Hnotes as [|e l He _ IH]; [done|].
    rewrite filter_cons, IH. by destruct e. }
  unfold close_events, err_cb_log. by destruct (ecd_closeCallback data).
Qed.

Lemma error_callback_always_cancels_its_own_registry_witness :
  tag_msg_sustains sample_tag_msg
  ∧ linked (sample_listening env_prompt)
  ∧ linked (run_ops sample_tag_msg sample_session (sample_listening env_prompt)).2
  ∧ length (map_to_list
              (w_endpoints (run_ops sample_tag_msg sample_session
                              (sample_listening env_prompt)).2)) = 4%nat.
Proof.
  assert (linked (sample_listening env_prompt)) as Hl.
  { apply (sample_linked env_prompt true UCS.OK). }
  split; [apply sample_tag_msg_sustains|]. split; [exact Hl|].
  split; [|by vm_compute].
  apply (error_callback_always_cancels_its_own_registry sample_tag_msg sample_session
           (sample_listening env_prompt) sample_tag_msg_sustains Hl).
Defined.

(** ** Close callbacks are used up *)

Lemma alter_present {A} (f : A → A) (m : gmap Z A) k x :
  m !! k = Some x → alter f k m = <[k := f x]> m.
Proof.
  intros Hk. apply map_eq. intros i. destruct (decide (i = k)) as [->|Hne].
  - by rewrite lookup_alter_eq, lookup_insert_eq, Hk.
  - by rewrite lookup_alter_ne, lookup_insert_ne.
Qed.

Section Armed.

Implicit Types m : gmap Z error_callback_data_t.

Lemma armed_delete m k : (size (filter arms (delete k m)) ≤ size (filter arms m))%nat.
Proof.
  rewrite map_filter_delete, map_size_delete.
  destruct (filter arms m !! k); simpl; lia.
Qed.

Lemma armed_insert m k data :
  (size (filter arms (<[k := data]> m)) ≤ S (size (filter arms m)))%nat.
Proof.
  rewrite map_filter_insert. case_decide.
  - rewrite map_size_insert. destruct (filter arms m !! k); simpl; lia.
  - pose proof (armed_delete m k). lia.
Qed.

Lemma armed_insert_unarmed m k data :
  ecd_closeCallback data = None →
  (size (filter arms (<[k := data]> m)) ≤ size (filter arms m))%nat.
Proof.
  intros Hnone. rewrite map_filter_insert_False; [apply armed_delete|].
  unfold arms. simpl. rewrite Hnone. by intros [].
Qed.

Lemma armed_insert_cleared m k data0 data :
  m !! k = Some data0 →
  is_Some (ecd_closeCallback data0) →
  ecd_closeCallback data = None →
  S (size (filter arms (<[k := data]> m))) = size (filter arms m).
Proof.
  intros Hk Hsome Hnone. rewrite map_filter_insert_False; cycle 1.
  { unfold arms. simpl. rewrite Hnone. by intros []. }
  rewrite map_filter_delete, map_size_delete.
  assert (filter arms m !! k = Some data0) as Hf.
  { by apply map_lookup_filter_Some. }
  rewrite Hf. simpl.
  assert (size (filter arms m) ≠ 0%nat); [|lia].
  apply map_size_non_empty_iff. intros Hempty. rewrite Hempty in Hf.
  by rewrite lookup_empty in Hf.
Qed.

Lemma armed_alter_same m k f :
  (∀ data, ecd_closeCallback (f data) = ecd_closeCallback data) →
  size (filter arms (alter f k m)) = size (filter arms m).
Proof.
  intros Hf. destruct (m !! k) as [data|] eqn:Hk; [|by rewrite alter_id'].
  rewrite (alter_present f m k data Hk), map_filter_insert.
  case_decide as Harm.
  - rewrite map_size_insert.
    assert (filter arms m !! k = Some data) as ->; [|done].
    apply map_lookup_filter_Some. split; [done|].
    unfold arms in *. simpl in *. by rewrite Hf in Harm.
  - rewrite map_filter_delete_not; [done|].
    intros y Hy. rewrite Hk in Hy. injection Hy as <-.
    unfold arms in *. simpl in *. by rewrite Hf in Harm.
Qed.

Lemma armed_alter m k f :
  (size (filter arms (alter f k m)) ≤ S (size (filter arms m)))%nat.
Proof.
  destruct (m !! k) as [data|] eqn:Hk; [|rewrite alter_id' by done; lia].
  rewrite (alter_present f m k data Hk). apply armed_insert.
Qed.

Lemma armed_alter_unarmed m k f :
  (∀ data, ecd_closeCallback (f data) = None) →
  (size (filter arms (alter f k m)) ≤ size (filter arms m))%nat.
Proof.
  intros Hf. destruct (m !! k) as [data|] eqn:Hk; [|rewrite alter_id' by done; lia].
  rewrite (alter_present f m k data Hk). by apply armed_insert_unarmed.
Qed.

End Armed.

Lemma close_count_app t t' : close_count (t ++ t') = (close_count t + close_count t')%nat.
Proof. unfold close_count. by rewrite filter_app, length_app. Qed.

Create HintDb spends.

Lemma spends_same {A} (m : M A) :
  (∀ w, w_trace (m w).2 = w_trace w ∧ w_callback_data (m w).2 = w_callback_data w) →
  spends 0 m.
Proof.
  intros H w. destruct (H w) as [Htr Hcb]. unfold spends_at, armed.
  rewrite Htr, Hcb. lia.
Qed.

Lemma spends_ret {A} (a : A) : spends 0 (ret a).
Proof. by apply spends_same. Qed.

Lemma spends_throw {A} e : spends 0 (@throw A e).
Proof. by apply spends_same. Qed.

Lemma spends_undefined {A} : spends 0 (@undefined A).
Proof. by apply spends_same. Qed.

Lemma spends_gets {A} (f : World → A) : spends 0 (gets f).
Proof. by apply spends_same. Qed.

Lemma spends_deref {A} (store : World → gmap Z A) p : spends 0 (deref store p).
Proof. apply spends_same. intros w. unfold deref. by destruct (store w !! p). Qed.

Lemma spends_alloc : spends 0 alloc.
Proof. by apply spends_same. Qed.

Lemma spends_modify f :
  (∀ w, w_trace (f w) = w_trace w ∧ w_callback_data (f w) = w_callback_data w) →
  spends 0 (modify f).
Proof. intros H. by apply spends_same. Qed.

Lemma spends_at_bind (k1 k2 : nat) {A B} (m : M A) (k : A → M B) w :
  spends_at k1 m w → (∀ a, spends k2 (k a)) → spends_at (k1 + k2) (bind m k) w.
Proof.
  unfold spends_at. intros Hm Hk. unfold bind.
  destruct (m w) as [[a| |] w1]; simpl in *; [|lia..].
  specialize (Hk a w1). unfold spends_at in Hk. lia.
Qed.

Lemma spends_bind (k1 k2 : nat) {A B} (m : M A) (k : A → M B) :
  spends k1 m → (∀ a, spends k2 (k a)) → spends (k1 + k2) (bind m k).
Proof. intros Hm Hk w. by apply spends_at_bind. Qed.

Lemma spends_bind0 {A B} (m : M A) (k : A → M B) :
  spends 0 m → (∀ a, spends 0 (k a)) → spends 0 (bind m k).
Proof. apply (spends_bind 0 0). Qed.

Lemma spends_weaken (k k' : nat) {A} (m : M A) :
  (k ≤ k')%nat → spends k m → spends k' m.
Proof. intros Hle Hm w. specialize (Hm w). unfold spends_at in *. lia. Qed.

Lemma spends_on_throw {A} (m : M A) cleanup :
  spends 0 m → spends 0 cleanup → spends 0 (on_throw m cleanup).
Proof.
  intros Hm Hc w. specialize (Hm w). unfold spends_at, on_throw in *.
  destruct (m w) as [[a|e|] w1]; simpl in *; [lia| |lia].
  pose proof (spends_bind0 cleanup (λ _, @throw A e) Hc (λ _, spends_throw e) w1) as H.
  unfold spends_at in H. lia.
Qed.

Lemma spends_attempt (k : nat) {A} (m : M A) : spends k m → spends k (attempt m).
Proof.
  intros Hm w. specialize (Hm w). unfold spends_at, attempt in *.
  by destruct (m w) as [[a|e|] w1].
Qed.

Lemma spends_emit e : is_close_callback e = false → spends 0 (emit e).
Proof.
  intros He w. unfold spends_at, armed. simpl. rewrite close_count_app.
  assert (close_count [e] = 0%nat) as ->; [|lia].
  unfold close_count. rewrite filter_cons.
  destruct (is_close_callback e); [discriminate|done].
Qed.

Lemma spends_ask {A} e (answer : environment → list event → A) :
  is_close_callback e = false → spends 0 (ask e answer).
Proof.
  intros He. apply spends_bind0; [by apply spends_emit|]. intros _. apply spends_gets.
Qed.

Lemma spends_log lvl fmt args : spends 0 (ucxx_log lvl fmt args).
Proof. by apply spends_emit. Qed.

Lemma spends_write_data_same arg f :
  (∀ data, ecd_closeCallback (f data) = ecd_closeCallback data) →
  spends 0 (write_data arg f).
Proof.
  intros Hf. unfold write_data. apply spends_bind0; [apply spends_deref|]. intros _.
  intros w. unfold spends_at, armed. simpl. rewrite armed_alter_same by done. lia.
Qed.

Lemma spends_write_data arg f : spends 1 (write_data arg f).
Proof.
  unfold write_data. apply (spends_bind 0 1); [apply spends_deref|]. intros _.
  intros w. unfold spends_at, armed. simpl.
  pose proof (armed_alter (w_callback_data w) arg f). lia.
Qed.

Lemma spends_write_data_unarmed arg f :
  (∀ data, ecd_closeCallback (f data) = None) →
  spends 0 (write_data arg f).
Proof.
  intros Hf. unfold write_data. apply spends_bind0; [apply spends_deref|]. intros _.
  intros w. unfold spends_at, armed. simpl.
  pose proof (armed_alter_unarmed (w_callback_data w) arg f Hf). lia.
Qed.

Lemma spends_delete_data cd : spends 0 (modify (set_callback_data (delete cd))).
Proof.
  intros w. unfold spends_at, armed. simpl.
  pose proof (armed_delete (w_callback_data w) cd). lia.
Qed.

Lemma spends_insert_unarmed cd data :
  ecd_closeCallback data = None →
  spends 0 (modify (set_callback_data <[cd := data]>)).
Proof.
  intros Hnone w. unfold spends_at, armed. simpl.
  pose proof (armed_insert_unarmed (w_callback_data w) cd data Hnone). lia.
Qed.

#[local] Hint Resolve spends_ret spends_throw spends_undefined spends_gets spends_deref
  spends_alloc spends_log spends_delete_data : spends.

Ltac spends_step :=
  first
    [ solve [eauto with spends]
    | (apply spends_modify; intros; split; reflexivity)
    | (apply spends_emit; reflexivity)
    | (apply spends_ask; reflexivity)
    | (apply spends_insert_unarmed; reflexivity)
    | (apply spends_bind0; [|intros])
    | apply spends_on_throw
    | match goal with
      | |- spends 0 (match ?x with _ => _ end) => destruct x
      end ].

Ltac spends_auto := repeat spends_step.

Lemma spends_deref_worker p : spends 0 (deref_worker p).
Proof. unfold deref_worker. spends_auto. Qed.

Lemma spends_deref_listener p : spends 0 (deref_listener p).
Proof. unfold deref_listener. spends_auto. Qed.

#[local] Hint Resolve spends_deref_worker spends_deref_listener : spends.

Lemma spends_get_handle this : spends 0 (UCXXWorker.get_handle this).
Proof. unfold UCXXWorker.get_handle. spends_auto. Qed.

Lemma spends_getWorker p : spends 0 (UCXXEndpoint.getWorker p).
Proof. unfold UCXXEndpoint.getWorker. spends_auto. Qed.

Lemma spends_terminal_transition request st : spends 0 (terminal_transition request st).
Proof. unfold terminal_transition. spends_auto. Qed.

#[local] Hint Resolve spends_get_handle spends_getWorker
  spends_terminal_transition : spends.

Lemma spends_worker_not_initialized worker :
  spends 0 (UCXXEndpoint.worker_not_initialized worker).
Proof. unfold UCXXEndpoint.worker_not_initialized. spends_auto. Qed.

Lemma spends_listener_not_initialized listener :
  spends 0 (listener_not_initialized listener).
Proof. unfold listener_not_initialized, UCXXListener.get_handle. spends_auto. Qed.

Lemma spends_cancel_entries es : spends 0 (cancel_entries es).
Proof. induction es as [|[k [p]] es IH]; simpl; spends_auto. Qed.

#[local] Hint Resolve spends_worker_not_initialized spends_listener_not_initialized
  spends_cancel_entries : spends.

(** The one place where a close callback is invoked: it is taken away in
    the same breath. *)
Lemma spends_invoke_close arg data w :
  w_callback_data w !! arg = Some data →
  spends_at 0
    (match ecd_closeCallback data with
     | Some closeCallback =>
         do! emit (ev_close_callback closeCallback (ecd_closeCallbackArg data)) in
         do! write_data arg (set_ecd_closeCallback None) in
         write_data arg (set_ecd_closeCallbackArg NULL)
     | None => ret tt
     end) w.
Proof.
  intros Hd. destruct (ecd_closeCallback data) as [closeCallback|] eqn:Hcb;
    [|apply spends_ret].
  unfold spends_at, write_data, emit, bind, deref, modify, armed. simpl.
  rewrite Hd. simpl. rewrite lookup_alter_eq, Hd. simpl.
  rewrite close_count_app. unfold close_count at 2. simpl.
  rewrite armed_alter_same by done.
  rewrite (alter_present _ _ _ _ Hd).
  pose proof (armed_insert_cleared (w_callback_data w) arg data
                (set_ecd_closeCallback None data) Hd) as H.
  rewrite Hcb in H. specialize (H ltac:(eauto) eq_refl). lia.
Qed.

Lemma spends_bind_deref (k : nat) {A B} (store : World → gmap Z A) p (f : A → M B) :
  (∀ a w, store w !! p = Some a → spends_at k (f a) w) →
  spends k (bind (deref store p) f).
Proof.
  intros H w. unfold spends_at, bind, deref.
  destruct (store w !! p) as [a|] eqn:E; simpl; [|lia].
  exact (H a w E).
Qed.

Lemma spends_err_cb arg ep status : spends 0 (_err_cb arg ep status).
Proof.
  unfold _err_cb, UCXXWorker.scheduleRequestCancel.
  apply spends_bind0; [by apply spends_write_data_same|]. intros _.
  apply spends_bind0; [apply spends_deref|]. intros data.
  apply spends_bind0; [spends_auto|]. intros _.
  apply spends_bind_deref. intros data' w Hd.
  apply (spends_at_bind 0 0); [by apply spends_invoke_close|].
  intros _. spends_auto.
Qed.

Lemma spends_invoke cb request status arg : spends 0 (invoke cb request status arg).
Proof. unfold invoke. spends_auto. Qed.

#[local] Hint Resolve spends_err_cb spends_invoke : spends.

Lemma spends_complete_all cs : spends 0 (complete_all cs).
Proof. induction cs as [|[[[cb request] status] arg] cs IH]; simpl; spends_auto. Qed.

#[local] Hint Resolve spends_complete_all : spends.

Lemma spends_progress this : spends 0 (UCXXWorker.progress this).
Proof. unfold UCXXWorker.progress. spends_auto. Qed.

Lemma spends_request_wait worker status request operationName :
  spends 0 (request_wait worker status request operationName).
Proof. unfold request_wait. spends_auto. Qed.

#[local] Hint Resolve spends_progress spends_request_wait : spends.

Lemma spends_populate entry : spends 0 (populate entry).
Proof.
  destruct entry as [data|data]; simpl.
  - unfold populate_delayed_notification_stream_request, stream_request,
      ucp_stream_send_nbx, ucp_stream_recv_nbx.
    spends_auto.
  - unfold UCXXRequestTag.populateNotificationRequest, UCXXRequestTag.request,
      ucp_tag_send_nbx, ucp_tag_recv_nbx.
    spends_auto.
Qed.

#[local] Hint Resolve spends_populate : spends.

Lemma spends_populate_all entries : spends 0 (populate_all entries).
Proof. induction entries as [|entry entries IH]; simpl; spends_auto. Qed.

#[local] Hint Resolve spends_populate_all : spends.

Lemma spends_stream_msg worker ep send buffer length :
  spends 0 (stream_msg worker ep send buffer length).
Proof.
  unfold stream_msg, make_shared_ucxx_request_t, UCXXWorker.getPythonFuture,
    UCXXWorker.registerDelayedNotificationRequest.
  spends_auto.
Qed.

Lemma spends_createRequest this request :
  spends 0 (UCXXEndpoint.createRequest this request).
Proof.
  unfold UCXXEndpoint.createRequest, UCXXEndpoint.ucxx_createRequest. spends_auto.
Qed.

#[local] Hint Resolve spends_stream_msg spends_createRequest : spends.

Lemma spends_wait_close fuel worker status :
  spends 0 (UCXXEndpoint.wait_close fuel worker status).
Proof.
  induction fuel as [|fuel IH]; simpl; unfold ucp_request_check_status; spends_auto.
Qed.

#[local] Hint Resolve spends_wait_close : spends.

Lemma spends_constructor worker_or_listener params endpoint_error_handling :
  spends 0 (UCXXEndpoint.constructor worker_or_listener params endpoint_error_handling).
Proof.
  unfold UCXXEndpoint.constructor, ucp_ep_create, assert_ucs_status. spends_auto.
Qed.

#[local] Hint Resolve spends_constructor : spends.

Lemma spends_setCloseCallback this (closeCallback : option Z) closeCallbackArg :
  spends (match closeCallback with Some _ => 1 | None => 0 end)
    (UCXXEndpoint.setCloseCallback this closeCallback closeCallbackArg).
Proof.
  unfold UCXXEndpoint.setCloseCallback.
  apply (spends_bind 0 _); [apply spends_deref|]. intros self.
  destruct closeCallback as [f|].
  - apply (spends_bind 1 0); [apply spends_write_data|]. intros _.
    by apply spends_write_data_same.
  - apply spends_bind0; [by apply spends_write_data_unarmed|]. intros _.
    by apply spends_write_data_same.
Qed.

Lemma spends_destroy_members this self :
  spends 0 (UCXXEndpoint.destroy_members this self).
Proof.
  intros w. destruct (destroy_members_run this self w) as (w' & Hrun & P).
  unfold spends_at, armed. rewrite Hrun. simpl.
  rewrite (prunes_trace _ _ P), (prunes_callback_data _ _ P). simpl.
  pose proof (armed_delete (w_callback_data w) (_callbackData self)). lia.
Qed.

#[local] Hint Resolve spends_destroy_members : spends.

Lemma spends_run_op tag_msg op :
  tag_msg_spends tag_msg →
  spends (if registers op then 1 else 0) (run_op tag_msg op).
Proof.
  intros Htag. destruct op; simpl; apply spends_attempt.
  - unfold UCXXEndpoint.stream_send. spends_auto.
  - unfold UCXXEndpoint.stream_recv. spends_auto.
  - unfold UCXXEndpoint.tag_send. spends_auto; apply Htag.
  - unfold UCXXEndpoint.tag_recv. spends_auto; apply Htag.
  - destruct closeCallback; apply spends_setCloseCallback.
  - unfold UCXXEndpoint.isAlive. spends_auto.
  - unfold UCXXEndpoint.raiseOnError. spends_auto.
  - unfold UCXXEndpoint.getHandle. spends_auto.
  - apply spends_err_cb.
  - apply spends_progress.
  - unfold drainDelayed. spends_auto.
  - unfold UCXXRequest.release. spends_auto.
  - unfold UCXXEndpoint.destructor, ucp_ep_close_nb, ucp_request_free. spends_auto.
  - unfold createEndpointFromHostname, gethostbyname. spends_auto.
  - unfold createEndpointFromConnRequest. spends_auto.
  - unfold createEndpointFromWorkerAddress. spends_auto.
Qed.

Lemma spends_run_ops tag_msg ops :
  tag_msg_spends tag_msg → spends (registrations ops) (run_ops tag_msg ops).
Proof.
  intros Htag. induction ops as [|op ops IH]; simpl; [apply spends_ret|].
  unfold registrations. rewrite filter_cons.
  pose proof (spends_run_op tag_msg op Htag) as Hop.
  destruct (registers op); simpl.
  - apply (spends_bind 1 _); [exact Hop|]. by intros.
  - apply (spends_bind 0 _); [exact Hop|]. by intros.
Qed.

Lemma sample_tag_msg_spends : tag_msg_spends sample_tag_msg.
Proof. intros worker ep send buffer length tag f d. apply spends_stream_msg. Defined.

(** X24.  Close callbacks are used up: over any sequence of operations on
    any state, the number of close-callback invocations is at most the
    number of callback data that held a close callback at the start plus
    the number of [setCloseCallback] calls that registered one.  No
    operation invokes a close callback without clearing it, and nothing
    but [setCloseCallback] ever sets one. *)
Theorem close_callbacks_are_used_up tag_msg ops w :
  tag_msg_spends tag_msg →
  (close_count (w_trace (run_ops tag_msg ops w).2)
   ≤ close_count (w_trace w) + armed w + registrations ops)%nat.
Proof.
  intros Htag. pose proof (spends_run_ops tag_msg ops Htag w) as H.
  unfold spends_at in H. lia.
Qed.

Lemma close_callbacks_are_used_up_witness :
  tag_msg_spends sample_tag_msg
  ∧ armed (sample env_prompt true UCS.OK) = 1%nat
  ∧ registrations sample_errors = 1%nat
  ∧ close_count
      (w_trace (run_ops sample_tag_msg sample_errors (sample env_prompt true UCS.OK)).2)
    = 2%nat
  ∧ (close_count
       (w_trace (run_ops sample_tag_msg sample_errors
                   (sample env_prompt true UCS.OK)).2)
     ≤ close_count (w_trace (sample env_prompt true UCS.OK))
       + armed (sample env_prompt true UCS.OK)
       + registrations sample_errors)%nat.
Proof.
  split; [apply sample_tag_msg_spends|]. split; [by vm_compute|].
  split; [by vm_compute|]. split; [by vm_compute|].
  apply (close_callbacks_are_used_up sample_tag_msg sample_errors
           (sample env_prompt true UCS.OK) sample_tag_msg_spends).
Defined.
